(* ===== verification/_CoqProject ===== *)
-Q . S2P
Prelude.v
JsString.v
JsObject.v
GeoJson.v
MapEngine.v
Dom.v
Style.v
Page.v
Legend.v
Layers.v
Ui.v
Replay.v
Analysis.v
Profile.v
Tools.v
Flood.v
FloodPage.v
