(* ===== verification/Prelude.v ===== *)
(** * Verification of the GIS visualisation client (static/js)

    ** The program

    The repository is the browser client of a GIS viewer: JavaScript modules
    under [src/static/js] that draw elevation models, vector and raster
    layers on a MapLibre map and offer tools on it.  The map page is made of
    four modules that share one mutable state:
    - main.js owns the object [state] (the selected elevation model, the
      registry [activeLayers] of the layers on the map, the flags and points
      of the tools), the table [dom] of page elements, the map and
      [firstSymbolId];
    - layer-handlers.js renders the layer lists and holds the handlers of
      their inputs ([handleDemChange], [handleVectorToggle],
      [handleRasterToggle]) and the style engine [generateVectorStyle];
    - ui.js wires the page: slide panels, legend, label control, attribute
      tables whose search filters the map, popups and highlight, and the
      replay of all active layers after a change of basemap;
    - analysis-tools.js holds the requests for terrain analyses (slope,
      aspect, landslide hazard), the profile and measure tools and the
      statistics of an elevation profile.
    flood-viewer.js is a page of its own: a map with the terrain of a chosen
    elevation model, inflow and outflow points, simulations computed by the
    server and an animation of the flood.  The remaining modules are further
    pages (point.js, obj-viewer.js, model-importer.js,
    main-model-manager.js, solar-dashboard.js).

    ** The model

    A handler is a function of the handler monad [js S]: it takes the
    mutable state [S] and returns a value or throws, with the state it left
    behind.  A throw keeps the mutations made so far, as in JavaScript, so
    what a [catch] finds is what the code did before the exception.  Code
    around an [await] is split at the request: the handler takes the answer
    of the server as an argument and runs as one step, which is how the
    single-threaded event loop runs it once the answer is there; requests
    that are sent and not waited for are recorded in the state.  What
    another event would do between a request and its answer is therefore
    outside the model, except for the terrain analyses, whose handlers are
    modelled in two halves: the part that runs at the click and the part
    that runs on the answer, which reads the state again.
    The libraries the client calls are outside the repository and are
    modelled by the behaviour the code relies on: the map's style (sources,
    layers in drawing order, terrain; a layer is refused when its id is
    taken, its source is unknown or the layer it is to go before does not
    exist), the table widget (rows and a search text), [Math.random] (a
    stream of future draws), animation frames, timers and alerts (lists in
    the state).  The message of an exception of the engine is a fixed
    string.  Numbers are integers or rationals: floating point rounding,
    [NaN] and attribute values that are not integers are not modelled.  A
    click made by the program ([checked = ...; click()]) runs the handler
    of the input and keeps its exception from the caller.

    ** The files
    - Prelude (this file): the monad, its combinators, and the four ways the
      development reasons about a handler: [js_preserves] (an invariant of
      the state survives, also through a throw), [js_total] (it returns),
      [js_pure] (it leaves the state alone), [js_triple] (from a
      precondition it returns in a state with a postcondition);
    - JsString, JsObject, GeoJson: the string operations that derive ids,
      objects as insertion-ordered dictionaries, GeoJSON features;
    - MapEngine: the map's style state and its operations;
    - Dom: the layer lists ([populateLayerList]);
    - Style: [generateVectorStyle] with the keyword colours;
    - Page: the state of main.js with [showLoader] and [hideLoader];
    - Legend: [updateLegend], [updateLabelControl], the highlight;
    - Layers: the handlers of layer-handlers.js;
    - Ui: the panels, the attribute tables and their search, popups;
    - Replay: the replay of the active layers after a change of basemap
      (ui.js, [reapplyAllLayers]);
    - Analysis: the requests for terrain analyses and the checkbox of a
      computed raster (analysis-tools.js, lines 3-89);
    - Profile: [calculateProfileStats] and the distances of the chart;
    - Tools: the profile and measure tools with the listeners of the map;
    - Flood: the state of the flood page, the helpers that draw a result
      and the animation, as handlers and as a state machine ([anim_step]);
    - FloodPage: the handlers of the flood page's buttons, points,
      elevation model and weather, and the page as a state machine
      ([page_step]).

    ** The theorems
    - Layers: activating and then deactivating a vector or a raster layer
      restores the map and the registry; a failed fetch changes neither; an
      exception after the source was added leaves the source on the map; a
      raster without statistics is refused without an alert; choosing an
      elevation model puts its terrain in place of the previous one.
    - Tools: the two tools are never on together and their mutual recursion
      ends; a double click on a drawn line sends one request; the
      double-click listener the measure tool leaves behind cancels a later
      profile, whatever else is registered.
    - Profile: gain minus loss is the difference of the end elevations on a
      profile without gaps, and the sum of the rises of the two stretches
      around a gap; when the result is [null]; the bounds of the figures and
      of the elevations.
    - Ui: a table search filters every layer of the vector layer and its
      label layer; a cleared search leaves a filter; the label layer id
      derived by regular expression is the one the handler gave; at most one
      slide panel is open.
    - Style: the layers of a generated style are well formed; three keys of
      the keyword table are dead.
    - Replay: the replay returns whatever the handlers of the layers do; one
      turn of it on a vector and on a raster layer.
    - Analysis: what a computed raster adds to the page, and that the
      replay finds it again; what a failed analysis leaves; an answer that
      arrives twice adds nothing.
    - Flood: the invariant of the animation in every reachable state; what
      one frame does; an animation left to its frames ends; every event
      makes the abstract player take the step of the event's command.
    - FloodPage: a flood result is drawn only when the river layer is on the
      map; the points and their sign; the bound on the rain shown; a failed
      weather request; the invariant of the page in every reachable state.
    Theorems stated on one run of the model (the worked example of the
    statistics, two double-click sessions, a session through a change of
    basemap, two computed files that share a checkbox id) are kept as [Example]s beside the theorems they illustrate.

    ** Bounds
    The toggles of the two tools call each other.  [toggleProfileTool] takes
    the depth of call stack it may use and throws a [RangeError] when it is
    used up; [depth] is 2, and the theorem on the toggles shows that from
    every state in which at most one tool is on, no call reaches the bound.
    No other definition uses fuel: loops are over lists, and the animation
    is a step relation whose frames carry their timestamps.  The steps of
    the animation are guarded by what the browser guarantees and the page's
    slider allows: a frame does not run at a time before the last one the
    animation read, and the speed is not negative.  A frame older than the
    start of the animation, which the first guard excludes, is the subject
    of a theorem of its own.

    ** Not modelled
    [initialize] and the elevation read-out under the pointer (main.js),
    [exportToPDF] (ui.js), the placeholder of the empty list of generated
    layers and the drawing options of the chart (analysis-tools.js); on the
    flood page [initialize], [populateDemSelect], the download of the
    shapefile and the hazard zones; and the pages point.js, obj-viewer.js,
    model-importer.js, main-model-manager.js and solar-dashboard.js, which
    are rendering and input/output through three.js and Chart.js.  The
    registry of this development lists each of them with the reason.

    ** This file

    The prelude shared by every component:
    - [outcome] and the monad [js S]: a JavaScript handler over a mutable
      state [S] that either returns or throws.  A throw keeps the mutations
      made so far, as in JavaScript: nothing is rolled back.  [js_try_catch]
      and [js_finally] model [try/catch] and [try/finally].
    - [js_for_each]: [Array.prototype.forEach] with an effectful callback.
    - [set_of_list]: the iteration order of [new Set(array)].
    - the tactics [js_simpl], [case_outcome] and the hint database [js].
*)

From Stdlib Require Import Ascii String.
From stdpp Require Import base option list.

(** ** Outcomes and the handler monad *)

Inductive outcome (A : Type) : Type :=
| Ok (a : A)
| Throw (e : string).
Arguments Ok {A} a.
Arguments Throw {A} e.

Definition is_ok {A} (o : outcome A) : bool :=
  match o with Ok _ => true | Throw _ => false end.

Definition js (S A : Type) : Type := S → outcome A * S.

#[export] Instance js_ret {S} : MRet (js S) := λ A a s, (Ok a, s).

#[export] Instance js_bind {S} : MBind (js S) := λ A B k c s,
  match c s with
  | (Ok a, s') => k a s'
  | (Throw e, s') => (Throw e, s')
  end.

Definition js_throw {S A} (e : string) : js S A := λ s, (Throw e, s).

Definition js_gets {S A} (f : S → A) : js S A := λ s, (Ok (f s), s).

Definition js_modify {S} (f : S → S) : js S unit := λ s, (Ok tt, f s).

(** [try { c } catch (e) { h e }] *)
Definition js_try_catch {S A} (c : js S A) (h : string → js S A) : js S A := λ s,
  match c s with
  | (Ok a, s') => (Ok a, s')
  | (Throw e, s') => h e s'
  end.

(** [try { c } finally { f }]: [f] runs on both paths; a throw of [c]
    propagates after [f], a throw of [f] replaces the result. *)
Definition js_finally {S A} (c : js S A) (f : js S unit) : js S A := λ s,
  match c s with
  | (r, s') =>
    match f s' with
    | (Ok _, s'') => (r, s'')
    | (Throw e, s'') => (Throw e, s'')
    end
  end.

Definition js_when {S} (b : bool) (c : js S unit) : js S unit :=
  if b then c else mret tt.

(** [l.forEach(f)]: the callback runs on every element in order; a throw
    ends the iteration. *)
Fixpoint js_for_each {S A} (f : A → js S unit) (l : list A) : js S unit :=
  match l with
  | [] => mret tt
  | x :: l' => f x;; js_for_each f l'
  end.

(** A loop that threads an accumulator through an effectful body. *)
Fixpoint js_fold {S A B} (f : B → A → js S B) (l : list A) (b : B) : js S B :=
  match l with
  | [] => mret b
  | x :: l' => b' ← f b x; js_fold f l' b'
  end.

(** [l.map(f)] with a callback that may throw. *)
Fixpoint js_map {S A B} (f : A → js S B) (l : list A) : js S (list B) :=
  match l with
  | [] => mret []
  | x :: l' => y ← f x; ys ← js_map f l'; mret (y :: ys)
  end.

(** A handler of a component with state [T] run inside a larger state [S]. *)
Definition js_zoom {S T A} (get : S → T) (set : T → S → S) (c : js T A) : js S A :=
  λ s, match c (get s) with (r, t') => (r, set t' s) end.

(** A handler invoked by the event loop: an exception that escapes it is
    reported to the console and does not reach the code that dispatched the
    event. *)
Definition js_dispatch {S} (c : js S unit) : js S unit :=
  js_try_catch c (λ _, mret tt).

(** The final state of a handler, whatever its outcome. *)
Definition js_exec {S A} (c : js S A) (s : S) : S := (c s).2.

(** Handlers are compared pointwise. *)
Definition js_equiv {S A} (c1 c2 : js S A) : Prop := ∀ s, c1 s = c2 s.

#[export] Instance js_equiv_equivalence {S A} : Equivalence (@js_equiv S A).
Proof.
  split; [intros c s | intros c1 c2 H s | intros c1 c2 c3 H1 H2 s]; try done.
  by rewrite H1.
Qed.

#[export] Instance js_bind_proper {S A B} :
  Proper (pointwise_relation A js_equiv ==> js_equiv ==> js_equiv)
         (@mbind (js S) _ A B).
Proof.
  intros k1 k2 Hk c1 c2 Hc s. unfold mbind, js_bind. rewrite Hc.
  destruct (c2 s) as [[a|e] s']; [apply Hk | done].
Qed.

(** ** The JavaScript [Set] of an array

    [new Set(array)] iterates in insertion order: the first occurrence of
    each value, in the order of the array. *)
Section set_of_list.
Context {A : Type} `{EqDecision A}.

Definition set_add (acc : list A) (x : A) : list A :=
  if decide (x ∈ acc) then acc else acc ++ [x].

Definition set_of_list (l : list A) : list A := fold_left set_add l [].

Lemma set_add_elem_of acc x y : y ∈ set_add acc x ↔ y ∈ acc ∨ y = x.
Proof.
  unfold set_add. case_decide.
  - split; [by left | by intros [?| ->]].
  - rewrite elem_of_app, list_elem_of_singleton. done.
Qed.

Lemma set_add_NoDup acc x : NoDup acc → NoDup (set_add acc x).
Proof.
  intros Hnd. unfold set_add. case_decide; [done|].
  apply NoDup_app. split_and!; [done | | apply NoDup_singleton].
  intros y Hy ->%list_elem_of_singleton. done.
Qed.

Lemma fold_set_add_elem_of l acc y :
  y ∈ fold_left set_add l acc ↔ y ∈ acc ∨ y ∈ l.
Proof.
  revert acc. induction l as [|x l IH]; intros acc; simpl.
  - rewrite elem_of_nil. tauto.
  - rewrite IH, set_add_elem_of, elem_of_cons. tauto.
Qed.

Lemma fold_set_add_NoDup l acc : NoDup acc → NoDup (fold_left set_add l acc).
Proof. revert acc. induction l; simpl; eauto using set_add_NoDup. Qed.

Lemma fold_set_add_prefix l acc : acc `prefix_of` fold_left set_add l acc.
Proof.
  revert acc. induction l as [|x l IH]; intros acc; simpl; [done|].
  etrans; [|apply IH]. unfold set_add. case_decide; [done|].
  by apply prefix_app_r.
Qed.

Lemma set_of_list_elem_of l y : y ∈ set_of_list l ↔ y ∈ l.
Proof.
  unfold set_of_list. rewrite fold_set_add_elem_of, elem_of_nil. tauto.
Qed.

Lemma set_of_list_NoDup l : NoDup (set_of_list l).
Proof. apply fold_set_add_NoDup, NoDup_nil_2. Qed.

(** The first element of the array is the first element of the set. *)
Lemma set_of_list_head x l : head (set_of_list (x :: l)) = Some x.
Proof.
  unfold set_of_list. simpl.
  destruct (fold_set_add_prefix l (set_add [] x)) as [k ->]. done.
Qed.

End set_of_list.

(** ** Lists *)
Section list_lemmas.
Context {A : Type}.
Implicit Types (l : list A) (x : A).

Lemma filter_all (P : A → Prop) `{∀ x, Decision (P x)} l :
  Forall P l → filter P l = l.
Proof.
  induction 1 as [|x l Hx Hl IH]; [done|].
  by rewrite filter_cons_True, IH.
Qed.

Lemma filter_none (P : A → Prop) `{∀ x, Decision (P x)} l :
  Forall (λ x, ¬ P x) l → filter P l = [].
Proof.
  induction 1 as [|x l Hx Hl IH]; [done|].
  by rewrite filter_cons_False.
Qed.

Lemma filter_comm (P Q : A → Prop) `{∀ x, Decision (P x)} `{∀ x, Decision (Q x)} l :
  filter P (filter Q l) = filter Q (filter P l).
Proof.
  induction l as [|x l IH]; [done|].
  destruct (decide (P x)), (decide (Q x));
    repeat first [rewrite filter_cons_True by done
                 |rewrite filter_cons_False by done]; by rewrite IH.
Qed.

(** A filter absorbs a weaker filter applied before it. *)
Lemma filter_absorb (P Q : A → Prop) `{∀ x, Decision (P x)} `{∀ x, Decision (Q x)} l :
  (∀ x, P x → Q x) → filter P (filter Q l) = filter P l.
Proof.
  intros HPQ. rewrite list_filter_filter. apply list_filter_iff. naive_solver.
Qed.

Lemma filter_nil_Forall (P : A → Prop) `{∀ x, Decision (P x)} l :
  filter P l = [] → Forall (λ x, ¬ P x) l.
Proof.
  intros Hf. apply Forall_forall. intros x Hx HP.
  by eapply (filter_nil_not_elem_of P).
Qed.

(** [l.filter(p)] keeps a list whose elements all satisfy [p]. *)
Lemma List_filter_all (p : A → bool) l :
  (∀ x, x ∈ l → p x = true) → List.filter p l = l.
Proof.
  induction l as [|x l IH]; intros Hp; [done|]. simpl.
  rewrite (Hp x) by apply list_elem_of_here. f_equal. apply IH.
  intros y Hy. by apply Hp, list_elem_of_further.
Qed.

(** [l.find(p)] returns an element of [l] that satisfies [p]. *)
Lemma find_Some_elem_of (p : A → bool) l x :
  List.find p l = Some x → x ∈ l ∧ p x = true.
Proof. intros [Hin Hp]%find_some. split; [by apply list_elem_of_In | done]. Qed.

Lemma find_None_Forall (p : A → bool) l :
  List.find p l = None ↔ Forall (λ x, p x = false) l.
Proof.
  induction l as [|x l IH]; simpl; [by split|].
  rewrite Forall_cons. destruct (p x); [|tauto].
  split; [done | intros [? _]; done].
Qed.

(** [find] returns the first match: what precedes it does not match. *)
Lemma find_app_r (p : A → bool) l1 l2 :
  Forall (λ x, p x = false) l1 → List.find p (l1 ++ l2) = List.find p l2.
Proof. induction 1 as [|x l Hx Hl IH]; [done|]. simpl. by rewrite Hx. Qed.

End list_lemmas.

(** ** Running handlers *)

Lemma js_bind_ok {S A B} (c : js S A) (k : A → js S B) s a s' :
  c s = (Ok a, s') → (c ≫= k) s = k a s'.
Proof. intros H. unfold mbind, js_bind. by rewrite H. Qed.

Lemma js_bind_throw {S A B} (c : js S A) (k : A → js S B) s e s' :
  c s = (Throw e, s') → (c ≫= k) s = (Throw e, s').
Proof. intros H. unfold mbind, js_bind. by rewrite H. Qed.

Lemma js_bind_Ok_inv {S A B} (c : js S A) (k : A → js S B) s b s' :
  (c ≫= k) s = (Ok b, s') → ∃ a s1, c s = (Ok a, s1) ∧ k a s1 = (Ok b, s').
Proof.
  unfold mbind, js_bind. destruct (c s) as [[a|e] s1]; [|done]. by exists a, s1.
Qed.

Lemma js_bind_Throw_inv {S A B} (c : js S A) (k : A → js S B) s e s' :
  (c ≫= k) s = (Throw e, s') →
  c s = (Throw e, s') ∨ ∃ a s1, c s = (Ok a, s1) ∧ k a s1 = (Throw e, s').
Proof.
  unfold mbind, js_bind. destruct (c s) as [[a|e'] s1]; intros H.
  - right. by exists a, s1.
  - left. by injection H as -> ->.
Qed.

Lemma js_bind_ret_l {S A B} (a : A) (k : A → js S B) :
  js_equiv (mret a ≫= k) (k a).
Proof. done. Qed.

Lemma js_bind_ret_r {S A} (c : js S A) : js_equiv (c ≫= mret) c.
Proof. intros s. unfold mbind, js_bind. by destruct (c s) as [[a|e] s']. Qed.

Lemma js_bind_assoc {S A B C} (c : js S A) (k : A → js S B) (h : B → js S C) :
  js_equiv ((c ≫= k) ≫= h) (c ≫= λ a, k a ≫= h).
Proof. intros s. unfold mbind, js_bind. by destruct (c s) as [[a|e] s']. Qed.

(** A dispatched handler never throws. *)
Lemma js_dispatch_ok {S} (c : js S unit) s : (js_dispatch c s).1 = Ok tt.
Proof.
  unfold js_dispatch, js_try_catch. by destruct (c s) as [[[]|e] s'].
Qed.

Lemma js_dispatch_state {S} (c : js S unit) s : (js_dispatch c s).2 = (c s).2.
Proof.
  unfold js_dispatch, js_try_catch. by destruct (c s) as [[[]|e] s'].
Qed.

(** A [forEach] whose callback is a pure state update is a left fold. *)
Lemma js_for_each_modify {S A} (f : A → S → S) (l : list A) s :
  js_for_each (λ x, js_modify (f x)) l s = (Ok tt, fold_left (λ s x, f x s) l s).
Proof. revert s. induction l as [|x l IH]; intros s; [done|]. apply IH. Qed.

Lemma js_for_each_app {S A} (f : A → js S unit) (l1 l2 : list A) :
  js_equiv (js_for_each f (l1 ++ l2)) (js_for_each f l1;; js_for_each f l2).
Proof.
  induction l1 as [|x l1 IH]; intros s; [done|]. simpl.
  cbv [mbind js_bind]. destruct (f x s) as [[[]|e] s']; [apply IH | done].
Qed.

Lemma js_zoom_run {S T A} (get : S → T) (set : T → S → S) (c : js T A) s :
  js_zoom get set c s = ((c (get s)).1, set (c (get s)).2 s).
Proof. unfold js_zoom. by destruct (c (get s)). Qed.

(** ** Invariants and totality, rule by rule *)

Create HintDb js discriminated.
Create Rewrite HintDb js.

(** [c] keeps the state inside [I], whether it returns or throws. *)
Definition js_preserves {S A} (I : S → Prop) (c : js S A) : Prop :=
  ∀ s, I s → I (c s).2.

(** [c] returns: it never throws. *)
Definition js_total {S A} (c : js S A) : Prop :=
  ∀ s, is_ok (c s).1 = true.

Section preserves.
Context {S : Type} (I : S → Prop).

Lemma js_preserves_ret {A} (a : A) : js_preserves I (mret a).
Proof. by intros s. Qed.

Lemma js_preserves_throw {A} e : js_preserves I (js_throw (A:=A) e).
Proof. by intros s. Qed.

Lemma js_preserves_gets {A} (f : S → A) : js_preserves I (js_gets f).
Proof. by intros s. Qed.

Lemma js_preserves_modify f : (∀ s, I s → I (f s)) → js_preserves I (js_modify f).
Proof. intros Hf s. apply Hf. Qed.

Lemma js_preserves_bind {A B} (c : js S A) (k : A → js S B) :
  js_preserves I c → (∀ a, js_preserves I (k a)) → js_preserves I (c ≫= k).
Proof.
  intros Hc Hk s Hs. specialize (Hc s Hs). unfold mbind, js_bind.
  destruct (c s) as [[a|e] s']; [by apply Hk | done].
Qed.

Lemma js_preserves_try_catch {A} (c : js S A) h :
  js_preserves I c → (∀ e, js_preserves I (h e)) → js_preserves I (js_try_catch c h).
Proof.
  intros Hc Hh s Hs. specialize (Hc s Hs). unfold js_try_catch.
  destruct (c s) as [[a|e] s']; [done | by apply Hh].
Qed.

Lemma js_preserves_finally {A} (c : js S A) f :
  js_preserves I c → js_preserves I f → js_preserves I (js_finally c f).
Proof.
  intros Hc Hf s Hs. specialize (Hc s Hs). unfold js_finally.
  destruct (c s) as [o s']. specialize (Hf s' Hc).
  by destruct (f s') as [[[]|e] s''], o.
Qed.

Lemma js_preserves_when b c : js_preserves I c → js_preserves I (js_when b c).
Proof. intros Hc. destruct b; [exact Hc | by intros s]. Qed.

Lemma js_preserves_for_each {A} (f : A → js S unit) l :
  (∀ x, x ∈ l → js_preserves I (f x)) → js_preserves I (js_for_each f l).
Proof.
  induction l as [|x l IH]; intros Hf; [by intros ?|]. simpl.
  apply js_preserves_bind; [apply Hf, list_elem_of_here | intros _; apply IH].
  intros y Hy. by apply Hf, list_elem_of_further.
Qed.

Lemma js_preserves_fold {A B} (f : B → A → js S B) l b :
  (∀ b x, js_preserves I (f b x)) → js_preserves I (js_fold f l b).
Proof.
  intros Hf. revert b. induction l as [|x l IH]; intros b; [by intros ?|]. simpl.
  by apply js_preserves_bind.
Qed.

Lemma js_preserves_dispatch c : js_preserves I c → js_preserves I (js_dispatch c).
Proof. intros Hc s Hs. rewrite js_dispatch_state. by apply Hc. Qed.

End preserves.

Lemma js_preserves_zoom {S T A} (I : S → Prop) (J : T → Prop)
    (get : S → T) (set : T → S → S) (c : js T A) :
  (∀ s, I s → J (get s)) → (∀ s t, I s → J t → I (set t s)) →
  js_preserves J c → js_preserves I (js_zoom get set c).
Proof. intros Hget Hset Hc s Hs. rewrite js_zoom_run. simpl. auto. Qed.

(** [c] reads the state and never writes it. *)
Definition js_pure {S A} (c : js S A) : Prop := ∀ s, (c s).2 = s.

Section pure.
Context {S : Type}.

Lemma js_pure_ret {A} (a : A) : js_pure (S:=S) (mret a).
Proof. by intros s. Qed.

Lemma js_pure_throw {A} e : js_pure (S:=S) (js_throw (A:=A) e).
Proof. by intros s. Qed.

Lemma js_pure_gets {A} (f : S → A) : js_pure (js_gets f).
Proof. by intros s. Qed.

Lemma js_pure_bind {A B} (c : js S A) (k : A → js S B) :
  js_pure c → (∀ a, js_pure (k a)) → js_pure (c ≫= k).
Proof.
  intros Hc Hk s. specialize (Hc s). unfold mbind, js_bind.
  destruct (c s) as [[a|e] s']; simpl in Hc; subst s'; [apply Hk | done].
Qed.

Lemma js_pure_fold {A B} (f : B → A → js S B) l b :
  (∀ b x, js_pure (f b x)) → js_pure (js_fold f l b).
Proof.
  intros Hf. revert b. induction l as [|x l IH]; intros b; [by intros ?|]. simpl.
  by apply js_pure_bind.
Qed.

Lemma js_pure_map {A B} (f : A → js S B) l :
  (∀ x, js_pure (f x)) → js_pure (js_map f l).
Proof.
  intros Hf. induction l as [|x l IH]; [by intros ?|]. simpl.
  apply js_pure_bind; [done|]. intros y. apply js_pure_bind; [done|]. by intros ??.
Qed.

(** A pure handler in front of another does not change where it ends. *)
Lemma js_pure_bind_exec {A B} (c : js S A) (k : A → js S B) s :
  js_pure c →
  (∃ a, c s = (Ok a, s) ∧ js_exec (c ≫= k) s = js_exec (k a) s) ∨
  (∃ e, c s = (Throw e, s) ∧ js_exec (c ≫= k) s = s).
Proof.
  intros Hc. specialize (Hc s). unfold js_exec, mbind, js_bind.
  destruct (c s) as [[a|e] s']; simpl in *; subst s'; [left|right]; eauto.
Qed.

End pure.

Section total.
Context {S : Type}.

Lemma js_total_ret {A} (a : A) : js_total (S:=S) (mret a).
Proof. by intros s. Qed.

Lemma js_total_gets {A} (f : S → A) : js_total (js_gets f).
Proof. by intros s. Qed.

Lemma js_total_modify (f : S → S) : js_total (js_modify f).
Proof. by intros s. Qed.

Lemma js_total_bind {A B} (c : js S A) (k : A → js S B) :
  js_total c → (∀ a, js_total (k a)) → js_total (c ≫= k).
Proof.
  intros Hc Hk s. specialize (Hc s). unfold mbind, js_bind.
  destruct (c s) as [[a|e] s']; [apply Hk | done].
Qed.

Lemma js_total_when b (c : js S unit) : js_total c → js_total (js_when b c).
Proof. intros Hc. destruct b; [exact Hc | by intros s]. Qed.

Lemma js_total_for_each {A} (f : A → js S unit) l :
  (∀ x, x ∈ l → js_total (f x)) → js_total (js_for_each f l).
Proof.
  induction l as [|x l IH]; intros Hf; [by intros ?|]. simpl.
  apply js_total_bind; [apply Hf, list_elem_of_here | intros _; apply IH].
  intros y Hy. by apply Hf, list_elem_of_further.
Qed.

Lemma js_total_fold {A B} (f : B → A → js S B) l b :
  (∀ b x, js_total (f b x)) → js_total (js_fold f l b).
Proof.
  intros Hf. revert b. induction l as [|x l IH]; intros b; [by intros ?|]. simpl.
  by apply js_total_bind.
Qed.

Lemma js_total_map {A B} (f : A → js S B) l :
  (∀ x, x ∈ l → js_total (f x)) → js_total (js_map f l).
Proof.
  induction l as [|x l IH]; intros Hf; [by intros ?|]. simpl.
  apply js_total_bind; [apply Hf, list_elem_of_here|]. intros y.
  apply js_total_bind; [|done]. apply IH. intros z Hz. by apply Hf, list_elem_of_further.
Qed.

Lemma js_total_dispatch (c : js S unit) : js_total (js_dispatch c).
Proof. intros s. by rewrite js_dispatch_ok. Qed.

(** What a total handler returns, and the state it leaves. *)
Lemma js_total_run {A} (c : js S A) s :
  js_total c → ∃ a, c s = (Ok a, js_exec c s).
Proof.
  intros Hc. specialize (Hc s). unfold js_exec.
  destruct (c s) as [[a|e] s']; [by exists a | done].
Qed.

End total.

(** ** Triples

    [js_triple P c Q]: from a state in [P], [c] returns, with a value and a
    state in [Q]. *)
Definition js_triple {S A} (P : S → Prop) (c : js S A) (Q : A → S → Prop) : Prop :=
  ∀ s, P s → ∃ a s', c s = (Ok a, s') ∧ Q a s'.

Section triple.
Context {S : Type}.
Implicit Types P : S → Prop.

Lemma js_triple_ret {A} (a : A) P (Q : A → S → Prop) :
  (∀ s, P s → Q a s) → js_triple P (mret a) Q.
Proof. intros H s Hs. exists a, s. auto. Qed.

Lemma js_triple_gets {A} (f : S → A) P (Q : A → S → Prop) :
  (∀ s, P s → Q (f s) s) → js_triple P (js_gets f) Q.
Proof. intros H s Hs. exists (f s), s. auto. Qed.

Lemma js_triple_modify (f : S → S) P (Q : unit → S → Prop) :
  (∀ s, P s → Q tt (f s)) → js_triple P (js_modify f) Q.
Proof. intros H s Hs. exists tt, (f s). auto. Qed.

Lemma js_triple_bind {A B} (c : js S A) (k : A → js S B) P R (Q : B → S → Prop) :
  js_triple P c R → (∀ a, js_triple (R a) (k a) Q) → js_triple P (c ≫= k) Q.
Proof.
  intros Hc Hk s Hs. destruct (Hc s Hs) as (a & s1 & Hrun & HR).
  rewrite (js_bind_ok _ _ _ _ _ Hrun). by apply Hk.
Qed.

Lemma js_triple_conseq {A} (c : js S A) P P' (Q Q' : A → S → Prop) :
  js_triple P' c Q' → (∀ s, P s → P' s) → (∀ a s, Q' a s → Q a s) →
  js_triple P c Q.
Proof.
  intros Hc HP HQ s Hs. destruct (Hc s (HP s Hs)) as (a & s' & Hrun & HQ').
  exists a, s'. auto.
Qed.

Lemma js_triple_when (b : bool) (c : js S unit) P (Q : unit → S → Prop) :
  (b = true → js_triple P c Q) → (b = false → ∀ s, P s → Q tt s) →
  js_triple P (js_when b c) Q.
Proof.
  destruct b; intros Ht Hf; [by apply Ht|]. apply js_triple_ret. by apply Hf.
Qed.

(** A handler that returns and keeps an invariant. *)
Lemma js_triple_keep {A} (c : js S A) P :
  js_total c → js_preserves P c → js_triple P c (λ _, P).
Proof.
  intros Ht Hp s Hs. destruct (js_total_run c s Ht) as [a Hrun].
  exists a, (js_exec c s). split; [done|]. by apply Hp.
Qed.

Lemma js_triple_total {A} (c : js S A) (Q : A → S → Prop) :
  js_triple (λ _, True) c Q → js_total c.
Proof. intros Hc s. by destruct (Hc s I) as (a & s' & -> & _). Qed.

End triple.

#[export] Hint Resolve js_preserves_ret js_preserves_throw js_preserves_gets
  js_preserves_modify js_preserves_bind js_preserves_try_catch
  js_preserves_finally js_preserves_when js_preserves_for_each
  js_preserves_fold js_preserves_dispatch
  js_total_ret js_total_gets js_total_modify js_total_bind js_total_when
  js_total_for_each js_total_fold js_total_map js_total_dispatch
  js_pure_ret js_pure_throw js_pure_gets js_pure_bind js_pure_fold
  js_pure_map : js.

(** ** Tactics and hints *)

#[export] Hint Unfold js_throw js_gets js_modify js_try_catch js_finally
  js_when js_dispatch js_exec : js.

(** Unfolds the monad's combinators in the goal and computes through them. *)
Ltac js_simpl :=
  cbv [mbind mret js_bind js_ret js_throw js_gets js_modify js_try_catch
       js_finally js_when js_dispatch js_exec];
  simpl.

Ltac js_simpl_in H :=
  cbv [mbind mret js_bind js_ret js_throw js_gets js_modify js_try_catch
       js_finally js_when js_dispatch js_exec] in H;
  simpl in H.

(** Case analysis on the outcome of the handler [c] run in the goal. *)
Ltac case_outcome c :=
  let a := fresh "a" in
  let e := fresh "e" in
  let s := fresh "s" in
  let E := fresh "Hrun" in
  destruct c as [[a|e] s] eqn:E.
