(* ===== verification/JsString.v ===== *)
(** * JsString: the string computations of the client

    Layer keys, source ids and layer ids are derived from file names by string
    operations spread over layer-handlers.js and ui.js.  This file models them
    on [string] (a sequence of 8-bit code units; for ASCII input this is the
    JavaScript string):
    - [sanitize]: [s.replace(/[^a-zA-Z0-9]/g, "_")];
    - [strip_non_alnum]: [s.replace(/[^a-zA-Z0-9]/g, "")];
    - [strip_geom_suffix]: [s.replace(/-[a-z]+(-lod)?$/, '')];
    - [toLowerCase], [includes], [startsWith], [split_head] ([s.split(c)[0]]);
    - [to_hex], [padStart]: [n.toString(16).padStart(6, '0')].
    The lemmas give the alphabet of a sanitised name and the behaviour of the
    suffix regular expression on identifiers built from one. *)

From Stdlib Require Import Ascii String NArith.
From stdpp Require Import base option list strings.
From S2P Require Import Prelude.

(** ** Character classes *)

Module Char.

Definition is_digit (c : ascii) : bool := Ascii.leb "0" c && Ascii.leb c "9".

Definition is_lower (c : ascii) : bool := Ascii.leb "a" c && Ascii.leb c "z".

Definition is_upper (c : ascii) : bool := Ascii.leb "A" c && Ascii.leb c "Z".

Definition is_alnum (c : ascii) : bool := is_lower c || is_upper c || is_digit c.

Definition to_lower (c : ascii) : ascii :=
  if is_upper c then ascii_of_nat (nat_of_ascii c + 32) else c.

(** The characters of a sanitised name: [[a-zA-Z0-9_]]. *)
Definition is_word (c : ascii) : bool := is_alnum c || Ascii.eqb c "_".

End Char.

(** ** Strings as sequences of characters *)

Fixpoint map_chars (f : ascii → ascii) (s : string) : string :=
  match s with
  | EmptyString => EmptyString
  | String c s' => String (f c) (map_chars f s')
  end.

Fixpoint filter_chars (p : ascii → bool) (s : string) : string :=
  match s with
  | EmptyString => EmptyString
  | String c s' => if p c then String c (filter_chars p s') else filter_chars p s'
  end.

Fixpoint all_chars (p : ascii → bool) (s : string) : bool :=
  match s with
  | EmptyString => true
  | String c s' => p c && all_chars p s'
  end.

(** [s.replace(/[^a-zA-Z0-9]/g, "_")] *)
Definition sanitize (s : string) : string :=
  map_chars (λ c, if Char.is_alnum c then c else "_"%char) s.

(** [s.replace(/[^a-zA-Z0-9]/g, "")] *)
Definition strip_non_alnum (s : string) : string := filter_chars Char.is_alnum s.

Definition toLowerCase (s : string) : string := map_chars Char.to_lower s.

(** [s.startsWith(p)] *)
Definition startsWith (s p : string) : bool := String.prefix p s.

(** [s.includes(k)] *)
Fixpoint includes (s k : string) : bool :=
  String.prefix k s ||
  match s with
  | EmptyString => false
  | String _ s' => includes s' k
  end.

(** [s.split(c)[0]]: the characters before the first [c]. *)
Fixpoint split_head (c : ascii) (s : string) : string :=
  match s with
  | EmptyString => EmptyString
  | String d s' => if Ascii.eqb d c then EmptyString else String d (split_head c s')
  end.

(** The longest prefix of lower-case letters, and what follows it. *)
Fixpoint span_lower (s : string) : string * string :=
  match s with
  | EmptyString => (EmptyString, EmptyString)
  | String c s' =>
    if Char.is_lower c
    then let '(w, r) := span_lower s' in (String c w, r)
    else (EmptyString, s)
  end.

(** [t] matches [-[a-z]+(-lod)?] up to its end.  The run of letters is taken
    greedily; a shorter run is followed by a letter, so backtracking finds no
    other match. *)
Definition geom_suffix_match (t : string) : bool :=
  match t with
  | String "-" r =>
    let '(w, rest) := span_lower r in
    negb (String.eqb w "") && (String.eqb rest "" || String.eqb rest "-lod")
  | _ => false
  end.

(** [s.replace(/-[a-z]+(-lod)?$/, '')]: the leftmost position whose suffix
    matches is cut off; without a match the string is unchanged. *)
Fixpoint strip_geom_suffix (s : string) : string :=
  if geom_suffix_match s then EmptyString
  else match s with
       | EmptyString => EmptyString
       | String c s' => String c (strip_geom_suffix s')
       end.

(** ** Hexadecimal rendering *)

Definition hex_digit (n : N) : ascii :=
  match n with
  | 0 => "0" | 1 => "1" | 2 => "2" | 3 => "3" | 4 => "4" | 5 => "5"
  | 6 => "6" | 7 => "7" | 8 => "8" | 9 => "9" | 10 => "a" | 11 => "b"
  | 12 => "c" | 13 => "d" | 14 => "e" | _ => "f"
  end%N%char.

Fixpoint to_hex_fuel (fuel : nat) (n : N) (acc : string) : string :=
  match fuel with
  | O => acc
  | S fuel' =>
    let acc' := String (hex_digit (n mod 16)) acc in
    if (n / 16 =? 0)%N then acc' else to_hex_fuel fuel' (n / 16) acc'
  end.

(** [n.toString(16)] for a natural number; [log2 n + 1] digits are enough. *)
Definition to_hex (n : N) : string :=
  to_hex_fuel (S (N.to_nat (N.log2 n))) n EmptyString.

Fixpoint repeat_char (c : ascii) (n : nat) : string :=
  match n with
  | O => EmptyString
  | S n' => String c (repeat_char c n')
  end.

(** [s.padStart(n, c)] for a one-character pad string. *)
Definition padStart (n : nat) (c : ascii) (s : string) : string :=
  repeat_char c (n - String.length s) +:+ s.

(** ** Request paths *)

Definition hex_digit_upper (n : N) : ascii :=
  match n with
  | 10 => "A" | 11 => "B" | 12 => "C" | 13 => "D" | 14 => "E" | 15 => "F"
  | _ => hex_digit n
  end%N%char.

(** The characters [encodeURIComponent] leaves as they are. *)
Definition is_unreserved (c : ascii) : bool :=
  Char.is_alnum c ||
  bool_decide (c ∈ ["-"; "_"; "."; "!"; "~"; "*"; "'"; "("; ")"]%char).

(** [encodeURIComponent(s)] on a string of bytes: every other byte becomes
    [%XX]. *)
Fixpoint encodeURIComponent (s : string) : string :=
  match s with
  | EmptyString => EmptyString
  | String c s' =>
    if is_unreserved c then String c (encodeURIComponent s')
    else
      let n := N_of_ascii c in
      String "%" (String (hex_digit_upper (n / 16))
                    (String (hex_digit_upper (n mod 16)) (encodeURIComponent s')))
  end.

(** [parts.join(sep)] *)
Fixpoint join (sep : string) (parts : list string) : string :=
  match parts with
  | [] => EmptyString
  | [x] => x
  | x :: rest => x +:+ sep +:+ join sep rest
  end.

(** ** Lemmas *)

Lemma append_cons c s t : String c s +:+ t = String c (s +:+ t).
Proof. done. Qed.

Lemma append_nil_l t : EmptyString +:+ t = t.
Proof. done. Qed.

Lemma append_nil_r s : s +:+ EmptyString = s.
Proof. induction s as [|c s IH]; [done|]. by rewrite append_cons, IH. Qed.

Lemma append_assoc s t u : (s +:+ t) +:+ u = s +:+ (t +:+ u).
Proof. induction s as [|c s IH]; [done|]. by rewrite !append_cons, IH. Qed.

Lemma append_length s t : String.length (s +:+ t) = String.length s + String.length t.
Proof. induction s as [|c s IH]; [done|]. rewrite append_cons. simpl. by rewrite IH. Qed.

#[export] Hint Rewrite append_cons append_nil_l append_nil_r append_assoc : js.

Lemma all_chars_app p s t : all_chars p (s +:+ t) = all_chars p s && all_chars p t.
Proof.
  induction s as [|c s IH]; [done|]. rewrite append_cons. simpl.
  by rewrite IH, andb_assoc.
Qed.

Lemma all_chars_impl (p q : ascii → bool) s :
  (∀ c, p c = true → q c = true) → all_chars p s = true → all_chars q s = true.
Proof.
  intros Hpq. induction s as [|c s IH]; [done|]. simpl.
  intros [Hc Hs]%andb_true_iff. by rewrite (Hpq c Hc), IH.
Qed.

Lemma map_chars_app f s t : map_chars f (s +:+ t) = map_chars f s +:+ map_chars f t.
Proof. induction s as [|c s IH]; [done|]. rewrite !append_cons. simpl. by rewrite IH. Qed.

Lemma map_chars_length f s : String.length (map_chars f s) = String.length s.
Proof. induction s as [|c s IH]; [done|]. simpl. by rewrite IH. Qed.

(** A sanitised name is made of letters, digits and underscores. *)
Lemma sanitize_word s : all_chars Char.is_word (sanitize s) = true.
Proof.
  unfold sanitize. induction s as [|c s IH]; [done|]. simpl.
  rewrite IH, andb_true_r.
  unfold Char.is_word. destruct (Char.is_alnum c) eqn:E; [by rewrite E | done].
Qed.

Lemma sanitize_length s : String.length (sanitize s) = String.length s.
Proof. apply map_chars_length. Qed.

(** Sanitising is idempotent: a name of word characters is kept. *)
Lemma sanitize_alnum_id s : all_chars Char.is_alnum s = true → sanitize s = s.
Proof.
  unfold sanitize. induction s as [|c s IH]; [done|]. simpl.
  intros [Hc Hs]%andb_true_iff. by rewrite Hc, (IH Hs).
Qed.

Lemma is_word_not_dash c : Char.is_word c = true → c ≠ "-"%char.
Proof. by intros H ->. Qed.

Lemma is_lower_not_dash c : Char.is_lower c = true → c ≠ "-"%char.
Proof. by intros H ->. Qed.

(** ** The suffix regular expression on derived identifiers *)

Definition no_dash (s : string) : bool :=
  all_chars (λ c, negb (Ascii.eqb c "-")) s.

Lemma no_dash_cons c s :
  no_dash (String c s) = true ↔ c ≠ "-"%char ∧ no_dash s = true.
Proof.
  unfold no_dash. simpl.
  by rewrite andb_true_iff, negb_true_iff, Ascii.eqb_neq.
Qed.

Lemma word_no_dash s : all_chars Char.is_word s = true → no_dash s = true.
Proof.
  apply all_chars_impl. intros c Hc.
  apply negb_true_iff, Ascii.eqb_neq, is_word_not_dash, Hc.
Qed.

Lemma geom_suffix_match_no_dash c s :
  c ≠ "-"%char → geom_suffix_match (String c s) = false.
Proof.
  intros Hc. unfold geom_suffix_match.
  destruct c as [[] [] [] [] [] [] [] []]; done.
Qed.

Lemma strip_geom_suffix_cons c s :
  strip_geom_suffix (String c s) =
  if geom_suffix_match (String c s) then EmptyString
  else String c (strip_geom_suffix s).
Proof. done. Qed.

(** A string without dashes is skipped by the search for a match. *)
Lemma strip_geom_suffix_no_dash s t :
  no_dash s = true → strip_geom_suffix (s +:+ t) = s +:+ strip_geom_suffix t.
Proof.
  induction s as [|c s IH]; [done|]. intros [Hc Hs]%no_dash_cons.
  rewrite !append_cons, strip_geom_suffix_cons.
  rewrite geom_suffix_match_no_dash by done. by rewrite IH.
Qed.

(** What follows the letters of [s +:+ "-" +:+ t], for [s] without dashes:
    a string that still ends in ["-" +:+ t] and does not start with a dash
    unless it is ["-" +:+ t] itself. *)
Lemma span_lower_no_dash s t :
  no_dash s = true →
  ∃ w r, span_lower (s +:+ String "-" t) = (w, r +:+ String "-" t) ∧
         no_dash r = true ∧ (r = EmptyString → w = s).
Proof.
  induction s as [|c s IH]; intros Hs.
  - exists EmptyString, EmptyString. done.
  - pose proof Hs as [Hc Hs']%no_dash_cons.
    rewrite append_cons. simpl. destruct (Char.is_lower c) eqn:El.
    + destruct (IH Hs') as (w & r & -> & Hr & Hw).
      exists (String c w), r. split_and!; [done..|]. intros ->%Hw. done.
    + by exists EmptyString, (String c s).
Qed.

(** The dash that separates the kind from a sanitised name starts no match
    when a geometry suffix other than ["-lod"] follows the name. *)
Lemma geom_suffix_match_inner s t :
  no_dash s = true → t ≠ "lod" →
  geom_suffix_match (String "-" (s +:+ String "-" t)) = false.
Proof.
  intros Hs Ht. unfold geom_suffix_match.
  destruct (span_lower_no_dash s t Hs) as (w & r & -> & Hr & Hw).
  destruct r as [|c r].
  - rewrite append_nil_l.
    replace (String.eqb (String "-" t) "-lod") with (String.eqb t "lod") by done.
    apply String.eqb_neq in Ht. rewrite Ht. simpl. apply andb_false_r.
  - apply no_dash_cons in Hr as [Hc _].
    rewrite append_cons. simpl.
    replace (Ascii.eqb c "-") with false
      by (symmetry; by apply Ascii.eqb_neq).
    apply andb_false_r.
Qed.

(** The identifiers [kind-name-suffix] lose exactly their suffix. *)
Lemma strip_geom_suffix_derived kind name t :
  no_dash kind = true → no_dash name = true → t ≠ "lod" →
  strip_geom_suffix (String "-" t) = EmptyString →
  strip_geom_suffix (kind +:+ String "-" (name +:+ String "-" t))
  = kind +:+ String "-" name.
Proof.
  intros Hk Hn Ht Hsuf.
  rewrite strip_geom_suffix_no_dash by done. f_equal.
  rewrite strip_geom_suffix_cons, geom_suffix_match_inner by done. f_equal.
  rewrite strip_geom_suffix_no_dash by done. by rewrite Hsuf, append_nil_r.
Qed.

(** ** Prefixes *)

Lemma startsWith_app s t : startsWith (s +:+ t) s = true.
Proof.
  unfold startsWith. induction s as [|c s IH]; [by destruct t|].
  rewrite append_cons. simpl. by destruct (ascii_dec c c).
Qed.

Lemma startsWith_spec s p : startsWith s p = true ↔ ∃ t, s = p +:+ t.
Proof.
  unfold startsWith. split.
  - revert s. induction p as [|c p IH]; intros s H; [by exists s|].
    destruct s as [|d s]; [done|]. simpl in H.
    destruct (ascii_dec c d) as [->|]; [|done].
    destruct (IH s H) as [t ->]. by exists t.
  - intros [t ->]. apply startsWith_app.
Qed.

Lemma split_head_app c s t :
  all_chars (λ d, negb (Ascii.eqb d c)) s = true →
  split_head c (s +:+ String c t) = s.
Proof.
  induction s as [|d s IH]; simpl.
  - intros _. by rewrite Ascii.eqb_refl.
  - intros [Hd Hs]%andb_true_iff. apply negb_true_iff in Hd. by rewrite Hd, IH.
Qed.

Lemma split_head_prefix c s : startsWith s (split_head c s) = true.
Proof.
  unfold startsWith. induction s as [|d s IH]; [done|]. simpl.
  destruct (Ascii.eqb d c); [done|]. simpl. by destruct (ascii_dec d d).
Qed.

(** ** Lemmas: concatenation, containment and case *)

Lemma append_inj_l p a b : p +:+ a = p +:+ b → a = b.
Proof.
  induction p as [|c p IH]; [done|]. rewrite !append_cons. intros [= H]. by apply IH.
Qed.

Lemma prefix_app_l k k' s : String.prefix (k +:+ k') s = true → String.prefix k s = true.
Proof.
  revert s. induction k as [|c k IH]; intros [|d s]; try done.
  rewrite append_cons. simpl. destruct (Ascii.ascii_dec c d); [apply IH | done].
Qed.

Lemma includes_nil k : includes "" k = String.prefix k "".
Proof. simpl. by rewrite orb_false_r. Qed.

Lemma includes_cons d s k :
  includes (String d s) k = String.prefix k (String d s) || includes s k.
Proof. done. Qed.

(** A string that contains [k ++ k'] contains [k]. *)
Lemma includes_app_l s k k' : includes s (k +:+ k') = true → includes s k = true.
Proof.
  induction s as [|d s IH]; [rewrite !includes_nil; apply prefix_app_l|].
  rewrite !includes_cons, !orb_true_iff.
  intros [H|H]; [left; by eapply prefix_app_l | right; by apply IH].
Qed.

Lemma prefix_all_chars p k s :
  all_chars p s = true → String.prefix k s = true → all_chars p k = true.
Proof.
  revert s. induction k as [|c k IH]; intros [|d s]; try done. simpl.
  rewrite !andb_true_iff. intros [Hd Hs].
  destruct (Ascii.ascii_dec c d) as [->|]; [|done]. eauto.
Qed.

(** The characters of a contained string are characters of the container. *)
Lemma includes_all_chars p s k :
  all_chars p s = true → includes s k = true → all_chars p k = true.
Proof.
  induction s as [|d s IH]; [rewrite includes_nil; apply prefix_all_chars|].
  rewrite includes_cons, orb_true_iff. intros Hall [H|H].
  - by eapply prefix_all_chars.
  - apply IH; [|done]. simpl in Hall. by apply andb_true_iff in Hall as [_ ?].
Qed.

Lemma to_lower_not_upper c : Char.is_upper (Char.to_lower c) = false.
Proof. by destruct c as [[] [] [] [] [] [] [] []]. Qed.

(** A lower-cased string has no upper-case letter. *)
Lemma toLowerCase_no_upper s :
  all_chars (λ c, negb (Char.is_upper c)) (toLowerCase s) = true.
Proof.
  unfold toLowerCase. induction s as [|c s IH]; [done|]. simpl.
  by rewrite to_lower_not_upper, IH.
Qed.

(** A lower-cased string contains no string with an upper-case letter. *)
Lemma toLowerCase_includes_upper s k :
  all_chars (λ c, negb (Char.is_upper c)) k = false →
  includes (toLowerCase s) k = false.
Proof.
  intros Hk. apply not_true_is_false. intros Hin.
  by rewrite (includes_all_chars _ _ _ (toLowerCase_no_upper s) Hin) in Hk.
Qed.

(** ** Lemmas: hexadecimal rendering *)

Lemma repeat_char_length c n : String.length (repeat_char c n) = n.
Proof. induction n as [|n IH]; simpl; by rewrite ?IH. Qed.

Lemma padStart_length n c s :
  String.length (padStart n c s) = Nat.max n (String.length s).
Proof. unfold padStart. rewrite append_length, repeat_char_length. lia. Qed.

Lemma to_hex_fuel_length fuel n acc k :
  (0 < k)%nat → (n < 16 ^ N.of_nat k)%N →
  String.length (to_hex_fuel fuel n acc) ≤ String.length acc + k.
Proof.
  revert n acc k. induction fuel as [|fuel IH]; intros n acc k Hk Hn; simpl; [lia|].
  destruct (N.eqb_spec (n / 16) 0) as [|Hq]; simpl; [lia|].
  destruct k as [|[|k]]; [lia| |].
  - exfalso. apply Hq, N.div_small. by rewrite N.pow_1_r in Hn.
  - etrans; [apply (IH _ _ (S k)); [lia|]|simpl; lia].
    apply N.Div0.div_lt_upper_bound.
    replace (N.of_nat (S (S k))) with (N.succ (N.of_nat (S k))) in Hn by lia.
    by rewrite N.pow_succ_r' in Hn.
Qed.

(** A number below [16^k] has at most [k] hexadecimal digits. *)
Lemma to_hex_length n k :
  (0 < k)%nat → (n < 16 ^ N.of_nat k)%N → String.length (to_hex n) ≤ k.
Proof. intros. by apply (to_hex_fuel_length _ n "" k). Qed.
