(* ===== verification/JsObject.v ===== *)
(** * JsObject: a JavaScript object used as a dictionary

    [state.activeLayers] (main.js) is an object keyed by layer key.  The code
    reads it by key, assigns and deletes keys, and also enumerates it
    ([Object.keys], [Object.values], [Object.entries]) where the order of
    enumeration decides which entry a [find] returns.  For keys that are not
    array indices (every key of this program starts with ["vector-"] or
    ["raster-"]) that order is the order of insertion, so an object is modelled
    as an association list in insertion order:
    - [obj_get o k] is [o[k]], [obj_set o k v] is [o[k] = v] (an existing key
      keeps its place, a new key goes last), [obj_delete o k] is [delete o[k]];
    - [obj_wf]: no key occurs twice, preserved by every operation;
    - [obj_to_map]: the finite map an object denotes; the operations refine
      lookup, insert and delete of [gmap]. *)

From Stdlib Require Import Ascii String.
From stdpp Require Import base option list strings gmap.
From S2P Require Import Prelude.

Definition obj (V : Type) : Type := list (string * V).

Section obj.
Context {V : Type}.
Implicit Types (o : obj V) (k : string) (v : V).

Definition obj_empty : obj V := [].

Fixpoint obj_get o k : option V :=
  match o with
  | [] => None
  | (k', v) :: o' => if decide (k = k') then Some v else obj_get o' k
  end.

Fixpoint obj_set o k v : obj V :=
  match o with
  | [] => [(k, v)]
  | (k', v') :: o' =>
    if decide (k = k') then (k, v) :: o' else (k', v') :: obj_set o' k v
  end.

Fixpoint obj_delete o k : obj V :=
  match o with
  | [] => []
  | (k', v') :: o' =>
    if decide (k = k') then obj_delete o' k else (k', v') :: obj_delete o' k
  end.

Definition obj_keys o : list string := o.*1.

Definition obj_values o : list V := o.*2.

Definition obj_has o k : bool := bool_decide (is_Some (obj_get o k)).

Definition obj_wf o : Prop := NoDup (obj_keys o).

(** The finite map an object denotes. *)
Definition obj_to_map o : gmap string V := list_to_map o.

(** ** Reading after writing *)

Lemma obj_get_set_eq o k v : obj_get (obj_set o k v) k = Some v.
Proof.
  induction o as [|[k' v'] o IH]; simpl; repeat case_decide; simpl;
    repeat case_decide; try done.
Qed.

Lemma obj_get_set_ne o k k' v : k ≠ k' → obj_get (obj_set o k v) k' = obj_get o k'.
Proof.
  intros Hne. induction o as [|[k'' v''] o IH]; simpl;
    repeat (case_decide; simpl); subst; try done.
Qed.

Lemma obj_get_delete_eq o k : obj_get (obj_delete o k) k = None.
Proof.
  induction o as [|[k' v'] o IH]; simpl; repeat (case_decide; simpl); done.
Qed.

Lemma obj_get_delete_ne o k k' : k ≠ k' → obj_get (obj_delete o k) k' = obj_get o k'.
Proof.
  intros Hne. induction o as [|[k'' v''] o IH]; simpl;
    repeat (case_decide; simpl); subst; try done.
Qed.

Lemma obj_get_Some_elem_of o k v : obj_get o k = Some v → (k, v) ∈ o.
Proof.
  induction o as [|[k' v'] o IH]; simpl; [done|].
  case_decide; [intros [= ->]; subst; left | right; auto].
Qed.

Lemma obj_get_None o k : obj_get o k = None ↔ k ∉ obj_keys o.
Proof.
  unfold obj_keys. induction o as [|[k' v'] o IH]; simpl.
  - split; [intros _ H; by apply elem_of_nil in H | done].
  - rewrite not_elem_of_cons. case_decide; [|tauto]. split; [done|tauto].
Qed.

Lemma obj_get_is_Some o k : is_Some (obj_get o k) ↔ k ∈ obj_keys o.
Proof.
  rewrite <-not_eq_None_Some, obj_get_None.
  destruct (decide (k ∈ obj_keys o)); tauto.
Qed.

Lemma obj_elem_of_get o k v : obj_wf o → (k, v) ∈ o → obj_get o k = Some v.
Proof.
  unfold obj_wf, obj_keys. induction o as [|[k' v'] o IH]; simpl.
  - intros _ H. by apply elem_of_nil in H.
  - intros [Hk Hnd]%NoDup_cons [[= <- <-]|Hin]%elem_of_cons.
    + by case_decide.
    + case_decide as E; [|auto]. subst. destruct Hk.
      apply list_elem_of_fmap. eexists. split; [|exact Hin]. done.
Qed.

(** ** Keys *)

Lemma obj_keys_set_old o k v :
  k ∈ obj_keys o → obj_keys (obj_set o k v) = obj_keys o.
Proof.
  unfold obj_keys. induction o as [|[k' v'] o IH]; simpl.
  - intros H. by apply elem_of_nil in H.
  - intros Hin. case_decide; simpl; [by subst|].
    f_equal. apply IH. by apply elem_of_cons in Hin as [?|?].
Qed.

(** A new key is enumerated last. *)
Lemma obj_keys_set_new o k v :
  k ∉ obj_keys o → obj_keys (obj_set o k v) = obj_keys o ++ [k].
Proof.
  unfold obj_keys. induction o as [|[k' v'] o IH]; simpl; [done|].
  intros [Hne Hnin]%not_elem_of_cons. case_decide; [done|]. simpl.
  f_equal. by apply IH.
Qed.

Lemma obj_set_new o k v : k ∉ obj_keys o → obj_set o k v = o ++ [(k, v)].
Proof.
  unfold obj_keys. induction o as [|[k' v'] o IH]; simpl; [done|].
  intros [Hne Hnin]%not_elem_of_cons. case_decide; [done|]. by rewrite IH.
Qed.

Lemma obj_keys_delete o k :
  obj_keys (obj_delete o k) = filter (λ k', k' ≠ k) (obj_keys o).
Proof.
  unfold obj_keys. induction o as [|[k' v'] o IH]; simpl; [done|].
  rewrite filter_cons. case_decide; subst; simpl.
  - rewrite decide_False by (by intros ?). apply IH.
  - rewrite decide_True by done. simpl. f_equal. apply IH.
Qed.

Lemma obj_delete_absent o k : k ∉ obj_keys o → obj_delete o k = o.
Proof.
  unfold obj_keys. induction o as [|[k' v'] o IH]; simpl; [done|].
  intros [Hne Hnin]%not_elem_of_cons. case_decide; [done|]. by rewrite IH.
Qed.

(** Deleting the key that was just added to an object without it restores
    the object, order included. *)
Lemma obj_delete_set_new o k v :
  k ∉ obj_keys o → obj_delete (obj_set o k v) k = o.
Proof.
  unfold obj_keys. induction o as [|[k' v'] o IH]; simpl.
  - intros _. by case_decide.
  - intros [Hne Hnin]%not_elem_of_cons. case_decide; [done|]. simpl.
    case_decide; [done|]. by rewrite IH.
Qed.

(** ** Well-formedness *)

Lemma obj_empty_wf : obj_wf obj_empty.
Proof. apply NoDup_nil_2. Qed.

Lemma obj_set_wf o k v : obj_wf o → obj_wf (obj_set o k v).
Proof.
  unfold obj_wf. intros Hnd. destruct (decide (k ∈ obj_keys o)).
  - by rewrite obj_keys_set_old.
  - rewrite obj_keys_set_new by done. apply NoDup_app. split_and!; [done| |].
    + intros k' Hk' ->%list_elem_of_singleton. done.
    + apply NoDup_singleton.
Qed.

Lemma obj_delete_wf o k : obj_wf o → obj_wf (obj_delete o k).
Proof. unfold obj_wf. rewrite obj_keys_delete. apply NoDup_filter. Qed.

(** ** Refinement of finite maps *)

Lemma obj_to_map_lookup o k : obj_to_map o !! k = obj_get o k.
Proof.
  unfold obj_to_map. induction o as [|[k' v'] o IH]; simpl; [done|].
  case_decide; subst; [apply lookup_insert_eq | by rewrite lookup_insert_ne].
Qed.

Lemma obj_to_map_set o k v : obj_to_map (obj_set o k v) = <[k:=v]> (obj_to_map o).
Proof.
  apply map_eq. intros k'. rewrite obj_to_map_lookup.
  destruct (decide (k = k')) as [->|Hne].
  - by rewrite obj_get_set_eq, lookup_insert_eq.
  - by rewrite obj_get_set_ne, lookup_insert_ne, obj_to_map_lookup.
Qed.

Lemma obj_to_map_delete o k : obj_to_map (obj_delete o k) = delete k (obj_to_map o).
Proof.
  apply map_eq. intros k'. rewrite obj_to_map_lookup.
  destruct (decide (k = k')) as [->|Hne].
  - by rewrite obj_get_delete_eq, lookup_delete_eq.
  - by rewrite obj_get_delete_ne, lookup_delete_ne, obj_to_map_lookup.
Qed.

Lemma obj_to_map_dom o : dom (obj_to_map o) = list_to_set (obj_keys o).
Proof.
  apply set_eq. intros k.
  rewrite elem_of_dom, obj_to_map_lookup, obj_get_is_Some, elem_of_list_to_set.
  done.
Qed.

(** ** Enumeration *)

Lemma obj_values_elem_of o v : v ∈ obj_values o ↔ ∃ k, (k, v) ∈ o.
Proof.
  unfold obj_values. rewrite list_elem_of_fmap. split.
  - intros [[k v'] [-> Hin]]. by exists k.
  - intros [k Hin]. by exists (k, v).
Qed.

Lemma obj_values_get o v :
  obj_wf o → v ∈ obj_values o ↔ ∃ k, obj_get o k = Some v.
Proof.
  intros Hwf. rewrite obj_values_elem_of. split; intros [k Hk]; exists k.
  - by apply obj_elem_of_get.
  - by apply obj_get_Some_elem_of.
Qed.

End obj.

#[export] Hint Rewrite @obj_get_set_eq @obj_get_delete_eq : js.
#[export] Hint Resolve obj_empty_wf obj_set_wf obj_delete_wf : js.
