(* ===== verification/GeoJson.v ===== *)
(** * GeoJson: the values the client reads from vector payloads

    A vector layer arrives as a GeoJSON feature collection
    ([/api/vector_layer/<file>]).  The client reads, of each feature, the
    geometry type and the attribute values ([properties]), tests attributes for
    truthiness, converts them to strings and compares them.  This file gives
    the data types shared by the style engine, the registry and the attribute
    filter:
    - [jsval]: an attribute value (null, boolean, integer number or string;
      the rendering of non-integer numbers is not modelled);
    - [feature], [geojson]: a feature and a parsed payload;
    - [truthy], [to_string]: JavaScript's [Boolean(v)] and [String(v)];
    - [prop]: [f.properties[name]], [undefined] when the name is absent. *)

From Stdlib Require Import Ascii String ZArith.
From stdpp Require Import base option list strings pretty.
From S2P Require Import Prelude JsString JsObject.

Inductive jsval : Type :=
| JUndefined
| JNull
| JBool (b : bool)
| JNum (n : Z)
| JStr (s : string).

#[export] Instance jsval_eq_dec : EqDecision jsval.
Proof. solve_decision. Defined.

(** [Boolean(v)] *)
Definition truthy (v : jsval) : bool :=
  match v with
  | JUndefined | JNull => false
  | JBool b => b
  | JNum n => negb (n =? 0)%Z
  | JStr s => negb (String.eqb s "")
  end.

(** [String(v)] *)
Definition to_string (v : jsval) : string :=
  match v with
  | JUndefined => "undefined"
  | JNull => "null"
  | JBool true => "true"
  | JBool false => "false"
  | JNum n => pretty n
  | JStr s => s
  end.

(** A feature: its geometry ([null] allowed by the format) with the geometry's
    [type], and its attribute object ([null] allowed). *)
Record feature : Type := Feature {
  geometry : option string;
  properties : option (obj jsval);
}.

(** A parsed response body: [{error: ...}] or [{features: [...]}]; a body
    without [features] has [features = None]. *)
Record geojson : Type := GeoJson {
  gj_error : option string;
  features : option (list feature);
}.

(** [props[name]] on an attribute object. *)
Definition prop (props : obj jsval) (name : string) : jsval :=
  default JUndefined (obj_get props name).

(** [f.properties?.[name]] *)
Definition feature_prop (f : feature) (name : string) : jsval :=
  match properties f with
  | Some props => prop props name
  | None => JUndefined
  end.

(** [f.properties._uniqueId] of a feature whose attributes were tagged. *)
Definition unique_id (f : feature) : jsval := feature_prop f "_uniqueId".

Lemma truthy_JStr s : truthy (JStr s) = true ↔ s ≠ "".
Proof. simpl. by rewrite negb_true_iff, String.eqb_neq. Qed.

Lemma prop_set_eq props name v : prop (obj_set props name v) name = v.
Proof. unfold prop. by rewrite obj_get_set_eq. Qed.

Lemma prop_set_ne props name name' v :
  name ≠ name' → prop (obj_set props name v) name' = prop props name'.
Proof. intros. unfold prop. by rewrite obj_get_set_ne. Qed.
