(* ===== verification/MapEngine.v ===== *)
(** * MapEngine: the contract of the map the client draws on

    Every page of the client keeps its layers on a MapLibre map.  The map is a
    library outside this repository; what the client relies on is its style
    state: a set of named sources, a list of layers in drawing order, each
    layer naming its source, and the terrain source.  This file is the model of
    that contract, written from the behaviour the handlers' guards assume:
    - [addSource] throws when the id is taken; [removeSource] throws when the
      id is unknown and refuses (error event, no change) while a layer uses
      the source;
    - [addLayer] refuses (error event, no change) a taken id, an unknown
      source and an unknown [before] layer; otherwise the layer is inserted
      just below [before], or on top;
    - [removeLayer], [setFilter], [setLayoutProperty], [setPaintProperty]
      refuse an unknown layer;
    - [setStyle] replaces everything by the layers of the new basemap.
    [style_wf] is the map's own invariant (ids unique, every layer's source
    present); every operation preserves it.  The lemmas are the frame and
    round-trip facts the handlers' theorems are proved from. *)

From Stdlib Require Import Ascii String ZArith QArith.
From stdpp Require Import base option list strings.
From S2P Require Import Prelude JsString JsObject GeoJson.

(** ** Layers, sources, filters *)

Inductive layer_type : Type :=
| LtFill | LtLine | LtCircle | LtSymbol | LtRaster | LtHillshade
| LtFillExtrusion | LtCustom.

#[export] Instance layer_type_eq_dec : EqDecision layer_type.
Proof. solve_decision. Defined.

#[export] Instance Q_eq_dec : EqDecision Q.
Proof. solve_decision. Defined.

(** A data-driven colour: a constant, or
    [["match", ["get", field], v1, c1, ..., default]]. *)
Inductive color_expr : Type :=
| ColorConst (c : string)
| ColorMatch (field : string) (cases : list (jsval * string)) (dflt : string).

#[export] Instance color_expr_eq_dec : EqDecision color_expr.
Proof. solve_decision. Defined.

(** A paint or layout property value. *)
Inductive pval : Type :=
| PNum (q : Q)
| PStr (s : string)
| PBool (b : bool)
| PColor (e : color_expr)
| PToNumber (field : string) (dflt : Q)
| PGet (field : string)
| PNums (l : list Q)
| PStrs (l : list string)
| PCase (field : string) (threshold : Q) (c1 c2 : string).

#[export] Instance pval_eq_dec : EqDecision pval.
Proof. solve_decision. Defined.

(** A layer filter: none, [["in", ["get", name], ["literal", ids]]], or
    [["==", name, v]]. *)
Inductive layer_filter : Type :=
| FilterNone
| FilterIn (name : string) (ids : list jsval)
| FilterEq (name : string) (v : jsval).

#[export] Instance layer_filter_eq_dec : EqDecision layer_filter.
Proof. solve_decision. Defined.

Definition eval_filter (flt : layer_filter) (f : feature) : bool :=
  match flt with
  | FilterNone => true
  | FilterIn name ids => bool_decide (feature_prop f name ∈ ids)
  | FilterEq name v => bool_decide (feature_prop f name = v)
  end.

Record layer : Type := Layer {
  lyr_id : string;
  lyr_type : layer_type;
  lyr_source : option string;
  lyr_minzoom : option Z;
  lyr_maxzoom : option Z;
  lyr_layout : obj pval;
  lyr_paint : obj pval;
  lyr_filter : layer_filter;
}.

Inductive source_spec : Type :=
| SrcGeojson (data : list feature)
| SrcRaster (tiles : string) (tileSize : Z)
| SrcRasterDem (tiles : string) (tileSize maxzoom : Z) (encoding : string).

Record style : Type := Style {
  sources : obj source_spec;
  layers : list layer;
  terrain : option (string * Q);
}.

Definition set_sources (f : obj source_spec → obj source_spec) (m : style) : style :=
  {| sources := f (sources m); layers := layers m; terrain := terrain m |}.

Definition set_layers (f : list layer → list layer) (m : style) : style :=
  {| sources := sources m; layers := f (layers m); terrain := terrain m |}.

Definition set_terrain (t : option (string * Q)) (m : style) : style :=
  {| sources := sources m; layers := layers m; terrain := t |}.

Definition set_lyr_filter (flt : layer_filter) (l : layer) : layer :=
  {| lyr_id := lyr_id l; lyr_type := lyr_type l; lyr_source := lyr_source l;
     lyr_minzoom := lyr_minzoom l; lyr_maxzoom := lyr_maxzoom l;
     lyr_layout := lyr_layout l; lyr_paint := lyr_paint l; lyr_filter := flt |}.

Definition set_lyr_layout (name : string) (v : pval) (l : layer) : layer :=
  {| lyr_id := lyr_id l; lyr_type := lyr_type l; lyr_source := lyr_source l;
     lyr_minzoom := lyr_minzoom l; lyr_maxzoom := lyr_maxzoom l;
     lyr_layout := obj_set (lyr_layout l) name v; lyr_paint := lyr_paint l;
     lyr_filter := lyr_filter l |}.

Definition set_lyr_paint (name : string) (v : pval) (l : layer) : layer :=
  {| lyr_id := lyr_id l; lyr_type := lyr_type l; lyr_source := lyr_source l;
     lyr_minzoom := lyr_minzoom l; lyr_maxzoom := lyr_maxzoom l;
     lyr_layout := lyr_layout l; lyr_paint := obj_set (lyr_paint l) name v;
     lyr_filter := lyr_filter l |}.

(** ** Queries *)

Definition getSource (m : style) (id : string) : option source_spec :=
  obj_get (sources m) id.

Definition getLayer (m : style) (id : string) : option layer :=
  List.find (λ l, bool_decide (lyr_id l = id)) (layers m).

Definition hasSource (m : style) (id : string) : bool :=
  bool_decide (is_Some (getSource m id)).

Definition hasLayer (m : style) (id : string) : bool :=
  bool_decide (is_Some (getLayer m id)).

Definition layer_ids (m : style) : list string := lyr_id <$> layers m.

(** The layers drawn from a source. *)
Definition layers_using (m : style) (src : string) : list layer :=
  filter (λ l, lyr_source l = Some src) (layers m).

Definition getTerrain (m : style) : option (string * Q) := terrain m.

(** [map.getStyle().layers.find(l => l.type === "symbol")?.id || null] *)
Definition first_symbol_id (m : style) : option string :=
  lyr_id <$> List.find (λ l, bool_decide (lyr_type l = LtSymbol)) (layers m).

(** ** Operations *)

(** [map.addSource(id, spec)]: [None] is the thrown
    ["Source already exists"]. *)
Definition addSource (id : string) (spec : source_spec) (m : style) : option style :=
  if hasSource m id then None
  else Some (set_sources (λ ss, obj_set ss id spec) m).

Fixpoint insert_before (b : string) (l : layer) (ls : list layer) : list layer :=
  match ls with
  | [] => []
  | x :: ls' =>
    if decide (lyr_id x = b) then l :: x :: ls' else x :: insert_before b l ls'
  end.

(** Whether [map.addLayer(l, before)] is accepted. *)
Definition addLayer_ok (l : layer) (before : option string) (m : style) : bool :=
  negb (hasLayer m (lyr_id l))
  && match lyr_source l with
     | Some src => hasSource m src
     | None => bool_decide (lyr_type l = LtCustom)
     end
  && match before with
     | Some b => hasLayer m b
     | None => true
     end.

(** [map.addLayer(l, before)] *)
Definition addLayer (l : layer) (before : option string) (m : style) : style :=
  if addLayer_ok l before m then
    match before with
    | Some b => set_layers (insert_before b l) m
    | None => set_layers (λ ls, ls ++ [l]) m
    end
  else m.

(** [map.removeLayer(id)] *)
Definition removeLayer (id : string) (m : style) : style :=
  set_layers (filter (λ l, lyr_id l ≠ id)) m.

(** [map.removeSource(id)]: [None] is the thrown
    ["There is no source with this ID"]; a source in use stays. *)
Definition removeSource (id : string) (m : style) : option style :=
  if hasSource m id then
    match layers_using m id with
    | [] => Some (set_sources (λ ss, obj_delete ss id) m)
    | _ :: _ => Some m
    end
  else None.

Definition update_layer (id : string) (f : layer → layer) (m : style) : style :=
  set_layers (fmap (λ l, if decide (lyr_id l = id) then f l else l)) m.

(** [map.setFilter(id, flt)] *)
Definition setFilter (id : string) (flt : layer_filter) (m : style) : style :=
  update_layer id (set_lyr_filter flt) m.

(** [map.setLayoutProperty(id, name, v)] *)
Definition setLayoutProperty (id name : string) (v : pval) (m : style) : style :=
  update_layer id (set_lyr_layout name v) m.

(** [map.setPaintProperty(id, name, v)] *)
Definition setPaintProperty (id name : string) (v : pval) (m : style) : style :=
  update_layer id (set_lyr_paint name v) m.

(** [map.setTerrain(t)]: [None] is the throw for an unknown source. *)
Definition setTerrain (t : option (string * Q)) (m : style) : option style :=
  match t with
  | None => Some (set_terrain None m)
  | Some (src, ex) =>
    if hasSource m src then Some (set_terrain t m) else None
  end.

(** [source.setData(data)] on the GeoJSON source [id]. *)
Definition setData (id : string) (data : list feature) (m : style) : style :=
  match getSource m id with
  | Some (SrcGeojson _) => set_sources (λ ss, obj_set ss id (SrcGeojson data)) m
  | _ => m
  end.

(** [removeSource] behind the guard [if (map.getSource(id))]: nothing happens
    on an unknown id. *)
Definition dropSource (id : string) (m : style) : style :=
  default m (removeSource id m).

(** [ls.forEach(l => map.addLayer(l, before))] *)
Definition add_layers (before : option string) (ls : list layer) (m : style) : style :=
  fold_left (λ m l, addLayer l before m) ls m.

(** [ids.forEach(id => map.getLayer(id) && map.removeLayer(id))] *)
Definition remove_layers (ids : list string) (m : style) : style :=
  fold_left (λ m id, removeLayer id m) ids m.

(** [ids.forEach(id => { if (map.getLayer(id)) map.setFilter(id, flt) })] *)
Definition set_filters (ids : list string) (flt : layer_filter) (m : style) : style :=
  fold_left (λ m id, setFilter id flt m) ids m.

(** [map.setStyle(url)] once loaded: the basemap's own sources and layers. *)
Definition setStyle (base : style) (m : style) : style := base.

(** The features a layer shows: those of its source that pass its filter. *)
Definition shown_features (m : style) (id : string) : list feature :=
  match getLayer m id with
  | Some l =>
    match lyr_source l ≫= getSource m with
    | Some (SrcGeojson data) => List.filter (eval_filter (lyr_filter l)) data
    | _ => []
    end
  | None => []
  end.

(** ** The map's invariant *)

Record style_wf (m : style) : Prop := StyleWf {
  wf_sources : obj_wf (sources m);
  wf_layer_ids : NoDup (layer_ids m);
  wf_layer_source : ∀ l src,
    l ∈ layers m → lyr_source l = Some src → is_Some (getSource m src);
}.

(** ** Lemmas: queries *)

Lemma getLayer_Some m id l : getLayer m id = Some l → lyr_id l = id ∧ l ∈ layers m.
Proof.
  unfold getLayer. intros H. split.
  - apply find_some in H as [_ H]. by apply bool_decide_eq_true in H.
  - apply find_some in H as [H _]. by apply list_elem_of_In.
Qed.

Lemma getLayer_None m id : getLayer m id = None ↔ id ∉ layer_ids m.
Proof.
  unfold getLayer, layer_ids. induction (layers m) as [|x ls IH]; simpl.
  - split; [intros _ H; by apply elem_of_nil in H | done].
  - rewrite not_elem_of_cons, <-IH. case_bool_decide as E.
    + split; [done | intros [? _]; congruence].
    + split; [intros ?; split; [congruence | done] | tauto].
Qed.

Lemma hasLayer_true m id : hasLayer m id = true ↔ id ∈ layer_ids m.
Proof.
  unfold hasLayer. rewrite bool_decide_eq_true, <-not_eq_None_Some, getLayer_None.
  destruct (decide (id ∈ layer_ids m)); tauto.
Qed.

Lemma hasLayer_false m id : hasLayer m id = false ↔ id ∉ layer_ids m.
Proof. rewrite <-not_true_iff_false, hasLayer_true. done. Qed.

Lemma hasLayer_getLayer m id : hasLayer m id = false ↔ getLayer m id = None.
Proof. by rewrite hasLayer_false, getLayer_None. Qed.

Lemma hasSource_true m id : hasSource m id = true ↔ is_Some (getSource m id).
Proof. unfold hasSource. apply bool_decide_eq_true. Qed.

Lemma hasSource_false m id : hasSource m id = false ↔ getSource m id = None.
Proof.
  unfold hasSource. rewrite bool_decide_eq_false, eq_None_not_Some. done.
Qed.

(** A layer found in a map with unique ids is the layer of that id. *)
Lemma getLayer_elem_of m l :
  NoDup (layer_ids m) → l ∈ layers m → getLayer m (lyr_id l) = Some l.
Proof.
  unfold getLayer, layer_ids. induction (layers m) as [|x ls IH]; simpl.
  - intros _ H. by apply elem_of_nil in H.
  - intros [Hx Hnd]%NoDup_cons [->|Hin]%elem_of_cons.
    + by rewrite bool_decide_eq_true_2.
    + case_bool_decide as E; [|auto]. destruct Hx. rewrite E.
      apply list_elem_of_fmap. by exists l.
Qed.

(** ** Lemmas: sources *)

Lemma addSource_Some id spec m :
  getSource m id = None →
  addSource id spec m = Some (set_sources (λ ss, obj_set ss id spec) m).
Proof. intros H%hasSource_false. unfold addSource. by rewrite H. Qed.

Lemma addSource_None id spec m :
  is_Some (getSource m id) → addSource id spec m = None.
Proof. intros H%hasSource_true. unfold addSource. by rewrite H. Qed.

Lemma addSource_inv id spec m m' :
  addSource id spec m = Some m' →
  getSource m id = None ∧ m' = set_sources (λ ss, obj_set ss id spec) m.
Proof.
  unfold addSource. destruct (hasSource m id) eqn:E; [done|].
  intros [= <-]. by apply hasSource_false in E.
Qed.

Lemma removeSource_unused id m :
  is_Some (getSource m id) → layers_using m id = [] →
  removeSource id m = Some (set_sources (λ ss, obj_delete ss id) m).
Proof.
  intros H%hasSource_true Hu. unfold removeSource. by rewrite H, Hu.
Qed.

Lemma getSource_set_sources_set m id spec id' :
  getSource (set_sources (λ ss, obj_set ss id spec) m) id' =
  if decide (id = id') then Some spec else getSource m id'.
Proof.
  unfold getSource. simpl. case_decide; subst.
  - apply obj_get_set_eq.
  - by apply obj_get_set_ne.
Qed.

Lemma getSource_set_sources_delete m id id' :
  getSource (set_sources (λ ss, obj_delete ss id) m) id' =
  if decide (id = id') then None else getSource m id'.
Proof.
  unfold getSource. simpl. case_decide; subst.
  - apply obj_get_delete_eq.
  - by apply obj_get_delete_ne.
Qed.

(** Removing the source that was just added to a map without it restores
    the map. *)
Lemma set_sources_delete_set m id spec :
  getSource m id = None →
  set_sources (λ ss, obj_delete ss id) (set_sources (λ ss, obj_set ss id spec) m) = m.
Proof.
  intros H. destruct m as [ss ls t]. unfold set_sources. simpl. f_equal.
  apply obj_delete_set_new. by apply obj_get_None.
Qed.

(** ** Lemmas: layers *)

Lemma insert_before_ids b l ls :
  b ∈ lyr_id <$> ls →
  ∃ ls1 ls2, ls = ls1 ++ ls2 ∧ insert_before b l ls = ls1 ++ l :: ls2.
Proof.
  induction ls as [|x ls IH]; simpl.
  - intros H. by apply elem_of_nil in H.
  - intros Hin. case_decide as E.
    + by exists [], (x :: ls).
    + apply elem_of_cons in Hin as [?|Hin]; [congruence|].
      destruct (IH Hin) as (ls1 & ls2 & -> & ->).
      by exists (x :: ls1), ls2.
Qed.

Lemma filter_insert_before b l ls :
  b ∈ lyr_id <$> ls → lyr_id l ∉ lyr_id <$> ls →
  filter (λ x, lyr_id x ≠ lyr_id l) (insert_before b l ls) = ls.
Proof.
  intros Hb Hl. destruct (insert_before_ids b l ls Hb) as (ls1 & ls2 & -> & ->).
  rewrite filter_app, filter_cons, decide_False by (by intros ?).
  rewrite <-filter_app. apply filter_all, Forall_forall. intros x Hx E.
  apply Hl. rewrite <-E. apply list_elem_of_fmap. by exists x.
Qed.

Lemma filter_snoc_fresh l (ls : list layer) :
  lyr_id l ∉ lyr_id <$> ls →
  filter (λ x, lyr_id x ≠ lyr_id l) (ls ++ [l]) = ls.
Proof.
  intros Hl. rewrite filter_app, filter_cons, decide_False by (by intros ?).
  rewrite filter_nil, app_nil_r. apply filter_all, Forall_forall. intros x Hx E.
  apply Hl. rewrite <-E. apply list_elem_of_fmap. by exists x.
Qed.

Lemma sources_addLayer l b m : sources (addLayer l b m) = sources m.
Proof. unfold addLayer. by destruct (addLayer_ok l b m), b. Qed.

Lemma terrain_addLayer l b m : terrain (addLayer l b m) = terrain m.
Proof. unfold addLayer. by destruct (addLayer_ok l b m), b. Qed.

Lemma getSource_addLayer l b m id : getSource (addLayer l b m) id = getSource m id.
Proof. unfold getSource. by rewrite sources_addLayer. Qed.

Lemma getSource_removeLayer id m id' : getSource (removeLayer id m) id' = getSource m id'.
Proof. done. Qed.

Lemma getSource_update_layer id f m id' :
  getSource (update_layer id f m) id' = getSource m id'.
Proof. done. Qed.

Lemma hasSource_addLayer l b m id : hasSource (addLayer l b m) id = hasSource m id.
Proof. unfold hasSource. by rewrite getSource_addLayer. Qed.

(** A refused layer changes nothing. *)
Lemma addLayer_refused l b m : addLayer_ok l b m = false → addLayer l b m = m.
Proof. intros H. unfold addLayer. by rewrite H. Qed.

Lemma layer_ids_addLayer l b m :
  addLayer_ok l b m = true →
  ∃ ls1 ls2, layers m = ls1 ++ ls2 ∧ layers (addLayer l b m) = ls1 ++ l :: ls2.
Proof.
  intros Hok. unfold addLayer. rewrite Hok.
  apply andb_true_iff in Hok as [_ Hb]. destruct b as [b|]; simpl.
  - apply insert_before_ids. by apply hasLayer_true.
  - exists (layers m), []. by rewrite app_nil_r.
Qed.

Lemma elem_of_layers_addLayer l b m x :
  x ∈ layers (addLayer l b m) ↔
  x ∈ layers m ∨ (addLayer_ok l b m = true ∧ x = l).
Proof.
  destruct (addLayer_ok l b m) eqn:Hok.
  - destruct (layer_ids_addLayer l b m Hok) as (ls1 & ls2 & -> & ->).
    rewrite !elem_of_app, elem_of_cons. naive_solver.
  - rewrite addLayer_refused by done. naive_solver.
Qed.

Lemma getLayer_addLayer_eq l b m :
  addLayer_ok l b m = true → getLayer (addLayer l b m) (lyr_id l) = Some l.
Proof.
  intros Hok. destruct (layer_ids_addLayer l b m Hok) as (ls1 & ls2 & Hm & Hm').
  unfold getLayer. rewrite Hm'.
  apply andb_true_iff in Hok as [[Hfresh _]%andb_true_iff _].
  apply negb_true_iff, hasLayer_false in Hfresh. unfold layer_ids in Hfresh.
  rewrite Hm, fmap_app, not_elem_of_app in Hfresh. destruct Hfresh as [H1 _].
  rewrite find_app_r; [simpl; by rewrite bool_decide_eq_true_2|].
  apply Forall_forall. intros x Hx. apply bool_decide_eq_false. intros E.
  apply H1. rewrite <-E. apply list_elem_of_fmap. by exists x.
Qed.

Lemma getLayer_addLayer_ne l b m id :
  id ≠ lyr_id l → getLayer (addLayer l b m) id = getLayer m id.
Proof.
  intros Hne. destruct (addLayer_ok l b m) eqn:Hok;
    [|by rewrite addLayer_refused].
  destruct (layer_ids_addLayer l b m Hok) as (ls1 & ls2 & Hm & Hm').
  unfold getLayer. rewrite Hm, Hm'. clear Hm Hm'.
  induction ls1 as [|x ls1 IH]; simpl.
  - by rewrite bool_decide_eq_false_2 by congruence.
  - by rewrite IH.
Qed.

Lemma hasLayer_addLayer l b m id :
  hasLayer (addLayer l b m) id =
  hasLayer m id || (addLayer_ok l b m && bool_decide (id = lyr_id l)).
Proof.
  destruct (decide (id = lyr_id l)) as [->|Hne].
  - rewrite (bool_decide_eq_true_2 (_ = _)), andb_true_r by done.
    destruct (addLayer_ok l b m) eqn:Hok.
    + unfold hasLayer at 1. rewrite (getLayer_addLayer_eq l b m Hok).
      rewrite bool_decide_eq_true_2 by eauto. by rewrite orb_true_r.
    + by rewrite addLayer_refused, orb_false_r.
  - rewrite (bool_decide_eq_false_2 (_ = _)), andb_false_r, orb_false_r by done.
    unfold hasLayer. by rewrite getLayer_addLayer_ne.
Qed.

Lemma getLayer_removeLayer_eq id m : getLayer (removeLayer id m) id = None.
Proof.
  apply getLayer_None. unfold layer_ids, removeLayer. simpl.
  intros (x & -> & [Hx _]%list_elem_of_filter)%list_elem_of_fmap. done.
Qed.

Lemma getLayer_removeLayer_ne id m id' :
  id ≠ id' → getLayer (removeLayer id m) id' = getLayer m id'.
Proof.
  intros Hne. unfold getLayer, removeLayer. simpl.
  induction (layers m) as [|x ls IH]; [done|].
  destruct (decide (lyr_id x = id)) as [E|E].
  - rewrite filter_cons_False by (by intros ?). simpl.
    by rewrite bool_decide_eq_false_2 by congruence.
  - rewrite filter_cons_True by done. simpl. by rewrite IH.
Qed.

Lemma hasLayer_removeLayer id m id' :
  hasLayer (removeLayer id m) id' = hasLayer m id' && bool_decide (id ≠ id').
Proof.
  destruct (decide (id = id')) as [->|Hne].
  - rewrite (bool_decide_eq_false_2 (_ ≠ _)), andb_false_r by (by intros ?).
    unfold hasLayer. rewrite getLayer_removeLayer_eq.
    apply bool_decide_eq_false. by intros [? ?].
  - rewrite (bool_decide_eq_true_2 (_ ≠ _)), andb_true_r by done.
    unfold hasLayer. by rewrite getLayer_removeLayer_ne.
Qed.

(** Removing an absent layer changes nothing. *)
Lemma removeLayer_absent id m : getLayer m id = None → removeLayer id m = m.
Proof.
  intros H%getLayer_None. destruct m as [ss ls t].
  unfold removeLayer, set_layers, layer_ids in *. simpl in *. f_equal.
  apply filter_all, Forall_forall. intros x Hx E. apply H.
  rewrite <-E. apply list_elem_of_fmap. by exists x.
Qed.

(** Adding a layer of a fresh id and removing it restores the map, whether
    or not the layer was accepted. *)
Lemma removeLayer_addLayer l b m :
  getLayer m (lyr_id l) = None → removeLayer (lyr_id l) (addLayer l b m) = m.
Proof.
  intros Hfresh. destruct (addLayer_ok l b m) eqn:Hok;
    [|rewrite addLayer_refused by done; by apply removeLayer_absent].
  apply getLayer_None in Hfresh. unfold addLayer. rewrite Hok.
  apply andb_true_iff in Hok as [_ Hb].
  destruct m as [ss ls t], b as [b|]; unfold removeLayer, set_layers; simpl;
    f_equal.
  - apply filter_insert_before; [by apply hasLayer_true in Hb | done].
  - by apply filter_snoc_fresh.
Qed.

Lemma layers_using_removeLayer id m src :
  layers_using (removeLayer id m) src =
  filter (λ l, lyr_id l ≠ id) (layers_using m src).
Proof. unfold layers_using, removeLayer. simpl. apply filter_comm. Qed.

(** ** Lemmas: groups of layers *)

Lemma dropSource_absent id m : hasSource m id = false → dropSource id m = m.
Proof. intros H. unfold dropSource, removeSource. by rewrite H. Qed.

Lemma removeSource_present id m :
  hasSource m id = true → removeSource id m = Some (dropSource id m).
Proof.
  intros H. unfold dropSource, removeSource. rewrite H.
  by destruct (layers_using m id).
Qed.

Lemma dropSource_unused id m :
  layers_using m id = [] → dropSource id m = set_sources (λ ss, obj_delete ss id) m.
Proof.
  intros Hu. unfold dropSource, removeSource. rewrite Hu.
  destruct (hasSource m id) eqn:Hs; simpl; [done|].
  apply hasSource_false, obj_get_None in Hs. destruct m as [ss ls t].
  unfold set_sources. simpl in *. by rewrite obj_delete_absent.
Qed.

(** Removing a group of layers keeps exactly the layers outside it. *)
Lemma remove_layers_filter ids m :
  remove_layers ids m = set_layers (filter (λ l, lyr_id l ∉ ids)) m.
Proof.
  unfold remove_layers. revert m. induction ids as [|id ids IH]; intros m; simpl.
  - destruct m as [ss ls t]. unfold set_layers. simpl. f_equal.
    symmetry. apply filter_all, Forall_forall. intros l _. apply not_elem_of_nil.
  - rewrite IH. unfold removeLayer, set_layers. simpl. f_equal.
    rewrite list_filter_filter. apply list_filter_iff. intros l.
    rewrite not_elem_of_cons. tauto.
Qed.

Lemma removeLayer_remove_layers id m : removeLayer id m = remove_layers [id] m.
Proof. done. Qed.

Lemma remove_layers_app ids1 ids2 m :
  remove_layers (ids1 ++ ids2) m = remove_layers ids2 (remove_layers ids1 m).
Proof. apply fold_left_app. Qed.

(** Adding a layer does not change the layers a predicate selects, when the
    predicate rejects the layer. *)
Lemma filter_layers_addLayer (P : layer → Prop) `{∀ l, Decision (P l)} l b m :
  ¬ P l → filter P (layers (addLayer l b m)) = filter P (layers m).
Proof.
  intros HP. destruct (addLayer_ok l b m) eqn:Hok; [|by rewrite addLayer_refused].
  destruct (layer_ids_addLayer l b m Hok) as (ls1 & ls2 & -> & ->).
  by rewrite !filter_app, filter_cons_False.
Qed.

Lemma filter_layers_add_layers (P : layer → Prop) `{∀ l, Decision (P l)} b ls m :
  Forall (λ l, ¬ P l) ls →
  filter P (layers (add_layers b ls m)) = filter P (layers m).
Proof.
  unfold add_layers. intros Hls. revert m.
  induction Hls as [|l ls Hl Hls IH]; intros m; simpl; [done|].
  by rewrite IH, filter_layers_addLayer.
Qed.

Lemma sources_add_layers b ls m : sources (add_layers b ls m) = sources m.
Proof.
  unfold add_layers. revert m. induction ls as [|l ls IH]; intros m; simpl; [done|].
  by rewrite IH, sources_addLayer.
Qed.

Lemma terrain_add_layers b ls m : terrain (add_layers b ls m) = terrain m.
Proof.
  unfold add_layers. revert m. induction ls as [|l ls IH]; intros m; simpl; [done|].
  by rewrite IH, terrain_addLayer.
Qed.

(** A map whose every layer has its source draws nothing from a source it
    does not have. *)
Lemma layers_using_absent m src :
  style_wf m → getSource m src = None → layers_using m src = [].
Proof.
  intros Hwf Hs. apply filter_none, Forall_forall. intros l Hl Hsrc.
  destruct (wf_layer_source m Hwf l src Hl Hsrc) as [? ?]. congruence.
Qed.

(** ** Lemmas: filters *)

Lemma sources_update_layer id f m : sources (update_layer id f m) = sources m.
Proof. done. Qed.

Lemma getLayer_setFilter id flt m id' :
  getLayer (setFilter id flt m) id' =
  (λ l, if decide (id = id') then set_lyr_filter flt l else l) <$> getLayer m id'.
Proof.
  unfold getLayer, setFilter, update_layer. simpl.
  induction (layers m) as [|x ls IH]; [done|]. simpl.
  destruct (decide (lyr_id x = id)) as [<-|Hx]; simpl;
    destruct (decide (lyr_id x = id')) as [<-|Hx'];
    rewrite ?bool_decide_eq_true_2, ?bool_decide_eq_false_2 by done; simpl;
    rewrite ?decide_True, ?decide_False by done; done.
Qed.

(** Setting the filter of a layer the map does not have changes nothing. *)
Lemma setFilter_absent id flt m : getLayer m id = None → setFilter id flt m = m.
Proof.
  intros H%getLayer_None. destruct m as [ss ls t].
  unfold setFilter, update_layer, set_layers, layer_ids in *. simpl in *. f_equal.
  induction ls as [|x ls IH]; [done|]. simpl.
  apply not_elem_of_cons in H as [Hx Hls]. rewrite decide_False by done.
  f_equal. by apply IH.
Qed.

Lemma sources_set_filters ids flt m : sources (set_filters ids flt m) = sources m.
Proof.
  unfold set_filters. revert m. induction ids as [|id ids IH]; intros m; [done|].
  simpl. by rewrite IH.
Qed.

(** After the filters of a group of layers were set, a layer of the group
    has the filter, and any other layer is as before. *)
Lemma getLayer_set_filters ids flt m id :
  getLayer (set_filters ids flt m) id =
  (λ l, if decide (id ∈ ids) then set_lyr_filter flt l else l) <$> getLayer m id.
Proof.
  unfold set_filters. revert m. induction ids as [|id' ids IH]; intros m; simpl.
  - by destruct (getLayer m id).
  - rewrite IH, getLayer_setFilter. destruct (getLayer m id) as [l|]; [|done].
    simpl. f_equal.
    destruct (decide (id' = id)) as [->|Hne], (decide (id ∈ ids)) as [Hin|Hnin];
      rewrite ?decide_True, ?decide_False
        by (rewrite ?elem_of_cons, ?not_elem_of_cons; naive_solver); done.
Qed.

(** The features a layer shows once its filter was set with its group. *)
Lemma shown_features_set_filters ids flt m id :
  id ∈ ids →
  shown_features (set_filters ids flt m) id =
  match getLayer m id with
  | Some l =>
    match lyr_source l ≫= getSource m with
    | Some (SrcGeojson data) => List.filter (eval_filter flt) data
    | _ => []
    end
  | None => []
  end.
Proof.
  intros Hin. unfold shown_features. rewrite getLayer_set_filters.
  destruct (getLayer m id) as [l|]; [|done]. simpl. rewrite decide_True by done.
  simpl. unfold getSource. by rewrite sources_set_filters.
Qed.

Lemma getSource_set_terrain t m id : getSource (set_terrain t m) id = getSource m id.
Proof. done. Qed.

Lemma hasSource_setData id data m id' :
  hasSource (setData id data m) id' = hasSource m id'.
Proof.
  unfold setData. destruct (getSource m id) as [[]|] eqn:Hg; try done.
  unfold hasSource. rewrite getSource_set_sources_set. case_decide; [|done].
  subst. by rewrite Hg.
Qed.

(** ** Lemmas: every operation keeps the map's invariant *)

Lemma addSource_wf id spec m m' : style_wf m → addSource id spec m = Some m' → style_wf m'.
Proof.
  intros [Hs Hi Hl] [_ ->]%addSource_inv. split; [by apply obj_set_wf|done|].
  intros l src Hin Hsrc. rewrite getSource_set_sources_set.
  case_decide; [done|]. by eapply Hl.
Qed.

Lemma addLayer_wf l b m : style_wf m → style_wf (addLayer l b m).
Proof.
  intros Hwf. destruct (addLayer_ok l b m) eqn:Hok;
    [|by rewrite addLayer_refused]. destruct Hwf as [Hs Hi Hl]. split.
  - by rewrite sources_addLayer.
  - destruct (layer_ids_addLayer l b m Hok) as (ls1 & ls2 & H1 & H2).
    unfold layer_ids in *. rewrite H2. rewrite H1 in Hi.
    rewrite fmap_app in *. rewrite fmap_cons. apply NoDup_app in Hi as (? & ? & ?).
    assert (lyr_id l ∉ lyr_id <$> layers m) as Hfresh.
    { apply hasLayer_false. unfold addLayer_ok in Hok.
      by destruct (hasLayer m (lyr_id l)). }
    rewrite H1, fmap_app, elem_of_app in Hfresh.
    apply NoDup_app. split_and!; [done| |apply NoDup_cons; tauto].
    intros x Hx [->|Hx']%elem_of_cons; [tauto|by eapply H0].
  - intros x src [Hin|[_ ->]]%elem_of_layers_addLayer Hsrc;
      rewrite getSource_addLayer; [by eapply Hl|].
    apply hasSource_true. unfold addLayer_ok in Hok. rewrite Hsrc in Hok.
    by destruct (hasLayer m (lyr_id l)), (hasSource m src).
Qed.

Lemma set_layers_filter_wf (P : layer → Prop) `{∀ l, Decision (P l)} m :
  style_wf m → style_wf (set_layers (filter P) m).
Proof.
  intros [Hs Hi Hl]. split; [done| |].
  - unfold layer_ids in *. simpl. clear Hl. induction (layers m) as [|x ls IH]; [done|].
    rewrite fmap_cons in Hi. apply NoDup_cons in Hi as [Hx Hi].
    rewrite filter_cons. case_decide; [|by apply IH].
    rewrite fmap_cons. apply NoDup_cons. split; [|by apply IH].
    intros (y & Hy & Hin%list_elem_of_filter)%list_elem_of_fmap.
    apply Hx, list_elem_of_fmap. exists y. tauto.
  - intros l src [_ Hin]%list_elem_of_filter Hsrc. by eapply Hl.
Qed.

Lemma removeLayer_wf id m : style_wf m → style_wf (removeLayer id m).
Proof. apply set_layers_filter_wf; apply _. Qed.

Lemma removeSource_wf id m m' : style_wf m → removeSource id m = Some m' → style_wf m'.
Proof.
  unfold removeSource. intros Hwf. destruct (hasSource m id); [|done].
  destruct (layers_using m id) eqn:Huse; intros [= <-]; [|done].
  destruct Hwf as [Hs Hi Hl]. split; [by apply obj_delete_wf|done|].
  intros l src Hin Hsrc. rewrite getSource_set_sources_delete.
  case_decide as Heq; [|by eapply Hl]. subst src.
  assert (l ∈ layers_using m id) as Hl' by (by apply list_elem_of_filter).
  rewrite Huse in Hl'. by apply elem_of_nil in Hl'.
Qed.

Lemma dropSource_wf id m : style_wf m → style_wf (dropSource id m).
Proof.
  intros Hwf. unfold dropSource. destruct (removeSource id m) eqn:H; [|done].
  by eapply removeSource_wf.
Qed.

Lemma update_layer_wf id f m :
  (∀ l, lyr_id (f l) = lyr_id l ∧ lyr_source (f l) = lyr_source l) →
  style_wf m → style_wf (update_layer id f m).
Proof.
  intros Hf [Hs Hi Hl]. split; [done| |].
  - unfold layer_ids in *. simpl. rewrite <- list_fmap_compose.
    erewrite list_fmap_ext; [exact Hi|]. intros i l _. simpl.
    case_decide; [apply Hf|done].
  - intros l src (x & -> & Hin)%list_elem_of_fmap Hsrc.
    rewrite getSource_update_layer. apply (Hl x); [done|].
    case_decide; [by rewrite <- (proj2 (Hf x))|done].
Qed.

Lemma setFilter_wf id flt m : style_wf m → style_wf (setFilter id flt m).
Proof. by apply update_layer_wf. Qed.

Lemma setLayoutProperty_wf id name v m :
  style_wf m → style_wf (setLayoutProperty id name v m).
Proof. by apply update_layer_wf. Qed.

Lemma setPaintProperty_wf id name v m :
  style_wf m → style_wf (setPaintProperty id name v m).
Proof. by apply update_layer_wf. Qed.

Lemma setTerrain_wf t m m' : style_wf m → setTerrain t m = Some m' → style_wf m'.
Proof.
  intros [Hs Hi Hl]. unfold setTerrain. destruct t as [[src ex]|];
    [destruct (hasSource m src)|]; intros [= <-]; by split.
Qed.

Lemma setData_wf id data m : style_wf m → style_wf (setData id data m).
Proof.
  intros Hwf. unfold setData. destruct (getSource m id) as [[]|] eqn:Hsrc; try done.
  destruct Hwf as [Hs Hi Hl]. split; [by apply obj_set_wf|done|].
  intros l src Hin Hl'. rewrite getSource_set_sources_set.
  case_decide; [done|]. by eapply Hl.
Qed.

Lemma add_layers_wf b ls m : style_wf m → style_wf (add_layers b ls m).
Proof.
  unfold add_layers. revert m. induction ls as [|l ls IH]; intros m Hwf; [done|].
  simpl. by apply IH, addLayer_wf.
Qed.

Lemma remove_layers_wf ids m : style_wf m → style_wf (remove_layers ids m).
Proof. rewrite remove_layers_filter. apply set_layers_filter_wf; apply _. Qed.

Lemma set_filters_wf ids flt m : style_wf m → style_wf (set_filters ids flt m).
Proof.
  unfold set_filters. revert m. induction ids as [|id ids IH]; intros m Hwf; [done|].
  simpl. by apply IH, setFilter_wf.
Qed.

#[export] Hint Resolve addLayer_wf removeLayer_wf dropSource_wf setFilter_wf
  setLayoutProperty_wf setPaintProperty_wf setData_wf add_layers_wf remove_layers_wf
  set_filters_wf : js.
