(* ===== verification/Dom.v ===== *)
(** * Dom: the layer lists of the page

    [populateLayerList] (layer-handlers.js) renders each layer the server
    offers as an [<input>] (a radio button for elevation models, a checkbox
    for vector and raster layers) whose [value] is the layer id and whose
    [dataset.layerInfo] is the layer's description as JSON.  The handlers read
    [checked], [value] and the parsed description, write [checked] back on
    failure, and find inputs again by value ([querySelector]) when the basemap
    changes.  This file models those inputs:
    - [layerInfo]: the parsed description (absent [bands] is 0, absent
      [stats] is the empty list; numbers of [stats] are carried as their text);
    - [input]: one rendered input;
    - [query_value]: [list.querySelector('input[value="v"]')], the first input
      with that value;
    - [populateLayerList]: the inputs rendered for a list of layers. *)

From Stdlib Require Import Ascii String ZArith.
From stdpp Require Import base option list strings.
From S2P Require Import Prelude JsString.

Record layerInfo : Type := LayerInfo {
  li_id : string;
  li_name : string;
  li_bands : Z;
  li_stats : list (string * string);
  li_colormap : option string;
}.

#[export] Instance layerInfo_eq_dec : EqDecision layerInfo.
Proof. solve_decision. Defined.

(** The selected band of each of the three band selectors of a multi-band
    raster ([controls-<id>]): [select.value] for R, G and B. *)
Record band_controls : Type := BandControls {
  bc_shown : bool;
  bc_r : Z;
  bc_g : Z;
  bc_b : Z;
}.

#[export] Instance band_controls_eq_dec : EqDecision band_controls.
Proof. solve_decision. Defined.

Record input : Type := Input {
  in_value : string;
  in_checked : bool;
  in_info : layerInfo;
  in_controls : option band_controls;
}.

#[export] Instance input_eq_dec : EqDecision input.
Proof. solve_decision. Defined.

Definition set_checked (b : bool) (i : input) : input :=
  {| in_value := in_value i; in_checked := b; in_info := in_info i;
     in_controls := in_controls i |}.

Definition set_controls (c : option band_controls) (i : input) : input :=
  {| in_value := in_value i; in_checked := in_checked i; in_info := in_info i;
     in_controls := c |}.

(** [list.querySelector('input[value="v"]')]: the index of the first input
    whose value is [v]. *)
Fixpoint query_value (l : list input) (v : string) : option nat :=
  match l with
  | [] => None
  | i :: l' =>
    if decide (in_value i = v) then Some 0
    else S <$> query_value l' v
  end.

(** [Math.min(index, layer.bands - 1)]: the band a selector starts on
    (bands are numbered from 1, [selectedIndex] from 0). *)
Definition initial_band (index bands : Z) : Z := Z.min index (bands - 1) + 1.

(** The band selectors [populateLayerList] renders for a raster of more
    than one band: hidden, each on the band [Math.min(index, bands - 1)]. *)
Definition render_controls (layer : layerInfo) : band_controls :=
  {| bc_shown := false;
     bc_r := initial_band 0 (li_bands layer);
     bc_g := initial_band 1 (li_bands layer);
     bc_b := initial_band 2 (li_bands layer) |}.

(** The input [populateLayerList] renders for one layer: unchecked; a raster
    checkbox of more than one band gets its three band selectors.  The
    listeners the function wires are the handlers of Layers, called with the
    input; the "Simulate" button of an elevation model opens another page
    and is not part of the input. *)
Definition render_input (type name : string) (layer : layerInfo) : input :=
  {| in_value := li_id layer;
     in_checked := false;
     in_info := layer;
     in_controls :=
       if decide (type = "checkbox" ∧ name = "raster-layer") then
         if (1 <? li_bands layer)%Z then Some (render_controls layer) else None
       else None |}.

(** [populateLayerList(container, layers, type, name, handlerName)]: the
    container is emptied and one input per layer is appended; the note
    shown for an empty list is not an input. *)
Definition populateLayerList (layers : list layerInfo) (type name : string) :
    list input :=
  render_input type name <$> layers.

(** ** Lemmas *)

Lemma query_value_Some l v n :
  query_value l v = Some n →
  ∃ i, l !! n = Some i ∧ in_value i = v ∧
       ∀ k j, k < n → l !! k = Some j → in_value j ≠ v.
Proof.
  revert n. induction l as [|i l IH]; intros n; simpl; [done|].
  case_decide as E.
  - intros [= <-]. exists i. split_and!; [done..|]. intros k j Hk. lia.
  - destruct (query_value l v) as [n'|] eqn:Hq; [|done]. intros [= <-].
    destruct (IH n' eq_refl) as (i' & Hi' & Hv & Hfirst).
    exists i'. split_and!; [done..|]. intros [|k] j Hk; simpl.
    + by intros [= <-].
    + apply Hfirst. lia.
Qed.

Lemma query_value_None l v :
  query_value l v = None ↔ v ∉ in_value <$> l.
Proof.
  induction l as [|i l IH]; simpl.
  - split; [intros _ H; by apply elem_of_nil in H | done].
  - rewrite not_elem_of_cons, <-IH. case_decide as E.
    + split; [done | intros [? _]; congruence].
    + destruct (query_value l v); simpl; split; try done. by intros [_ ?].
Qed.

Lemma query_value_lt l v n : query_value l v = Some n → n < length l.
Proof.
  intros (i & Hi & _)%query_value_Some. by eapply lookup_lt_Some.
Qed.

(** Every rendered input is unchecked and carries its layer's id. *)
Lemma populateLayerList_lookup layers type name n i :
  populateLayerList layers type name !! n = Some i →
  ∃ layer, layers !! n = Some layer ∧ in_value i = li_id layer ∧
           in_checked i = false ∧ in_info i = layer.
Proof.
  unfold populateLayerList. rewrite list_lookup_fmap.
  destruct (layers !! n) as [layer|]; [|done]. intros [= <-]. by exists layer.
Qed.

Lemma populateLayerList_length layers type name :
  length (populateLayerList layers type name) = length layers.
Proof. apply length_fmap. Qed.

(** A selector of a layer with [bands] bands starts on one of its bands. *)
Lemma initial_band_range index bands :
  (0 ≤ index)%Z → (1 ≤ bands)%Z →
  (1 ≤ initial_band index bands ≤ bands)%Z.
Proof. unfold initial_band. lia. Qed.
