(* ===== verification/Style.v ===== *)
(** * Style: the classification engine of vector layers

    [generateVectorStyle] (layer-handlers.js) turns a GeoJSON payload into the
    layers to draw and the legend's classification table:
    - [KEYWORD_COLORS], [keyword_color]: the fixed colour of the first
      keyword, in the table's order, contained in a lower-cased name;
    - [getRandomColor]: the colour of a name without keyword, drawn from
      [Math.random] (the state [rng] is the stream of future draws);
    - [generateVectorStyle]: the classification field is the first of
      [potentialFields] with a truthy value in the first feature; its distinct
      truthy values get a colour each, in order of first occurrence; the
      geometry type of the first feature selects the layers.
    The theorems give the shape of the result on every branch: which layers,
    with which ids, and which table. *)

From Stdlib Require Import Ascii String ZArith QArith Qround.
From stdpp Require Import base option list strings.
From S2P Require Import Prelude JsString JsObject GeoJson MapEngine Dom.

(** ** Colours *)

Definition KEYWORD_COLORS : obj string :=
  [ ("builtup", "#d73027"); ("building", "#d73027"); ("water", "#1297f6ff");
    ("waterbody", "#1297f6ff"); ("river", "#1297f6ff"); ("tank", "#1297f6ff");
    ("tributaries", "#1297f6ff"); ("tributary", "#096d86ff");
    ("tanks", "#4575b4"); ("stream", "#4575b4"); ("checkdam", "#4C688A");
    ("Basin", "#9e9ac8"); ("impplaces", "#9E097D"); ("tea", "#66a61e");
    ("forest", "#1b7837"); ("grassland", "#a6d96a"); ("plantation", "#1b7837");
    ("vegetation", "#1b7837"); ("road", "#bababa"); ("estate", "#9e9ac8");
    ("boundary", "#fee08b"); ("contour", "#fc8d59"); ("wood", "#966F33");
    ("bark", "#966F33"); ("stump", "#966F33") ].

(** [Object.keys(KEYWORD_COLORS).find(k => s.includes(k))] *)
Definition color_key (s : string) : option string :=
  List.find (λ k, includes s k) (obj_keys KEYWORD_COLORS).

(** [colorKey ? KEYWORD_COLORS[colorKey] : undefined] *)
Definition keyword_color (s : string) : option string :=
  color_key s ≫= obj_get KEYWORD_COLORS.

(** The stream of values [Math.random()] will return. *)
Definition rng : Type := nat → Q.

Definition Math_random : js rng Q := λ r, (Ok (r O), λ n, r (S n)).

(** [`#${Math.floor(Math.random()*16777215).toString(16).padStart(6, '0')}`] *)
Definition getRandomColor : js rng string :=
  x ← Math_random;
  mret ("#" +:+ padStart 6 "0" (to_hex (Z.to_N (Qfloor (x * 16777215))))).

(** [colorKey ? KEYWORD_COLORS[colorKey] : getRandomColor()] *)
Definition color_of_name (s : string) : js rng string :=
  match keyword_color s with
  | Some c => mret c
  | None => getRandomColor
  end.

(** ** The style of a payload *)

Record vector_style : Type := VectorStyle {
  vs_layers : list layer;
  vs_classification : obj string;
  vs_classField : option string;
}.

Definition potentialFields : list string :=
  ["Name"; "name"; "LULC"; "Layer"; "layer"; "TYPE"; "type"; "CLASS"; "class";
   "CATEGORY"; "category"; "VILGNAME1"].

Definition heightFields : list string :=
  ["LOD"; "height"; "Height"; "HEIGHT"; "relh"; "building_h"].

(** [f.properties[name]], a [TypeError] on a feature without attributes. *)
Definition read_prop {S} (name : string) (f : feature) : js S jsval :=
  match properties f with
  | Some props => mret (prop props name)
  | None => js_throw "TypeError: Cannot read properties of null"
  end.

(** The body of [uniqueValues.forEach]: one more entry of the table and one
    more case of the match expression. *)
Definition classify_value (acc : obj string * list (jsval * string)) (value : jsval) :
    js rng (obj string * list (jsval * string)) :=
  color ← color_of_name (toLowerCase (to_string value));
  mret (obj_set acc.1 (to_string value) color, acc.2 ++ [(value, color)]).

(** The [if (classField)] branch: the table and the colour expression. *)
Definition classify_by_field (classField : string) (fs : list feature) :
    js rng (obj string * color_expr) :=
  values ← js_map (read_prop classField) fs;
  let uniqueValues := set_of_list (List.filter truthy values) in
  acc ← js_fold classify_value uniqueValues ([], []);
  dflt ← getRandomColor;
  mret (acc.1, ColorMatch classField acc.2 dflt).

(** The [else] branch: one colour for the layer, listed under its display
    name. *)
Definition classify_single (vectorList : list input) (filename : string) :
    js rng (obj string * color_expr) :=
  baseColor ← color_of_name (toLowerCase filename);
  let displayName :=
    match query_value vectorList filename ≫= (vectorList !!.) with
    | Some i => li_name (in_info i)
    | None => filename
    end in
  mret ([(displayName, baseColor)], ColorConst baseColor).

Definition mk_layer (id : string) (src : string) (ty : layer_type)
    (minzoom maxzoom : option Z) (paint : obj pval) : layer :=
  {| lyr_id := id; lyr_type := ty; lyr_source := Some src;
     lyr_minzoom := minzoom; lyr_maxzoom := maxzoom;
     lyr_layout := []; lyr_paint := paint; lyr_filter := FilterNone |}.

(** The two layers of a building footprint with a height attribute [hf]:
    extruded from zoom 15, flat below. *)
Definition extrusion_layers (layerIdPrefix sourceId hf : string)
    (colorExpression : color_expr) : list layer :=
  [ mk_layer (layerIdPrefix +:+ "-extrusion") sourceId LtFillExtrusion
      (Some 15%Z) None
      [ ("fill-extrusion-color", PColor colorExpression);
        ("fill-extrusion-opacity", PNum (17 # 20));
        ("fill-extrusion-base", PNum 0);
        ("fill-extrusion-height", PToNumber hf 10) ];
    mk_layer (layerIdPrefix +:+ "-fill-lod") sourceId LtFill None (Some 15%Z)
      [ ("fill-color", PColor colorExpression);
        ("fill-opacity", PNum (7 # 10)) ] ].

(** The fill and the outline of any other polygon layer; a boundary layer is
    nearly transparent with a heavier outline. *)
Definition polygon_layers (layerIdPrefix sourceId layerNameLower : string)
    (colorExpression : color_expr) : list layer :=
  let isBoundary := includes layerNameLower "boundary" in
  [ mk_layer (layerIdPrefix +:+ "-fill") sourceId LtFill None None
      [ ("fill-color", PColor colorExpression);
        ("fill-opacity", PNum (if isBoundary then 1 # 10 else 7 # 10)) ];
    mk_layer (layerIdPrefix +:+ "-line") sourceId LtLine None None
      [ ("line-color", PColor colorExpression);
        ("line-width", PNum (if isBoundary then 5 # 2 else 3 # 2));
        ("line-opacity", PNum (9 # 10)) ] ].

(** [heightField && (layerNameLower.includes("builtup") ||
    layerNameLower.includes("building"))] *)
Definition extrusion_field (layerNameLower : string) (f0 : feature) : option string :=
  hf ← List.find (λ f, truthy (feature_prop f0 f)) heightFields;
  if includes layerNameLower "builtup" || includes layerNameLower "building"
  then Some hf else None.

(** The layers of a geometry type. *)
Definition style_layers (layerIdPrefix sourceId layerNameLower geomType : string)
    (f0 : feature) (colorExpression : color_expr) : list layer :=
  if includes geomType "Polygon" then
    match extrusion_field layerNameLower f0 with
    | Some hf => extrusion_layers layerIdPrefix sourceId hf colorExpression
    | None => polygon_layers layerIdPrefix sourceId layerNameLower colorExpression
    end
  else if includes geomType "LineString" then
    [ mk_layer (layerIdPrefix +:+ "-line") sourceId LtLine None None
        [ ("line-color", PColor colorExpression);
          ("line-width", PNum (5 # 2));
          ("line-opacity", PNum (4 # 5)) ] ]
  else if includes geomType "Point" then
    [ mk_layer (layerIdPrefix +:+ "-point") sourceId LtCircle None None
        [ ("circle-color", PColor colorExpression);
          ("circle-radius", PNum 5);
          ("circle-stroke-color", PStr "white");
          ("circle-stroke-width", PNum 1);
          ("circle-opacity", PNum (9 # 10)) ] ]
  else [].

(** [generateVectorStyle(layerIdPrefix, sourceId, geojson, filename)] on the
    features of the payload. *)
Definition generateVectorStyle (vectorList : list input)
    (layerIdPrefix sourceId : string) (fs : list feature) (filename : string) :
    js rng vector_style :=
  let layerNameLower := toLowerCase filename in
  match fs with
  | [] => mret (VectorStyle [] [] None)
  | f0 :: _ =>
    match geometry f0 with
    | None => js_throw "TypeError: Cannot read properties of null"
    | Some geomType =>
      if String.eqb geomType "" then mret (VectorStyle [] [] None)
      else
        let classField := List.find (λ f, truthy (feature_prop f0 f)) potentialFields in
        '(classification, colorExpression) ←
          match classField with
          | Some cf => classify_by_field cf fs
          | None => classify_single vectorList filename
          end;
        mret (VectorStyle
                (style_layers layerIdPrefix sourceId layerNameLower geomType f0
                   colorExpression)
                classification classField)
    end
  end.

(** The suffixes [generateVectorStyle] appends to the layer key. *)
Definition geom_suffixes : list string :=
  ["-extrusion"; "-fill-lod"; "-fill"; "-line"; "-point"].

(** What every generated layer satisfies: drawn from the source, unfiltered,
    named by the layer key and one of the suffixes. *)
Definition styled (layerIdPrefix sourceId : string) (l : layer) : Prop :=
  lyr_source l = Some sourceId ∧ lyr_filter l = FilterNone ∧
  ∃ suf, suf ∈ geom_suffixes ∧ lyr_id l = layerIdPrefix +:+ suf.

(** ** Lemmas: colours *)

Ltac case_includes :=
  repeat match goal with
         | |- context [if includes ?s ?k then _ else _] =>
           destruct (includes s k) eqn:?; try congruence
         end.

(** The keys [waterbody] and [tanks] can never be selected: a name that
    contains one contains the earlier key [water] or [tank]. *)
Lemma color_key_shadowed s k : k ∈ ["waterbody"; "tanks"] → color_key s ≠ Some k.
Proof.
  intros Hk H. apply find_Some_elem_of in H as H'. destruct H' as [_ Hin].
  revert H. unfold color_key. simpl.
  apply elem_of_cons in Hk as [->| ->%list_elem_of_singleton].
  - apply (includes_app_l s "water" "body") in Hin. case_includes.
  - apply (includes_app_l s "tank" "s") in Hin. case_includes.
Qed.

(** The key [Basin] can never be selected for a lower-cased name. *)
Lemma color_key_Basin s : color_key (toLowerCase s) ≠ Some "Basin".
Proof.
  intros [_ Hin]%find_Some_elem_of.
  by rewrite toLowerCase_includes_upper in Hin.
Qed.

Lemma Math_random_total : js_total Math_random.
Proof. by intros r. Qed.

Lemma getRandomColor_total : js_total getRandomColor.
Proof. by intros r. Qed.

Lemma color_of_name_total s : js_total (color_of_name s).
Proof. unfold color_of_name. destruct (keyword_color s); by intros r. Qed.

#[export] Hint Resolve Math_random_total getRandomColor_total
  color_of_name_total : js.

(** ** Lemmas: layers *)

Lemma style_layers_styled p src low g f0 ce l :
  l ∈ style_layers p src low g f0 ce → styled p src l.
Proof.
  unfold style_layers, extrusion_layers, polygon_layers, styled, geom_suffixes.
  repeat case_match; intros Hl;
    repeat (apply elem_of_cons in Hl as [->|Hl]); try (by apply elem_of_nil in Hl);
    (split_and!; [done..|]); eexists; (split; [|done]);
    repeat first [apply list_elem_of_here | apply list_elem_of_further].
Qed.

Lemma style_layers_NoDup p src low g f0 ce :
  NoDup (lyr_id <$> style_layers p src low g f0 ce).
Proof.
  unfold style_layers, extrusion_layers, polygon_layers.
  repeat case_match; simpl; repeat constructor;
    rewrite ?not_elem_of_cons; try apply not_elem_of_nil;
    split; try apply not_elem_of_nil; by intros ?%append_inj_l.
Qed.

(** No layer is generated exactly when the geometry type is none of the
    three families. *)
Lemma style_layers_nil p src low g f0 ce :
  style_layers p src low g f0 ce = [] ↔
  includes g "Polygon" = false ∧ includes g "LineString" = false ∧
  includes g "Point" = false.
Proof.
  unfold style_layers, extrusion_layers, polygon_layers.
  repeat case_match; split; (try done); intros (?&?&?); congruence.
Qed.

(** ** Lemmas: [generateVectorStyle] *)

Lemma read_prop_total {S} name f :
  is_Some (properties f) → js_total (S:=S) (read_prop name f).
Proof. intros [props Hp]. unfold read_prop. rewrite Hp. by intros s. Qed.

Lemma classify_by_field_total cf fs :
  Forall (λ f, is_Some (properties f)) fs → js_total (classify_by_field cf fs).
Proof.
  intros Hfs. unfold classify_by_field, classify_value.
  apply js_total_bind; [|eauto 10 with js].
  apply js_total_map. intros f Hf. apply read_prop_total.
  by eapply Forall_forall in Hfs.
Qed.

Lemma classify_single_total vl fn : js_total (classify_single vl fn).
Proof. unfold classify_single. eauto with js. Qed.

(** The layers of a returned style are those of the first feature's geometry
    type. *)
Lemma generateVectorStyle_layers vl p src fs fn r vs r' :
  generateVectorStyle vl p src fs fn r = (Ok vs, r') →
  vs_layers vs = [] ∨
  ∃ f0 g ce, head fs = Some f0 ∧ geometry f0 = Some g ∧
             vs_layers vs = style_layers p src (toLowerCase fn) g f0 ce.
Proof.
  unfold generateVectorStyle. destruct fs as [|f0 fs]; [intros [= <- _]; by left|].
  destruct (geometry f0) as [g|] eqn:Hg; [|done].
  destruct (String.eqb g ""); [intros [= <- _]; by left|].
  intros ([cl ce] & r1 & Hc & [= <- _])%js_bind_Ok_inv. right. by exists f0, g, ce.
Qed.

Lemma generateVectorStyle_styled vl p src fs fn r vs r' :
  generateVectorStyle vl p src fs fn r = (Ok vs, r') →
  Forall (styled p src) (vs_layers vs) ∧ NoDup (lyr_id <$> vs_layers vs).
Proof.
  intros [->|(f0 & g & ce & _ & _ & ->)]%generateVectorStyle_layers.
  - split; constructor.
  - split; [|apply style_layers_NoDup].
    apply Forall_forall. intros l. apply style_layers_styled.
Qed.

(** A payload whose first feature has no geometry makes the function throw,
    before any colour is drawn. *)
Lemma generateVectorStyle_null_geometry vl p src f0 fs fn r :
  geometry f0 = None →
  generateVectorStyle vl p src (f0 :: fs) fn r =
    (Throw "TypeError: Cannot read properties of null", r).
Proof. intros Hg. unfold generateVectorStyle. by rewrite Hg. Qed.

(** On features that all carry attributes, the first with a geometry, the
    function returns. *)
Lemma generateVectorStyle_total vl p src fs fn :
  (∀ f0, head fs = Some f0 → is_Some (geometry f0)) →
  Forall (λ f, is_Some (properties f)) fs →
  js_total (generateVectorStyle vl p src fs fn).
Proof.
  intros Hgeom Hprops. unfold generateVectorStyle.
  destruct fs as [|f0 fs]; [by intros r|].
  destruct (Hgeom f0 eq_refl) as [g ->]. destruct (String.eqb g ""); [by intros r|].
  apply js_total_bind; [|intros [cl ce]; by intros r].
  case_match; auto using classify_by_field_total, classify_single_total.
Qed.

(** ** Theorems *)

(** C15: three entries of [KEYWORD_COLORS] are dead.  The key is searched in
    the lower-cased name in the order of the table, so [Basin] (a capital
    letter) never matches, and [waterbody] and [tanks] are always preceded
    by [water] and [tank]. *)
Theorem keyword_colors_dead s :
  color_key (toLowerCase s) ∉ [Some "Basin"; Some "waterbody"; Some "tanks"].
Proof.
  intros [H|[H|H%list_elem_of_singleton]%elem_of_cons]%elem_of_cons.
  - by apply color_key_Basin in H.
  - revert H. apply color_key_shadowed. apply list_elem_of_here.
  - revert H. apply color_key_shadowed. apply list_elem_of_further, list_elem_of_here.
Qed.

(** C16: on features that all carry attributes, the first of them with a
    geometry, [generateVectorStyle] returns, every layer of the style draws
    the layer's source under an id made of the layer's prefix and a known
    suffix, and no two layers share an id. *)
Theorem generateVectorStyle_wf vl p src fs fn r :
  (∀ f0, head fs = Some f0 → is_Some (geometry f0)) →
  Forall (λ f, is_Some (properties f)) fs →
  ∃ vs r', generateVectorStyle vl p src fs fn r = (Ok vs, r') ∧
    Forall (styled p src) (vs_layers vs) ∧ NoDup (lyr_id <$> vs_layers vs).
Proof.
  intros Hg Hp.
  destruct (js_total_run _ r (generateVectorStyle_total vl p src fs fn Hg Hp))
    as [vs Hrun].
  exists vs, (js_exec (generateVectorStyle vl p src fs fn) r).
  split; [exact Hrun|]. by eapply generateVectorStyle_styled.
Qed.

(** A lake, drawn as a polygon. *)
Definition lake : list feature :=
  [ {| geometry := Some "Polygon"; properties := Some [("name", JStr "Periyar")] |} ].

Lemma generateVectorStyle_wf_witness :
  ∃ vs r', generateVectorStyle [] "vector_lake_geojson" "vector_lake_geojson-source"
             lake "lake.geojson" (λ _, 0%Q) = (Ok vs, r') ∧
    Forall (styled "vector_lake_geojson" "vector_lake_geojson-source") (vs_layers vs) ∧
    NoDup (lyr_id <$> vs_layers vs).
Proof.
  apply (generateVectorStyle_wf [] "vector_lake_geojson" "vector_lake_geojson-source"
           lake "lake.geojson" (λ _, 0%Q)).
  - intros f0 [= <-]. by eexists.
  - repeat constructor. by eexists.
Defined.
