(* ===== verification/Page.v ===== *)
(** * Page: the shared state of the map page

    main.js owns what every module of the map page reads and writes: the
    object [state] (the current elevation model, the registry [activeLayers],
    the tool flags and their points, the highlighted feature), the table [dom]
    of page elements, the map and [firstSymbolId].  This file models them as
    one record [page], the state of the handler monad:
    - [app_state]: the object [state] ([filteredLayers] is the property ui.js
      adds to it on first use);
    - [active_layer]: an entry of the registry, a vector descriptor or the
      description of a raster or analysis layer;
    - [dom]: the page elements the handlers read or write;
    - [page]: [state], [dom], the map's style, [firstSymbolId], the values
      [Math.random] will return, the timers set and not yet run, the requests
      sent without waiting for the answer, the alerts shown;
    - [showLoader], [hideLoader], [set_timeout], [alert]: the helpers every
      handler uses. *)

From Stdlib Require Import Ascii String ZArith QArith.
From stdpp Require Import base option list strings.
From S2P Require Import Prelude JsString JsObject GeoJson MapEngine Dom Style.

(** ** The object [state] *)

Record dem_ref : Type := DemRef {
  dem_id : string;
  dem_name : string;
  dem_source : string;
}.

(** The descriptor [handleVectorToggle] stores for an active vector layer. *)
Record vector_info : Type := VectorInfo {
  vi_classification : obj string;
  vi_classField : option string;
  vi_sourceId : string;
  vi_filename : string;
  vi_geojson : list feature;
  vi_layerIds : list string;
  vi_displayName : string;
}.

(** An entry of [state.activeLayers]: [type === "vector"] with the fields
    above, or the server's description of a raster or analysis layer. *)
Inductive active_layer : Type :=
| AlVector (v : vector_info)
| AlRaster (info : layerInfo).

Definition as_vector (l : active_layer) : option vector_info :=
  match l with AlVector v => Some v | AlRaster _ => None end.

Definition lnglat : Type := Q * Q.

Record app_state : Type := AppState {
  currentDEM : option dem_ref;
  activeLayers : obj active_layer;
  isMeasuring : bool;
  isProfiling : bool;
  measurePoints : list (lnglat * Q);
  profilePoints : list lnglat;
  highlightedFeature : option string * option jsval;
  filteredLayers : option (list string);
}.

(** [state] as main.js creates it. *)
Definition initial_state : app_state :=
  {| currentDEM := None; activeLayers := []; isMeasuring := false;
     isProfiling := false; measurePoints := []; profilePoints := [];
     highlightedFeature := (None, None); filteredLayers := None |}.

Definition set_currentDEM (d : option dem_ref) (s : app_state) : app_state :=
  {| currentDEM := d; activeLayers := activeLayers s;
     isMeasuring := isMeasuring s; isProfiling := isProfiling s;
     measurePoints := measurePoints s; profilePoints := profilePoints s;
     highlightedFeature := highlightedFeature s;
     filteredLayers := filteredLayers s |}.

Definition upd_activeLayers (f : obj active_layer → obj active_layer)
    (s : app_state) : app_state :=
  {| currentDEM := currentDEM s; activeLayers := f (activeLayers s);
     isMeasuring := isMeasuring s; isProfiling := isProfiling s;
     measurePoints := measurePoints s; profilePoints := profilePoints s;
     highlightedFeature := highlightedFeature s;
     filteredLayers := filteredLayers s |}.

Definition set_highlightedFeature (h : option string * option jsval)
    (s : app_state) : app_state :=
  {| currentDEM := currentDEM s; activeLayers := activeLayers s;
     isMeasuring := isMeasuring s; isProfiling := isProfiling s;
     measurePoints := measurePoints s; profilePoints := profilePoints s;
     highlightedFeature := h; filteredLayers := filteredLayers s |}.

(** The flags and the points of the two drawing tools, set together. *)
Definition set_tools (measuring profiling : bool) (mpts : list (lnglat * Q))
    (ppts : list lnglat) (s : app_state) : app_state :=
  {| currentDEM := currentDEM s; activeLayers := activeLayers s;
     isMeasuring := measuring; isProfiling := profiling;
     measurePoints := mpts; profilePoints := ppts;
     highlightedFeature := highlightedFeature s;
     filteredLayers := filteredLayers s |}.

Definition set_filteredLayers (fl : option (list string)) (s : app_state) :
    app_state :=
  {| currentDEM := currentDEM s; activeLayers := activeLayers s;
     isMeasuring := isMeasuring s; isProfiling := isProfiling s;
     measurePoints := measurePoints s; profilePoints := profilePoints s;
     highlightedFeature := highlightedFeature s; filteredLayers := fl |}.

(** ** The page elements *)

(** A [<select>]: its options (text and value) and the selected index. *)
Record select : Type := Select {
  sel_options : list (string * string);
  sel_index : option nat;
  sel_disabled : bool;
}.

(** [select.value]: the value of the selected option, or the empty string. *)
Definition sel_value (s : select) : string :=
  default "" (i ← sel_index s; snd <$> sel_options s !! i).

(** [select.value = v]: the first option with that value is selected; none
    when no option has it. *)
Definition sel_set_value (v : string) (s : select) : select :=
  {| sel_options := sel_options s;
     sel_index := fst <$> list_find (λ o, o.2 = v) (sel_options s);
     sel_disabled := sel_disabled s |}.

(** [select.add(new Option(text, value))]: the first option added to an empty
    select becomes the selected one. *)
Definition sel_add (text value : string) (s : select) : select :=
  {| sel_options := sel_options s ++ [(text, value)];
     sel_index := match sel_options s with [] => Some O | _ => sel_index s end;
     sel_disabled := sel_disabled s |}.

(** [select.innerHTML = ''] *)
Definition sel_clear (s : select) : select :=
  {| sel_options := []; sel_index := None; sel_disabled := sel_disabled s |}.

Definition sel_set_disabled (b : bool) (s : select) : select :=
  {| sel_options := sel_options s; sel_index := sel_index s; sel_disabled := b |}.

(** The four lists of layer inputs. *)
Inductive list_id : Type := DemList | VectorList | RasterList | AnalysisLayerList.

#[export] Instance list_id_eq_dec : EqDecision list_id.
Proof. solve_decision. Defined.

(** The legend: per layer title, the categories in view with their colour. *)
Definition legend : Type := list (string * list (string * string)).

Record dom : Type := Dom {
  demList : list input;
  vectorList : list input;
  rasterList : list input;
  analysisLayerList : list input;
  loaderText : string;
  loadingOverlay : bool;
  labelLayerSelect : select;
  labelFieldSelect : select;
  legendContent : legend;
  legendContainer : bool;
  attributePanel : bool;
}.

Definition get_list (which : list_id) (d : dom) : list input :=
  match which with
  | DemList => demList d
  | VectorList => vectorList d
  | RasterList => rasterList d
  | AnalysisLayerList => analysisLayerList d
  end.

Definition upd_list (which : list_id) (f : list input → list input) (d : dom) : dom :=
  {| demList := if decide (which = DemList) then f (demList d) else demList d;
     vectorList := if decide (which = VectorList) then f (vectorList d) else vectorList d;
     rasterList := if decide (which = RasterList) then f (rasterList d) else rasterList d;
     analysisLayerList :=
       if decide (which = AnalysisLayerList) then f (analysisLayerList d)
       else analysisLayerList d;
     loaderText := loaderText d; loadingOverlay := loadingOverlay d;
     labelLayerSelect := labelLayerSelect d; labelFieldSelect := labelFieldSelect d;
     legendContent := legendContent d; legendContainer := legendContainer d;
     attributePanel := attributePanel d |}.

Definition set_loader (text : string) (shown : bool) (d : dom) : dom :=
  {| demList := demList d; vectorList := vectorList d; rasterList := rasterList d;
     analysisLayerList := analysisLayerList d;
     loaderText := text; loadingOverlay := shown;
     labelLayerSelect := labelLayerSelect d; labelFieldSelect := labelFieldSelect d;
     legendContent := legendContent d; legendContainer := legendContainer d;
     attributePanel := attributePanel d |}.

Definition upd_labelLayerSelect (f : select → select) (d : dom) : dom :=
  {| demList := demList d; vectorList := vectorList d; rasterList := rasterList d;
     analysisLayerList := analysisLayerList d;
     loaderText := loaderText d; loadingOverlay := loadingOverlay d;
     labelLayerSelect := f (labelLayerSelect d); labelFieldSelect := labelFieldSelect d;
     legendContent := legendContent d; legendContainer := legendContainer d;
     attributePanel := attributePanel d |}.

Definition upd_labelFieldSelect (f : select → select) (d : dom) : dom :=
  {| demList := demList d; vectorList := vectorList d; rasterList := rasterList d;
     analysisLayerList := analysisLayerList d;
     loaderText := loaderText d; loadingOverlay := loadingOverlay d;
     labelLayerSelect := labelLayerSelect d; labelFieldSelect := f (labelFieldSelect d);
     legendContent := legendContent d; legendContainer := legendContainer d;
     attributePanel := attributePanel d |}.

Definition set_legend (content : legend) (shown : bool) (d : dom) : dom :=
  {| demList := demList d; vectorList := vectorList d; rasterList := rasterList d;
     analysisLayerList := analysisLayerList d;
     loaderText := loaderText d; loadingOverlay := loadingOverlay d;
     labelLayerSelect := labelLayerSelect d; labelFieldSelect := labelFieldSelect d;
     legendContent := content; legendContainer := shown;
     attributePanel := attributePanel d |}.

Definition set_attributePanel (shown : bool) (d : dom) : dom :=
  {| demList := demList d; vectorList := vectorList d; rasterList := rasterList d;
     analysisLayerList := analysisLayerList d;
     loaderText := loaderText d; loadingOverlay := loadingOverlay d;
     labelLayerSelect := labelLayerSelect d; labelFieldSelect := labelFieldSelect d;
     legendContent := legendContent d; legendContainer := legendContainer d;
     attributePanel := shown |}.

(** ** The page *)

(** What a timer runs when it fires. *)
Inductive task : Type :=
| THideLoader
| TClick (which : list_id) (n : nat)
| TReapplyAllLayers.

(** A request sent without waiting for its answer. *)
Inductive request : Type :=
| ReqLayerBounds (layerType filename : string).

Record page : Type := Page {
  st : app_state;
  dm : dom;
  mp : style;
  firstSymbolId : option string;
  rand : rng;
  visible : feature → bool;
  timers : list (Z * task);
  requests : list request;
  alerts : list string;
}.

Definition upd_st (f : app_state → app_state) (p : page) : page :=
  {| st := f (st p); dm := dm p; mp := mp p; firstSymbolId := firstSymbolId p;
     rand := rand p; visible := visible p; timers := timers p;
     requests := requests p; alerts := alerts p |}.

Definition upd_dm (f : dom → dom) (p : page) : page :=
  {| st := st p; dm := f (dm p); mp := mp p; firstSymbolId := firstSymbolId p;
     rand := rand p; visible := visible p; timers := timers p;
     requests := requests p; alerts := alerts p |}.

Definition upd_mp (f : style → style) (p : page) : page :=
  {| st := st p; dm := dm p; mp := f (mp p); firstSymbolId := firstSymbolId p;
     rand := rand p; visible := visible p; timers := timers p;
     requests := requests p; alerts := alerts p |}.

Definition set_firstSymbolId (id : option string) (p : page) : page :=
  {| st := st p; dm := dm p; mp := mp p; firstSymbolId := id;
     rand := rand p; visible := visible p; timers := timers p;
     requests := requests p; alerts := alerts p |}.

Definition set_rand (r : rng) (p : page) : page :=
  {| st := st p; dm := dm p; mp := mp p; firstSymbolId := firstSymbolId p;
     rand := r; visible := visible p; timers := timers p;
     requests := requests p; alerts := alerts p |}.

Definition upd_timers (f : list (Z * task) → list (Z * task)) (p : page) : page :=
  {| st := st p; dm := dm p; mp := mp p; firstSymbolId := firstSymbolId p;
     rand := rand p; visible := visible p; timers := f (timers p);
     requests := requests p; alerts := alerts p |}.

Definition upd_requests (f : list request → list request) (p : page) : page :=
  {| st := st p; dm := dm p; mp := mp p; firstSymbolId := firstSymbolId p;
     rand := rand p; visible := visible p; timers := timers p;
     requests := f (requests p); alerts := alerts p |}.

Definition upd_alerts (f : list string → list string) (p : page) : page :=
  {| st := st p; dm := dm p; mp := mp p; firstSymbolId := firstSymbolId p;
     rand := rand p; visible := visible p; timers := timers p;
     requests := requests p; alerts := f (alerts p) |}.

(** ** Helpers of every handler *)

(** [showLoader(text)] *)
Definition showLoader (text : string) : js page unit :=
  js_modify (upd_dm (set_loader text true)).

(** [hideLoader()] *)
Definition hideLoader : js page unit :=
  js_modify (upd_dm (λ d, set_loader (loaderText d) false d)).

(** [setTimeout(t, delay)] *)
Definition set_timeout (t : task) (delay : Z) : js page unit :=
  js_modify (upd_timers (λ ts, ts ++ [(delay, t)])).

(** [alert(msg)] *)
Definition alert (msg : string) : js page unit :=
  js_modify (upd_alerts (λ l, l ++ [msg])).

(** A map operation that changes the style. *)
Definition map_do (f : style → style) : js page unit := js_modify (upd_mp f).

(** A map operation that throws when refused. *)
Definition map_try (f : style → option style) (err : string) : js page unit :=
  λ p, match f (mp p) with
       | Some m => (Ok tt, upd_mp (λ _, m) p)
       | None => (Throw err, p)
       end.

(** A use of [Math.random] inside a page handler. *)
Definition with_rand {A} (c : js rng A) : js page A := js_zoom rand set_rand c.

(** [checkbox.checked = b] on the [n]-th input of a list. *)
Definition set_input_checked (which : list_id) (n : nat) (b : bool) : js page unit :=
  js_modify (upd_dm (upd_list which (alter (set_checked b) n))).

(** The state's registry, read in a handler. *)
Definition get_active (key : string) : js page (option active_layer) :=
  js_gets (λ p, obj_get (activeLayers (st p)) key).

(** Everything of the page but the legend and the label selects: what
    [updateLegend] and [updateLabelControl] leave alone. *)
Definition core (p : page) :=
  (st p, mp p, firstSymbolId p, rand p, timers p, requests p, alerts p,
   (demList (dm p), vectorList (dm p), rasterList (dm p), analysisLayerList (dm p)),
   (loaderText (dm p), loadingOverlay (dm p), attributePanel (dm p))).

(** ** Lemmas *)

Lemma get_list_upd_list which which' f d :
  get_list which (upd_list which' f d) =
  if decide (which = which') then f (get_list which d) else get_list which d.
Proof. by destruct which, which'. Qed.

Lemma sel_value_add_empty text value s :
  sel_options s = [] → sel_value (sel_add text value s) = value.
Proof. intros H. unfold sel_value, sel_add. simpl. by rewrite H. Qed.

Lemma showLoader_run text p :
  showLoader text p = (Ok tt, upd_dm (set_loader text true) p).
Proof. done. Qed.

Lemma showLoader_total text : js_total (showLoader text).
Proof. by intros p. Qed.

Lemma hideLoader_total : js_total hideLoader.
Proof. by intros p. Qed.

Lemma set_timeout_total t d : js_total (set_timeout t d).
Proof. by intros p. Qed.

Lemma alert_total msg : js_total (alert msg).
Proof. by intros p. Qed.

Lemma map_do_total f : js_total (map_do f).
Proof. by intros p. Qed.

Lemma with_rand_total {A} (c : js rng A) : js_total c → js_total (with_rand c).
Proof. intros Hc p. unfold with_rand. rewrite js_zoom_run. apply Hc. Qed.

#[export] Hint Resolve showLoader_total hideLoader_total set_timeout_total
  alert_total map_do_total with_rand_total : js.
