(* ===== verification/Legend.v ===== *)
(** * Legend: the legend, the label controls and the highlight (ui.js)

    The functions of ui.js that the layer handlers call after every change of
    the registry:
    - [updateLegend]: the categories of the features in view, per active
      vector layer.  A feature is attributed to a layer by the text of its
      [_uniqueId] before the first underscore and the first registry key that
      starts with it; the colour of a category is read from that layer's
      classification table, and a category missing from the table makes the
      rendering throw;
    - [updateLabelControl], [populateLabelFieldSelect]: the two selects of the
      label control;
    - [clearFeatureHighlight]: removal of the highlight layer.
    [queryRenderedFeatures] is the map's answer: the features of the queried
    layers that pass the layer's filter and are in view ([visible]). *)

From Stdlib Require Import Ascii String ZArith QArith.
From stdpp Require Import base option list strings.
From S2P Require Import Prelude JsString JsObject GeoJson MapEngine Dom Style Page.

(** ** The highlight *)

(** [window.clearFeatureHighlight()] *)
Definition clearFeatureHighlight : js page unit :=
  m ← js_gets mp;
  js_when (hasLayer m "highlight-layer") (map_do (removeLayer "highlight-layer"));;
  js_modify (upd_st (set_highlightedFeature (None, None))).

(** ** The legend *)

(** [Object.values(state.activeLayers).filter(l => l.type === 'vector' &&
    l.layerIds)] *)
Definition active_vectors (s : app_state) : list vector_info :=
  omap as_vector (obj_values (activeLayers s)).

(** [map.queryRenderedFeatures({ layers: ids })] *)
Definition queryRenderedFeatures (p : page) (ids : list string) : list feature :=
  List.filter (visible p) (flat_map (shown_features (mp p)) ids).

(** [visibleCategoriesByLayer]: per display name, a [Map] from category to
    the entry of the classification table ([None] is [undefined]). *)
Definition legend_acc : Type := obj (list (jsval * option string)).

(** [Object.keys(state.activeLayers).find(k => k.startsWith(layerPrefix))] *)
Definition layer_key_of (s : app_state) (layerPrefix : string) : option string :=
  List.find (λ k, startsWith k layerPrefix) (obj_keys (activeLayers s)).

(** The body of the loop over the rendered features. *)
Definition legend_feature (s : app_state) (acc : legend_acc) (f : feature) :
    js page legend_acc :=
  match unique_id f with
  | JStr uid =>
    let layerPrefix := split_head "_" uid in
    let layer := layer_key_of s layerPrefix ≫= obj_get (activeLayers s) in
    match layer ≫= as_vector with
    | Some v =>
      match vi_classField v with
      | Some cf =>
        let category := feature_prop f cf in
        if truthy category then
          let categories := default [] (obj_get acc (vi_displayName v)) in
          if bool_decide (category ∈ categories.*1) then
            mret (obj_set acc (vi_displayName v) categories)
          else
            mret (obj_set acc (vi_displayName v)
                    (categories ++
                     [(category, obj_get (vi_classification v) (to_string category))]))
        else mret acc
      | None => mret acc
      end
    | None => mret acc
    end
  | _ => js_throw "TypeError: feature.properties._uniqueId.split is not a function"
  end.

(** One legend item: [style.color] of the table entry, a [TypeError] when the
    entry is [undefined]. *)
Definition render_category (c : jsval * option string) : js page (string * string) :=
  match c.2 with
  | Some color => mret (to_string c.1, color)
  | None => js_throw "TypeError: Cannot read properties of undefined (reading 'color')"
  end.

Definition render_group (g : string * list (jsval * option string)) :
    js page (string * list (string * string)) :=
  cats ← js_map render_category g.2;
  mret (g.1, cats).

(** The loop that builds [html]: one group per layer with a category. *)
Definition render_legend (acc : legend_acc) : js page legend :=
  js_map render_group (List.filter (λ g, negb (bool_decide (g.2 = []))) acc).

(** [updateLegend()] *)
Definition updateLegend : js page unit :=
  p ← js_gets id;
  let activeVectorLayers := active_vectors (st p) in
  match activeVectorLayers with
  | [] => js_modify (upd_dm (λ d, set_legend (legendContent d) false d))
  | _ :: _ =>
    let renderedFeatures :=
      queryRenderedFeatures p (flat_map vi_layerIds activeVectorLayers) in
    acc ← js_fold (legend_feature (st p)) renderedFeatures [];
    html ← render_legend acc;
    match html with
    | [] => js_modify (upd_dm (λ d, set_legend (legendContent d) false d))
    | _ :: _ => js_modify (upd_dm (set_legend html true))
    end
  end.

(** ** The label controls *)

(** [Object.entries(state.activeLayers).filter(([_, layer]) => layer.type ===
    'vector' && layer.geojson?.features.length > 0)] *)
Definition label_candidates (s : app_state) : list (string * vector_info) :=
  omap (λ kl, v ← as_vector kl.2;
              match vi_geojson v with [] => None | _ :: _ => Some (kl.1, v) end)
       (activeLayers s).

Definition labelFields : list string :=
  ["Name"; "name"; "VILGNAME1"; "TYPE"; "type"; "Layer"].

(** The options [populateLabelFieldSelect] adds for the attributes of the
    first feature. *)
Definition field_options (props : obj jsval) : list (string * string) :=
  (λ k, (k, k)) <$> List.filter (λ k, negb (String.eqb k "_uniqueId")) (obj_keys props).

(** [populateLabelFieldSelect(layerIdPrefix)] *)
Definition populateLabelFieldSelect (layerIdPrefix : string) : js page unit :=
  layer ← get_active layerIdPrefix;
  js_modify (upd_dm (upd_labelFieldSelect
    (λ s, sel_add "None (No Labels)" "None" (sel_clear s))));;
  match layer ≫= as_vector with
  | Some v =>
    match vi_geojson v with
    | f0 :: _ =>
      match properties f0 with
      | Some props =>
        js_modify (upd_dm (upd_labelFieldSelect (λ s,
          let s' := fold_left (λ s o, sel_add o.1 o.2 s) (field_options props) s in
          match List.find (obj_has props) labelFields with
          | Some defaultField => sel_set_value defaultField s'
          | None => sel_set_value "None" s'
          end)))
      | None => js_throw "TypeError: Cannot read properties of null (reading 'hasOwnProperty')"
      end
    | [] => mret tt
    end
  | None => mret tt
  end.

(** [updateLabelControl()] *)
Definition updateLabelControl : js page unit :=
  s ← js_gets st;
  match label_candidates s with
  | [] =>
    js_modify (upd_dm (λ d,
      upd_labelFieldSelect (λ s, sel_set_disabled true (sel_clear s))
        (upd_labelLayerSelect (λ s,
           sel_set_disabled true
             (sel_add "No vector layers active" "No vector layers active"
                (sel_clear s))) d)))
  | activeVectorLayers =>
    currentSelection ← js_gets (λ p, sel_value (labelLayerSelect (dm p)));
    js_modify (upd_dm (λ d,
      upd_labelFieldSelect (sel_set_disabled false)
        (upd_labelLayerSelect (λ s,
           let s' := fold_left (λ s kv, sel_add (vi_displayName kv.2) kv.1 s)
                       activeVectorLayers (sel_clear (sel_set_disabled false s)) in
           if bool_decide (currentSelection ∈ activeVectorLayers.*1)
           then sel_set_value currentSelection s' else s') d)));;
    selected ← js_gets (λ p, sel_value (labelLayerSelect (dm p)));
    populateLabelFieldSelect selected
  end.

(** ** Lemmas *)

Lemma clearFeatureHighlight_total : js_total clearFeatureHighlight.
Proof. unfold clearFeatureHighlight. eauto 10 with js. Qed.

(** The style after [clearFeatureHighlight]. *)
Lemma clearFeatureHighlight_run p :
  clearFeatureHighlight p =
    (Ok tt, upd_st (set_highlightedFeature (None, None))
              (upd_mp (removeLayer "highlight-layer") p)).
Proof.
  unfold clearFeatureHighlight. js_simpl.
  destruct (hasLayer (mp p) "highlight-layer") eqn:Hh; simpl; [done|].
  unfold upd_mp. rewrite removeLayer_absent; [by destruct p | by apply hasLayer_getLayer].
Qed.

(** [updateLegend] and [updateLabelControl] write the legend and the label
    selects only, whether they return or throw. *)
Lemma legend_feature_pure s acc f : js_pure (legend_feature s acc f).
Proof. unfold legend_feature. repeat case_match; auto with js. Qed.

Lemma render_legend_pure acc : js_pure (render_legend acc).
Proof.
  apply js_pure_map. intros g. apply js_pure_bind; [|auto with js].
  apply js_pure_map. intros c. unfold render_category. case_match; auto with js.
Qed.

Lemma js_pure_preserves {A} (I : page → Prop) (c : js page A) :
  js_pure c → js_preserves I c.
Proof. intros Hc p Hp. by rewrite Hc. Qed.

Lemma updateLegend_core x : js_preserves (λ q, core q = x) updateLegend.
Proof.
  unfold updateLegend. apply js_preserves_bind; [auto with js|]. intros p.
  destruct (active_vectors (st p)); [by intros q <-|].
  apply js_preserves_bind;
    [apply js_pure_preserves, js_pure_fold, legend_feature_pure|]. intros acc.
  apply js_preserves_bind; [apply js_pure_preserves, render_legend_pure|].
  intros [|g html]; by intros q <-.
Qed.

Lemma populateLabelFieldSelect_core x k :
  js_preserves (λ q, core q = x) (populateLabelFieldSelect k).
Proof.
  unfold populateLabelFieldSelect, get_active.
  apply js_preserves_bind; [auto with js|]. intros layer.
  apply js_preserves_bind; [by intros q <-|]. intros _.
  repeat case_match; auto with js; by intros q <-.
Qed.

Lemma updateLabelControl_core x : js_preserves (λ q, core q = x) updateLabelControl.
Proof.
  unfold updateLabelControl. apply js_preserves_bind; [auto with js|]. intros s.
  destruct (label_candidates s); [by intros q <-|].
  apply js_preserves_bind; [auto with js|]. intros cur.
  apply js_preserves_bind; [by intros q <-|]. intros _.
  apply js_preserves_bind; [auto with js|]. intros sel.
  apply populateLabelFieldSelect_core.
Qed.
