(* ===== verification/Layers.v ===== *)
(** * Layers: the layer handlers (layer-handlers.js)

    The handlers behind the three layer lists of the map page:
    - [handleDemChange]: replaces the terrain source, the terrain and the
      hillshade layer by those of the chosen elevation model;
    - [handleVectorToggle]: on activation, fetches the layer, tags its
      features, adds a source and the generated layers below the first symbol
      layer, registers the descriptor and adds the label layer; on
      deactivation, removes the highlight, the layers, the label layer and
      the source and deletes the descriptor.  An exception anywhere in the
      handler is caught: an alert is shown and the checkbox is unchecked;
      nothing the handler did before the exception is undone;
    - [addOrUpdateLabelLayer]: the label layer of a vector layer;
    - [handleRasterToggle]: the same for raster and analysis layers, with the
      band selectors of multi-band rasters;
    - [flyToBounds]: the bounds request, sent and not waited for.
    A handler takes the input it was invoked on ([cb], with its index [n] in
    its list) and, where it fetches, the answer of the server ([resp]); the
    code before and after the [await] runs as one step. *)

From Stdlib Require Import Ascii String ZArith QArith.
From stdpp Require Import base option list strings pretty.
From S2P Require Import Prelude JsString JsObject GeoJson MapEngine Dom Style Page Legend.

(** ** Names *)

(** [`vector-${filename.replace(/[^a-zA-Z0-9]/g, "_")}`] *)
Definition vector_key (filename : string) : string := "vector-" +:+ sanitize filename.

(** [`raster-${filename.replace(/[^a-zA-Z0-9]/g, "_")}`] *)
Definition raster_key (filename : string) : string := "raster-" +:+ sanitize filename.

(** [`source-${key}`] *)
Definition source_of (key : string) : string := "source-" +:+ key.

(** [`${layerIdPrefix}-labels`] *)
Definition label_of (key : string) : string := key +:+ "-labels".

(** ** Shared steps *)

(** [flyToBounds(layerType, filename)]: the request leaves; the camera moves
    when the answer arrives. *)
Definition flyToBounds (layerType filename : string) : js page unit :=
  js_modify (upd_requests (λ rs, rs ++ [ReqLayerBounds layerType filename])).

(** [if (map.getLayer(id)) map.removeLayer(id)] *)
Definition remove_layer_if_present (id : string) : js page unit :=
  m ← js_gets mp;
  js_when (hasLayer m id) (map_do (removeLayer id)).

(** [if (map.getSource(id)) map.removeSource(id)] *)
Definition remove_source_if_present (id : string) : js page unit :=
  m ← js_gets mp;
  js_when (hasSource m id)
    (map_try (removeSource id) "Error: There is no source with this ID").

(** ** Elevation models *)

Definition dem_source_of (demId : string) : string := "dem-source-" +:+ demId.

Definition dem_tiles (demId : string) : string :=
  "/api/dem_tile/" +:+ encodeURIComponent demId +:+ "/{z}/{x}/{y}.png".

Definition hillshade_layer (demSourceId : string) : layer :=
  {| lyr_id := "hillshade"; lyr_type := LtHillshade; lyr_source := Some demSourceId;
     lyr_minzoom := None; lyr_maxzoom := None; lyr_layout := [];
     lyr_paint := [ ("hillshade-exaggeration", PNum (3 # 20));
                    ("hillshade-shadow-color", PStr "#000000") ];
     lyr_filter := FilterNone |}.

(** [if (state.currentDEM && map.getSource(state.currentDEM.source)) { ... }]:
    the terrain, the hillshade layer and the source of the elevation model
    shown so far are removed. *)
Definition dem_clear : js page unit :=
  s ← js_gets st;
  m ← js_gets mp;
  match currentDEM s with
  | Some d =>
    js_when (hasSource m (dem_source d))
      (map_try (setTerrain None) "Error: terrain";;
       remove_layer_if_present "hillshade";;
       remove_source_if_present (dem_source d))
  | None => mret tt
  end.

(** The [try] block of [handleDemChange]. *)
Definition dem_change_body (cb : input) : js page unit :=
  dem_clear;;
  let layerInfo := in_info cb in
  let demId := li_id layerInfo in
  let demSourceId := dem_source_of demId in
  js_modify (upd_st (set_currentDEM
    (Some {| dem_id := demId; dem_name := li_name layerInfo;
             dem_source := demSourceId |})));;
  map_try (addSource demSourceId (SrcRasterDem (dem_tiles demId) 256 15 "mapbox"))
    "Error: Source already exists";;
  map_try (setTerrain (Some (demSourceId, 1%Q))) "Error: terrain source not found";;
  fsid ← js_gets firstSymbolId;
  map_do (addLayer (hillshade_layer demSourceId) fsid);;
  flyToBounds "dem" demId.

(** [handleDemChange(radio)] *)
Definition handleDemChange (cb : input) : js page unit :=
  if negb (in_checked cb) then mret tt
  else
    showLoader "Loading Terrain...";;
    js_finally (dem_change_body cb) (set_timeout THideLoader 200).

(** ** Vector layers *)

(** [geojson.features.forEach((f, i) => (f.properties._uniqueId =
    `${layerIdPrefix}_${i}`))] *)
Definition tag_feature (layerIdPrefix : string) (i : nat) (f : feature) :
    js page feature :=
  match properties f with
  | Some props =>
    mret {| geometry := geometry f;
            properties := Some (obj_set props "_uniqueId"
                                  (JStr (layerIdPrefix +:+ "_" +:+ pretty i))) |}
  | None => js_throw "TypeError: Cannot set properties of null"
  end.

Definition tag_features (layerIdPrefix : string) (fs : list feature) :
    js page (list feature) :=
  js_map (λ x, tag_feature layerIdPrefix x.1 x.2) (imap pair fs).

(** The label layer [addOrUpdateLabelLayer] adds. *)
Definition label_layer (labelLayerId : string) (sourceId : option string)
    (field : string) : layer :=
  {| lyr_id := labelLayerId; lyr_type := LtSymbol; lyr_source := sourceId;
     lyr_minzoom := Some 12%Z; lyr_maxzoom := None;
     lyr_layout := [ ("text-field", PGet field);
                     ("text-font", PStrs ["Open Sans Regular"]);
                     ("text-size", PNum 12);
                     ("text-allow-overlap", PBool false);
                     ("text-pitch-alignment", PStr "viewport") ];
     lyr_paint := [ ("text-color", PStr "#ffffff");
                    ("text-halo-color", PStr "#000000");
                    ("text-halo-width", PNum 1) ];
     lyr_filter := FilterNone |}.

(** [addOrUpdateLabelLayer(layerIdPrefix, field = 'Name')] *)
Definition addOrUpdateLabelLayer (layerIdPrefix field : string) : js page unit :=
  layerInfo ← get_active layerIdPrefix;
  match layerInfo with
  | None => mret tt
  | Some li =>
    let labelLayerId := label_of layerIdPrefix in
    remove_layer_if_present labelLayerId;;
    if String.eqb field "None" then mret tt
    else
      map_do (addLayer (label_layer labelLayerId (vi_sourceId <$> as_vector li) field)
                None)
  end.

(** The answer to a fetch: the parsed body, or the exception of a failed
    request or of a body that is not JSON. *)
Definition response : Type := outcome geojson.

(** [if (geojson.error) throw new Error(geojson.error)] *)
Definition check_error (g : geojson) : js page unit :=
  match gj_error g with
  | Some e => if String.eqb e "" then mret tt else js_throw e
  | None => mret tt
  end.

(** The first statements of the [if] branch: the body of the response,
    refused when it carries an [error], with its features tagged. *)
Definition fetch_features (layerIdPrefix : string) (resp : response) :
    js page (list feature) :=
  geojson ← match resp with Ok g => mret g | Throw e => js_throw e end;
  check_error geojson;;
  match features geojson with
  | Some fs => tag_features layerIdPrefix fs
  | None => js_throw "TypeError: Cannot read properties of undefined"
  end.

(** The descriptor stored in [state.activeLayers] for the layer of [cb], its
    tagged features [fs] and its style [vs]. *)
Definition descriptor (cb : input) (fs : list feature) (vs : vector_style) :
    vector_info :=
  {| vi_classification := vs_classification vs;
     vi_classField := vs_classField vs;
     vi_sourceId := source_of (vector_key (in_value cb));
     vi_filename := in_value cb;
     vi_geojson := fs;
     vi_layerIds := lyr_id <$> vs_layers vs;
     vi_displayName := li_name (in_info cb) |}.

(** The [if (checkbox.checked)] branch of [handleVectorToggle]. *)
Definition vector_activate (cb : input) (resp : response) : js page unit :=
  let filename := in_value cb in
  let layerIdPrefix := vector_key filename in
  fs ← fetch_features layerIdPrefix resp;
  let sourceId := source_of layerIdPrefix in
  map_try (addSource sourceId (SrcGeojson fs)) "Error: Source already exists";;
  vl ← js_gets (λ p, vectorList (dm p));
  vs ← with_rand (generateVectorStyle vl layerIdPrefix sourceId fs filename);
  fsid ← js_gets firstSymbolId;
  js_for_each (λ l, map_do (addLayer l fsid)) (vs_layers vs);;
  js_modify (upd_st (upd_activeLayers (λ al, obj_set al layerIdPrefix
    (AlVector (descriptor cb fs vs)))));;
  addOrUpdateLabelLayer layerIdPrefix "Name";;
  flyToBounds "vector" filename.

(** The [else] branch of [handleVectorToggle]. *)
Definition vector_deactivate (cb : input) : js page unit :=
  let layerIdPrefix := vector_key (in_value cb) in
  layerInfo ← get_active layerIdPrefix;
  match layerInfo with
  | None => mret tt
  | Some (AlRaster _) =>
    clearFeatureHighlight;;
    js_throw "TypeError: Cannot read properties of undefined (reading 'forEach')"
  | Some (AlVector v) =>
    clearFeatureHighlight;;
    js_for_each remove_layer_if_present (vi_layerIds v);;
    remove_layer_if_present (label_of layerIdPrefix);;
    remove_source_if_present (vi_sourceId v);;
    js_modify (upd_st (upd_activeLayers (λ al, obj_delete al layerIdPrefix)))
  end.

(** The [try/catch/finally] statement of [handleVectorToggle]; on the checked
    branch it runs when the response arrives. *)
Definition vector_toggle_try (n : nat) (cb : input) (resp : response) :
    js page unit :=
  js_finally
    (js_try_catch
       ((if in_checked cb then vector_activate cb resp else vector_deactivate cb);;
        updateLegend;;
        updateLabelControl)
       (λ e, alert ("Could not load vector layer: " +:+ e);;
             set_input_checked VectorList n false))
    hideLoader.

(** [handleVectorToggle(checkbox)], where [checkbox] is the [n]-th input of
    the vector list. *)
Definition handleVectorToggle (n : nat) (cb : input) (resp : response) :
    js page unit :=
  showLoader "Loading Vector Data...";;
  vector_toggle_try n cb resp.

(** ** Raster and analysis layers *)

(** [info.stats[i - 1]] for the band a selector shows. *)
Definition band_stats (info : layerInfo) (band : Z) : js page (string * string) :=
  match (if (1 <=? band)%Z then li_stats info !! Z.to_nat (band - 1) else None) with
  | Some mm => mret mm
  | None => js_throw "TypeError: Cannot read properties of undefined (reading 'min')"
  end.

(** The tile address of a multi-band raster. *)
Definition rgb_tiles (filename : string) (r g b : Z)
    (sr sg sb : string * string) : string :=
  "/api/raster_tile/" +:+ encodeURIComponent filename +:+ "/{z}/{x}/{y}.png?r=" +:+
  pretty r +:+ "&g=" +:+ pretty g +:+ "&b=" +:+ pretty b +:+
  "&p_mins=" +:+ join "," [sr.1; sg.1; sb.1] +:+
  "&p_maxs=" +:+ join "," [sr.2; sg.2; sb.2].

(** The tile address of a single-band raster. *)
Definition band_tiles (filename : string) (s0 : string * string)
    (colormap : string) : string :=
  "/api/raster_tile/" +:+ encodeURIComponent filename +:+ "/{z}/{x}/{y}.png?min=" +:+
  s0.1 +:+ "&max=" +:+ s0.2 +:+ "&colormap=" +:+ colormap.

Definition raster_layer (layerId sourceId : string) : layer :=
  {| lyr_id := layerId; lyr_type := LtRaster; lyr_source := Some sourceId;
     lyr_minzoom := None; lyr_maxzoom := None; lyr_layout := [];
     lyr_paint := [("raster-opacity", PNum (3 # 4))]; lyr_filter := FilterNone |}.

(** [if (controlsDiv) controlsDiv.style.display = ...] *)
Definition show_controls (which : list_id) (n : nat) (shown : bool) : js page unit :=
  js_modify (upd_dm (upd_list which (alter (λ i,
    set_controls ((λ c, {| bc_shown := shown; bc_r := bc_r c; bc_g := bc_g c;
                           bc_b := bc_b c |}) <$> in_controls i) i) n))).

(** The tile address for the layer of [cb]; shows the band selectors of a
    multi-band raster. *)
Definition raster_tile_url (which : list_id) (n : nat) (cb : input) : js page string :=
  let filename := in_value cb in
  let info := in_info cb in
  if (1 <? li_bands info)%Z then
    show_controls which n true;;
    match in_controls cb with
    | None => js_throw "TypeError: Cannot read properties of null (reading 'querySelector')"
    | Some c =>
      sr ← band_stats info (bc_r c);
      sg ← band_stats info (bc_g c);
      sb ← band_stats info (bc_b c);
      mret (rgb_tiles filename (bc_r c) (bc_g c) (bc_b c) sr sg sb)
    end
  else
    match li_stats info !! O with
    | None => js_throw "Layer info is missing stats"
    | Some s0 =>
      mret (band_tiles filename s0
              (match li_colormap info with
               | Some c => if String.eqb c "" then "Spectral_r" else c
               | None => "Spectral_r"
               end))
    end.

(** The [if (checkbox.checked)] branch of [handleRasterToggle]. *)
Definition raster_activate (which : list_id) (n : nat) (cb : input)
    (isBandChange : bool) : js page unit :=
  let filename := in_value cb in
  let layerId := raster_key filename in
  let sourceId := source_of layerId in
  js_when (negb isBandChange) (flyToBounds "raster" filename);;
  tileUrl ← raster_tile_url which n cb;
  m ← js_gets mp;
  js_when (hasSource m sourceId)
    (remove_layer_if_present layerId;;
     map_try (removeSource sourceId) "Error: There is no source with this ID");;
  js_modify (upd_st (upd_activeLayers (λ al, obj_set al layerId (AlRaster (in_info cb)))));;
  map_try (addSource sourceId (SrcRaster tileUrl 256)) "Error: Source already exists";;
  fsid ← js_gets firstSymbolId;
  map_do (addLayer (raster_layer layerId sourceId) fsid).

(** The [else] branch of [handleRasterToggle]. *)
Definition raster_deactivate (which : list_id) (n : nat) (cb : input) : js page unit :=
  let layerId := raster_key (in_value cb) in
  show_controls which n false;;
  remove_layer_if_present layerId;;
  remove_source_if_present (source_of layerId);;
  js_modify (upd_st (upd_activeLayers (λ al, obj_delete al layerId))).

(** [handleRasterToggle(checkbox, isBandChange = false)], where [checkbox] is
    the [n]-th input of the list [which]. *)
Definition handleRasterToggle (which : list_id) (n : nat) (cb : input)
    (isBandChange : bool) : js page unit :=
  showLoader "Loading...";;
  js_finally
    (js_try_catch
       (if in_checked cb then raster_activate which n cb isBandChange
        else raster_deactivate which n cb)
       (λ e, set_input_checked which n false))
    hideLoader.

(** What a response makes [handleVectorToggle] throw before it touches the
    map: the exception of the fetch, or the [error] of the body. *)
Definition fetch_error (resp : response) : option string :=
  match resp with
  | Throw e => Some e
  | Ok g => match gj_error g with
            | Some e => if String.eqb e "" then None else Some e
            | None => None
            end
  end.

(** The page after the [catch] and [finally] blocks of [handleVectorToggle]
    ran on page [q] for the exception [e]. *)
Definition vector_failed (n : nat) (e : string) (q : page) : page :=
  upd_dm (λ d, set_loader (loaderText d) false
                 (upd_list VectorList (alter (set_checked false) n) d))
    (upd_alerts (λ l, l ++ ["Could not load vector layer: " +:+ e]) q).

(** The feature [tag_feature] returns for the [i]-th feature. *)
Definition tagged (layerIdPrefix : string) (i : nat) (f : feature) : feature :=
  {| geometry := geometry f;
     properties := Some (obj_set (default [] (properties f)) "_uniqueId"
                           (JStr (layerIdPrefix +:+ "_" +:+ pretty i))) |}.

(** The map after an activation that went through: the source, the generated
    layers below [fsid], the label layer on top. *)
Definition activated_map (key : string) (fs : list feature) (vs : vector_style)
    (fsid : option string) (m : style) : style :=
  addLayer (label_layer (label_of key) (Some (source_of key)) "Name") None
    (removeLayer (label_of key)
       (add_layers fsid (vs_layers vs)
          (set_sources (λ ss, obj_set ss (source_of key) (SrcGeojson fs)) m))).

(** The page after the [if] branch of an activation that went through. *)
Definition activated (cb : input) (fs : list feature) (vs : vector_style)
    (r' : rng) (p : page) : page :=
  let key := vector_key (in_value cb) in
  upd_requests (λ rs, rs ++ [ReqLayerBounds "vector" (in_value cb)])
    (upd_mp (activated_map key fs vs (firstSymbolId p))
       (upd_st (upd_activeLayers (λ al, obj_set al key (AlVector (descriptor cb fs vs))))
          (set_rand r' p))).

(** The map after the [else] branch found the descriptor [v]. *)
Definition deactivated_map (key : string) (v : vector_info) (m : style) : style :=
  dropSource (vi_sourceId v)
    (removeLayer (label_of key)
       (remove_layers (vi_layerIds v) (removeLayer "highlight-layer" m))).

(** The page after the [else] branch found the descriptor [v]. *)
Definition deactivated (key : string) (v : vector_info) (p : page) : page :=
  upd_st (λ s, upd_activeLayers (λ al, obj_delete al key)
                 (set_highlightedFeature (None, None) s))
    (upd_mp (deactivated_map key v) p).

(** The map of the page is well formed: no two sources and no two layers
    share an id, and every layer draws a source of the map. *)
Definition map_wf (p : page) : Prop := style_wf (mp p).

(** The map once the elevation model shown so far is taken off it. *)
Definition dem_cleared (s : app_state) (m : style) : style :=
  match currentDEM s with
  | Some d =>
    if hasSource m (dem_source d)
    then dropSource (dem_source d) (removeLayer "hillshade" (set_terrain None m))
    else m
  | None => m
  end.

(** The map with the elevation model [demId] as terrain and hillshade. *)
Definition dem_shown (demId : string) (fsid : option string) (m : style) : style :=
  let src := dem_source_of demId in
  addLayer (hillshade_layer src) fsid
    (set_terrain (Some (src, 1%Q))
       (set_sources (λ ss, obj_set ss src (SrcRasterDem (dem_tiles demId) 256 15 "mapbox"))
          m)).

(** The page after [handleDemChange] went through for the radio [cb]. *)
Definition dem_changed (cb : input) (p : page) : page :=
  let demId := li_id (in_info cb) in
  upd_timers (λ ts, ts ++ [(200%Z, THideLoader)])
    (upd_requests (λ rs, rs ++ [ReqLayerBounds "dem" demId])
       (upd_mp (λ m, dem_shown demId (firstSymbolId p) (dem_cleared (st p) m))
          (upd_st (set_currentDEM (Some {| dem_id := demId; dem_name := li_name (in_info cb);
                                           dem_source := dem_source_of demId |}))
             (upd_dm (set_loader "Loading Terrain..." true) p)))).

(** The entry of [info.stats] a band selector points at. *)
Definition band_stats_of (info : layerInfo) (band : Z) : option (string * string) :=
  if (1 <=? band)%Z then li_stats info !! Z.to_nat (band - 1) else None.

(** The tile address [handleRasterToggle] computes for the layer of [cb],
    when the description of the layer has the statistics it reads. *)
Definition tile_url_of (cb : input) : option string :=
  let info := in_info cb in
  if (1 <? li_bands info)%Z then
    c ← in_controls cb;
    sr ← band_stats_of info (bc_r c);
    sg ← band_stats_of info (bc_g c);
    sb ← band_stats_of info (bc_b c);
    Some (rgb_tiles (in_value cb) (bc_r c) (bc_g c) (bc_b c) sr sg sb)
  else
    s0 ← li_stats info !! O;
    Some (band_tiles (in_value cb) s0
            (match li_colormap info with
             | Some c => if String.eqb c "" then "Spectral_r" else c
             | None => "Spectral_r"
             end)).

(** The page once the band selectors of a multi-band raster are shown. *)
Definition raster_shown (which : list_id) (n : nat) (cb : input) (p : page) : page :=
  if (1 <? li_bands (in_info cb))%Z then js_exec (show_controls which n true) p else p.

(** The map after a raster activation that went through. *)
Definition raster_activated_map (key url : string) (fsid : option string)
    (m : style) : style :=
  addLayer (raster_layer key (source_of key)) fsid
    (set_sources (λ ss, obj_set ss (source_of key) (SrcRaster url 256)) m).

(** The page after the [if] branch of a raster activation that went through
    on a map without the layer's source. *)
Definition raster_activated (which : list_id) (n : nat) (cb : input)
    (isBandChange : bool) (url : string) (p : page) : page :=
  let key := raster_key (in_value cb) in
  upd_mp (raster_activated_map key url (firstSymbolId p))
    (upd_st (upd_activeLayers (λ al, obj_set al key (AlRaster (in_info cb))))
       (raster_shown which n cb
          (if isBandChange then p
           else upd_requests (λ rs, rs ++ [ReqLayerBounds "raster" (in_value cb)]) p))).

(** The page after the [else] branch of [handleRasterToggle]. *)
Definition raster_deactivated (which : list_id) (n : nat) (cb : input) (p : page) : page :=
  let key := raster_key (in_value cb) in
  upd_st (upd_activeLayers (λ al, obj_delete al key))
    (upd_mp (λ m, dropSource (source_of key) (removeLayer key m))
       (js_exec (show_controls which n false) p)).

Arguments vector_key : simpl never.
Arguments raster_key : simpl never.
Arguments source_of : simpl never.
Arguments label_of : simpl never.

(** ** Lemmas: the steps as state transformers *)

Lemma upd_mp_id f p : f (mp p) = mp p → upd_mp f p = p.
Proof. intros H. destruct p. unfold upd_mp. simpl in *. by rewrite H. Qed.

Lemma remove_layer_if_present_run id p :
  remove_layer_if_present id p = (Ok tt, upd_mp (removeLayer id) p).
Proof.
  unfold remove_layer_if_present. js_simpl.
  destruct (hasLayer (mp p) id) eqn:Hh; simpl; [done|].
  rewrite upd_mp_id; [done|]. by apply removeLayer_absent, hasLayer_getLayer.
Qed.

Lemma remove_source_if_present_run id p :
  remove_source_if_present id p = (Ok tt, upd_mp (dropSource id) p).
Proof.
  unfold remove_source_if_present, map_try. js_simpl.
  destruct (hasSource (mp p) id) eqn:Hh; simpl.
  - by rewrite (removeSource_present _ _ Hh).
  - rewrite upd_mp_id; [done | by apply dropSource_absent].
Qed.

Lemma flyToBounds_run t f p :
  flyToBounds t f p = (Ok tt, upd_requests (λ rs, rs ++ [ReqLayerBounds t f]) p).
Proof. done. Qed.

Lemma fold_left_upd_mp {A} (f : A → style → style) l p :
  fold_left (λ s x, upd_mp (f x) s) l p =
  upd_mp (λ m, fold_left (λ m x, f x m) l m) p.
Proof.
  revert p. induction l as [|x l IH]; intros p; simpl; [by destruct p|].
  by rewrite IH.
Qed.

Lemma add_layers_run fsid ls p :
  js_for_each (λ l, map_do (addLayer l fsid)) ls p = (Ok tt, upd_mp (add_layers fsid ls) p).
Proof. unfold map_do. by rewrite js_for_each_modify, fold_left_upd_mp. Qed.

Lemma js_for_each_ext {S A} (f g : A → js S unit) l :
  (∀ x, js_equiv (f x) (g x)) → js_equiv (js_for_each f l) (js_for_each g l).
Proof.
  intros Hfg. induction l as [|x l IH]; [done|]. simpl.
  apply js_bind_proper; [by intros [] | apply Hfg].
Qed.

Lemma remove_layers_run ids p :
  js_for_each remove_layer_if_present ids p = (Ok tt, upd_mp (remove_layers ids) p).
Proof.
  rewrite (js_for_each_ext _ (λ id, js_modify (upd_mp (removeLayer id))))
    by (intros id q; apply remove_layer_if_present_run).
  by rewrite js_for_each_modify, fold_left_upd_mp.
Qed.

Lemma addSource_run id spec err p :
  getSource (mp p) id = None →
  map_try (addSource id spec) err p =
    (Ok tt, upd_mp (set_sources (λ ss, obj_set ss id spec)) p).
Proof. intros H. unfold map_try. by rewrite (addSource_Some _ _ _ H). Qed.

Lemma addSource_throw id spec err p :
  is_Some (getSource (mp p) id) → map_try (addSource id spec) err p = (Throw err, p).
Proof. intros H. unfold map_try. by rewrite (addSource_None _ _ _ H). Qed.

Lemma addOrUpdateLabelLayer_run key field li p :
  obj_get (activeLayers (st p)) key = Some li → field ≠ "None" →
  addOrUpdateLabelLayer key field p =
    (Ok tt, upd_mp (λ m, addLayer (label_layer (label_of key)
                                     (vi_sourceId <$> as_vector li) field) None
                           (removeLayer (label_of key) m)) p).
Proof.
  intros Hli Hf. unfold addOrUpdateLabelLayer, get_active.
  rewrite (js_bind_ok _ _ p (Some li) p) by (unfold js_gets; by rewrite Hli).
  rewrite (js_bind_ok _ _ _ _ _ (remove_layer_if_present_run _ _)).
  apply String.eqb_neq in Hf. by rewrite Hf.
Qed.

Lemma tag_feature_run key i f p :
  is_Some (properties f) → tag_feature key i f p = (Ok (tagged key i f), p).
Proof. intros [props Hp]. unfold tag_feature, tagged. by rewrite Hp. Qed.

Lemma tag_features_from key (h : nat → nat) fs p :
  Forall (λ f, is_Some (properties f)) fs →
  js_map (λ x, tag_feature key x.1 x.2) (imap (λ i f, (h i, f)) fs) p =
    (Ok (imap (λ i, tagged key (h i)) fs), p).
Proof.
  intros Hfs. revert h. induction Hfs as [|f fs Hf Hfs IH]; intros h; [done|].
  simpl. rewrite (js_bind_ok _ _ _ _ _ (tag_feature_run key (h 0) f p Hf)).
  by rewrite (js_bind_ok _ _ _ _ _ (IH (h ∘ S))).
Qed.

(** On features that all carry attributes, tagging returns the features with
    their [_uniqueId]. *)
Lemma tag_features_run key fs p :
  Forall (λ f, is_Some (properties f)) fs →
  tag_features key fs p = (Ok (imap (tagged key) fs), p).
Proof. apply (tag_features_from key id). Qed.

Lemma with_rand_run {A} (c : js rng A) p a r' :
  c (rand p) = (Ok a, r') → with_rand c p = (Ok a, set_rand r' p).
Proof. intros H. unfold with_rand. by rewrite js_zoom_run, H. Qed.

Lemma with_rand_throw {A} (c : js rng A) p e r' :
  c (rand p) = (Throw e, r') → with_rand c p = (Throw e, set_rand r' p).
Proof. intros H. unfold with_rand. by rewrite js_zoom_run, H. Qed.

Lemma check_error_run g p : fetch_error (Ok g) = None → check_error g p = (Ok tt, p).
Proof.
  unfold fetch_error, check_error. destruct (gj_error g) as [e|]; [|done].
  by destruct (String.eqb e "").
Qed.

(** An accepted body whose features all carry attributes gives the tagged
    features. *)
Lemma fetch_features_run key g fs p :
  fetch_error (Ok g) = None → features g = Some fs →
  Forall (λ f, is_Some (properties f)) fs →
  fetch_features key (Ok g) p = (Ok (imap (tagged key) fs), p).
Proof.
  intros He Hfs Hprops. unfold fetch_features.
  rewrite (js_bind_ok _ _ p g p) by done.
  rewrite (js_bind_ok _ _ _ _ _ (check_error_run g p He)), Hfs.
  by apply tag_features_run.
Qed.

Lemma fetch_features_error key resp e p :
  fetch_error resp = Some e → fetch_features key resp p = (Throw e, p).
Proof.
  unfold fetch_error, fetch_features, check_error.
  destruct resp as [g|e']; [|by intros [= ->]].
  rewrite (js_bind_ok _ _ p g p) by done.
  destruct (gj_error g) as [e'|]; [|done].
  destruct (String.eqb e' ""); [done|]. by intros [= ->].
Qed.

(** An activation that goes through. *)
Lemma vector_activate_run cb g fs vs r' p :
  let key := vector_key (in_value cb) in
  fetch_error (Ok g) = None → features g = Some fs →
  Forall (λ f, is_Some (properties f)) fs →
  getSource (mp p) (source_of key) = None →
  generateVectorStyle (vectorList (dm p)) key (source_of key)
    (imap (tagged key) fs) (in_value cb) (rand p) = (Ok vs, r') →
  vector_activate cb (Ok g) p = (Ok tt, activated cb (imap (tagged key) fs) vs r' p).
Proof.
  intros key He Hfs Hprops Hsrc Hgen. unfold vector_activate.
  rewrite (js_bind_ok _ _ _ _ _ (fetch_features_run _ g fs p He Hfs Hprops)).
  rewrite (js_bind_ok _ _ _ _ _ (addSource_run _ _ _ p Hsrc)).
  erewrite js_bind_ok; [|reflexivity].
  erewrite js_bind_ok; [|by apply with_rand_run].
  erewrite js_bind_ok; [|reflexivity].
  rewrite (js_bind_ok _ _ _ _ _ (add_layers_run _ _ _)).
  erewrite js_bind_ok; [|reflexivity].
  erewrite js_bind_ok;
    [|apply addOrUpdateLabelLayer_run; [apply obj_get_set_eq | done]].
  done.
Qed.

Lemma vector_deactivate_run cb v p :
  let key := vector_key (in_value cb) in
  obj_get (activeLayers (st p)) key = Some (AlVector v) →
  vector_deactivate cb p = (Ok tt, deactivated key v p).
Proof.
  intros key Hv. subst key. unfold vector_deactivate, get_active.
  rewrite (js_bind_ok _ _ p (Some (AlVector v)) p) by (unfold js_gets; by rewrite Hv).
  rewrite (js_bind_ok _ _ _ _ _ (clearFeatureHighlight_run _)).
  rewrite (js_bind_ok _ _ _ _ _ (remove_layers_run _ _)).
  rewrite (js_bind_ok _ _ _ _ _ (remove_layer_if_present_run _ _)).
  by rewrite (js_bind_ok _ _ _ _ _ (remove_source_if_present_run _ _)).
Qed.

Lemma vector_deactivate_absent cb p :
  obj_get (activeLayers (st p)) (vector_key (in_value cb)) = None →
  vector_deactivate cb p = (Ok tt, p).
Proof.
  intros Hv. unfold vector_deactivate, get_active.
  by rewrite (js_bind_ok _ _ p None p) by (unfold js_gets; by rewrite Hv).
Qed.

(** ** Lemmas: the map through an activation and a deactivation *)

(** The ids a deactivation removes from the map. *)
Definition removed (key : string) (v : vector_info) : list string :=
  "highlight-layer" :: vi_layerIds v ++ [label_of key].

Lemma deactivated_map_filter key v m :
  deactivated_map key v m =
  dropSource (vi_sourceId v)
    (set_layers (filter (λ l, lyr_id l ∉ removed key v)) m).
Proof.
  unfold deactivated_map, removed.
  rewrite !removeLayer_remove_layers, <-!remove_layers_app.
  by rewrite remove_layers_filter.
Qed.

Lemma activated_map_sources key fs vs fsid m :
  sources (activated_map key fs vs fsid m) =
  obj_set (sources m) (source_of key) (SrcGeojson fs).
Proof.
  unfold activated_map. rewrite sources_addLayer. unfold removeLayer at 1. simpl.
  by rewrite sources_add_layers.
Qed.

Lemma activated_map_terrain key fs vs fsid m :
  terrain (activated_map key fs vs fsid m) = terrain m.
Proof.
  unfold activated_map. rewrite terrain_addLayer. unfold removeLayer at 1. simpl.
  by rewrite terrain_add_layers.
Qed.

(** An activation changes no layer outside the label layer and the generated
    layers. *)
Lemma activated_map_layers (P : layer → Prop) `{∀ l, Decision (P l)} key fs vs fsid m :
  (∀ l, P l → lyr_id l ≠ label_of key) →
  Forall (λ l, ¬ P l) (vs_layers vs) →
  filter P (layers (activated_map key fs vs fsid m)) = filter P (layers m).
Proof.
  intros Hlab Hgen. unfold activated_map.
  rewrite filter_layers_addLayer by (intros HP; by apply Hlab in HP).
  unfold removeLayer at 1. simpl. rewrite filter_absorb by done.
  by rewrite filter_layers_add_layers.
Qed.

Lemma style_eq (a b : style) :
  sources a = sources b → layers a = layers b → terrain a = terrain b → a = b.
Proof. destruct a, b. simpl. by intros -> -> ->. Qed.

(** On a map that has none of the layer's ids and not its source, what an
    activation adds is what the deactivation removes. *)
Lemma deactivated_activated_map cb fs vs fsid m :
  let key := vector_key (in_value cb) in
  style_wf m → getSource m (source_of key) = None →
  (∀ l, l ∈ layers m → lyr_id l ∉ removed key (descriptor cb fs vs)) →
  deactivated_map key (descriptor cb fs vs) (activated_map key fs vs fsid m) = m.
Proof.
  intros key Hwf Hsrc Hfresh. rewrite deactivated_map_filter.
  assert (set_layers (filter (λ l, lyr_id l ∉ removed key (descriptor cb fs vs)))
            (activated_map key fs vs fsid m) =
          set_sources (λ ss, obj_set ss (source_of key) (SrcGeojson fs)) m) as ->.
  { apply style_eq; simpl;
      [apply activated_map_sources | | apply activated_map_terrain].
    rewrite activated_map_layers.
    - by apply filter_all, Forall_forall.
    - intros l Hl E. apply Hl. unfold removed. rewrite E.
      apply list_elem_of_further, elem_of_app. right. apply list_elem_of_here.
    - apply Forall_forall. intros l Hl Hn. apply Hn. unfold removed. simpl.
      apply list_elem_of_further, elem_of_app. left.
      apply list_elem_of_fmap. by exists l. }
  simpl. rewrite dropSource_unused.
  - by apply set_sources_delete_set.
  - by apply (layers_using_absent m).
Qed.

(** ** Lemmas: [handleVectorToggle] *)

(** The handler around its [try] block: a block that returns is followed by
    the legend and label updates; an exception of the block, or of those
    updates, ends in [vector_failed]. *)
Lemma handleVectorToggle_throw n cb resp p e q :
  ((if in_checked cb then vector_activate cb resp else vector_deactivate cb);;
   updateLegend;; updateLabelControl)
    (upd_dm (set_loader "Loading Vector Data..." true) p) = (Throw e, q) →
  handleVectorToggle n cb resp p = (Ok tt, vector_failed n e q).
Proof.
  intros H. unfold handleVectorToggle.
  rewrite (js_bind_ok _ _ _ _ _ (showLoader_run _ p)).
  unfold vector_toggle_try, js_finally, js_try_catch. by rewrite H.
Qed.

Lemma handleVectorToggle_ok n cb resp p q :
  ((if in_checked cb then vector_activate cb resp else vector_deactivate cb);;
   updateLegend;; updateLabelControl)
    (upd_dm (set_loader "Loading Vector Data..." true) p) = (Ok tt, q) →
  handleVectorToggle n cb resp p =
    (Ok tt, upd_dm (λ d, set_loader (loaderText d) false d) q).
Proof.
  intros H. unfold handleVectorToggle.
  rewrite (js_bind_ok _ _ _ _ _ (showLoader_run _ p)).
  unfold vector_toggle_try, js_finally, js_try_catch. by rewrite H.
Qed.

(** What the handler leaves of the page its [try] block built: the legend and
    label updates, the [catch] and the [finally] blocks change neither the
    registry nor the map. *)
Lemma handleVectorToggle_after n cb resp p p1 :
  (if in_checked cb then vector_activate cb resp else vector_deactivate cb)
    (upd_dm (set_loader "Loading Vector Data..." true) p) = (Ok tt, p1) →
  mp (js_exec (handleVectorToggle n cb resp) p) = mp p1 ∧
  st (js_exec (handleVectorToggle n cb resp) p) = st p1.
Proof.
  intros Hrun. unfold js_exec.
  pose proof (js_preserves_bind (λ q, core q = core p1) updateLegend
    (λ _, updateLabelControl) (updateLegend_core _)
    (λ _, updateLabelControl_core _) p1 eq_refl) as Hcore.
  destruct ((updateLegend;; updateLabelControl) p1) as [[[]|e] p2] eqn:Hup;
    simpl in Hcore; injection Hcore as Hst Hmp.
  - rewrite (handleVectorToggle_ok n cb resp p p2);
      [done | by rewrite (js_bind_ok _ _ _ _ _ Hrun)].
  - rewrite (handleVectorToggle_throw n cb resp p e p2);
      [done | by rewrite (js_bind_ok _ _ _ _ _ Hrun)].
Qed.

Lemma vector_activate_fetch_error cb resp e p :
  fetch_error resp = Some e → vector_activate cb resp p = (Throw e, p).
Proof.
  intros He. unfold vector_activate.
  by rewrite (js_bind_throw _ _ _ _ _ (fetch_features_error _ _ _ p He)).
Qed.

(** C3: a failed fetch, or a body that carries an [error], changes nothing
    but the page's feedback: the registry and the map are as before, the
    message is shown in an alert, the checkbox is unchecked and the loader is
    hidden. *)
Theorem handleVectorToggle_fetch_error n cb resp e p :
  in_checked cb = true → fetch_error resp = Some e →
  handleVectorToggle n cb resp p =
    (Ok tt, vector_failed n e (upd_dm (set_loader "Loading Vector Data..." true) p)).
Proof.
  intros Hc He. apply handleVectorToggle_throw. rewrite Hc.
  by rewrite (js_bind_throw _ _ _ _ _ (vector_activate_fetch_error _ _ _ _ He)).
Qed.

Lemma tagged_total vl key src fs fn :
  (∀ f0, head fs = Some f0 → is_Some (geometry f0)) →
  js_total (generateVectorStyle vl key src (imap (tagged key) fs) fn).
Proof.
  intros Hgeom. apply generateVectorStyle_total.
  - destruct fs as [|f0 fs]; [done|]. intros ? [= <-]. simpl. by apply Hgeom.
  - apply Forall_forall. intros f (i & f' & -> & _)%elem_of_lookup_imap.
    by apply (mk_is_Some _ _ eq_refl).
Qed.

(** The registry and the map after the handler ran an activation that went
    through. *)
Lemma handleVectorToggle_activated n cb g fs p :
  let key := vector_key (in_value cb) in
  in_checked cb = true → fetch_error (Ok g) = None → features g = Some fs →
  Forall (λ f, is_Some (properties f)) fs →
  (∀ f0, head fs = Some f0 → is_Some (geometry f0)) →
  getSource (mp p) (source_of key) = None →
  ∃ vs, Forall (styled key (source_of key)) (vs_layers vs) ∧
    mp (js_exec (handleVectorToggle n cb (Ok g)) p) =
      activated_map key (imap (tagged key) fs) vs (firstSymbolId p) (mp p) ∧
    activeLayers (st (js_exec (handleVectorToggle n cb (Ok g)) p)) =
      obj_set (activeLayers (st p)) key
        (AlVector (descriptor cb (imap (tagged key) fs) vs)).
Proof.
  intros key Hc He Hfs Hprops Hgeom Hsrc.
  destruct (js_total_run _ (rand p)
    (tagged_total (vectorList (dm p)) key (source_of key) fs (in_value cb) Hgeom))
    as [vs Hgen].
  set (r' := js_exec _ _) in Hgen.
  exists vs. split; [by eapply generateVectorStyle_styled|].
  destruct (handleVectorToggle_after n cb (Ok g) p
    (activated cb (imap (tagged key) fs) vs r'
       (upd_dm (set_loader "Loading Vector Data..." true) p))) as [-> ->]; [|done].
  rewrite Hc. by apply vector_activate_run.
Qed.

(** The registry and the map after the handler ran a deactivation. *)
Lemma handleVectorToggle_deactivated n cb resp v p :
  let key := vector_key (in_value cb) in
  in_checked cb = false →
  obj_get (activeLayers (st p)) key = Some (AlVector v) →
  mp (js_exec (handleVectorToggle n cb resp) p) = deactivated_map key v (mp p) ∧
  activeLayers (st (js_exec (handleVectorToggle n cb resp) p)) =
    obj_delete (activeLayers (st p)) key.
Proof.
  intros key Hc Hv.
  destruct (handleVectorToggle_after n cb resp p
    (deactivated key v (upd_dm (set_loader "Loading Vector Data..." true) p)))
    as [-> ->]; [|done].
  rewrite Hc. by apply vector_deactivate_run.
Qed.

(** A layer whose id neither is the highlight's nor starts with the key is
    none of the layers a deactivation removes. *)
Lemma not_removed key cb fs vs id :
  Forall (styled key (source_of key)) (vs_layers vs) →
  id ≠ "highlight-layer" → startsWith id key = false →
  id ∉ removed key (descriptor cb fs vs).
Proof.
  intros Hst Hh Hk. unfold removed. simpl.
  rewrite not_elem_of_cons, not_elem_of_app, list_elem_of_singleton.
  split_and!; [done | |].
  - intros (l & -> & Hl)%list_elem_of_fmap.
    eapply Forall_forall in Hst as (_ & _ & suf & _ & Hid); [|done].
    by rewrite Hid, startsWith_app in Hk.
  - intros ->. unfold label_of in Hk. by rewrite startsWith_app in Hk.
Qed.

(** C1: activating a vector layer and then deactivating it restores the map
    and the registry.  On a well-formed map that has neither the layer's
    source nor a layer named after the layer's key, and a registry without
    the key, an accepted response is registered under the key; unchecking
    the box afterwards leaves the map's sources, layers and terrain and the
    registry exactly as they were before the activation. *)
Theorem handleVectorToggle_round_trip n cb g fs resp p :
  let key := vector_key (in_value cb) in
  let p1 := js_exec (handleVectorToggle n cb (Ok g)) p in
  let p2 := js_exec (handleVectorToggle n (set_checked false cb) resp) p1 in
  in_checked cb = true → fetch_error (Ok g) = None → features g = Some fs →
  Forall (λ f, is_Some (properties f)) fs →
  (∀ f0, head fs = Some f0 → is_Some (geometry f0)) →
  style_wf (mp p) → getSource (mp p) (source_of key) = None →
  (∀ l, l ∈ layers (mp p) →
     lyr_id l ≠ "highlight-layer" ∧ startsWith (lyr_id l) key = false) →
  obj_get (activeLayers (st p)) key = None →
  is_Some (obj_get (activeLayers (st p1)) key) ∧
  mp p2 = mp p ∧ activeLayers (st p2) = activeLayers (st p).
Proof.
  intros key p1 p2 Hc He Hfs Hprops Hgeom Hwf Hsrc Hfresh Hreg.
  destruct (handleVectorToggle_activated n cb g fs p Hc He Hfs Hprops Hgeom Hsrc)
    as (vs & Hst & Hmp & Hal). fold key p1 in Hmp, Hal.
  assert (obj_get (activeLayers (st p1)) key =
          Some (AlVector (descriptor cb (imap (tagged key) fs) vs))) as Hd
    by (rewrite Hal; apply obj_get_set_eq).
  destruct (handleVectorToggle_deactivated n (set_checked false cb) resp _ p1
    eq_refl Hd) as [Hmp2 Hal2]. fold p2 in Hmp2, Hal2.
  change (in_value (set_checked false cb)) with (in_value cb) in Hmp2, Hal2.
  fold key in Hmp2, Hal2, Hst.
  split_and!; [by rewrite Hd | |].
  - rewrite Hmp2, Hmp. apply deactivated_activated_map; [done..|].
    intros l [??]%Hfresh. by apply not_removed.
  - rewrite Hal2, Hal. by apply obj_delete_set_new, obj_get_None.
Qed.

Lemma set_rand_id p : set_rand (rand p) p = p.
Proof. by destruct p. Qed.

(** An activation whose style generation throws: the source has been added
    and stays. *)
Lemma vector_activate_style_throw cb g fs e p :
  let key := vector_key (in_value cb) in
  fetch_error (Ok g) = None → features g = Some fs →
  Forall (λ f, is_Some (properties f)) fs →
  getSource (mp p) (source_of key) = None →
  generateVectorStyle (vectorList (dm p)) key (source_of key)
    (imap (tagged key) fs) (in_value cb) (rand p) = (Throw e, rand p) →
  vector_activate cb (Ok g) p =
    (Throw e, upd_mp (set_sources (λ ss, obj_set ss (source_of key)
                                           (SrcGeojson (imap (tagged key) fs)))) p).
Proof.
  intros key He Hfs Hprops Hsrc Hgen. unfold vector_activate.
  rewrite (js_bind_ok _ _ _ _ _ (fetch_features_run _ g fs p He Hfs Hprops)).
  rewrite (js_bind_ok _ _ _ _ _ (addSource_run _ _ _ p Hsrc)).
  erewrite js_bind_ok; [|reflexivity].
  by erewrite js_bind_throw; [|by apply with_rand_throw].
Qed.

(** C6: an exception after the source was added is not rolled back.  When
    the first feature of an accepted response has no geometry, the handler
    ends with the layer's source on the map, no entry in the registry, the
    alert shown and the checkbox unchecked. *)
Theorem handleVectorToggle_null_geometry n cb g f0 fs p :
  let key := vector_key (in_value cb) in
  in_checked cb = true → fetch_error (Ok g) = None →
  features g = Some (f0 :: fs) →
  Forall (λ f, is_Some (properties f)) (f0 :: fs) → geometry f0 = None →
  getSource (mp p) (source_of key) = None →
  handleVectorToggle n cb (Ok g) p =
    (Ok tt, vector_failed n "TypeError: Cannot read properties of null"
      (upd_mp (set_sources (λ ss, obj_set ss (source_of key)
                 (SrcGeojson (imap (tagged key) (f0 :: fs)))))
         (upd_dm (set_loader "Loading Vector Data..." true) p))).
Proof.
  intros key Hc He Hfs Hprops Hgeom Hsrc. apply handleVectorToggle_throw.
  rewrite Hc. erewrite js_bind_throw; [done|].
  apply vector_activate_style_throw; try done.
  by apply generateVectorStyle_null_geometry.
Qed.

(** ** Lemmas: the handlers keep the map well formed *)

Lemma map_do_wf f : (∀ m, style_wf m → style_wf (f m)) → js_preserves map_wf (map_do f).
Proof. intros Hf. apply js_preserves_modify. intros p. apply Hf. Qed.

Lemma map_try_wf f e :
  (∀ m m', style_wf m → f m = Some m' → style_wf m') →
  js_preserves map_wf (map_try f e).
Proof.
  intros Hf p Hp. unfold map_try, map_wf.
  destruct (f (mp p)) eqn:H; [by eapply Hf|done].
Qed.

(** A step that leaves the map alone. *)
Lemma frame_wf f : (∀ p, mp (f p) = mp p) → js_preserves map_wf (js_modify f).
Proof. intros Hf. apply js_preserves_modify. intros p. unfold map_wf. by rewrite Hf. Qed.

Lemma core_wf {A} (c : js page A) :
  (∀ x, js_preserves (λ q, core q = x) c) → js_preserves map_wf c.
Proof.
  intros Hc p Hp. specialize (Hc (core p) p eq_refl). unfold core in Hc.
  unfold map_wf. by replace (mp (c p).2) with (mp p) by congruence.
Qed.

Lemma with_rand_wf {A} (c : js rng A) : js_preserves map_wf (with_rand c).
Proof. intros p Hp. unfold with_rand, js_zoom. by destruct (c (rand p)). Qed.

(** One step of a proof that a handler keeps the map well formed. *)
Ltac wf_step :=
  first [ apply js_preserves_bind; [|intros ?]
        | apply js_preserves_when
        | apply js_preserves_finally
        | apply js_preserves_try_catch; [|intros ?]
        | apply js_preserves_for_each; intros ? _
        | apply js_preserves_gets
        | apply js_preserves_ret
        | apply js_preserves_throw
        | apply with_rand_wf
        | apply map_do_wf; by auto with js
        | apply map_try_wf; by eauto using addSource_wf, removeSource_wf, setTerrain_wf
        | apply frame_wf; by intros ? ].

Lemma remove_layer_if_present_wf id : js_preserves map_wf (remove_layer_if_present id).
Proof. unfold remove_layer_if_present. repeat wf_step. Qed.

Lemma remove_source_if_present_wf id : js_preserves map_wf (remove_source_if_present id).
Proof. unfold remove_source_if_present. repeat wf_step. Qed.

Lemma clearFeatureHighlight_wf : js_preserves map_wf clearFeatureHighlight.
Proof. unfold clearFeatureHighlight. repeat wf_step. Qed.

Lemma addOrUpdateLabelLayer_wf key field :
  js_preserves map_wf (addOrUpdateLabelLayer key field).
Proof.
  unfold addOrUpdateLabelLayer. wf_step; [wf_step|]. destruct a; [|wf_step].
  wf_step; [apply remove_layer_if_present_wf|]. case_match; wf_step.
Qed.

Lemma fetch_features_wf key resp : js_preserves map_wf (fetch_features key resp).
Proof.
  apply js_pure_preserves. unfold fetch_features, check_error, tag_features.
  apply js_pure_bind; [destruct resp; by intros ?|]. intros g.
  apply js_pure_bind; [repeat case_match; by intros ?|]. intros _.
  destruct (features g); [|by intros ?]. apply js_pure_map.
  intros [i f]. unfold tag_feature. simpl. destruct (properties f); by intros ?.
Qed.

#[local] Hint Resolve remove_layer_if_present_wf remove_source_if_present_wf
  clearFeatureHighlight_wf addOrUpdateLabelLayer_wf fetch_features_wf : js.

Lemma vector_activate_wf cb resp : js_preserves map_wf (vector_activate cb resp).
Proof.
  unfold vector_activate, flyToBounds.
  repeat first [by auto with js | wf_step].
Qed.

Lemma vector_deactivate_wf cb : js_preserves map_wf (vector_deactivate cb).
Proof.
  unfold vector_deactivate, get_active. wf_step; [wf_step|].
  destruct a as [[v|info]|]; repeat first [by auto with js | wf_step].
Qed.

Lemma raster_tile_url_wf which n cb : js_preserves map_wf (raster_tile_url which n cb).
Proof.
  unfold raster_tile_url, show_controls, band_stats.
  repeat first [case_match | wf_step].
Qed.

Lemma handleDemChange_wf cb : js_preserves map_wf (handleDemChange cb).
Proof.
  unfold handleDemChange, dem_change_body, showLoader, set_timeout, flyToBounds.
  destruct (in_checked cb); simpl; [|wf_step].
  wf_step; [wf_step|]. wf_step; [|wf_step]. wf_step.
  - unfold dem_clear. wf_step; [wf_step|]. wf_step; [wf_step|].
    destruct (currentDEM a0); repeat first [by auto with js | wf_step].
  - repeat first [by auto with js | wf_step].
Qed.

Lemma handleVectorToggle_wf n cb resp :
  js_preserves map_wf (handleVectorToggle n cb resp).
Proof.
  unfold handleVectorToggle, vector_toggle_try, showLoader, hideLoader, alert,
    set_input_checked.
  wf_step; [wf_step|]. wf_step; [|wf_step]. wf_step; [|repeat wf_step].
  wf_step; [destruct (in_checked cb);
            [apply vector_activate_wf | apply vector_deactivate_wf]|].
  wf_step; apply core_wf; [apply updateLegend_core | apply updateLabelControl_core].
Qed.

Lemma handleRasterToggle_wf which n cb b :
  js_preserves map_wf (handleRasterToggle which n cb b).
Proof.
  unfold handleRasterToggle, showLoader, hideLoader, set_input_checked.
  wf_step; [wf_step|]. wf_step; [|wf_step]. wf_step; [|wf_step].
  destruct (in_checked cb).
  - unfold raster_activate, flyToBounds.
    repeat first [by auto with js | apply raster_tile_url_wf | wf_step].
  - unfold raster_deactivate, show_controls.
    repeat first [by auto with js | wf_step].
Qed.

(** The handlers of the layer lists keep the map well formed: whether a
    handler returns or throws, no two sources and no two layers of the map
    share an id and every layer draws a source that is on the map.  This is
    the engine's contract carried through the handlers: every operation of
    the engine keeps it, whatever its caller does. *)
Lemma handlers_keep_map_wf p :
  map_wf p →
  (∀ cb, map_wf (js_exec (handleDemChange cb) p)) ∧
  (∀ n cb resp, map_wf (js_exec (handleVectorToggle n cb resp) p)) ∧
  (∀ which n cb b, map_wf (js_exec (handleRasterToggle which n cb b) p)).
Proof.
  intros Hp. split_and!; intros.
  - by apply handleDemChange_wf.
  - by apply handleVectorToggle_wf.
  - by apply handleRasterToggle_wf.
Qed.

(** ** Lemmas: [handleDemChange] *)

Lemma dem_clear_run p : dem_clear p = (Ok tt, upd_mp (dem_cleared (st p)) p).
Proof.
  destruct p as [s dm0 m fsid r v ts rq al].
  unfold dem_clear, dem_cleared, upd_mp, map_try. js_simpl.
  destruct (currentDEM s) as [d|]; [|done].
  destruct (hasSource m (dem_source d)) eqn:Hh; [|done].
  rewrite remove_layer_if_present_run. simpl. by rewrite remove_source_if_present_run.
Qed.

Lemma setTerrain_run src ex err p :
  is_Some (getSource (mp p) src) →
  map_try (setTerrain (Some (src, ex))) err p =
    (Ok tt, upd_mp (set_terrain (Some (src, ex))) p).
Proof.
  intros H%hasSource_true. unfold map_try, setTerrain. by rewrite H.
Qed.

Lemma dem_change_body_run cb p :
  getSource (dem_cleared (st p) (mp p)) (dem_source_of (li_id (in_info cb))) = None →
  dem_change_body cb p =
    (Ok tt, upd_requests (λ rs, rs ++ [ReqLayerBounds "dem" (li_id (in_info cb))])
       (upd_mp (λ m, dem_shown (li_id (in_info cb)) (firstSymbolId p)
                       (dem_cleared (st p) m))
          (upd_st (set_currentDEM
                     (Some {| dem_id := li_id (in_info cb);
                              dem_name := li_name (in_info cb);
                              dem_source := dem_source_of (li_id (in_info cb)) |})) p))).
Proof.
  intros Hsrc. unfold dem_change_body.
  rewrite (js_bind_ok _ _ _ _ _ (dem_clear_run p)).
  erewrite js_bind_ok; [|reflexivity].
  erewrite js_bind_ok; [|by apply addSource_run].
  erewrite js_bind_ok;
    [|apply setTerrain_run; simpl; rewrite getSource_set_sources_set;
      by rewrite decide_True].
  erewrite js_bind_ok; [|reflexivity].
  erewrite js_bind_ok; [|reflexivity]. done.
Qed.

(** [handleDemChange] on a checked radio whose source is not on the map once the previous model is taken off. *)
Lemma handleDemChange_changed cb p :
  in_checked cb = true →
  getSource (dem_cleared (st p) (mp p)) (dem_source_of (li_id (in_info cb))) = None →
  handleDemChange cb p = (Ok tt, dem_changed cb p).
Proof.
  intros Hc Hsrc. unfold handleDemChange. rewrite Hc. simpl.
  rewrite (js_bind_ok _ _ _ _ _ (showLoader_run _ p)).
  unfold js_finally. by rewrite dem_change_body_run.
Qed.

(** C22: choosing an elevation model.  When the model's source is not on
    the map once the model shown so far is taken off, [handleDemChange]
    returns with the terrain, the hillshade layer and the source of the
    chosen model in place of those of the previous one, the model recorded
    as current, the bounds requested and the loader left to a timer. *)
Theorem handleDemChange_selects cb p :
  in_checked cb = true →
  getSource (dem_cleared (st p) (mp p)) (dem_source_of (li_id (in_info cb))) = None →
  handleDemChange cb p = (Ok tt, dem_changed cb p).
Proof. exact (handleDemChange_changed cb p). Qed.

(** C23: switching between elevation models leaves one of them on the map.
    On a well-formed map on which only the hillshade layer draws the source
    of the current model, after choosing another model the old source is
    gone, the new one is the terrain at exaggeration 1, and the new model
    is the current one. *)
Theorem handleDemChange_switch cb d p :
  let new := dem_source_of (li_id (in_info cb)) in
  let p' := js_exec (handleDemChange cb) p in
  in_checked cb = true → style_wf (mp p) →
  currentDEM (st p) = Some d → is_Some (getSource (mp p) (dem_source d)) →
  Forall (λ l, lyr_id l = "hillshade") (layers_using (mp p) (dem_source d)) →
  dem_source d ≠ new → getSource (mp p) new = None →
  getSource (mp p') (dem_source d) = None ∧
  is_Some (getSource (mp p') new) ∧
  terrain (mp p') = Some (new, 1%Q) ∧
  (dem_source <$> currentDEM (st p')) = Some new.
Proof.
  intros new p' Hc Hwf Hd Hold Huse Hne Hnew. subst p'. unfold js_exec.
  assert (dem_cleared (st p) (mp p) =
          set_sources (λ ss, obj_delete ss (dem_source d))
            (removeLayer "hillshade" (set_terrain None (mp p)))) as Hcl.
  { unfold dem_cleared. rewrite Hd. apply hasSource_true in Hold as ->.
    apply dropSource_unused. rewrite layers_using_removeLayer.
    apply filter_none. eapply Forall_impl; [exact Huse|]. by intros l -> ?. }
  rewrite handleDemChange_changed;
    [|done|rewrite Hcl, getSource_set_sources_delete; by rewrite decide_False].
  cbn [snd dem_changed mp st upd_timers upd_requests upd_mp upd_st upd_dm currentDEM
       set_currentDEM fmap option_fmap option_map dem_source].
  unfold dem_shown. rewrite Hcl, terrain_addLayer, !getSource_addLayer. cbn [terrain set_terrain].
  rewrite !getSource_set_terrain, !getSource_set_sources_set,
    getSource_set_sources_delete. fold new.
  rewrite decide_False, decide_True, decide_True by done. split_and!; by eauto.
Qed.

(** ** Lemmas: [handleRasterToggle] *)

Lemma band_stats_run info band mm p :
  band_stats_of info band = Some mm → band_stats info band p = (Ok mm, p).
Proof. unfold band_stats, band_stats_of. by intros ->. Qed.

Lemma raster_tile_url_run which n cb url p :
  tile_url_of cb = Some url →
  raster_tile_url which n cb p = (Ok url, raster_shown which n cb p).
Proof.
  unfold tile_url_of, raster_tile_url, raster_shown.
  destruct (1 <? li_bands (in_info cb))%Z; intros H; simplify_option_eq; [|done].
  erewrite js_bind_ok; [|reflexivity].
  repeat (erewrite js_bind_ok; [|by apply band_stats_run]). done.
Qed.

Lemma raster_shown_mp which n cb p : mp (raster_shown which n cb p) = mp p.
Proof. unfold raster_shown. by case_match. Qed.

Lemma raster_shown_fsid which n cb p :
  firstSymbolId (raster_shown which n cb p) = firstSymbolId p.
Proof. unfold raster_shown. by case_match. Qed.

Lemma raster_activate_run which n cb b url p :
  tile_url_of cb = Some url →
  getSource (mp p) (source_of (raster_key (in_value cb))) = None →
  raster_activate which n cb b p = (Ok tt, raster_activated which n cb b url p).
Proof.
  intros Hurl Hsrc. unfold raster_activate, raster_activated.
  set (q := if b then p else _).
  assert (js_when (negb b) (flyToBounds "raster" (in_value cb)) p = (Ok tt, q)) as Hfly
    by (by destruct b).
  rewrite (js_bind_ok _ _ _ _ _ Hfly).
  rewrite (js_bind_ok _ _ _ _ _ (raster_tile_url_run which n cb url q Hurl)).
  assert (mp (raster_shown which n cb q) = mp p) as Hmp
    by (rewrite raster_shown_mp; subst q; by destruct b).
  assert (firstSymbolId (raster_shown which n cb q) = firstSymbolId p) as Hfs
    by (rewrite raster_shown_fsid; subst q; by destruct b).
  erewrite js_bind_ok; [|reflexivity]. rewrite Hmp.
  apply hasSource_false in Hsrc as Hno. rewrite Hno.
  erewrite js_bind_ok; [|reflexivity]. erewrite js_bind_ok; [|reflexivity].
  erewrite js_bind_ok; [|by apply addSource_run; simpl; rewrite Hmp].
  erewrite js_bind_ok; [|reflexivity]. simpl. by rewrite Hfs.
Qed.

Lemma raster_deactivate_run which n cb p :
  raster_deactivate which n cb p = (Ok tt, raster_deactivated which n cb p).
Proof.
  unfold raster_deactivate, raster_deactivated.
  erewrite js_bind_ok; [|reflexivity].
  rewrite (js_bind_ok _ _ _ _ _ (remove_layer_if_present_run _ _)).
  by rewrite (js_bind_ok _ _ _ _ _ (remove_source_if_present_run _ _)).
Qed.

(** The handler around a [try] block that returns. *)
Lemma handleRasterToggle_ok which n cb b p q :
  (if in_checked cb then raster_activate which n cb b else raster_deactivate which n cb)
    (upd_dm (set_loader "Loading..." true) p) = (Ok tt, q) →
  handleRasterToggle which n cb b p =
    (Ok tt, upd_dm (λ d, set_loader (loaderText d) false d) q).
Proof.
  intros H. unfold handleRasterToggle.
  rewrite (js_bind_ok _ _ _ _ _ (showLoader_run _ p)).
  unfold js_finally, js_try_catch. by rewrite H.
Qed.

(** [handleRasterToggle] on a checked input with its statistics, on a map without the source. *)
Lemma handleRasterToggle_activated which n cb b url p :
  in_checked cb = true → tile_url_of cb = Some url →
  getSource (mp p) (source_of (raster_key (in_value cb))) = None →
  handleRasterToggle which n cb b p =
    (Ok tt, upd_dm (λ d, set_loader (loaderText d) false d)
              (raster_activated which n cb b url
                 (upd_dm (set_loader "Loading..." true) p))).
Proof.
  intros Hc Hurl Hsrc. apply handleRasterToggle_ok. rewrite Hc.
  by apply raster_activate_run.
Qed.

(** C19: activating a raster layer.  For a checked input whose description
    has the statistics the tile address needs, on a map without the layer's
    source, [handleRasterToggle] returns with the description registered
    under the layer's key, the tiles as the layer's source and the raster
    layer added below the first symbol layer; the bounds are requested
    unless only the bands changed. *)
Theorem handleRasterToggle_activates which n cb b url p :
  in_checked cb = true → tile_url_of cb = Some url →
  getSource (mp p) (source_of (raster_key (in_value cb))) = None →
  handleRasterToggle which n cb b p =
    (Ok tt, upd_dm (λ d, set_loader (loaderText d) false d)
              (raster_activated which n cb b url
                 (upd_dm (set_loader "Loading..." true) p))).
Proof. exact (handleRasterToggle_activated which n cb b url p). Qed.

(** C20: activating a raster layer and deactivating it again restores the
    map and the registry. *)
Theorem handleRasterToggle_round_trip which n cb url p :
  let key := raster_key (in_value cb) in
  let p1 := js_exec (handleRasterToggle which n cb false) p in
  let p2 := js_exec (handleRasterToggle which n (set_checked false cb) false) p1 in
  in_checked cb = true → tile_url_of cb = Some url →
  style_wf (mp p) → getSource (mp p) (source_of key) = None →
  getLayer (mp p) key = None → obj_get (activeLayers (st p)) key = None →
  obj_get (activeLayers (st p1)) key = Some (AlRaster (in_info cb)) ∧
  getSource (mp p1) (source_of key) = Some (SrcRaster url 256) ∧
  mp p2 = mp p ∧ activeLayers (st p2) = activeLayers (st p).
Proof.
  intros key p1 p2 Hc Hurl Hwf Hsrc Hlyr Hreg. subst p2 p1. unfold js_exec.
  rewrite (handleRasterToggle_activated which n cb false url p Hc Hurl Hsrc).
  rewrite (handleRasterToggle_ok which n (set_checked false cb) false _ _
             (raster_deactivate_run _ _ _ _)).
  cbn [snd]. unfold raster_deactivated, raster_activated, js_exec, show_controls.
  cbn [js_modify snd mp st upd_dm upd_st upd_mp activeLayers upd_activeLayers in_value
       set_checked]. fold key. rewrite raster_shown_mp. cbn [mp upd_dm upd_requests].
  split_and!.
  - apply obj_get_set_eq.
  - unfold raster_activated_map. rewrite getSource_addLayer.
    rewrite getSource_set_sources_set. by rewrite decide_True.
  - unfold raster_activated_map.
    rewrite (removeLayer_addLayer (raster_layer key (source_of key))) by done.
    rewrite dropSource_unused; [by rewrite set_sources_delete_set|].
    change (layers_using (mp p) (source_of key) = []). by apply layers_using_absent.
  - unfold raster_shown. case_match; cbn; by apply obj_delete_set_new, obj_get_None.
Qed.

(** C21: a raster layer without statistics is refused silently.  For a
    checked single-band input whose description has no statistics the
    handler unchecks the input and hides the loader; the map, the registry
    and the alerts are as before (no message is shown), and the request for
    the bounds has already left unless only the bands changed. *)
Theorem handleRasterToggle_missing_stats which n cb b p :
  in_checked cb = true → (li_bands (in_info cb) <= 1)%Z → li_stats (in_info cb) = [] →
  handleRasterToggle which n cb b p =
    (Ok tt, upd_dm (λ d, set_loader (loaderText d) false
                           (upd_list which (alter (set_checked false) n) d))
              ((if b then id
                else upd_requests (λ rs, rs ++ [ReqLayerBounds "raster" (in_value cb)]))
                 (upd_dm (set_loader "Loading..." true) p))).
Proof.
  intros Hc Hb Hs. unfold handleRasterToggle.
  rewrite (js_bind_ok _ _ _ _ _ (showLoader_run _ p)). rewrite Hc.
  unfold raster_activate, raster_tile_url.
  apply Z.ltb_ge in Hb. rewrite Hb, Hs. by destruct b.
Qed.

(** ** A page to run the handlers on *)

Definition roads_input : input :=
  {| in_value := "roads.geojson"; in_checked := true;
     in_info := {| li_id := "roads.geojson"; li_name := "Roads"; li_bands := 0;
                   li_stats := []; li_colormap := None |};
     in_controls := None |}.

Definition roads_features : list feature :=
  [ {| geometry := Some "LineString"; properties := Some [("name", JStr "NH 47")] |};
    {| geometry := Some "LineString"; properties := Some [("name", JStr "SH 21")] |} ].

Definition roads_geojson : geojson :=
  {| gj_error := None; features := Some roads_features |}.

Definition empty_select : select :=
  {| sel_options := []; sel_index := None; sel_disabled := true |}.

(** The page after [populateLayerList], on a basemap with one symbol layer. *)
Definition fresh_page : page :=
  {| st := initial_state;
     dm := {| demList := []; vectorList := [set_checked false roads_input];
              rasterList := []; analysisLayerList := [];
              loaderText := ""; loadingOverlay := false;
              labelLayerSelect := empty_select; labelFieldSelect := empty_select;
              legendContent := []; legendContainer := false;
              attributePanel := false |};
     mp := {| sources := [("openmaptiles", SrcRaster "tiles" 512)];
              layers := [ {| lyr_id := "place-label"; lyr_type := LtSymbol;
                             lyr_source := Some "openmaptiles";
                             lyr_minzoom := None; lyr_maxzoom := None;
                             lyr_layout := []; lyr_paint := [];
                             lyr_filter := FilterNone |} ];
              terrain := None |};
     firstSymbolId := Some "place-label";
     rand := λ n, 1 # 2;
     visible := λ _, true;
     timers := []; requests := []; alerts := [] |}.

Lemma fresh_page_wf : style_wf (mp fresh_page).
Proof.
  split; simpl.
  - apply NoDup_singleton.
  - apply NoDup_singleton.
  - intros l src ->%list_elem_of_singleton [= <-]. by eexists.
Qed.

Lemma handleVectorToggle_round_trip_witness :
  is_Some (obj_get
    (activeLayers (st (js_exec (handleVectorToggle 0 roads_input (Ok roads_geojson))
                         fresh_page)))
    (vector_key "roads.geojson")) ∧
  mp (js_exec (handleVectorToggle 0 (set_checked false roads_input) (Throw ""))
        (js_exec (handleVectorToggle 0 roads_input (Ok roads_geojson)) fresh_page)) =
    mp fresh_page ∧
  activeLayers (st
    (js_exec (handleVectorToggle 0 (set_checked false roads_input) (Throw ""))
       (js_exec (handleVectorToggle 0 roads_input (Ok roads_geojson)) fresh_page))) =
    activeLayers (st fresh_page).
Proof.
  apply (handleVectorToggle_round_trip 0 roads_input roads_geojson roads_features
           (Throw "") fresh_page); try reflexivity.
  - repeat constructor; by eexists.
  - intros f0 [= <-]. by eexists.
  - apply fresh_page_wf.
  - intros l ->%list_elem_of_singleton. by split.
Defined.

Definition no_geometry : geojson :=
  {| gj_error := None;
     features := Some [ {| geometry := None; properties := Some [] |} ] |}.

Lemma handleVectorToggle_null_geometry_witness :
  handleVectorToggle 0 roads_input (Ok no_geometry) fresh_page =
    (Ok tt, vector_failed 0 "TypeError: Cannot read properties of null"
      (upd_mp (set_sources (λ ss, obj_set ss (source_of (vector_key "roads.geojson"))
                 (SrcGeojson (imap (tagged (vector_key "roads.geojson"))
                                [ {| geometry := None; properties := Some [] |} ]))))
         (upd_dm (set_loader "Loading Vector Data..." true) fresh_page))).
Proof.
  apply (handleVectorToggle_null_geometry 0 roads_input no_geometry); try reflexivity.
  repeat constructor; by eexists.
Defined.

Lemma handleVectorToggle_fetch_error_witness :
  handleVectorToggle 0 roads_input (Throw "Failed to fetch") fresh_page =
    (Ok tt, vector_failed 0 "Failed to fetch"
              (upd_dm (set_loader "Loading Vector Data..." true) fresh_page)).
Proof. by apply handleVectorToggle_fetch_error. Defined.

(** Two elevation models of the list. *)
Definition dem_input (name : string) : input :=
  {| in_value := name; in_checked := true;
     in_info := {| li_id := name; li_name := name; li_bands := 1;
                   li_stats := []; li_colormap := None |};
     in_controls := None |}.

Lemma handleDemChange_selects_witness :
  handleDemChange (dem_input "dem.tif") fresh_page =
    (Ok tt, dem_changed (dem_input "dem.tif") fresh_page).
Proof. apply (handleDemChange_selects (dem_input "dem.tif") fresh_page); reflexivity. Defined.

Lemma handleDemChange_switch_witness :
  let p := js_exec (handleDemChange (dem_input "dem.tif")) fresh_page in
  let p' := js_exec (handleDemChange (dem_input "srtm.tif")) p in
  getSource (mp p') "dem-source-dem.tif" = None ∧
  is_Some (getSource (mp p') "dem-source-srtm.tif") ∧
  terrain (mp p') = Some ("dem-source-srtm.tif", 1%Q) ∧
  (dem_source <$> currentDEM (st p')) = Some "dem-source-srtm.tif".
Proof.
  apply (handleDemChange_switch (dem_input "srtm.tif")
           (DemRef "dem.tif" "dem.tif" "dem-source-dem.tif")
           (js_exec (handleDemChange (dem_input "dem.tif")) fresh_page));
    try reflexivity; try done.
  - apply handleDemChange_wf, fresh_page_wf.
  - vm_compute. by repeat constructor.
Defined.

(** A single-band raster of the raster list. *)
Definition ortho_input : input :=
  {| in_value := "ortho.tif"; in_checked := true;
     in_info := {| li_id := "ortho.tif"; li_name := "Orthophoto"; li_bands := 1;
                   li_stats := [("0", "255")]; li_colormap := None |};
     in_controls := None |}.

Definition ortho_tiles : string := band_tiles "ortho.tif" ("0", "255") "Spectral_r".

Lemma handleRasterToggle_activates_witness :
  handleRasterToggle RasterList 0 ortho_input false fresh_page =
    (Ok tt, upd_dm (λ d, set_loader (loaderText d) false d)
              (raster_activated RasterList 0 ortho_input false ortho_tiles
                 (upd_dm (set_loader "Loading..." true) fresh_page))).
Proof.
  apply (handleRasterToggle_activates RasterList 0 ortho_input false ortho_tiles
           fresh_page); reflexivity.
Defined.

(** A raster the server described without statistics. *)
Definition bare_input : input :=
  {| in_value := "scan.tif"; in_checked := true;
     in_info := {| li_id := "scan.tif"; li_name := "Scan"; li_bands := 1;
                   li_stats := []; li_colormap := None |};
     in_controls := None |}.

Lemma handleRasterToggle_missing_stats_witness :
  handleRasterToggle RasterList 0 bare_input false fresh_page =
    (Ok tt, upd_dm (λ d, set_loader (loaderText d) false
                           (upd_list RasterList (alter (set_checked false) 0) d))
              (upd_requests (λ rs, rs ++ [ReqLayerBounds "raster" "scan.tif"])
                 (upd_dm (set_loader "Loading..." true) fresh_page))).
Proof.
  apply (handleRasterToggle_missing_stats RasterList 0 bare_input false fresh_page);
    [reflexivity | by vm_compute | reflexivity].
Defined.

Lemma handleRasterToggle_round_trip_witness :
  obj_get
    (activeLayers (st (js_exec (handleRasterToggle RasterList 0 ortho_input false)
                         fresh_page)))
    (raster_key "ortho.tif") = Some (AlRaster (in_info ortho_input)) ∧
  getSource (mp (js_exec (handleRasterToggle RasterList 0 ortho_input false) fresh_page))
    (source_of (raster_key "ortho.tif")) = Some (SrcRaster ortho_tiles 256) ∧
  mp (js_exec (handleRasterToggle RasterList 0 (set_checked false ortho_input) false)
        (js_exec (handleRasterToggle RasterList 0 ortho_input false) fresh_page)) =
    mp fresh_page ∧
  activeLayers
    (st (js_exec (handleRasterToggle RasterList 0 (set_checked false ortho_input) false)
           (js_exec (handleRasterToggle RasterList 0 ortho_input false) fresh_page))) =
    activeLayers (st fresh_page).
Proof.
  apply (handleRasterToggle_round_trip RasterList 0 ortho_input ortho_tiles fresh_page);
    try reflexivity.
  exact fresh_page_wf.
Defined.
