(* ===== verification/Ui.v ===== *)
(** * Ui: panels, attribute tables, popups and highlight (ui.js)

    ui.js wires the page: the three slide panels of the toolbars, the label
    selects, the attribute panel with one table per active vector layer and
    the bridge from a table search to the map's filters, and the highlight
    of a feature chosen on the map or in a table.  Its state [ui] extends
    the page by what only ui.js touches: the panels, the tables, the popup
    and the camera moves asked of the map.  (The replay of the layers after
    a change of basemap is in Replay.)
    - [closeAllSlidePanels], [layersTool_click], [hazardToolBtn_click],
      [viewOptionsTool_click]: lines 5-43;
    - [labelLayerSelect_change], [labelFieldSelect_change]: lines 67-74;
    - [toggleAttributePanel], [populateAttributePanel], [table_search],
      [global_search]: lines 198-229, 359-410 and 62-64;
    - [map_click], [showFeaturePopup], [row_click],
      [highlightFeatureFromTable], [highlightFeatureOnMap]: lines 232-301
      and 518-537;
    - [zoomToLegendCategory]: lines 344-357.
    The table widget is outside the repository: a table is its rows and its
    search text, and [matches] decides which rows a search keeps. *)

From Stdlib Require Import Ascii String ZArith QArith.
From stdpp Require Import base option list strings.
From S2P Require Import Prelude JsString JsObject GeoJson MapEngine Dom Style.
From S2P Require Import Page Legend Layers.

(** ** State *)

(** [classList.contains("expanded")] of the three panels and
    [classList.contains("active")] of their tools. *)
Record panels : Type := Panels {
  layersPanel : bool;
  hazardPanel : bool;
  viewOptionsPanel : bool;
  layersTool : bool;
  hazardToolBtn : bool;
  viewOptionsTool : bool;
}.

(** A table of the attribute panel: the descriptor it was built from (the
    object the [search.dt] listener closes over), its rows and its search. *)
Record attr_table : Type := AttrTable {
  at_layer : vector_info;
  at_id : string;
  at_columns : list (string * bool);
  at_data : list (option (obj jsval));
  at_search : string;
}.

(** What the page asked of the camera. *)
Inductive camera_move : Type :=
| FitFeatures (fs : list feature) (maxZoom : option Z)
| FitGeometry (f : feature).

Record popup : Type := Popup {
  pp_rows : list (string * string);
  pp_lnglat : lnglat;
}.

Record ui : Type := Ui {
  pg : page;
  pn : panels;
  attributesTool : bool;
  pushed_up : bool;
  tables : list attr_table;
  selected_row : option jsval;
  currentPopup : option popup;
  camera : list camera_move;
  matches : string → option (obj jsval) → bool;
  styles : string → option style;
}.

Definition upd_pg (f : page → page) (u : ui) : ui :=
  {| pg := f (pg u); pn := pn u; attributesTool := attributesTool u;
     pushed_up := pushed_up u; tables := tables u; selected_row := selected_row u;
     currentPopup := currentPopup u; camera := camera u; matches := matches u;
     styles := styles u |}.

Definition set_pg (p : page) (u : ui) : ui := upd_pg (λ _, p) u.

Definition upd_pn (f : panels → panels) (u : ui) : ui :=
  {| pg := pg u; pn := f (pn u); attributesTool := attributesTool u;
     pushed_up := pushed_up u; tables := tables u; selected_row := selected_row u;
     currentPopup := currentPopup u; camera := camera u; matches := matches u;
     styles := styles u |}.

Definition set_attribute_chrome (b : bool) (u : ui) : ui :=
  {| pg := upd_dm (set_attributePanel b) (pg u); pn := pn u; attributesTool := b;
     pushed_up := b; tables := tables u; selected_row := selected_row u;
     currentPopup := currentPopup u; camera := camera u; matches := matches u;
     styles := styles u |}.

Definition upd_tables (f : list attr_table → list attr_table) (u : ui) : ui :=
  {| pg := pg u; pn := pn u; attributesTool := attributesTool u;
     pushed_up := pushed_up u; tables := f (tables u); selected_row := selected_row u;
     currentPopup := currentPopup u; camera := camera u; matches := matches u;
     styles := styles u |}.

Definition set_selected_row (r : option jsval) (u : ui) : ui :=
  {| pg := pg u; pn := pn u; attributesTool := attributesTool u;
     pushed_up := pushed_up u; tables := tables u; selected_row := r;
     currentPopup := currentPopup u; camera := camera u; matches := matches u;
     styles := styles u |}.

Definition set_currentPopup (pp : option popup) (u : ui) : ui :=
  {| pg := pg u; pn := pn u; attributesTool := attributesTool u;
     pushed_up := pushed_up u; tables := tables u; selected_row := selected_row u;
     currentPopup := pp; camera := camera u; matches := matches u;
     styles := styles u |}.

Definition upd_camera (f : list camera_move → list camera_move) (u : ui) : ui :=
  {| pg := pg u; pn := pn u; attributesTool := attributesTool u;
     pushed_up := pushed_up u; tables := tables u; selected_row := selected_row u;
     currentPopup := currentPopup u; camera := f (camera u); matches := matches u;
     styles := styles u |}.

(** A handler of the page, run on the state of ui.js. *)
Definition lift {A} (c : js page A) : js ui A := js_zoom pg set_pg c.

(** ** Slide panels *)

(** [closeAllSlidePanels()] *)
Definition closeAllSlidePanels : js ui unit :=
  js_modify (upd_pn (λ _, Panels false false false false false false)).

(** [dom.layersTool.onclick] *)
Definition layersTool_click : js ui unit :=
  isOpen ← js_gets (λ u, layersPanel (pn u));
  closeAllSlidePanels;;
  js_when (negb isOpen)
    (js_modify (upd_pn (λ p, Panels true (hazardPanel p) (viewOptionsPanel p)
                                     true (hazardToolBtn p) (viewOptionsTool p)))).

(** [dom.hazardToolBtn.onclick] *)
Definition hazardToolBtn_click : js ui unit :=
  isOpen ← js_gets (λ u, hazardPanel (pn u));
  closeAllSlidePanels;;
  js_when (negb isOpen)
    (js_modify (upd_pn (λ p, Panels (layersPanel p) true (viewOptionsPanel p)
                                     (layersTool p) true (viewOptionsTool p)))).

(** [dom.viewOptionsTool.onclick] *)
Definition viewOptionsTool_click : js ui unit :=
  isOpen ← js_gets (λ u, viewOptionsPanel (pn u));
  closeAllSlidePanels;;
  js_when (negb isOpen)
    (js_modify (upd_pn (λ p, Panels (layersPanel p) (hazardPanel p) true
                                     (layersTool p) (hazardToolBtn p) true))).

(** ** Label selects *)

(** The [change] listener of [dom.labelLayerSelect]. *)
Definition labelLayerSelect_change : js ui unit :=
  layer ← js_gets (λ u, sel_value (labelLayerSelect (dm (pg u))));
  lift (populateLabelFieldSelect layer);;
  layer' ← js_gets (λ u, sel_value (labelLayerSelect (dm (pg u))));
  field ← js_gets (λ u, sel_value (labelFieldSelect (dm (pg u))));
  lift (addOrUpdateLabelLayer layer' field).

(** The [change] listener of [dom.labelFieldSelect]. *)
Definition labelFieldSelect_change : js ui unit :=
  layer ← js_gets (λ u, sel_value (labelLayerSelect (dm (pg u))));
  field ← js_gets (λ u, sel_value (labelFieldSelect (dm (pg u))));
  lift (addOrUpdateLabelLayer layer field).

(** ** The attribute panel *)

(** [`${layerIds[0].replace(/-[a-z]+(-lod)?$/, '')}-labels`]; a [TypeError]
    on a descriptor without layers. *)
Definition derived_label_id (v : vector_info) : js ui string :=
  match vi_layerIds v with
  | id0 :: _ => mret (label_of (strip_geom_suffix id0))
  | [] => js_throw "TypeError: Cannot read properties of undefined (reading 'replace')"
  end.

(** [if (map.getLayer(id)) map.setFilter(id, flt)] *)
Definition set_filter_if_present (flt : layer_filter) (id : string) : js ui unit :=
  m ← js_gets (λ u, mp (pg u));
  js_when (hasLayer m id) (lift (map_do (setFilter id flt))).

(** The listener of [search.dt] on the map: the filter of every layer of [v],
    then of its label layer, becomes [flt]. *)
Definition filter_layers (v : vector_info) (flt : layer_filter) : js ui unit :=
  js_for_each (set_filter_if_present flt) (vi_layerIds v);;
  labelLayerId ← derived_label_id v;
  set_filter_if_present flt labelLayerId.

(** The closing panel on the map: the label layer's id is derived first,
    then the filters of the layers of [v] and of the label layer are
    removed. *)
Definition unfilter_layers (v : vector_info) : js ui unit :=
  labelLayerId ← derived_label_id v;
  js_for_each (set_filter_if_present FilterNone) (vi_layerIds v);;
  set_filter_if_present FilterNone labelLayerId.

(** [Object.values(state.activeLayers).find(l => l.sourceId === sourceId)] *)
Definition find_by_source (s : app_state) (sourceId : string) : option active_layer :=
  List.find (λ l, match l with
                  | AlVector v => bool_decide (vi_sourceId v = sourceId)
                  | AlRaster _ => false
                  end) (obj_values (activeLayers s)).

(** The body of the loop over [state.filteredLayers] when the panel closes. *)
Definition clear_filter (sourceId : string) : js ui unit :=
  s ← js_gets (λ u, st (pg u));
  match find_by_source s sourceId ≫= as_vector with
  | Some v => unfilter_layers v
  | None => mret tt
  end.

(** The columns of a table: every attribute name, [_uniqueId] hidden. *)
Definition table_columns (data : list (option (obj jsval))) : list (string * bool) :=
  (λ h, (h, negb (String.eqb h "_uniqueId")))
    <$> set_of_list (flat_map (λ props, obj_keys (default [] props)) data).

(** The table [populateAttributePanel] builds for a vector layer. *)
Definition make_table (v : vector_info) : attr_table :=
  let data := properties <$> vi_geojson v in
  {| at_layer := v;
     at_id := "datatable-" +:+ strip_non_alnum (vi_sourceId v);
     at_columns := table_columns data;
     at_data := data;
     at_search := "" |}.

(** [populateAttributePanel()] *)
Definition populateAttributePanel : js ui unit :=
  lift (js_modify (upd_st (set_filteredLayers (Some []))));;
  s ← js_gets (λ u, st (pg u));
  js_modify (upd_tables (λ _,
    make_table <$> List.filter (λ v, negb (bool_decide (vi_geojson v = [])))
                     (active_vectors s)));;
  js_modify (set_selected_row None).

(** The [if (isVisible)] branch of [toggleAttributePanel]: the panel closes
    and the filters of the searched layers are removed. *)
Definition close_attribute_panel : js ui unit :=
  js_modify (set_attribute_chrome false);;
  fl ← js_gets (λ u, filteredLayers (st (pg u)));
  match fl with
  | Some sourceIds =>
    js_for_each clear_filter sourceIds;;
    lift (js_modify (upd_st (set_filteredLayers (Some []))))
  | None => mret tt
  end.

(** The [else] branch of [toggleAttributePanel]. *)
Definition open_attribute_panel : js ui unit :=
  populateAttributePanel;;
  js_modify (set_attribute_chrome true).

(** [toggleAttributePanel()] *)
Definition toggleAttributePanel : js ui unit :=
  js_gets (λ u, attributePanel (dm (pg u))) ≫= λ isVisible : bool,
  if isVisible then close_attribute_panel else open_attribute_panel.

(** [table.rows({ filter: 'applied' }).data().pluck('_uniqueId').toArray()] *)
Definition filtered_ids (u : ui) (t : attr_table) : list jsval :=
  (λ props, prop (default [] props) "_uniqueId")
    <$> List.filter (matches u (at_search t)) (at_data t).

(** [state.filteredLayers.add(sourceId)]; a [TypeError] before the panel was
    ever opened. *)
Definition add_filtered (sourceId : string) : js ui unit :=
  fl ← js_gets (λ u, filteredLayers (st (pg u)));
  match fl with
  | Some l => lift (js_modify (upd_st (set_filteredLayers (Some (set_add l sourceId)))))
  | None => js_throw "TypeError: Cannot read properties of undefined (reading 'add')"
  end.

(** The [search.dt] listener of the table [t]. *)
Definition table_search (t : attr_table) : js ui unit :=
  u ← js_gets id;
  let filteredIds := filtered_ids u t in
  add_filtered (vi_sourceId (at_layer t));;
  filter_layers (at_layer t) (FilterIn "_uniqueId" filteredIds).

(** The [keyup] listener of the global search box: every table is searched
    for the text and redrawn. *)
Definition global_search (text : string) : js ui unit :=
  js_modify (upd_tables (fmap (λ t,
    {| at_layer := at_layer t; at_id := at_id t; at_columns := at_columns t;
       at_data := at_data t; at_search := text |})));;
  ts ← js_gets tables;
  js_for_each (λ t, js_dispatch (table_search t)) ts.

(** ** Highlight, popup and clicks *)

Definition highlight_layer (src : option string) (featureId : jsval) : layer :=
  {| lyr_id := "highlight-layer"; lyr_type := LtLine; lyr_source := src;
     lyr_minzoom := None; lyr_maxzoom := None; lyr_layout := [];
     lyr_paint := [ ("line-color", PStr "#FFFF00"); ("line-width", PNum 5);
                    ("line-opacity", PNum (9 # 10)) ];
     lyr_filter := FilterEq "_uniqueId" featureId |}.

(** [window.highlightFeatureOnMap(layerId, featureId)] *)
Definition highlightFeatureOnMap (layerId : option string) (featureId : jsval) :
    js ui unit :=
  lift clearFeatureHighlight;;
  lift (js_modify (upd_st (set_highlightedFeature (layerId, Some featureId))));;
  m ← js_gets (λ u, mp (pg u));
  match layerId ≫= getLayer m with
  | Some l => lift (map_do (addLayer (highlight_layer (lyr_source l) featureId) None))
  | None => js_throw "TypeError: Cannot read properties of undefined (reading 'source')"
  end.

(** [window.highlightFeatureFromTable(featureId)] *)
Definition highlightFeatureFromTable (featureId : string) : js ui unit :=
  s ← js_gets (λ u, st (pg u));
  match List.find (λ k, startsWith featureId k) (obj_keys (activeLayers s)) with
  | None => mret tt
  | Some layerKey =>
    match obj_get (activeLayers s) layerKey with
    | Some (AlVector v) =>
      match List.find (λ f, bool_decide (unique_id f = JStr featureId)) (vi_geojson v) with
      | Some f =>
        highlightFeatureOnMap (head (vi_layerIds v)) (JStr featureId);;
        js_modify (upd_camera (λ c, c ++ [FitFeatures [f] (Some 16%Z)]))
      | None => mret tt
      end
    | _ => js_throw "TypeError: Cannot read properties of undefined (reading 'features')"
    end
  end.

(** [highlightRowInTable(featureId)]: the row of the feature, when a table
    has one, becomes the only selected row. *)
Definition highlightRowInTable (featureId : jsval) : js ui unit :=
  ts ← js_gets tables;
  js_modify (set_selected_row
    (if bool_decide (Exists (λ t, Exists (λ props,
          prop (default [] props) "_uniqueId" = featureId) (at_data t)) ts)
     then Some featureId else None)).

(** The click listener of the table rows, on a row whose data has the id
    [uid]. *)
Definition row_click (uid : jsval) : js ui unit :=
  sel ← js_gets selected_row;
  if bool_decide (sel = Some uid) then
    js_modify (set_selected_row None);;
    lift clearFeatureHighlight
  else
    js_modify (set_selected_row (Some uid));;
    if truthy uid then
      match uid with
      | JStr featureId => highlightFeatureFromTable featureId
      | _ => js_throw "TypeError: featureId.startsWith is not a function"
      end
    else mret tt.

(** The rows of the popup: every attribute but [_uniqueId], falsy values
    shown as [N/A]. *)
Definition popup_rows (props : obj jsval) : list (string * string) :=
  (λ kv, (kv.1, if truthy kv.2 then to_string kv.2 else "N/A"))
    <$> List.filter (λ kv, negb (String.eqb kv.1 "_uniqueId")) props.

(** [showFeaturePopup(feature, lngLat)], for a feature rendered by the layer
    [layerId]. *)
Definition showFeaturePopup (layerId : string) (f : feature) (at_ : lnglat) :
    js ui unit :=
  match properties f with
  | None => js_throw "TypeError: Cannot convert undefined or null to object"
  | Some props =>
    js_modify (set_currentPopup (Some {| pp_rows := popup_rows props; pp_lnglat := at_ |}));;
    highlightFeatureOnMap (Some layerId) (unique_id f);;
    highlightRowInTable (unique_id f)
  end.

(** [map.queryRenderedFeatures(point, { layers: ids })]: the features under
    the pointer, those of the topmost layer first. *)
Definition queryRenderedFeaturesAt (m : style) (hit : feature → bool)
    (ids : list string) : list (string * feature) :=
  flat_map (λ l, if bool_decide (lyr_id l ∈ ids)
                 then (λ f, (lyr_id l, f)) <$> List.filter hit (shown_features m (lyr_id l))
                 else [])
           (reverse (layers m)).

(** The [click] listener of the map, for a click at [at_] over the features
    [hit]. *)
Definition map_click (hit : feature → bool) (at_ : lnglat) : js ui unit :=
  js_modify (set_currentPopup None);;
  lift clearFeatureHighlight;;
  s ← js_gets (λ u, st (pg u));
  if isMeasuring s || isProfiling s then mret tt
  else
    let vectorLayerIds := flat_map vi_layerIds (active_vectors s) in
    match vectorLayerIds with
    | [] => mret tt
    | _ :: _ =>
      m ← js_gets (λ u, mp (pg u));
      match queryRenderedFeaturesAt m hit vectorLayerIds with
      | [] => mret tt
      | (layerId, f) :: _ =>
        showFeaturePopup layerId f at_;;
        js_modify (upd_camera (λ c, c ++ [FitGeometry f]))
      end
    end.

(** [v == s] for an attribute value and a string. *)
Definition loose_eq (v : jsval) (s : string) : bool :=
  match v with
  | JStr x => String.eqb x s
  | JNum _ => String.eqb (to_string v) s
  | JBool b => String.eqb (if b then "1" else "0") s
  | JNull | JUndefined => false
  end.

(** [zoomToLegendCategory(layerName, categoryName)] *)
Definition zoomToLegendCategory (layerName categoryName : string) : js ui unit :=
  s ← js_gets (λ u, st (pg u));
  match List.find (λ v, String.eqb (vi_displayName v) layerName) (active_vectors s) with
  | None => mret tt
  | Some v =>
    match vi_classField v with
    | None => mret tt
    | Some cf =>
      match List.filter (λ f, bool_decide (is_Some (properties f))
                              && loose_eq (feature_prop f cf) categoryName)
                        (vi_geojson v) with
      | [] => mret tt
      | fs => js_modify (upd_camera (λ c, c ++ [FitFeatures fs None]))
      end
    end
  end.

(** The state after a search of the table [t] went through. *)
Definition searched (t : attr_table) (labelLayerId : string) (l : list string)
    (u : ui) : ui :=
  upd_pg (λ p,
    upd_mp (set_filters (vi_layerIds (at_layer t) ++ [labelLayerId])
              (FilterIn "_uniqueId" (filtered_ids u t)))
      (upd_st (set_filteredLayers (Some (set_add l (vi_sourceId (at_layer t))))) p)) u.

(** At most one slide panel is open, and a tool is active exactly when its
    panel is open. *)
Definition panels_ok (p : panels) : Prop :=
  layersTool p = layersPanel p ∧ hazardToolBtn p = hazardPanel p ∧
  viewOptionsTool p = viewOptionsPanel p ∧
  (layersPanel p && hazardPanel p = false) ∧
  (layersPanel p && viewOptionsPanel p = false) ∧
  (hazardPanel p && viewOptionsPanel p = false).

#[local] Arguments set_filters : simpl never.

(** ** Lemmas: panels *)

Lemma closeAllSlidePanels_ok : js_preserves (λ u, panels_ok (pn u)) closeAllSlidePanels.
Proof. by intros u _. Qed.

Lemma panel_click_ok c :
  c ∈ [layersTool_click; hazardToolBtn_click; viewOptionsTool_click] →
  ∀ u, panels_ok (pn (js_exec c u)).
Proof.
  intros Hc u.
  repeat (apply elem_of_cons in Hc as [->|Hc]); [..|by apply elem_of_nil in Hc];
    unfold js_exec, layersTool_click, hazardToolBtn_click, viewOptionsTool_click,
      closeAllSlidePanels; js_simpl; by destruct (pn u) as [[] [] [] ? ? ?].
Qed.

(** ** Lemmas: the label layer's id *)

Lemma derived_suffix f suf :
  suf ∈ geom_suffixes → strip_geom_suffix (vector_key f +:+ suf) = vector_key f.
Proof.
  intros Hsuf. unfold vector_key, geom_suffixes in *. rewrite append_assoc.
  assert (no_dash (sanitize f) = true) as Hn by apply word_no_dash, sanitize_word.
  repeat (apply elem_of_cons in Hsuf as [->|Hsuf]); [..|by apply elem_of_nil in Hsuf];
    by apply (strip_geom_suffix_derived "vector" (sanitize f)).
Qed.

(** ** Lemmas: filters through the handlers *)

Lemma set_pg_id u : set_pg (pg u) u = u.
Proof. by destruct u. Qed.

Lemma lift_run {A} (c : js page A) u :
  lift c u = ((c (pg u)).1, set_pg (c (pg u)).2 u).
Proof. apply js_zoom_run. Qed.

Lemma set_filter_if_present_run flt id u :
  set_filter_if_present flt id u = (Ok tt, upd_pg (upd_mp (setFilter id flt)) u).
Proof.
  unfold set_filter_if_present. js_simpl.
  destruct (hasLayer (mp (pg u)) id) eqn:Hh; simpl; [by rewrite lift_run|].
  unfold upd_pg. rewrite upd_mp_id; [by destruct u|].
  by apply setFilter_absent, hasLayer_getLayer.
Qed.

Lemma fold_left_upd_pg_mp {A} (f : A → style → style) l u :
  fold_left (λ u x, upd_pg (upd_mp (f x)) u) l u =
  upd_pg (upd_mp (λ m, fold_left (λ m x, f x m) l m)) u.
Proof.
  revert u. induction l as [|x l IH]; intros u; simpl.
  - destruct u as [[] ?]. done.
  - by rewrite IH.
Qed.

Lemma set_filters_run flt ids u :
  js_for_each (set_filter_if_present flt) ids u =
    (Ok tt, upd_pg (upd_mp (set_filters ids flt)) u).
Proof.
  rewrite (js_for_each_ext _ (λ id, js_modify (upd_pg (upd_mp (setFilter id flt)))))
    by (intros id q; apply set_filter_if_present_run).
  by rewrite js_for_each_modify, fold_left_upd_pg_mp.
Qed.

Lemma set_filters_app ids1 ids2 flt m :
  set_filters (ids1 ++ ids2) flt m = set_filters ids2 flt (set_filters ids1 flt m).
Proof. apply fold_left_app. Qed.

Lemma add_filtered_run sourceId l u :
  filteredLayers (st (pg u)) = Some l →
  add_filtered sourceId u =
    (Ok tt, upd_pg (upd_st (set_filteredLayers (Some (set_add l sourceId)))) u).
Proof.
  intros Hfl. unfold add_filtered.
  rewrite (js_bind_ok _ _ u (Some l) u) by (unfold js_gets; by rewrite Hfl).
  by rewrite lift_run.
Qed.

Lemma filter_layers_run v flt id0 ids u :
  vi_layerIds v = id0 :: ids →
  filter_layers v flt u =
    (Ok tt, upd_pg (upd_mp (set_filters
                      (vi_layerIds v ++ [label_of (strip_geom_suffix id0)]) flt)) u).
Proof.
  intros Hids. unfold filter_layers, derived_label_id.
  rewrite (js_bind_ok _ _ _ _ _ (set_filters_run _ _ _)), Hids.
  erewrite js_bind_ok; [|reflexivity].
  rewrite set_filter_if_present_run. destruct u. unfold upd_pg, upd_mp. simpl.
  by rewrite app_comm_cons, set_filters_app.
Qed.

(** A search of a table whose layer has layers, once the panel was opened. *)
Lemma table_search_run t id0 ids l u :
  vi_layerIds (at_layer t) = id0 :: ids →
  filteredLayers (st (pg u)) = Some l →
  table_search t u = (Ok tt, searched t (label_of (strip_geom_suffix id0)) l u).
Proof.
  intros Hids Hfl. unfold table_search.
  rewrite (js_bind_ok _ _ u u u) by done. cbv zeta.
  rewrite (js_bind_ok _ _ _ _ _ (add_filtered_run _ l u Hfl)).
  rewrite (filter_layers_run _ _ id0 ids) by done.
  unfold searched. by destruct u.
Qed.

(** ** Theorems *)

(** C9: after a click on any of the three toolbar buttons at most one slide
    panel is open, and each button is highlighted exactly when its panel is
    open, whatever the panels were before. *)
Theorem slide_panels_exclusive u :
  panels_ok (pn (js_exec layersTool_click u)) ∧
  panels_ok (pn (js_exec hazardToolBtn_click u)) ∧
  panels_ok (pn (js_exec viewOptionsTool_click u)).
Proof.
  split_and!; apply panel_click_ok;
    repeat first [apply list_elem_of_here | apply list_elem_of_further].
Qed.

(** C7: the label layer's id that ui.js derives from the first layer id by
    the regular expression [/-[a-z]+(-lod)?$/] is the id layer-handlers.js
    gave the label layer, for every layer [generateVectorStyle] can generate
    under a layer key. *)
Theorem derived_label_id_style f src low g f0 ce v l ls u :
  style_layers (vector_key f) src low g f0 ce = l :: ls →
  vi_layerIds v = lyr_id <$> l :: ls →
  derived_label_id v u = (Ok (label_of (vector_key f)), u).
Proof.
  intros Hst Hv. unfold derived_label_id. rewrite Hv. simpl.
  destruct (style_layers_styled (vector_key f) src low g f0 ce l)
    as (_ & _ & suf & Hsuf & ->); [rewrite Hst; apply list_elem_of_here|].
  by rewrite derived_suffix.
Qed.

(** The layers and the record after the search of a table. *)
Lemma table_search_layer t id0 ids l u id lyr :
  vi_layerIds (at_layer t) = id0 :: ids →
  filteredLayers (st (pg u)) = Some l →
  id ∈ vi_layerIds (at_layer t) ++ [label_of (strip_geom_suffix id0)] →
  getLayer (mp (pg u)) id = Some lyr →
  getLayer (mp (pg (js_exec (table_search t) u))) id =
    Some (set_lyr_filter (FilterIn "_uniqueId" (filtered_ids u t)) lyr) ∧
  filteredLayers (st (pg (js_exec (table_search t) u))) =
    Some (set_add l (vi_sourceId (at_layer t))).
Proof.
  intros Hids Hfl Hid Hlyr. unfold js_exec.
  rewrite (table_search_run t id0 ids l u Hids Hfl). simpl. split; [|done].
  rewrite getLayer_set_filters, Hlyr. simpl. by rewrite decide_True.
Qed.

(** C5: the attribute filter bridge.  A search of a table, once the panel
    was opened, gives every layer of the table's vector layer that is on the
    map, and its label layer, the filter that keeps exactly the features
    whose [_uniqueId] is among the rows the search kept; the layer's source is
    recorded as filtered. *)
Theorem table_search_filters t id0 ids l u id lyr :
  vi_layerIds (at_layer t) = id0 :: ids →
  filteredLayers (st (pg u)) = Some l →
  id ∈ vi_layerIds (at_layer t) ++ [label_of (strip_geom_suffix id0)] →
  getLayer (mp (pg u)) id = Some lyr →
  getLayer (mp (pg (js_exec (table_search t) u))) id =
    Some (set_lyr_filter (FilterIn "_uniqueId" (filtered_ids u t)) lyr) ∧
  filteredLayers (st (pg (js_exec (table_search t) u))) =
    Some (set_add l (vi_sourceId (at_layer t))).
Proof. exact (table_search_layer t id0 ids l u id lyr). Qed.

(** C11: clearing the search does not remove the filter.  A search for the
    empty text, which keeps every row, leaves on each layer the filter that
    lists the [_uniqueId] of every row of the table. *)
Theorem table_search_cleared t id0 ids l u id lyr :
  vi_layerIds (at_layer t) = id0 :: ids →
  filteredLayers (st (pg u)) = Some l →
  (∀ r, matches u (at_search t) r = true) →
  id ∈ vi_layerIds (at_layer t) → getLayer (mp (pg u)) id = Some lyr →
  lyr_filter <$> getLayer (mp (pg (js_exec (table_search t) u))) id =
    Some (FilterIn "_uniqueId"
            ((λ props, prop (default [] props) "_uniqueId") <$> at_data t)).
Proof.
  intros Hids Hfl Hall Hid Hlyr.
  destruct (table_search_layer t id0 ids l u id lyr Hids Hfl) as [-> _];
    [apply elem_of_app; by left | done |].
  simpl. unfold filtered_ids. do 3 f_equal.
  apply List_filter_all. by intros r _.
Qed.

(** ** A page with one searched layer *)

Definition roads_line : layer :=
  mk_layer "vector-roads_geojson-line" "source-vector-roads_geojson" LtLine None None [].

Definition roads_info : vector_info :=
  {| vi_classification := [("NH 47", "#bababa")]; vi_classField := Some "name";
     vi_sourceId := "source-vector-roads_geojson"; vi_filename := "roads.geojson";
     vi_geojson := imap (tagged "vector-roads_geojson") roads_features;
     vi_layerIds := ["vector-roads_geojson-line"]; vi_displayName := "Roads" |}.

(** The attribute panel open on the roads layer; a search keeps the rows
    that have the text as their name, the empty text keeps every row. *)
Definition panel_open : ui :=
  {| pg := upd_st (λ s, set_filteredLayers (Some [])
                          (upd_activeLayers (λ _, [("vector-roads_geojson",
                                                    AlVector roads_info)]) s))
             (upd_mp (λ m, set_layers (λ ls, roads_line :: ls)
                             (set_sources (λ ss, ss ++
                                [("source-vector-roads_geojson",
                                  SrcGeojson (vi_geojson roads_info))]) m))
                fresh_page);
     pn := Panels false false false false false false;
     attributesTool := true; pushed_up := true;
     tables := [make_table roads_info]; selected_row := None;
     currentPopup := None; camera := [];
     matches := λ text r, String.eqb text "" ||
                          bool_decide (prop (default [] r) "name" = JStr text);
     styles := λ _, None |}.

Definition searched_for (text : string) : attr_table :=
  {| at_layer := roads_info; at_id := at_id (make_table roads_info);
     at_columns := at_columns (make_table roads_info);
     at_data := at_data (make_table roads_info); at_search := text |}.

Lemma derived_label_id_style_witness :
  derived_label_id roads_info panel_open = (Ok "vector-roads_geojson-labels", panel_open).
Proof.
  eapply (derived_label_id_style "roads.geojson" "source-vector-roads_geojson"
           "roads.geojson" "LineString" (Feature None None) (ColorConst "#bababa")
           roads_info _ [] panel_open); reflexivity.
Defined.

Lemma table_search_filters_witness :
  getLayer (mp (pg (js_exec (table_search (searched_for "NH 47")) panel_open)))
    "vector-roads_geojson-line" =
    Some (set_lyr_filter
            (FilterIn "_uniqueId" (filtered_ids panel_open (searched_for "NH 47")))
            roads_line) ∧
  filteredLayers (st (pg (js_exec (table_search (searched_for "NH 47")) panel_open))) =
    Some (set_add [] "source-vector-roads_geojson").
Proof.
  apply (table_search_filters (searched_for "NH 47") "vector-roads_geojson-line" []
           [] panel_open); try reflexivity.
  apply list_elem_of_here.
Defined.

Lemma table_search_cleared_witness :
  lyr_filter <$> getLayer (mp (pg (js_exec (table_search (searched_for "")) panel_open)))
                   "vector-roads_geojson-line" =
    Some (FilterIn "_uniqueId"
            ((λ props, prop (default [] props) "_uniqueId")
               <$> at_data (searched_for ""))).
Proof.
  apply (table_search_cleared (searched_for "") "vector-roads_geojson-line" []
           [] panel_open _ roads_line); try reflexivity.
  apply list_elem_of_here.
Defined.
