(* ===== verification/Replay.v ===== *)
(** * Replay: the layers after a change of basemap (ui.js)

    [map.setStyle] replaces the style of the map: every source and layer
    the page added is gone.  ui.js listens to [style.load] and replays the
    page's layers on the new style ([reapplyAllLayers], lines 76-135): after
    half a second it reads the first symbol layer again, clicks the radio of
    the current elevation model, and for every key of the registry looks up
    the layer's checkbox, deletes the entry and clicks the checkbox, so that
    the ordinary handler adds the layer again.
    - [basemap_change]: the listener of the basemap radios;
    - [reapplyAllLayers]: the listener of [style.load], which sets the timer;
    - [reapply_body]: the callback of the timer;
    - [click_radio], [click_checkbox]: a click made by the program.  The
      click runs the handler of the input; an exception of the handler is
      reported and does not reach the code that clicked.  The handler of a
      vector layer stops at its fetch: [click_checkbox] returns the layers
      whose fetch it started ([pending]), and [resume_vector] is the rest of
      the handler, run when the answer arrives.
    The theorems: the replay never throws, whatever the handlers do; it puts
    a raster layer back; and a session that swaps the basemap under an
    elevation model, a vector layer and a raster layer, with what it changes
    (the colours drawn at random and the order of the layers) and what it
    keeps. *)

From Stdlib Require Import Ascii String ZArith QArith.
From stdpp Require Import base option list strings.
From S2P Require Import Prelude JsString JsObject GeoJson MapEngine Dom Style.
From S2P Require Import Page Legend Layers Ui.

(** ** The handlers *)

(** The [change] listener of a basemap radio.  The style load is immediate
    here.  The radios of the page carry the keys of [basemaps]; for a value
    outside them the program passes [undefined] to [setStyle], which drops
    the style, and the model leaves the map alone. *)
Definition basemap_change (checked : bool) (value : string) : js ui unit :=
  if checked then
    u ← js_gets id;
    match styles u value with
    | Some base => lift (map_do (setStyle base))
    | None => mret tt
    end
  else mret tt.

(** [reapplyAllLayers()], the listener of [style.load]: the replay is put
    behind a timer. *)
Definition reapplyAllLayers : js ui unit :=
  lift (showLoader "Applying Layers to New Basemap...");;
  lift (set_timeout TReapplyAllLayers 500).

(** [window.updateFirstSymbolId()] *)
Definition updateFirstSymbolId : js page unit :=
  js_modify (λ p, set_firstSymbolId (first_symbol_id (mp p)) p).

(** [radio.checked = false; radio.click()] on the [n]-th elevation model:
    the radio is checked, the others are not, and [handleDemChange] runs. *)
Definition click_radio (n : nat) : js page unit :=
  js_modify (upd_dm (upd_list DemList (imap (λ i, set_checked (bool_decide (i = n))))));;
  l ← js_gets (λ p, demList (dm p));
  match l !! n with
  | Some cb => js_dispatch (handleDemChange cb)
  | None => mret tt
  end.

(** A vector layer whose fetch was started and has not answered. *)
Definition pending : Type := nat * input.

(** [checkbox.checked = false; checkbox.click()] on the [n]-th input of a
    list: the box is checked and its handler runs, up to the fetch for a
    vector layer. *)
Definition click_checkbox (which : list_id) (n : nat) : js page (list pending) :=
  set_input_checked which n true;;
  l ← js_gets (λ p, get_list which (dm p));
  match l !! n with
  | None => mret []
  | Some cb =>
    if bool_decide (which = VectorList) then
      showLoader "Loading Vector Data...";;
      mret [(n, cb)]
    else
      js_dispatch (handleRasterToggle which n cb false);;
      mret []
  end.

(** The checkbox the replay looks for. *)
Definition replay_target (d : dom) (l : active_layer) : option (list_id * nat) :=
  match l with
  | AlVector v => pair VectorList <$> query_value (vectorList d) (vi_filename v)
  | AlRaster info =>
    match li_colormap info with
    | Some c =>
      if String.eqb c "" then pair RasterList <$> query_value (rasterList d) (li_id info)
      else pair AnalysisLayerList <$> query_value (analysisLayerList d) (li_id info)
    | None => pair RasterList <$> query_value (rasterList d) (li_id info)
    end
  end.

(** The body of the loop over the keys of the registry. *)
Definition reapply_layer (acc : list pending) (layerKey : string) :
    js page (list pending) :=
  layerInfo ← get_active layerKey;
  match layerInfo with
  | None => js_throw "TypeError: Cannot read properties of undefined (reading 'type')"
  | Some l =>
    d ← js_gets dm;
    match replay_target d l with
    | Some (which, n) =>
      js_modify (upd_st (upd_activeLayers (λ al, obj_delete al layerKey)));;
      started ← click_checkbox which n;
      mret (acc ++ started)%list
    | None => mret acc
    end
  end.

(** [if (state.currentDEM) { ... demRadio.click() ... }] *)
Definition reapply_dem : js page unit :=
  s ← js_gets st;
  d ← js_gets dm;
  match currentDEM s ≫= λ dem, query_value (demList d) (dem_id dem) with
  | Some n => click_radio n
  | None => mret tt
  end.

(** The callback of the timer of [reapplyAllLayers]; returns the fetches it
    started. *)
Definition reapply_body : js page (list pending) :=
  updateFirstSymbolId;;
  reapply_dem;;
  keys ← js_gets (λ p, obj_keys (activeLayers (st p)));
  started ← js_fold reapply_layer keys [];
  set_timeout THideLoader 1500;;
  mret started.

(** The rest of [handleVectorToggle] for a started fetch that answered. *)
Definition resume_vector (pd : pending) (resp : response) : js page unit :=
  js_dispatch (vector_toggle_try pd.1 pd.2 resp).

(** The answer [resp] arrives for each of the started fetches. *)
Definition answer_all (resp : response) (pds : list pending) : js page unit :=
  js_for_each (λ pd, resume_vector pd resp) pds.

(** The registry has an entry under [k]. *)
Definition registered (k : string) (p : page) : Prop :=
  is_Some (obj_get (activeLayers (st p)) k).

(** An invariant of the registry, as a property of the page. *)
Definition reg_inv (P : obj active_layer → Prop) (p : page) : Prop :=
  P (activeLayers (st p)).

(** ** Lemmas: a click made by the program *)

Lemma click_checkbox_run which n p :
  click_checkbox which n p =
  let q := upd_dm (upd_list which (alter (set_checked true) n)) p in
  match get_list which (dm p) !! n with
  | None => (Ok [], q)
  | Some cb =>
    if bool_decide (which = VectorList)
    then (Ok [(n, set_checked true cb)],
          upd_dm (set_loader "Loading Vector Data..." true) q)
    else (Ok [], js_exec (js_dispatch
                            (handleRasterToggle which n (set_checked true cb) false)) q)
  end.
Proof.
  unfold click_checkbox, set_input_checked.
  erewrite js_bind_ok; [|reflexivity]. erewrite js_bind_ok; [|reflexivity].
  simpl. rewrite get_list_upd_list, decide_True by done.
  rewrite list_lookup_alter, decide_True by done.
  destruct (get_list which (dm p) !! n) as [cb|]; simpl; [|done].
  case_bool_decide; [done|].
  edestruct (js_total_run (js_dispatch
               (handleRasterToggle which n (set_checked true cb) false)))
    as [[] Hrun]; [apply js_total_dispatch|].
  by rewrite (js_bind_ok _ _ _ _ _ Hrun).
Qed.

Lemma click_checkbox_total which n : js_total (click_checkbox which n).
Proof. intros p. rewrite click_checkbox_run. cbn zeta. by repeat case_match. Qed.

Lemma click_radio_total n : js_total (click_radio n).
Proof.
  unfold click_radio. apply js_total_bind; [auto with js|]. intros _.
  apply js_total_bind; [auto with js|]. intros l.
  destruct (l !! n); auto using js_total_dispatch with js.
Qed.

(** ** Lemmas: the handlers on the registry *)

Section registry.
Context (P : obj active_layer → Prop).

(** A step that leaves the registry alone. *)
Lemma reg_frame f :
  (∀ p, activeLayers (st (f p)) = activeLayers (st p)) →
  js_preserves (reg_inv P) (js_modify f).
Proof. intros Hf. apply js_preserves_modify. intros p. unfold reg_inv. by rewrite Hf. Qed.

Lemma reg_map_try f e : js_preserves (reg_inv P) (map_try f e).
Proof. intros p Hp. unfold map_try. by destruct (f (mp p)). Qed.

Ltac reg_step :=
  first [ apply js_preserves_bind; [|intros ?]
        | apply js_preserves_when
        | apply js_preserves_finally
        | apply js_preserves_try_catch; [|intros ?]
        | apply js_preserves_dispatch
        | apply js_preserves_gets
        | apply js_preserves_ret
        | apply js_preserves_throw
        | apply reg_map_try
        | apply reg_frame; by intros ? ].

(** [handleDemChange] does not touch the registry. *)
Lemma handleDemChange_reg cb : js_preserves (reg_inv P) (handleDemChange cb).
Proof.
  unfold handleDemChange, dem_change_body, dem_clear, showLoader, set_timeout,
    flyToBounds, remove_layer_if_present, remove_source_if_present, map_do.
  destruct (in_checked cb); simpl; [|reg_step].
  repeat first [reg_step | case_match].
Qed.

Lemma click_radio_reg n : js_preserves (reg_inv P) (click_radio n).
Proof.
  unfold click_radio. repeat first [apply handleDemChange_reg | reg_step | case_match].
Qed.

Lemma reapply_dem_reg : js_preserves (reg_inv P) reapply_dem.
Proof.
  unfold reapply_dem. repeat first [apply click_radio_reg | reg_step | case_match].
Qed.

(** What a raster activation keeps: a property of the registry that survives
    a new entry. *)
Context (HP : ∀ al k v, P al → P (obj_set al k v)).

Lemma raster_activate_reg which n cb b :
  js_preserves (reg_inv P) (raster_activate which n cb b).
Proof.
  unfold raster_activate, raster_tile_url, show_controls, band_stats, flyToBounds,
    remove_layer_if_present, map_do.
  repeat first [ apply js_preserves_modify; intros ? ?; by apply HP
               | reg_step | case_match ].
Qed.

Lemma handleRasterToggle_reg which n cb b :
  in_checked cb = true → js_preserves (reg_inv P) (handleRasterToggle which n cb b).
Proof.
  intros Hc. unfold handleRasterToggle, showLoader, hideLoader, set_input_checked.
  rewrite Hc. repeat first [apply raster_activate_reg | reg_step].
Qed.

Lemma click_checkbox_reg which n : js_preserves (reg_inv P) (click_checkbox which n).
Proof.
  intros p Hp. rewrite click_checkbox_run. cbn zeta.
  destruct (get_list which (dm p) !! n) as [cb|]; [|done].
  case_bool_decide; [done|]. cbn [snd].
  by apply (js_preserves_dispatch (reg_inv P) _
              (handleRasterToggle_reg which n (set_checked true cb) false eq_refl)).
Qed.

End registry.

(** ** Lemmas: the loop over the registry *)

Lemma registered_set k (al : obj active_layer) k' v :
  is_Some (obj_get al k) → is_Some (obj_get (obj_set al k' v) k).
Proof.
  intros H. destruct (decide (k' = k)) as [->|Hne];
    [by rewrite obj_get_set_eq | by rewrite obj_get_set_ne].
Qed.

(** One turn of the loop, on a key that is still registered: it returns,
    and the other keys stay registered. *)
Lemma reapply_layer_returns acc key p :
  registered key p →
  ∃ acc' p', reapply_layer acc key p = (Ok acc', p') ∧
             ∀ k, k ≠ key → registered k p → registered k p'.
Proof.
  intros [l Hl]. unfold reapply_layer, get_active.
  erewrite js_bind_ok; [|unfold js_gets; by rewrite Hl]. cbn beta iota.
  erewrite js_bind_ok; [|reflexivity]. cbn beta iota.
  destruct (replay_target (dm p) l) as [[which n]|]; [|by exists acc, p].
  erewrite js_bind_ok; [|reflexivity].
  edestruct (js_total_run (click_checkbox which n)) as [started Hrun];
    [apply click_checkbox_total|].
  rewrite (js_bind_ok _ _ _ _ _ Hrun). eexists _, _. split; [done|].
  intros k Hne Hk.
  apply (click_checkbox_reg (λ al, is_Some (obj_get al k))
           (λ al k' v, registered_set k al k' v) which n).
  unfold reg_inv. simpl. by rewrite obj_get_delete_ne.
Qed.

Lemma reapply_fold_returns keys acc p :
  NoDup keys → (∀ k, k ∈ keys → registered k p) →
  ∃ r p', js_fold reapply_layer keys acc p = (Ok r, p').
Proof.
  intros Hnd. revert acc p.
  induction Hnd as [|key keys Hnotin Hnd IH]; intros acc p Hreg; [by exists acc, p|].
  destruct (reapply_layer_returns acc key p) as (acc' & p' & Hrun & Hkeep);
    [apply Hreg, list_elem_of_here|].
  simpl. rewrite (js_bind_ok _ _ _ _ _ Hrun). apply IH. intros k Hk.
  apply Hkeep; [by intros ->|]. by apply Hreg, list_elem_of_further.
Qed.

Lemma reapply_dem_total : js_total reapply_dem.
Proof.
  unfold reapply_dem. apply js_total_bind; [auto with js|]. intros s.
  apply js_total_bind; [auto with js|]. intros d.
  case_match; auto using click_radio_total with js.
Qed.

(** ** Theorems *)

(** C24: the replay never fails.  On a page whose registry has no key
    twice, the callback of [reapplyAllLayers] returns: it visits every key
    of the registry, an exception in the handler of one layer does not stop
    the replay of the others, and the timer that hides the loader is set at
    the end. *)
Theorem reapply_body_returns p :
  obj_wf (activeLayers (st p)) →
  ∃ started p', reapply_body p = (Ok started, p') ∧
                last (timers p') = Some (1500%Z, THideLoader).
Proof.
  intros Hwf. unfold reapply_body.
  erewrite js_bind_ok; [|reflexivity].
  set (p0 := set_firstSymbolId _ p).
  edestruct (js_total_run reapply_dem p0) as [[] Hdem]; [apply reapply_dem_total|].
  rewrite (js_bind_ok _ _ _ _ _ Hdem). erewrite js_bind_ok; [|reflexivity].
  assert (obj_wf (activeLayers (st (js_exec reapply_dem p0)))) as Hwf'
    by (by apply (reapply_dem_reg obj_wf)).
  destruct (reapply_fold_returns (obj_keys (activeLayers (st (js_exec reapply_dem p0))))
              [] (js_exec reapply_dem p0)) as (r & p' & Hfold); [done| |].
  { intros k Hk. by apply obj_get_is_Some. }
  rewrite (js_bind_ok _ _ _ _ _ Hfold). eexists _, _. split; [reflexivity|].
  simpl. by rewrite last_snoc.
Qed.

(** C25: the replay of a vector layer fetches it again.  For a registered
    vector layer whose checkbox is in the list, one turn of the loop deletes
    the descriptor with its cached payload, checks the box and shows the
    loader, and returns the fetch it started; the map is not touched, so
    until the answer arrives the layer is neither registered nor drawn. *)
Theorem reapply_layer_vector acc key v n cb p :
  obj_get (activeLayers (st p)) key = Some (AlVector v) →
  query_value (vectorList (dm p)) (vi_filename v) = Some n →
  vectorList (dm p) !! n = Some cb →
  reapply_layer acc key p =
    (Ok (acc ++ [(n, set_checked true cb)]),
     upd_dm (set_loader "Loading Vector Data..." true)
       (upd_dm (upd_list VectorList (alter (set_checked true) n))
          (upd_st (upd_activeLayers (λ al, obj_delete al key)) p))).
Proof.
  intros Hl Hq Hcb. unfold reapply_layer, get_active.
  erewrite js_bind_ok; [|unfold js_gets; by rewrite Hl]. cbn beta iota.
  erewrite js_bind_ok; [|reflexivity]. cbn beta iota.
  unfold replay_target. rewrite Hq. simpl.
  erewrite js_bind_ok; [|reflexivity].
  erewrite js_bind_ok; [|by rewrite click_checkbox_run; simpl; rewrite Hcb]. done.
Qed.

(** C26: the replay of a raster layer puts it back.  For a registered
    raster layer whose checkbox is in its list and whose description has
    the statistics of its bands, on a style without the layer's source, one
    turn of the loop returns with the layer registered under the key of the
    checkbox and its tiles as a source of the map; no fetch is pending. *)
Theorem reapply_layer_raster acc key info which n cb url p p' :
  obj_get (activeLayers (st p)) key = Some (AlRaster info) →
  replay_target (dm p) (AlRaster info) = Some (which, n) →
  get_list which (dm p) !! n = Some cb →
  tile_url_of (set_checked true cb) = Some url →
  getSource (mp p) (source_of (raster_key (in_value cb))) = None →
  p' = js_exec (reapply_layer acc key) p →
  reapply_layer acc key p = (Ok acc, p') ∧
  obj_get (activeLayers (st p')) (raster_key (in_value cb)) = Some (AlRaster (in_info cb)) ∧
  getSource (mp p') (source_of (raster_key (in_value cb))) = Some (SrcRaster url 256).
Proof.
  intros Hl Ht Hcb Hurl Hsrc ->. unfold js_exec.
  assert (which ≠ VectorList) as Hw.
  { intros ->. unfold replay_target in Ht. by repeat case_match; simplify_option_eq. }
  unfold reapply_layer, get_active.
  erewrite js_bind_ok; [|unfold js_gets; by rewrite Hl]. cbn beta iota.
  erewrite js_bind_ok; [|reflexivity]. cbn beta iota. rewrite Ht.
  erewrite js_bind_ok; [|reflexivity].
  erewrite js_bind_ok;
    [|by rewrite click_checkbox_run; simpl; rewrite Hcb, bool_decide_false].
  rewrite app_nil_r. split; [done|]. unfold js_exec, js_dispatch, js_try_catch.
  rewrite (handleRasterToggle_activated which n (set_checked true cb) false url)
    by done.
  cbv [mret js_ret].
  cbn [snd mp st upd_dm raster_activated upd_mp upd_st activeLayers upd_activeLayers
       in_value in_info set_checked].
  split; [apply obj_get_set_eq|]. unfold raster_activated_map.
  rewrite getSource_addLayer, getSource_set_sources_set. by rewrite decide_True.
Qed.

(** ** A session with a change of basemap *)

(** A page that lists an elevation model, the roads layer and an
    orthophoto, and draws a new random number at every call. *)
Definition swap_page : page :=
  set_rand (λ n, (Z.of_nat n + 1) # 100)
    (upd_dm (upd_list RasterList (λ _, [set_checked false ortho_input]))
       (upd_dm (upd_list DemList (λ _, [set_checked false (dem_input "dem.tif")]))
          fresh_page)).

(** A basemap without symbol layers. *)
Definition satellite : style :=
  {| sources := [("satellite", SrcRaster "sat" 256)];
     layers := [ {| lyr_id := "sat"; lyr_type := LtRaster; lyr_source := Some "satellite";
                    lyr_minzoom := None; lyr_maxzoom := None; lyr_layout := [];
                    lyr_paint := []; lyr_filter := FilterNone |} ];
     terrain := None |}.

Definition swap_ui : ui :=
  {| pg := swap_page; pn := Panels false false false false false false;
     attributesTool := false; pushed_up := false; tables := []; selected_row := None;
     currentPopup := None; camera := []; matches := λ _ _, true;
     styles := λ v, if String.eqb v "satellite" then Some satellite else None |}.

(** The user chooses the elevation model, the roads (whose fetch answers)
    and the orthophoto. *)
Definition activate_all : js ui unit :=
  lift (click_radio 0);;
  pds ← lift (click_checkbox VectorList 0);
  lift (answer_all (Ok roads_geojson) pds);;
  lift (click_checkbox RasterList 0);;
  mret tt.

(** The user chooses the satellite basemap; the style loads, the timer of
    the replay fires. *)
Definition style_swapped : js ui unit :=
  basemap_change true "satellite";;
  reapplyAllLayers.

(** The replay runs and the fetches it started answer as before. *)
Definition replayed : js ui unit :=
  pds ← lift reapply_body;
  lift (answer_all (Ok roads_geojson) pds).

Definition before_swap : ui := js_exec activate_all swap_ui.
Definition at_swap : ui := js_exec style_swapped before_swap.
Definition after_swap : ui := js_exec replayed at_swap.

(** The classification table of the roads layer. *)
Definition roads_classification (u : ui) : option (obj string) :=
  vi_classification <$> (obj_get (activeLayers (st (pg u))) "vector-roads_geojson"
                           ≫= as_vector).

Lemma reapply_body_returns_witness :
  ∃ started p', reapply_body (pg at_swap) = (Ok started, p') ∧
                last (timers p') = Some (1500%Z, THideLoader).
Proof.
  apply (reapply_body_returns (pg at_swap)).
  apply (bool_decide_unpack _). by vm_compute.
Defined.

Lemma reapply_layer_vector_witness :
  reapply_layer [] "vector-roads_geojson" (pg at_swap) =
    (Ok [(0%nat, roads_input)],
     upd_dm (set_loader "Loading Vector Data..." true)
       (upd_dm (upd_list VectorList (alter (set_checked true) 0))
          (upd_st (upd_activeLayers (λ al, obj_delete al "vector-roads_geojson"))
             (pg at_swap)))).
Proof.
  eapply (reapply_layer_vector [] "vector-roads_geojson" _ 0 roads_input (pg at_swap));
    by vm_compute.
Defined.

Lemma reapply_layer_raster_witness :
  reapply_layer [] "raster-ortho_tif" (pg at_swap) =
    (Ok [], js_exec (reapply_layer [] "raster-ortho_tif") (pg at_swap)) ∧
  obj_get (activeLayers (st (js_exec (reapply_layer [] "raster-ortho_tif") (pg at_swap))))
    (raster_key "ortho.tif") = Some (AlRaster (in_info ortho_input)) ∧
  getSource (mp (js_exec (reapply_layer [] "raster-ortho_tif") (pg at_swap)))
    (source_of (raster_key "ortho.tif")) = Some (SrcRaster ortho_tiles 256).
Proof.
  apply (reapply_layer_raster [] "raster-ortho_tif" (in_info ortho_input) RasterList 0
           ortho_input ortho_tiles (pg at_swap)); by vm_compute.
Defined.

(** A session through a change of basemap.  With an elevation model,
    the roads and an orthophoto on the map, after the change to a basemap
    without symbol layers and the replay (the roads fetched again) the
    registry has both layers, the map has the three sources, the layers of
    all three and the labels, and the terrain is that of the model. *)
Example basemap_swap_keeps_layers :
  (replayed at_swap).1 = Ok tt ∧
  obj_keys (activeLayers (st (pg after_swap))) =
    ["raster-ortho_tif"; "vector-roads_geojson"] ∧
  obj_keys (sources (mp (pg after_swap))) =
    ["satellite"; "dem-source-dem.tif"; "source-raster-ortho_tif";
     "source-vector-roads_geojson"] ∧
  layer_ids (mp (pg after_swap)) =
    ["sat"; "hillshade"; "raster-ortho_tif"; "vector-roads_geojson-line";
     "vector-roads_geojson-labels"] ∧
  terrain (mp (pg after_swap)) = terrain (mp (pg before_swap)) ∧
  alerts (pg after_swap) = [].
Proof. by vm_compute. Qed.

(** What a change of basemap does not keep.  In the same session the
    categories of the roads have no keyword colour: their colours are drawn
    again at the replay and differ from those before the change.  The
    orthophoto, drawn above the roads before, is below them afterwards, and
    the bounds of every layer are requested again, which moves the camera. *)
Example basemap_swap_recolours :
  roads_classification before_swap =
    Some [("NH 47", "#028f5c"); ("SH 21", "#051eb8")] ∧
  roads_classification after_swap =
    Some [("NH 47", "#0a3d70"); ("SH 21", "#0ccccc")] ∧
  layer_ids (mp (pg before_swap)) =
    ["hillshade"; "vector-roads_geojson-line"; "raster-ortho_tif"; "place-label";
     "vector-roads_geojson-labels"] ∧
  layer_ids (mp (pg after_swap)) =
    ["sat"; "hillshade"; "raster-ortho_tif"; "vector-roads_geojson-line";
     "vector-roads_geojson-labels"] ∧
  drop 3 (requests (pg after_swap)) =
    [ReqLayerBounds "dem" "dem.tif"; ReqLayerBounds "raster" "ortho.tif";
     ReqLayerBounds "vector" "roads.geojson"].
Proof. by vm_compute. Qed.
