(* ===== verification/Analysis.v ===== *)
(** * Analysis: terrain analyses computed by the server (analysis-tools.js)

    The slope, aspect and landslide buttons of the analysis panel ask the
    server for a raster computed from the current elevation model.  Each
    handler checks its inputs, shows the loader, posts the request and waits;
    when the answer arrives it offers the computed raster as a checkbox of
    the list of generated layers and clicks it, so that [handleRasterToggle]
    puts the layer on the map.  A failure at any step is shown in an alert,
    and the loader is hidden on every path.
    - [analysis_result], [analysis_response]: what the page reads of the
      answer ([response.ok], [error], [cache_filename], [stats.min] and
      [stats.max], the numbers as their text), or the exception of [fetch]
      or of [response.json()];
    - [api_call]: the request a handler posts, with its payload;
    - [addAnalysisLayerToUI]: the checkbox of a computed raster (lines 5-29;
      the placeholder of the empty list, line 4, is not part of the model's
      page).  [document.getElementById] is [getElementById] on the list of
      generated layers, whose inputs are the only elements of the page with
      an [analysis-check-] id;
    - [handleDerivativeCalculation], [handleLandslideAnalysis]: each is the
      part that runs at the click ([derivative_request],
      [landslide_request]) followed by the part that runs when the answer
      arrives ([derivative_answer], [landslide_answer]); the page may change
      between the two, and the second part reads the state again.  The text
      of the rainfall field is an argument of the handler, parsed: [None] is
      [NaN], and amounts are whole millimetres.
    The messages of the exceptions the engine raises for a missing field
    ([read_of]) are those of V8.

    The theorems: what a successful request adds to the page, and that the
    replay of [Replay] finds the checkbox again; what a failed request
    leaves; that an answer which arrives a second time adds nothing; that
    both handlers return with the loader hidden on every path.  An example
    shows two files that share a checkbox id, the second of which is never
    offered. *)

From Stdlib Require Import Ascii String ZArith.
From stdpp Require Import base option list strings pretty.
From S2P Require Import Prelude JsString JsObject GeoJson MapEngine Dom Style.
From S2P Require Import Page Legend Layers Ui Replay.

(** ** The answer of the server *)

Record analysis_result : Type := AnalysisResult {
  ar_ok : bool;
  ar_error : option string;
  ar_cache_filename : option string;
  ar_stats : option (string * string);
}.

Definition analysis_response : Type := outcome analysis_result.

(** The requests the handlers post, with their payload. *)
Inductive api_call : Type :=
| CalculateDerivative (derivativeType dem_filename : string)
| LandslideHazard (dem_filename : string) (rainfall_mm : Z).

#[export] Instance api_call_eq_dec : EqDecision api_call.
Proof. solve_decision. Defined.

(** [await fetch(...)] followed by [await response.json()]: the answer, or
    the exception. *)
Definition js_await {S A} (r : outcome A) : js S A := λ s, (r, s).

(** The message of the [TypeError] for [base.field] on a missing [base]. *)
Definition read_of (base field : string) : string :=
  "Cannot read properties of " +:+ base +:+ " (reading '" +:+ field +:+ "')".

(** ** Strings *)

Definition to_upper (c : ascii) : ascii :=
  if Char.is_lower c then ascii_of_nat (nat_of_ascii c - 32) else c.

(** [s.charAt(0).toUpperCase() + s.slice(1)] *)
Definition title_case (s : string) : string :=
  match s with
  | EmptyString => EmptyString
  | String c s' => String (to_upper c) s'
  end.

(** The id of the checkbox of a computed raster. *)
Definition checkbox_id (cache_filename : string) : string :=
  "analysis-check-" +:+ sanitize cache_filename.

(** [document.getElementById(id)] for the id of such a checkbox: the index
    of the first input of the generated layers with that id. *)
Fixpoint getElementById (l : list input) (id : string) : option nat :=
  match l with
  | [] => None
  | i :: l' =>
    if decide (checkbox_id (in_value i) = id) then Some 0
    else S <$> getElementById l' id
  end.

(** ** The checkbox of a computed raster *)

(** The description [addAnalysisLayerToUI] gives the raster. *)
Definition analysis_info (cache displayName : string) (mm : string * string)
    (colormap : string) : layerInfo :=
  {| li_id := cache; li_name := displayName; li_bands := 1; li_stats := [mm];
     li_colormap := Some colormap |}.

(** The input [addAnalysisLayerToUI] appends, before it is clicked. *)
Definition analysis_input (cache displayName : string) (mm : string * string)
    (colormap : string) : input :=
  {| in_value := cache; in_checked := false;
     in_info := analysis_info cache displayName mm colormap;
     in_controls := None |}.

(** [addAnalysisLayerToUI(displayName, result, colormap)].  The click on
    an input runs [handleRasterToggle], its [change] listener
    ([window.handleRasterToggle] is set when the page loads, main.js line
    123). *)
Definition addAnalysisLayerToUI (displayName : string) (result : analysis_result)
    (colormap : string) : js page unit :=
  match ar_cache_filename result with
  | None => js_throw (read_of "undefined" "replace")
  | Some cache =>
    l ← js_gets (λ p, analysisLayerList (dm p));
    match getElementById l (checkbox_id cache) with
    | Some n =>
      match l !! n with
      | Some existingCheckbox =>
        js_when (negb (in_checked existingCheckbox))
          (click_checkbox AnalysisLayerList n;; mret tt)
      | None => mret tt
      end
    | None =>
      match ar_stats result with
      | None => js_throw (read_of "undefined" "min")
      | Some mm =>
        js_modify (upd_dm (upd_list AnalysisLayerList
          (λ l, l ++ [analysis_input cache displayName mm colormap])));;
        click_checkbox AnalysisLayerList (length l);;
        mret tt
      end
    end
  end.

(** ** Slope and aspect *)

(** [if (!response.ok || result.error) throw new Error(result.error || fallback)] *)
Definition check_answer (result : analysis_result) (fallback : string) : js page unit :=
  match ar_error result with
  | Some e => if String.eqb e "" then
                if ar_ok result then mret tt else js_throw fallback
              else js_throw e
  | None => if ar_ok result then mret tt else js_throw fallback
  end.

(** [derivativeType === 'slope' ? 'slope' : 'hsv'] *)
Definition derivative_colormap (derivativeType : string) : string :=
  if String.eqb derivativeType "slope" then "slope" else "hsv".

(** [layerDisplayName] of a derivative. *)
Definition derivative_name (derivativeType : string) (d : dem_ref) : string :=
  title_case derivativeType +:+ " (" +:+ dem_name d +:+ ")".

(** The message of a derivative that was added. *)
Definition derivative_done (derivativeType : string) : string :=
  title_case derivativeType +:+
  " map generated and added to the 'Generated Layers' list.".

(** [handleDerivativeCalculation(derivativeType)] up to its [fetch]: the
    request it posts, if any. *)
Definition derivative_request (derivativeType : string) : js page (option api_call) :=
  d ← js_gets (λ p, currentDEM (st p));
  match d with
  | None => alert "Please select a base DEM first.";; mret None
  | Some d =>
    showLoader ("Calculating " +:+ title_case derivativeType +:+ "...");;
    mret (Some (CalculateDerivative derivativeType (dem_id d)))
  end.

(** The rest of [handleDerivativeCalculation], run when the answer arrives. *)
Definition derivative_answer (derivativeType : string) (resp : analysis_response) :
    js page unit :=
  js_finally
    (js_try_catch
       (result ← js_await resp;
        check_answer result
          ("Server error during " +:+ derivativeType +:+ " calculation.");;
        d ← js_gets (λ p, currentDEM (st p));
        match d with
        | None => js_throw (read_of "null" "name")
        | Some d =>
          addAnalysisLayerToUI (derivative_name derivativeType d) result
            (derivative_colormap derivativeType);;
          alert (derivative_done derivativeType)
        end)
       (λ e, alert ("Failed to generate " +:+ title_case derivativeType +:+
                    " map: " +:+ e)))
    hideLoader.

(** [handleDerivativeCalculation(derivativeType)] when nothing else runs
    while it waits for the answer [resp]. *)
Definition handleDerivativeCalculation (derivativeType : string)
    (resp : analysis_response) : js page unit :=
  c ← derivative_request derivativeType;
  match c with
  | None => mret tt
  | Some _ => derivative_answer derivativeType resp
  end.

(** ** Landslide hazard *)

(** The [return] of [handleLandslideAnalysis] for [isNaN(rainfall) ||
    rainfall < 0]. *)
Definition invalid_rainfall : js page (option api_call) :=
  alert "Please enter a valid, non-negative rainfall amount.";; mret None.

(** [handleLandslideAnalysis()] up to its [fetch], where [rainfall] is
    [parseFloat(dom.hazardRainfallInput.value)]. *)
Definition landslide_request (rainfall : option Z) : js page (option api_call) :=
  d ← js_gets (λ p, currentDEM (st p));
  match d with
  | None => alert "Please select a base DEM first.";; mret None
  | Some d =>
    match rainfall with
    | None => invalid_rainfall
    | Some r =>
      if (r <? 0)%Z then invalid_rainfall
      else
        showLoader "Calculating Landslide Hazard...";;
        mret (Some (LandslideHazard (dem_id d) r))
    end
  end.

(** The rest of [handleLandslideAnalysis], run when the answer arrives. *)
Definition landslide_answer (rainfall : Z) (resp : analysis_response) : js page unit :=
  js_finally
    (js_try_catch
       (result ← js_await resp;
        check_answer result "Server error during analysis.";;
        addAnalysisLayerToUI ("Landslide Hazard (" +:+ pretty rainfall +:+ "mm)")
          result "YlOrRd";;
        alert "Landslide Hazard map generated and added to the 'Generated Layers' list.")
       (λ e, alert ("Failed to generate landslide map: " +:+ e)))
    hideLoader.

(** [handleLandslideAnalysis()] when nothing else runs while it waits for
    the answer [resp]. *)
Definition handleLandslideAnalysis (rainfall : option Z)
    (resp : analysis_response) : js page unit :=
  c ← landslide_request rainfall;
  match c with
  | Some (LandslideHazard _ r) => landslide_answer r resp
  | _ => mret tt
  end.

(** ** Specifications *)

(** What a response makes a handler throw before it touches the page. *)
Definition answer_error (resp : analysis_response) (fallback : string) : option string :=
  match resp with
  | Throw e => Some e
  | Ok r =>
    match ar_error r with
    | Some e => if String.eqb e "" then (if ar_ok r then None else Some fallback)
                else Some e
    | None => if ar_ok r then None else Some fallback
    end
  end.

(** The page after an analysis that stopped at an alert: the loader was
    shown with [text], [msg] was alerted, the loader was hidden. *)
Definition reported (text msg : string) (p : page) : page :=
  upd_dm (λ d, set_loader (loaderText d) false d)
    (upd_alerts (λ l, l ++ [msg]) (upd_dm (set_loader text true) p)).

(** The page after the alert [msg] of a handler and its [finally] block. *)
Definition announced (msg : string) (p : page) : page :=
  upd_dm (λ d, set_loader (loaderText d) false d) (upd_alerts (λ l, l ++ [msg]) p).

(** The page after [addAnalysisLayerToUI] offered a raster that was not in
    the list, on a map without its source: the checked input at the end of
    the list, and what [handleRasterToggle] did for it. *)
Definition analysis_added (cache displayName : string) (mm : string * string)
    (colormap : string) (p : page) : page :=
  let cb := set_checked true (analysis_input cache displayName mm colormap) in
  upd_dm (λ d, set_loader (loaderText d) false d)
    (raster_activated AnalysisLayerList (length (analysisLayerList (dm p))) cb false
       (band_tiles cache mm colormap)
       (upd_dm (set_loader "Loading..." true)
          (upd_dm (upd_list AnalysisLayerList (λ l, l ++ [cb])) p))).

(** ** Lemmas *)

Lemma getElementById_Some l id n :
  getElementById l id = Some n →
  ∃ i, l !! n = Some i ∧ checkbox_id (in_value i) = id.
Proof.
  revert n. induction l as [|i l IH]; intros n; simpl; [done|].
  case_decide as E.
  - intros [= <-]. by exists i.
  - destruct (getElementById l id) as [n'|]; [|done]. intros [= <-]. by apply IH.
Qed.

Lemma getElementById_None l id i :
  getElementById l id = None → i ∈ l → checkbox_id (in_value i) ≠ id.
Proof.
  induction l as [|j l IH]; simpl; [by intros _ ?%elem_of_nil|].
  case_decide as E; [done|].
  destruct (getElementById l id); [done|]. intros _ [->|?]%elem_of_cons; auto.
Qed.

(** An input that is not in the list by its id is not in it by its value. *)
Lemma query_value_fresh l cache i :
  getElementById l (checkbox_id cache) = None → in_value i = cache →
  query_value (l ++ [i]) cache = Some (length l).
Proof.
  intros Hl Hi. induction l as [|j l IH]; simpl in *.
  - by rewrite decide_True.
  - destruct (decide (checkbox_id (in_value j) = _)) as [|E]; [done|].
    rewrite decide_False by (intros Hj; apply E; by rewrite Hj).
    destruct (getElementById l _); [done|]. by rewrite IH.
Qed.

Lemma alter_last {A} (f : A → A) (l : list A) x :
  alter f (length l) (l ++ [x]) = l ++ [f x].
Proof. induction l; simpl; [done|]. by f_equal. Qed.

Lemma derivative_colormap_nonempty t : derivative_colormap t ≠ "".
Proof. unfold derivative_colormap. by destruct (String.eqb t "slope"). Qed.

Lemma tile_url_of_analysis cache name mm cm b :
  cm ≠ "" →
  tile_url_of (set_checked b (analysis_input cache name mm cm)) =
    Some (band_tiles cache mm cm).
Proof.
  intros Hcm. unfold tile_url_of. simpl.
  by destruct (String.eqb_spec cm "").
Qed.

Lemma appended_clicked i p :
  upd_dm (upd_list AnalysisLayerList
            (alter (set_checked true) (length (analysisLayerList (dm p)))))
    (upd_dm (upd_list AnalysisLayerList (λ l, l ++ [i])) p) =
  upd_dm (upd_list AnalysisLayerList (λ l, l ++ [set_checked true i])) p.
Proof. unfold upd_dm, upd_list. simpl. by rewrite alter_last. Qed.

(** The click on the input [addAnalysisLayerToUI] has just appended. *)
Lemma click_appended cache name mm cm p :
  getSource (mp p) (source_of (raster_key cache)) = None → cm ≠ "" →
  click_checkbox AnalysisLayerList (length (analysisLayerList (dm p)))
    (upd_dm (upd_list AnalysisLayerList
               (λ l, l ++ [analysis_input cache name mm cm])) p) =
  (Ok [], analysis_added cache name mm cm p).
Proof.
  intros Hsrc Hcm. rewrite click_checkbox_run. cbn zeta.
  replace (get_list _ _ !! _) with (Some (analysis_input cache name mm cm))
    by (symmetry; apply list_lookup_middle; done).
  rewrite bool_decide_false by done. rewrite appended_clicked.
  unfold js_exec, js_dispatch, js_try_catch.
  by rewrite (handleRasterToggle_activated _ _ _ _ (band_tiles cache mm cm))
    by (done || by apply tile_url_of_analysis).
Qed.

Lemma addAnalysisLayerToUI_fresh name result cache mm cm p :
  ar_cache_filename result = Some cache → ar_stats result = Some mm →
  getElementById (analysisLayerList (dm p)) (checkbox_id cache) = None →
  getSource (mp p) (source_of (raster_key cache)) = None →
  cm ≠ "" →
  addAnalysisLayerToUI name result cm p = (Ok tt, analysis_added cache name mm cm p).
Proof.
  intros Hc Hs Hid Hsrc Hcm. unfold addAnalysisLayerToUI. rewrite Hc.
  erewrite js_bind_ok; [|reflexivity]. rewrite Hid, Hs.
  erewrite js_bind_ok; [|reflexivity].
  by erewrite js_bind_ok; [|by apply click_appended].
Qed.

(** [addAnalysisLayerToUI] on a raster whose checkbox id is in the list,
    checked: nothing changes. *)
Lemma addAnalysisLayerToUI_present name result cache cm n cb p :
  ar_cache_filename result = Some cache →
  getElementById (analysisLayerList (dm p)) (checkbox_id cache) = Some n →
  analysisLayerList (dm p) !! n = Some cb → in_checked cb = true →
  addAnalysisLayerToUI name result cm p = (Ok tt, p).
Proof.
  intros Hc Hid Hn Hck. unfold addAnalysisLayerToUI. rewrite Hc.
  erewrite js_bind_ok; [|reflexivity]. by rewrite Hid, Hn; simpl; rewrite Hck.
Qed.

Lemma check_answer_run result fallback p :
  check_answer result fallback p =
  match answer_error (Ok result) fallback with
  | Some e => (Throw e, p)
  | None => (Ok tt, p)
  end.
Proof.
  unfold check_answer, answer_error.
  destruct (ar_error result) as [e|]; [destruct (String.eqb e "")|];
    by destruct (ar_ok result).
Qed.

(** The [try] block of a handler whose answer is an error: the [catch]
    block runs on the page as it was. *)
Lemma answer_error_caught resp fallback e (k : analysis_result → js page unit)
    (h : string → js page unit) p :
  answer_error resp fallback = Some e →
  js_try_catch (result ← js_await resp; check_answer result fallback;; k result) h p =
  h e p.
Proof.
  intros He. unfold js_try_catch, js_await, mbind, js_bind.
  destruct resp as [r|e']; [|by injection He as ->].
  by rewrite check_answer_run, He.
Qed.

(** The [try] block of a handler whose answer is good. *)
Lemma answer_ok_run r fallback (k : analysis_result → js page unit) p :
  answer_error (Ok r) fallback = None →
  (result ← js_await (Ok r); check_answer result fallback;; k result) p = k r p.
Proof.
  intros He. unfold js_await, mbind, js_bind. by rewrite check_answer_run, He.
Qed.

(** ** The two halves of the handlers *)

Lemma derivative_request_run t d p :
  currentDEM (st p) = Some d →
  derivative_request t p =
    (Ok (Some (CalculateDerivative t (dem_id d))),
     upd_dm (set_loader ("Calculating " +:+ title_case t +:+ "...") true) p).
Proof.
  intros Hd. unfold derivative_request.
  erewrite js_bind_ok; [|reflexivity]. by rewrite Hd.
Qed.

Lemma landslide_request_run rainfall d p :
  currentDEM (st p) = Some d → (0 ≤ rainfall)%Z →
  landslide_request (Some rainfall) p =
    (Ok (Some (LandslideHazard (dem_id d) rainfall)),
     upd_dm (set_loader "Calculating Landslide Hazard..." true) p).
Proof.
  intros Hd Hr. unfold landslide_request.
  erewrite js_bind_ok; [|reflexivity]. rewrite Hd.
  by rewrite (proj2 (Z.ltb_ge _ _) Hr).
Qed.

Lemma derivative_answer_added t r cache mm d p :
  answer_error (Ok r) ("Server error during " +:+ t +:+ " calculation.") = None →
  currentDEM (st p) = Some d →
  ar_cache_filename r = Some cache → ar_stats r = Some mm →
  getElementById (analysisLayerList (dm p)) (checkbox_id cache) = None →
  getSource (mp p) (source_of (raster_key cache)) = None →
  derivative_answer t (Ok r) p =
    (Ok tt, announced (derivative_done t)
              (analysis_added cache (derivative_name t d) mm (derivative_colormap t) p)).
Proof.
  intros He Hd Hc Hs Hid Hsrc. unfold derivative_answer, js_finally, js_try_catch.
  rewrite answer_ok_run by done. erewrite js_bind_ok; [|reflexivity]. rewrite Hd.
  erewrite js_bind_ok;
    [|by apply addAnalysisLayerToUI_fresh, derivative_colormap_nonempty].
  done.
Qed.

Lemma derivative_answer_present t r cache d n cb p :
  answer_error (Ok r) ("Server error during " +:+ t +:+ " calculation.") = None →
  currentDEM (st p) = Some d →
  ar_cache_filename r = Some cache →
  getElementById (analysisLayerList (dm p)) (checkbox_id cache) = Some n →
  analysisLayerList (dm p) !! n = Some cb → in_checked cb = true →
  derivative_answer t (Ok r) p = (Ok tt, announced (derivative_done t) p).
Proof.
  intros He Hd Hc Hid Hn Hck. unfold derivative_answer, js_finally, js_try_catch.
  rewrite answer_ok_run by done. erewrite js_bind_ok; [|reflexivity]. rewrite Hd.
  by erewrite js_bind_ok; [|by eapply addAnalysisLayerToUI_present].
Qed.

Lemma getElementById_app_fresh l id i :
  getElementById l id = None → checkbox_id (in_value i) = id →
  getElementById (l ++ [i]) id = Some (length l).
Proof.
  intros Hl Hi. induction l as [|j l IH]; simpl in *.
  - by rewrite decide_True.
  - destruct (decide (checkbox_id (in_value j) = id)); [done|].
    destruct (getElementById l id); [done|]. by rewrite IH.
Qed.

(** ** Theorems *)

Section derivative.
Context (t : string) (r : analysis_result) (cache : string) (mm : string * string).
Context (d : dem_ref) (p : page).
Hypothesis Hdem : currentDEM (st p) = Some d.
Hypothesis Hgood :
  answer_error (Ok r) ("Server error during " +:+ t +:+ " calculation.") = None.
Hypothesis Hcache : ar_cache_filename r = Some cache.

Let info : layerInfo :=
  analysis_info cache (derivative_name t d) mm (derivative_colormap t).
Let waiting : page :=
  upd_dm (set_loader ("Calculating " +:+ title_case t +:+ "...") true) p.

(** The whole handler on a raster that was not in the list. *)
Lemma handleDerivativeCalculation_added :
  ar_stats r = Some mm →
  getElementById (analysisLayerList (dm p)) (checkbox_id cache) = None →
  getSource (mp p) (source_of (raster_key cache)) = None →
  handleDerivativeCalculation t (Ok r) p =
    (Ok tt, announced (derivative_done t)
              (analysis_added cache (derivative_name t d) mm (derivative_colormap t)
                 waiting)).
Proof.
  intros Hs Hid Hsrc. unfold handleDerivativeCalculation.
  rewrite (js_bind_ok _ _ _ _ _ (derivative_request_run t d p Hdem)).
  by apply derivative_answer_added.
Qed.

(** C38: a derivative that succeeds.  With an elevation model selected, for
    an answer without an error that names its file and its statistics, a
    file whose checkbox id is not in the list of generated layers and whose
    source is not on the map, [handleDerivativeCalculation] returns; the
    list has one more input, checked, with the description of the raster
    (one band, the statistics of the answer, the colour map of the
    derivative, the name of the derivative and of the elevation model); the
    description is registered under the key of the raster; the map has its
    source and its layer, added by [handleRasterToggle]; the bounds of the
    raster are requested; the success is alerted and the loader is hidden;
    and the replay after a change of basemap finds the description's
    checkbox at the end of the list. *)
Theorem derivative_adds_layer :
  ar_stats r = Some mm →
  getElementById (analysisLayerList (dm p)) (checkbox_id cache) = None →
  getSource (mp p) (source_of (raster_key cache)) = None →
  ∃ p', handleDerivativeCalculation t (Ok r) p = (Ok tt, p') ∧
    analysisLayerList (dm p') =
      analysisLayerList (dm p) ++ [Input cache true info None] ∧
    activeLayers (st p') =
      obj_set (activeLayers (st p)) (raster_key cache) (AlRaster info) ∧
    mp p' = raster_activated_map (raster_key cache)
              (band_tiles cache mm (derivative_colormap t)) (firstSymbolId p) (mp p) ∧
    requests p' = requests p ++ [ReqLayerBounds "raster" cache] ∧
    alerts p' = alerts p ++ [derivative_done t] ∧
    loadingOverlay (dm p') = false ∧
    replay_target (dm p') (AlRaster info) =
      Some (AnalysisLayerList, length (analysisLayerList (dm p))).
Proof.
  intros Hs Hid Hsrc. eexists. split; [by apply handleDerivativeCalculation_added|].
  split_and!; try done.
  unfold replay_target. simpl.
  destruct (String.eqb_spec (derivative_colormap t) "") as [E|_];
    [by apply derivative_colormap_nonempty in E|].
  by rewrite (query_value_fresh _ cache).
Qed.

(** C40: an answer that arrives twice.  When the same good answer reaches
    the page a second time (the button was pressed again before the first
    answer came), the second run of the handler's continuation finds the
    checkbox of the first: it adds no input, registers nothing and does not
    touch the map, where a second source of the same id would be refused;
    it alerts the success and hides the loader. *)
Theorem repeated_answer_adds_nothing :
  ar_stats r = Some mm →
  getElementById (analysisLayerList (dm p)) (checkbox_id cache) = None →
  getSource (mp p) (source_of (raster_key cache)) = None →
  ∃ p1, derivative_answer t (Ok r) p = (Ok tt, p1) ∧
        derivative_answer t (Ok r) p1 = (Ok tt, announced (derivative_done t) p1).
Proof.
  intros Hs Hid Hsrc. eexists. split; [by apply derivative_answer_added|].
  eapply derivative_answer_present; try done.
  - simpl. by apply getElementById_app_fresh.
  - simpl. by apply list_lookup_middle.
  - done.
Qed.

End derivative.

(** C39: an analysis that fails.  With an elevation model selected (and a
    rainfall that is a number not below zero), when the request fails, the
    answer is not [ok] or its body carries an error, each handler returns
    and the page is as before except that the loader was shown with the
    handler's text and hidden again, and the failure was alerted with the
    message of the exception, the error of the body, or the handler's own
    text when the body has none: no input is added, nothing is registered
    and the map is not touched. *)
Theorem analysis_failure_reported t rainfall resp e e' d p :
  currentDEM (st p) = Some d → (0 ≤ rainfall)%Z →
  answer_error resp ("Server error during " +:+ t +:+ " calculation.") = Some e →
  answer_error resp "Server error during analysis." = Some e' →
  handleDerivativeCalculation t resp p =
    (Ok tt, reported ("Calculating " +:+ title_case t +:+ "...")
              ("Failed to generate " +:+ title_case t +:+ " map: " +:+ e) p) ∧
  handleLandslideAnalysis (Some rainfall) resp p =
    (Ok tt, reported "Calculating Landslide Hazard..."
              ("Failed to generate landslide map: " +:+ e') p).
Proof.
  intros Hd Hr He He'. split.
  - unfold handleDerivativeCalculation.
    rewrite (js_bind_ok _ _ _ _ _ (derivative_request_run t d p Hd)).
    unfold derivative_answer, js_finally.
    by rewrite (answer_error_caught _ _ e).
  - unfold handleLandslideAnalysis.
    rewrite (js_bind_ok _ _ _ _ _ (landslide_request_run rainfall d p Hd Hr)).
    unfold landslide_answer, js_finally.
    by rewrite (answer_error_caught _ _ e').
Qed.

(** A handler of the form [try { c } catch (e) { alert(h e) } finally {
    hideLoader() }] returns with the loader hidden, whatever [c] does. *)
Lemma guarded_returns (c : js page unit) (h : string → string) p :
  ∃ p', js_finally (js_try_catch c (λ e, alert (h e))) hideLoader p = (Ok tt, p') ∧
        loadingOverlay (dm p') = false.
Proof.
  unfold js_finally, js_try_catch.
  destruct (c p) as [[[]|e] q]; eexists; by split.
Qed.

(** Both handlers return on every page and for every answer, and neither
    leaves the loader up. *)
Lemma analysis_handlers_return t rainfall resp p :
  loadingOverlay (dm p) = false →
  (∃ p', handleDerivativeCalculation t resp p = (Ok tt, p') ∧
         loadingOverlay (dm p') = false) ∧
  (∃ p', handleLandslideAnalysis rainfall resp p = (Ok tt, p') ∧
         loadingOverlay (dm p') = false).
Proof.
  intros Hp. split.
  - unfold handleDerivativeCalculation, derivative_request, mbind, js_bind, js_gets.
    destruct (currentDEM (st p)); [apply guarded_returns | by eexists].
  - unfold handleLandslideAnalysis, landslide_request, mbind, js_bind, js_gets.
    destruct (currentDEM (st p)); [|by eexists].
    destruct rainfall as [x|]; [|by eexists].
    destruct (x <? 0)%Z; [by eexists | apply guarded_returns].
Qed.

(** The landslide handler on a raster that was not in the list. *)
Lemma handleLandslideAnalysis_added rainfall r cache mm d p :
  currentDEM (st p) = Some d → (0 ≤ rainfall)%Z →
  answer_error (Ok r) "Server error during analysis." = None →
  ar_cache_filename r = Some cache → ar_stats r = Some mm →
  getElementById (analysisLayerList (dm p)) (checkbox_id cache) = None →
  getSource (mp p) (source_of (raster_key cache)) = None →
  handleLandslideAnalysis (Some rainfall) (Ok r) p =
    (Ok tt,
     announced "Landslide Hazard map generated and added to the 'Generated Layers' list."
       (analysis_added cache ("Landslide Hazard (" +:+ pretty rainfall +:+ "mm)") mm
          "YlOrRd"
          (upd_dm (set_loader "Calculating Landslide Hazard..." true) p))).
Proof.
  intros Hd Hr He Hc Hs Hid Hsrc. unfold handleLandslideAnalysis.
  rewrite (js_bind_ok _ _ _ _ _ (landslide_request_run rainfall d p Hd Hr)).
  unfold landslide_answer, js_finally, js_try_catch.
  rewrite answer_ok_run by done.
  by erewrite js_bind_ok; [|by apply addAnalysisLayerToUI_fresh].
Qed.

(** The request names the elevation model selected at the click; the layer
    is named after the one selected when the answer arrives. *)
Lemma label_names_later_model t r cache mm d d' p q :
  currentDEM (st p) = Some d → currentDEM (st q) = Some d' →
  answer_error (Ok r) ("Server error during " +:+ t +:+ " calculation.") = None →
  ar_cache_filename r = Some cache → ar_stats r = Some mm →
  getElementById (analysisLayerList (dm q)) (checkbox_id cache) = None →
  getSource (mp q) (source_of (raster_key cache)) = None →
  (derivative_request t p).1 = Ok (Some (CalculateDerivative t (dem_id d))) ∧
  ∃ q', derivative_answer t (Ok r) q = (Ok tt, q') ∧
        last (analysisLayerList (dm q')) =
          Some (Input cache true
                  (analysis_info cache (derivative_name t d') mm (derivative_colormap t))
                  None).
Proof.
  intros Hd Hd' He Hc Hs Hid Hsrc. split; [by rewrite (derivative_request_run t d)|].
  eexists. split; [by apply derivative_answer_added|].
  simpl. by rewrite last_snoc.
Qed.

(** ** Witnesses *)

(** The page of [fresh_page] with an elevation model selected. *)
Definition dem_page : page :=
  upd_st (set_currentDEM (Some (DemRef "dem.tif" "DEM" "source-dem-dem_tif"))) fresh_page.

Definition slope_answer : analysis_result :=
  {| ar_ok := true; ar_error := None; ar_cache_filename := Some "slope_dem.tif";
     ar_stats := Some ("0", "89.5") |}.

Lemma derivative_adds_layer_witness :
  ∃ p', handleDerivativeCalculation "slope" (Ok slope_answer) dem_page = (Ok tt, p') ∧
        analysisLayerList (dm p') =
          [Input "slope_dem.tif" true
             (LayerInfo "slope_dem.tif" "Slope (DEM)" 1 [("0", "89.5")] (Some "slope"))
             None] ∧
        alerts p' = ["Slope map generated and added to the 'Generated Layers' list."] ∧
        replay_target (dm p')
          (AlRaster (LayerInfo "slope_dem.tif" "Slope (DEM)" 1 [("0", "89.5")]
                       (Some "slope"))) = Some (AnalysisLayerList, 0).
Proof.
  destruct (derivative_adds_layer "slope" slope_answer "slope_dem.tif" ("0", "89.5")
              (DemRef "dem.tif" "DEM" "source-dem-dem_tif") dem_page)
    as (p' & Hrun & Hl & _ & _ & _ & Ha & _ & Hr); [reflexivity..|].
  exists p'. split_and!; [exact Hrun | exact Hl | exact Ha | exact Hr].
Defined.

Lemma analysis_failure_reported_witness :
  handleDerivativeCalculation "aspect" (Throw "Failed to fetch") dem_page =
    (Ok tt, reported "Calculating Aspect..."
              "Failed to generate Aspect map: Failed to fetch" dem_page) ∧
  handleLandslideAnalysis (Some 120%Z) (Throw "Failed to fetch") dem_page =
    (Ok tt, reported "Calculating Landslide Hazard..."
              "Failed to generate landslide map: Failed to fetch" dem_page).
Proof.
  apply (analysis_failure_reported "aspect" 120 (Throw "Failed to fetch")
           "Failed to fetch" "Failed to fetch"
           (DemRef "dem.tif" "DEM" "source-dem-dem_tif") dem_page);
    [reflexivity | lia | reflexivity | reflexivity].
Defined.

Lemma repeated_answer_adds_nothing_witness :
  ∃ p1, derivative_answer "slope" (Ok slope_answer) dem_page = (Ok tt, p1) ∧
        derivative_answer "slope" (Ok slope_answer) p1 =
          (Ok tt, announced (derivative_done "slope") p1).
Proof.
  apply (repeated_answer_adds_nothing "slope" slope_answer "slope_dem.tif" ("0", "89.5")
           (DemRef "dem.tif" "DEM" "source-dem-dem_tif") dem_page); reflexivity.
Defined.

(** Two files share a checkbox id when they differ in characters outside
    letters and digits only: with the slope of [a-b.tif] in the list, checked,
    the slope computed for [a_b.tif] is announced and not offered. *)
Example sanitised_ids_collide :
  let shown := set_checked true
                 (analysis_input "slope_a-b.tif" "Slope (a-b)" ("0", "60") "slope") in
  let p := upd_dm (upd_list AnalysisLayerList (λ _, [shown])) dem_page in
  let r := {| ar_ok := true; ar_error := None;
              ar_cache_filename := Some "slope_a_b.tif";
              ar_stats := Some ("0", "45") |} in
  derivative_answer "slope" (Ok r) p = (Ok tt, announced (derivative_done "slope") p).
Proof. by eapply (derivative_answer_present _ _ "slope_a_b.tif" _ 0%nat). Qed.
