(* ===== verification/Profile.v ===== *)
(** * Profile: the statistics of an elevation profile (analysis-tools.js)

    [displayProfileChart] turns the samples of a profile into cumulative
    distances and [calculateProfileStats] into the figures shown under the
    chart.  Numbers are rationals here: the arithmetic is exact, where the
    page computes in double precision.
    - [sample]: a point of the profile; [elev] is [None] for [null];
    - [cumulative]: the array [distances] built from the lengths of the
      segments ([turf.distance], a parameter);
    - [stats_loop]: the loop over consecutive samples, which skips a pair
      with a missing elevation and takes the slope only over a positive
      distance;
    - [profile_stats]: the figures before formatting; [calculateProfileStats]
      formats them with [toFixed];
    - [toFixed]: [Number.prototype.toFixed], rounding half away from zero.
    The theorems: the result on every branch, the bounds of the figures, the
    gain and loss of a profile without gaps, and what a gap does to them. *)

From Stdlib Require Import Ascii String ZArith QArith Qround Qabs Qminmax Lqa Lia.
From stdpp Require Import base option list strings pretty.
From S2P Require Import Prelude JsString.

#[local] Open Scope Q_scope.

Record sample : Type := Sample {
  lon : Q;
  lat : Q;
  elev : option Q;
}.

(** ** Distances *)

(** The loop of [displayProfileChart] that fills [distances], for a distance
    function [dist]. *)
Fixpoint cumulative_from (dist : sample → sample → Q) (acc : Q) (data : list sample) :
    list Q :=
  match data with
  | p1 :: (p2 :: _) as rest =>
    let acc' := acc + dist p1 p2 in
    acc' :: cumulative_from dist acc' rest
  | _ => []
  end.

Definition cumulative (dist : sample → sample → Q) (data : list sample) : list Q :=
  0 :: cumulative_from dist 0 data.

(** ** The loop of [calculateProfileStats] *)

Record totals : Type := Totals {
  totalGain : Q;
  totalLoss : Q;
  maxSlope : Q;
}.

(** [if (distDiff > 0) maxSlope = Math.max(maxSlope, Math.abs(elevDiff /
    distDiff) * 100)], where [distDiff = distances[i] - distances[i-1]] is
    not a number when an index is past the end. *)
Definition slope_step (slope elevDiff : Q) (d1 d2 : option Q) : Q :=
  match d1, d2 with
  | Some a, Some b =>
    let distDiff := b - a in
    if Qlt_le_dec 0 distDiff
    then Qmax slope (Qabs (elevDiff / distDiff) * 100)
    else slope
  | _, _ => slope
  end.

(** One iteration: the samples [p1] and [p2] at [i - 1] and [i], the
    distances [d1] and [d2] at the same indices ([None] past the end of the
    array). *)
Definition stats_step (acc : totals) (p1 p2 : sample) (d1 d2 : option Q) : totals :=
  match elev p1, elev p2 with
  | Some e1, Some e2 =>
    let elevDiff := e2 - e1 in
    let positive := if Qlt_le_dec 0 elevDiff then true else false in
    {| totalGain := if positive then totalGain acc + elevDiff else totalGain acc;
       totalLoss := if positive then totalLoss acc else totalLoss acc + Qabs elevDiff;
       maxSlope := slope_step (maxSlope acc) elevDiff d1 d2 |}
  | _, _ => acc
  end.

(** [for (let i = 1; i < profileData.length; i++)] *)
Fixpoint stats_loop (acc : totals) (data : list sample) (distances : list Q) : totals :=
  match data with
  | p1 :: (p2 :: _) as rest =>
    stats_loop (stats_step acc p1 p2 (distances !! O) (distances !! 1%nat))
               rest (tail distances)
  | _ => acc
  end.

(** ** The figures *)

Record figures : Type := Figures {
  minElev : Q;
  maxElev : Q;
  avgElev : Q;
  sums : totals;
  totalDistance : option Q;
}.

(** [Math.min(...l)] and [Math.max(...l)] of a list that starts with [x]. *)
Definition Qmin_list (x : Q) (l : list Q) : Q := fold_left Qmin l x.
Definition Qmax_list (x : Q) (l : list Q) : Q := fold_left Qmax l x.

(** [l.reduce((a, b) => a + b, 0)] *)
Definition Qsum (l : list Q) : Q := fold_left Qplus l 0.

(** [calculateProfileStats] before formatting; [None] is [null]. *)
Definition profile_stats (profileData : list sample) (distances : list Q) :
    option figures :=
  if (length profileData <? 2)%nat then None
  else
    match omap elev profileData with
    | [] => None
    | e0 :: es =>
      Some {| minElev := Qmin_list e0 es;
              maxElev := Qmax_list e0 es;
              avgElev := Qsum (e0 :: es) / inject_Z (Z.of_nat (length (e0 :: es)));
              sums := stats_loop (Totals 0 0 0) profileData distances;
              totalDistance := (λ d, d / 1000) <$> last distances |}
    end.

(** ** Formatting *)

(** The digits of [x.toFixed(f)] for [x >= 0], as the integer
    [round(x * 10^f)], ties rounded up. *)
Definition toFixed_scaled (f : nat) (x : Q) : Z :=
  Qfloor (Qabs x * inject_Z (10 ^ Z.of_nat f) + (1 # 2)).

(** [x.toFixed(f)] *)
Definition toFixed (f : nat) (x : Q) : string :=
  let n := toFixed_scaled f x in
  let scale := (10 ^ Z.of_nat f)%Z in
  let int_part := pretty (n / scale)%Z in
  let frac := pretty (n mod scale)%Z in
  (if Qlt_le_dec x 0 then "-" else "") +:+ int_part +:+
  match f with
  | O => ""
  | _ => "." +:+ padStart f "0" frac
  end.

Record stats : Type := Stats {
  s_minElev : string;
  s_maxElev : string;
  s_avgElev : string;
  s_totalGain : string;
  s_totalLoss : string;
  s_maxSlope : string;
  s_totalDistance : string;
}.

(** The object [calculateProfileStats] returns. *)
Definition format_stats (g : figures) : stats :=
  {| s_minElev := toFixed 0 (minElev g);
     s_maxElev := toFixed 0 (maxElev g);
     s_avgElev := toFixed 0 (avgElev g);
     s_totalGain := toFixed 0 (totalGain (sums g));
     s_totalLoss := toFixed 0 (totalLoss (sums g));
     s_maxSlope := toFixed 1 (maxSlope (sums g));
     s_totalDistance := match totalDistance g with
                        | Some d => toFixed 2 d
                        | None => "NaN"
                        end |}.

(** [calculateProfileStats(profileData, distances)] *)
Definition calculateProfileStats (profileData : list sample) (distances : list Q) :
    option stats :=
  format_stats <$> profile_stats profileData distances.

(** A profile without gaps. *)
Definition complete (data : list sample) : Prop :=
  Forall (λ p, is_Some (elev p)) data.

(** Totals that are not negative. *)
Definition totals_nonneg (t : totals) : Prop :=
  0 <= totalGain t ∧ 0 <= totalLoss t ∧ 0 <= maxSlope t.

(** ** Lemmas: the loop *)

Lemma slope_step_le slope elevDiff d1 d2 : slope <= slope_step slope elevDiff d1 d2.
Proof.
  unfold slope_step. destruct d1 as [a|], d2 as [b|]; try apply Qle_refl.
  destruct (Qlt_le_dec 0 (b - a)); [apply Q.le_max_l | apply Qle_refl].
Qed.

Lemma stats_step_nonneg acc p1 p2 d1 d2 :
  totals_nonneg acc → totals_nonneg (stats_step acc p1 p2 d1 d2).
Proof.
  intros (Hg & Hl & Hs). unfold stats_step, totals_nonneg.
  destruct (elev p1) as [e1|], (elev p2) as [e2|]; try done.
  pose proof (Qabs_nonneg (e2 - e1)).
  pose proof (slope_step_le (maxSlope acc) (e2 - e1) d1 d2).
  destruct (Qlt_le_dec 0 (e2 - e1)); cbn [totalGain totalLoss maxSlope];
    split_and!; lra.
Qed.

Lemma stats_loop_nonneg acc data ds :
  totals_nonneg acc → totals_nonneg (stats_loop acc data ds).
Proof.
  revert acc ds. induction data as [|p1 data IH]; intros acc ds Hacc; [done|].
  destruct data as [|p2 rest]; [done|].
  apply IH. by apply stats_step_nonneg.
Qed.

(** One iteration over two elevations adds their difference to gain minus
    loss. *)
Lemma stats_step_diff acc p1 p2 d1 d2 e1 e2 :
  elev p1 = Some e1 → elev p2 = Some e2 →
  totalGain (stats_step acc p1 p2 d1 d2) - totalLoss (stats_step acc p1 p2 d1 d2)
  == totalGain acc - totalLoss acc + (e2 - e1).
Proof.
  intros H1 H2. unfold stats_step. rewrite H1, H2.
  destruct (Qlt_le_dec 0 (e2 - e1)) as [Hpos|Hneg];
    cbn [totalGain totalLoss maxSlope]; [lra|].
  rewrite (Qabs_neg _ Hneg). lra.
Qed.

(** Over a profile without gaps the differences telescope. *)
Lemma stats_loop_telescope acc p1 rest ds e1 en :
  complete (p1 :: rest) → elev p1 = Some e1 →
  last (p1 :: rest) ≫= elev = Some en →
  totalGain (stats_loop acc (p1 :: rest) ds) - totalLoss (stats_loop acc (p1 :: rest) ds)
  == totalGain acc - totalLoss acc + (en - e1).
Proof.
  revert acc p1 ds e1. induction rest as [|p2 rest IH]; intros acc p1 ds e1 Hc H1 Hn.
  - simpl in *. rewrite H1 in Hn. injection Hn as <-. lra.
  - apply Forall_cons in Hc as [_ Hc].
    destruct (Forall_inv Hc) as [e2 H2].
    change (stats_loop acc (p1 :: p2 :: rest) ds)
      with (stats_loop (stats_step acc p1 p2 (ds !! O) (ds !! 1%nat)) (p2 :: rest) (tail ds)).
    rewrite (IH _ p2 _ e2 Hc H2) by (by rewrite last_cons_cons in Hn).
    rewrite (stats_step_diff _ _ _ _ _ e1 e2 H1 H2). lra.
Qed.

(** ** Lemmas: minimum, maximum and rounding *)

Lemma Qmin_list_le x l : Qmin_list x l <= x.
Proof.
  unfold Qmin_list. revert x. induction l as [|y l IH]; intros x; simpl.
  - apply Qle_refl.
  - eapply Qle_trans; [apply IH | apply Q.le_min_l].
Qed.

Lemma Qmax_list_ge x l : x <= Qmax_list x l.
Proof.
  unfold Qmax_list. revert x. induction l as [|y l IH]; intros x; simpl.
  - apply Qle_refl.
  - eapply Qle_trans; [apply Q.le_max_l | apply IH].
Qed.

(** [toFixed] rounds to the nearest multiple of [10^-f]: the scaled digits
    are within one half of the scaled magnitude. *)
Lemma toFixed_scaled_near f x :
  let y := Qabs x * inject_Z (10 ^ Z.of_nat f) in
  y - (1 # 2) < inject_Z (toFixed_scaled f x) ∧ inject_Z (toFixed_scaled f x) <= y + (1 # 2).
Proof.
  intros y. unfold toFixed_scaled.
  change (Qabs x * inject_Z (10 ^ Z.of_nat f)) with y.
  pose proof (Qfloor_le (y + (1 # 2))) as Hle.
  pose proof (Qlt_floor (y + (1 # 2))) as Hlt.
  rewrite inject_Z_plus in Hlt. change (inject_Z 1) with 1 in Hlt.
  set (n := inject_Z (Qfloor (y + (1 # 2)))) in *. split; lra.
Qed.

(** ** Theorems *)

(** C4: over a profile without gaps, total gain minus total loss is the last
    elevation minus the first. *)
Theorem profile_gain_loss data ds g e0 en :
  complete data → profile_stats data ds = Some g →
  head data ≫= elev = Some e0 → last data ≫= elev = Some en →
  totalGain (sums g) - totalLoss (sums g) == en - e0.
Proof.
  intros Hc Hg H0 Hn. unfold profile_stats in Hg.
  destruct (length data <? 2)%nat; [done|].
  destruct (omap elev data); [done|]. injection Hg as <-. simpl.
  destruct data as [|p1 rest]; [done|]. simpl in H0.
  rewrite (stats_loop_telescope _ p1 rest ds e0 en) by done. simpl. lra.
Qed.

(** C8: [calculateProfileStats] returns [null] exactly for a profile of
    fewer than two samples or without any elevation; one elevation is
    enough for a result. *)
Theorem calculateProfileStats_null data ds :
  calculateProfileStats data ds = None ↔
  (length data < 2)%nat ∨ Forall (λ p, elev p = None) data.
Proof.
  unfold calculateProfileStats, profile_stats.
  destruct (Nat.ltb_spec (length data) 2) as [Hlt|Hge]; [by split; [left|]|].
  destruct (omap elev data) as [|e es] eqn:He; simpl.
  - split; [intros _; right | done]. apply Forall_forall. intros p Hp.
    destruct (elev p) as [e|] eqn:Hpe; [|done].
    assert (e ∈ omap elev data) as Hin by (apply list_elem_of_omap; eauto).
    rewrite He in Hin. by apply elem_of_nil in Hin.
  - split; [done|]. intros [Hlt|Hnone]; [lia|].
    assert (e ∈ omap elev data) as (p & Hp & Hpe)%list_elem_of_omap
      by (rewrite He; apply list_elem_of_here).
    eapply Forall_forall in Hnone; [|done]. congruence.
Qed.

(** C10: the figures are in range: gain, loss and steepest slope are not
    negative, and the minimum is at most the maximum. *)
Theorem profile_stats_bounds data ds g :
  profile_stats data ds = Some g →
  totals_nonneg (sums g) ∧ minElev g <= maxElev g.
Proof.
  unfold profile_stats. destruct (length data <? 2)%nat; [done|].
  destruct (omap elev data) as [|e es]; [done|]. intros [= <-]. simpl. split.
  - apply stats_loop_nonneg. by repeat split.
  - eapply Qle_trans; [apply Qmin_list_le | apply Qmax_list_ge].
Qed.

(** ** Profiles to run the statistics on *)

Definition ridge : list sample :=
  [ Sample 77 10 (Some 100); Sample 77 11 (Some 140); Sample 77 12 (Some 120) ].

Definition gap : list sample :=
  [ Sample 77 10 (Some 10); Sample 77 11 None; Sample 77 12 (Some 30) ].

Definition ridge_figures : figures :=
  {| minElev := Qmin_list 100 [140; 120]; maxElev := Qmax_list 100 [140; 120];
     avgElev := Qsum [100; 140; 120] / inject_Z 3;
     sums := stats_loop (Totals 0 0 0) ridge [0; 1000; 2000];
     totalDistance := Some (2000 / 1000) |}.

Lemma profile_gain_loss_witness :
  totalGain (sums ridge_figures) - totalLoss (sums ridge_figures) == 120 - 100.
Proof.
  apply (profile_gain_loss ridge [0; 1000; 2000] ridge_figures 100 120);
    try reflexivity.
  repeat constructor; by eexists.
Defined.

Lemma profile_stats_bounds_witness :
  totals_nonneg (sums ridge_figures) ∧ minElev ridge_figures <= maxElev ridge_figures.
Proof. by apply (profile_stats_bounds ridge [0; 1000; 2000] ridge_figures). Defined.

(** ** Lemmas: a profile with a gap *)

(** A sample without elevation contributes to no pair. *)
Lemma stats_loop_skip acc q l ds :
  elev q = None → stats_loop acc (q :: l) ds = stats_loop acc l (tail ds).
Proof.
  intros Hq. destruct l as [|p l]; [done|].
  change (stats_loop acc (q :: p :: l) ds)
    with (stats_loop (stats_step acc q p (ds !! O) (ds !! 1%nat)) (p :: l) (tail ds)).
  unfold stats_step. by rewrite Hq.
Qed.

(** The loop over a complete stretch followed by a gap: the differences of
    the stretch telescope and the pair that ends in the gap is skipped. *)
Lemma stats_loop_stretch acc p1 rest q l2 ds e1 en :
  complete (p1 :: rest) → elev p1 = Some e1 →
  last (p1 :: rest) ≫= elev = Some en → elev q = None →
  ∃ acc' ds', stats_loop acc (p1 :: rest ++ q :: l2) ds = stats_loop acc' (q :: l2) ds' ∧
              totalGain acc' - totalLoss acc' == totalGain acc - totalLoss acc + (en - e1).
Proof.
  revert acc p1 ds e1. induction rest as [|p2 rest IH]; intros acc p1 ds e1 Hc H1 Hn Hq.
  - exists acc, (tail ds). simpl in Hn. rewrite H1 in Hn. injection Hn as <-.
    split; [|lra]. simpl. unfold stats_step. by rewrite H1, Hq.
  - apply Forall_cons in Hc as [_ Hc]. destruct (Forall_inv Hc) as [e2 H2].
    rewrite last_cons_cons in Hn.
    destruct (IH (stats_step acc p1 p2 (ds !! O) (ds !! 1%nat)) p2 (tail ds) e2 Hc H2 Hn Hq)
      as (acc' & ds' & Hrun & Hbal).
    exists acc', ds'. split; [exact Hrun|].
    rewrite Hbal, (stats_step_diff _ _ _ _ _ e1 e2 H1 H2). lra.
Qed.

(** Every elevation lies between the folded minimum and maximum. *)
Lemma Qmin_list_lower x l e : e ∈ x :: l → Qmin_list x l <= e.
Proof.
  unfold Qmin_list. revert x. induction l as [|y l IH]; intros x He; simpl.
  - apply list_elem_of_singleton in He as ->. apply Qle_refl.
  - apply elem_of_cons in He as [->|He].
    + eapply Qle_trans; [apply (Qmin_list_le (Qmin x y) l) | apply Q.le_min_l].
    + apply elem_of_cons in He as [->|He].
      * eapply Qle_trans; [apply (Qmin_list_le (Qmin x y) l) | apply Q.le_min_r].
      * eapply Qle_trans; [apply (IH (Qmin x y)) | apply Qle_refl].
        by apply list_elem_of_further.
Qed.

Lemma Qmax_list_upper x l e : e ∈ x :: l → e <= Qmax_list x l.
Proof.
  unfold Qmax_list. revert x. induction l as [|y l IH]; intros x He; simpl.
  - apply list_elem_of_singleton in He as ->. apply Qle_refl.
  - apply elem_of_cons in He as [->|He].
    + eapply Qle_trans; [apply Q.le_max_l | apply (Qmax_list_ge (Qmax x y) l)].
    + apply elem_of_cons in He as [->|He].
      * eapply Qle_trans; [apply Q.le_max_r | apply (Qmax_list_ge (Qmax x y) l)].
      * apply (IH (Qmax x y)). by apply list_elem_of_further.
Qed.

(** C14: a gap breaks the balance of gain and loss.  Over a profile made of
    a stretch without gaps from [a1] to [b1], a sample without elevation and
    a second stretch without gaps from [a2] to [b2], total gain minus total
    loss is [(b1 - a1) + (b2 - a2)]: the step [a2 - b1] across the gap is
    counted nowhere, so the balance is the rise of the whole profile only
    when the two sides of the gap are level. *)
Theorem profile_gap_unbalanced l1 q l2 ds g a1 b1 a2 b2 :
  complete l1 → complete l2 → elev q = None →
  head l1 ≫= elev = Some a1 → last l1 ≫= elev = Some b1 →
  head l2 ≫= elev = Some a2 → last l2 ≫= elev = Some b2 →
  profile_stats (l1 ++ q :: l2) ds = Some g →
  totalGain (sums g) - totalLoss (sums g) == (b1 - a1) + (b2 - a2) ∧
  (totalGain (sums g) - totalLoss (sums g) == b2 - a1 ↔ a2 == b1).
Proof.
  intros Hc1 Hc2 Hq Ha1 Hb1 Ha2 Hb2 Hg.
  assert (totalGain (sums g) - totalLoss (sums g) == (b1 - a1) + (b2 - a2)) as Hbal.
  { unfold profile_stats in Hg. destruct (length (l1 ++ q :: l2) <? 2)%nat; [done|].
    destruct (omap elev (l1 ++ q :: l2)); [done|]. injection Hg as <-. cbn [sums].
    destruct l1 as [|p1 rest]; [done|]. destruct l2 as [|p2 rest2]; [done|].
    simpl in Ha1, Ha2. rewrite <- app_comm_cons.
    destruct (stats_loop_stretch (Totals 0 0 0) p1 rest q (p2 :: rest2) ds a1 b1)
      as (acc' & ds' & -> & Hacc); try done.
    rewrite stats_loop_skip by done.
    rewrite (stats_loop_telescope acc' p2 rest2 _ a2 b2) by done.
    rewrite Hacc. cbn [totalGain totalLoss]. lra. }
  split; [exact Hbal|]. rewrite Hbal. split; intros H; lra.
Qed.

(** C17: the minimum and the maximum shown bound every elevation of the
    profile: whatever the samples and the gaps, each elevation present lies
    between [minElev] and [maxElev]. *)
Theorem profile_stats_extremes data ds g p e :
  profile_stats data ds = Some g → p ∈ data → elev p = Some e →
  minElev g <= e ∧ e <= maxElev g.
Proof.
  unfold profile_stats. destruct (length data <? 2)%nat; [done|].
  destruct (omap elev data) as [|e0 es] eqn:He; [done|]. intros [= <-] Hp Hpe. simpl.
  assert (e ∈ e0 :: es) as Hin by (rewrite <- He; apply list_elem_of_omap; eauto).
  split; [by apply Qmin_list_lower | by apply Qmax_list_upper].
Qed.

Definition gap_figures : figures :=
  {| minElev := Qmin_list 10 [30]; maxElev := Qmax_list 10 [30];
     avgElev := Qsum [10; 30] / inject_Z 2;
     sums := stats_loop (Totals 0 0 0) gap [0; 1000; 2000];
     totalDistance := Some (2000 / 1000) |}.

Lemma profile_gap_unbalanced_witness :
  totalGain (sums gap_figures) - totalLoss (sums gap_figures) == (10 - 10) + (30 - 30) ∧
  (totalGain (sums gap_figures) - totalLoss (sums gap_figures) == 30 - 10 ↔ 30 == 10).
Proof.
  apply (profile_gap_unbalanced [Sample 77 10 (Some 10)] (Sample 77 11 None)
           [Sample 77 12 (Some 30)] [0; 1000; 2000] gap_figures 10 10 30 30);
    try reflexivity; repeat constructor; by eexists.
Defined.

Lemma profile_stats_extremes_witness :
  minElev ridge_figures <= 140 ∧ 140 <= maxElev ridge_figures.
Proof.
  apply (profile_stats_extremes ridge [0; 1000; 2000] ridge_figures
           (Sample 77 11 (Some 140)) 140); [reflexivity| |reflexivity].
  apply list_elem_of_further, list_elem_of_here.
Defined.

(** The worked example of the design: the samples 10 m, 20 m and 15 m at 0,
    1000 and 2000 m give the figures 10, 20, 15, a gain of 10, a loss of 5,
    a steepest slope of 1.0 % and a distance of 2.00 km, as the strings the
    panel shows; and the figures of the profile with a gap above are
    [+0m / -0m] between 10 m and 30 m. *)
Example calculateProfileStats_example :
  calculateProfileStats
    [ Sample 77 10 (Some 10); Sample 77 11 (Some 20); Sample 77 12 (Some 15) ]
    [0; 1000; 2000] =
  Some {| s_minElev := "10"; s_maxElev := "20"; s_avgElev := "15";
          s_totalGain := "10"; s_totalLoss := "5"; s_maxSlope := "1.0";
          s_totalDistance := "2.00" |}
  ∧ (λ s, (s_totalGain s, s_totalLoss s, s_minElev s, s_maxElev s))
      <$> calculateProfileStats gap [0; 1000; 2000] = Some ("0", "0", "10", "30").
Proof. by vm_compute. Qed.
