(* ===== verification/Tools.v ===== *)
(** * Tools: the profile and measure tools (analysis-tools.js)

    The two drawing tools of the map page share the map's click and
    double-click events.  Each tool is a flag of [state], a list of points,
    listeners it registers on the map while it is on, and two draw layers.
    This file models them as handlers over [tools], the page extended by the
    map's listeners and the elements only the tools write:
    - [toggleProfileTool], [toggleMeasureTool]: each turns the other off
      first by calling it.  The mutual recursion is modelled with the depth
      of the call stack as fuel; running out of it is the [RangeError] of
      JavaScript;
    - [handleProfileClick], [handleProfileDoubleClick], [generateProfile]
      (its part before the request and its part after the answer),
      [resetProfileState], [hideProfileChart], [displayProfileChart],
      [updateProfileVisuals], [updateProfileMarker], [chart_onHover];
    - [handleMeasureClick], [updateMeasurementVisuals],
      [updateMeasurementDisplay];
    - [map_on], [map_off], [fire]: the listeners of the map.  A named
      function is registered once; the anonymous double-click listener of
      the measure tool is a new function at every registration and is never
      removed.
    The theorems: the tools are never on together, the recursion ends at
    depth two, and what a stale double-click listener does to a profile. *)

From Stdlib Require Import Ascii String ZArith QArith.
From stdpp Require Import base option list strings pretty.
From S2P Require Import Prelude JsString JsObject GeoJson MapEngine Dom Style.
From S2P Require Import Page Legend Layers Profile.

(** ** State *)

(** The functions the tools register on the map. *)
Inductive listener : Type :=
| HandleProfileClick
| HandleProfileDoubleClick
| HandleMeasureClick
| MeasureDoubleClick.

#[export] Instance listener_eq_dec : EqDecision listener.
Proof. solve_decision. Defined.

(** The elements the tools write. *)
Record chrome : Type := Chrome {
  cursor : string;
  profileTool_active : bool;
  measureTool_active : bool;
  elevationInfo : string;
  measureInfo : string;
  measureInfo_shown : bool;
  profileContainer : bool;
}.

(** The chart: its samples and their distances. *)
Record chart : Type := Chart {
  ch_data : list sample;
  ch_distances : list Q;
}.

Record tools : Type := Tools {
  tpg : page;
  on_click : list listener;
  on_dblclick : list listener;
  chr : chrome;
  profileChart : option chart;
  profileStats : option stats;
  profileLineGeoJSON : option (list lnglat);
  dist : sample → sample → Q;
  line_length : list lnglat → Q;
}.

Definition upd_tpg (f : page → page) (t : tools) : tools :=
  {| tpg := f (tpg t); on_click := on_click t; on_dblclick := on_dblclick t;
     chr := chr t; profileChart := profileChart t; profileStats := profileStats t;
     profileLineGeoJSON := profileLineGeoJSON t; dist := dist t;
     line_length := line_length t |}.

Definition set_tpg (p : page) (t : tools) : tools := upd_tpg (λ _, p) t.

Definition upd_on_click (f : list listener → list listener) (t : tools) : tools :=
  {| tpg := tpg t; on_click := f (on_click t); on_dblclick := on_dblclick t;
     chr := chr t; profileChart := profileChart t; profileStats := profileStats t;
     profileLineGeoJSON := profileLineGeoJSON t; dist := dist t;
     line_length := line_length t |}.

Definition upd_on_dblclick (f : list listener → list listener) (t : tools) : tools :=
  {| tpg := tpg t; on_click := on_click t; on_dblclick := f (on_dblclick t);
     chr := chr t; profileChart := profileChart t; profileStats := profileStats t;
     profileLineGeoJSON := profileLineGeoJSON t; dist := dist t;
     line_length := line_length t |}.

Definition upd_chr (f : chrome → chrome) (t : tools) : tools :=
  {| tpg := tpg t; on_click := on_click t; on_dblclick := on_dblclick t;
     chr := f (chr t); profileChart := profileChart t; profileStats := profileStats t;
     profileLineGeoJSON := profileLineGeoJSON t; dist := dist t;
     line_length := line_length t |}.

Definition set_chart (c : option chart) (s : option stats) (t : tools) : tools :=
  {| tpg := tpg t; on_click := on_click t; on_dblclick := on_dblclick t;
     chr := chr t; profileChart := c; profileStats := s;
     profileLineGeoJSON := profileLineGeoJSON t; dist := dist t;
     line_length := line_length t |}.

Definition set_profileLine (l : option (list lnglat)) (t : tools) : tools :=
  {| tpg := tpg t; on_click := on_click t; on_dblclick := on_dblclick t;
     chr := chr t; profileChart := profileChart t; profileStats := profileStats t;
     profileLineGeoJSON := l; dist := dist t; line_length := line_length t |}.

(** A handler of the page, run on the state of the tools. *)
Definition on_page {A} (c : js page A) : js tools A := js_zoom tpg set_tpg c.

(** A change of the object [state]. *)
Definition upd_state (f : app_state → app_state) : js tools unit :=
  js_modify (upd_tpg (upd_st f)).

(** ** The listeners of the map *)

(** [map.on(type, f)] for a named function: registered unless it is. *)
Definition map_on (f : listener) (l : list listener) : list listener :=
  if bool_decide (f ∈ l) then l else l ++ [f].

(** [map.off(type, f)] *)
Definition map_off (f : listener) (l : list listener) : list listener :=
  List.filter (λ g, negb (bool_decide (g = f))) l.

(** ** Drawing *)

(** [turf.point] for every point and a [turf.lineString] through more than
    one: the features shown while drawing. *)
Definition draw_features {A} (points : list A) : list feature :=
  match points with
  | [] => []
  | [_] => [Feature (Some "Point") None]
  | _ => ((λ _, Feature (Some "Point") None) <$> points)
         ++ [Feature (Some "LineString") None]
  end.

Definition draw_layer (id src : string) (ty : layer_type) (paint : obj pval) : layer :=
  {| lyr_id := id; lyr_type := ty; lyr_source := Some src; lyr_minzoom := None;
     lyr_maxzoom := None; lyr_layout := []; lyr_paint := paint;
     lyr_filter := FilterNone |}.

(** [if (!map.getSource(src)) { map.addSource(src, ...); map.addLayer(...) ...
    }]: a draw source with its layers. *)
Definition ensure_source (src : string) (data : list feature) (ls : list layer) :
    js page unit :=
  m ← js_gets mp;
  js_when (negb (hasSource m src))
    (map_try (addSource src (SrcGeojson data)) "Error: Source already exists";;
     js_for_each (λ l, map_do (addLayer l None)) ls).

(** [if (map.getSource(src)) map.getSource(src).setData(data)] *)
Definition set_data_if_present (src : string) (data : list feature) : js page unit :=
  map_do (setData src data).

(** [updateProfileVisuals()] *)
Definition updateProfileVisuals : js tools unit :=
  pts ← js_gets (λ t, profilePoints (st (tpg t)));
  on_page (set_data_if_present "profile-draw-source" (draw_features pts)).

(** [resetProfileState()] *)
Definition resetProfileState : js tools unit :=
  upd_state (λ s, set_tools (isMeasuring s) (isProfiling s) (measurePoints s) [] s);;
  js_modify (set_profileLine None);;
  on_page (set_data_if_present "profile-draw-source" []).

(** [hideProfileChart()]; its last statement removes
    [window.profileMarkerPopup], which no statement of the program assigns,
    so it never runs. *)
Definition hideProfileChart : js tools unit :=
  js_modify (λ t, set_chart None (profileStats t) t);;
  js_modify (upd_chr (λ c, Chrome (cursor c) (profileTool_active c)
                             (measureTool_active c) (elevationInfo c) (measureInfo c)
                             (measureInfo_shown c) false));;
  on_page (remove_layer_if_present "profile-line-final");;
  on_page (remove_source_if_present "profile-line-source");;
  on_page (remove_layer_if_present "profile-marker");;
  on_page (remove_source_if_present "profile-marker-source").

(** [updateMeasurementVisuals()] *)
Definition updateMeasurementVisuals : js tools unit :=
  pts ← js_gets (λ t, measurePoints (st (tpg t)));
  on_page (set_data_if_present "measure-source"
             (match pts with
              | [] => []
              | [_] => [Feature (Some "FeatureCollection") None]
              | _ => [Feature (Some "FeatureCollection") None;
                      Feature (Some "LineString") None]
              end)).

(** ** The toggles *)

Definition profile_draw_layers : list layer :=
  [ draw_layer "profile-draw-line" "profile-draw-source" LtLine
      [("line-color", PStr "#fbb03b"); ("line-width", PNum 3);
       ("line-dasharray", PNums [2%Q; 2%Q])];
    draw_layer "profile-draw-points" "profile-draw-source" LtCircle
      [("circle-radius", PNum 6); ("circle-color", PStr "#fbb03b")] ].

Definition measure_draw_layers : list layer :=
  [ draw_layer "measure-path" "measure-source" LtLine
      [("line-color", PStr "#ffcc00"); ("line-width", PNum 3);
       ("line-dasharray", PNums [2%Q; 1%Q])];
    draw_layer "measure-points" "measure-source" LtCircle
      [("circle-radius", PNum 5); ("circle-color", PStr "#ffcc00");
       ("circle-stroke-width", PNum 2); ("circle-stroke-color", PStr "#ffffff")] ].

(** The [if (state.isProfiling)] statement of [toggleProfileTool]. *)
Definition profile_listeners (profiling : bool) : js tools unit :=
  if profiling then
    hideProfileChart;;
    js_modify (upd_on_click (map_on HandleProfileClick));;
    js_modify (upd_on_dblclick (map_on HandleProfileDoubleClick));;
    js_modify (upd_chr (λ c, Chrome (cursor c) (profileTool_active c)
      (measureTool_active c)
      "Click to add points. Double-click on the last point to generate profile."
      (measureInfo c) (measureInfo_shown c) (profileContainer c)));;
    on_page (ensure_source "profile-draw-source" [] profile_draw_layers)
  else
    js_modify (upd_on_click (map_off HandleProfileClick));;
    js_modify (upd_on_dblclick (map_off HandleProfileDoubleClick)).

(** The [if (state.isMeasuring)] statement of [toggleMeasureTool]. *)
Definition measure_listeners (measuring : bool) : js tools unit :=
  if measuring then
    js_modify (upd_on_click (map_on HandleMeasureClick));;
    js_modify (upd_on_dblclick (λ l, l ++ [MeasureDoubleClick]));;
    js_modify (upd_chr (λ c, Chrome (cursor c) (profileTool_active c)
      (measureTool_active c) (elevationInfo c)
      "Click to add points. Double-click to end." true (profileContainer c)));;
    on_page (ensure_source "measure-source" [] measure_draw_layers)
  else
    js_modify (upd_on_click (map_off HandleMeasureClick));;
    upd_state (λ s, set_tools (isMeasuring s) (isProfiling s) [] (profilePoints s) s);;
    updateMeasurementVisuals;;
    js_modify (upd_chr (λ c, Chrome (cursor c) (profileTool_active c)
      (measureTool_active c) (elevationInfo c) (measureInfo c) false
      (profileContainer c))).

(** The body of [toggleProfileTool], calling [toggleMeasureTool] as given. *)
Definition toggleProfileTool_body (toggleMeasureTool : js tools unit) : js tools unit :=
  measuring ← js_gets (λ t, isMeasuring (st (tpg t)));
  js_when measuring toggleMeasureTool;;
  upd_state (λ s, set_tools (isMeasuring s) (negb (isProfiling s))
                    (measurePoints s) (profilePoints s) s);;
  profiling ← js_gets (λ t, isProfiling (st (tpg t)));
  js_modify (upd_chr (λ c, Chrome (if profiling then "crosshair" else "") profiling
                             (measureTool_active c) (elevationInfo c) (measureInfo c)
                             (measureInfo_shown c) (profileContainer c)));;
  resetProfileState;;
  profile_listeners profiling.

(** The body of [toggleMeasureTool], calling [toggleProfileTool] as given. *)
Definition toggleMeasureTool_body (toggleProfileTool : js tools unit) : js tools unit :=
  profiling ← js_gets (λ t, isProfiling (st (tpg t)));
  js_when profiling toggleProfileTool;;
  upd_state (λ s, set_tools (negb (isMeasuring s)) (isProfiling s)
                    (measurePoints s) (profilePoints s) s);;
  measuring ← js_gets (λ t, isMeasuring (st (tpg t)));
  js_modify (upd_chr (λ c, Chrome (if measuring then "crosshair" else "")
                             (profileTool_active c) measuring (elevationInfo c)
                             (measureInfo c) (measureInfo_shown c)
                             (profileContainer c)));;
  measure_listeners measuring.

(** [toggleProfileTool()] on a call stack with room for [fuel] more pairs of
    calls. *)
Fixpoint toggleProfileTool (fuel : nat) : js tools unit :=
  match fuel with
  | O => js_throw "RangeError: Maximum call stack size exceeded"
  | S fuel' => toggleProfileTool_body (toggleMeasureTool_body (toggleProfileTool fuel'))
  end.

(** [toggleMeasureTool()] *)
Definition toggleMeasureTool (fuel : nat) : js tools unit :=
  toggleMeasureTool_body (toggleProfileTool fuel).

(** The depth the handlers below give the toggles: enough for every state
    in which the tools are not on together. *)
Definition depth : nat := 2.

(** ** The profile *)

(** [handleProfileClick(e)] *)
Definition handleProfileClick (at_ : lnglat) : js tools unit :=
  profiling ← js_gets (λ t, isProfiling (st (tpg t)));
  js_when profiling
    (upd_state (λ s, set_tools (isMeasuring s) (isProfiling s) (measurePoints s)
                       (profilePoints s ++ [at_]) s);;
     updateProfileVisuals).

(** The answer of [/api/generate_profile]. *)
Inductive profile_response : Type :=
| PrFailed (e : string)
| PrNotOk (error : option string) (status : Z)
| PrOk (profile_data : option (list sample)).

(** [displayProfileChart(data)] *)
Definition displayProfileChart (data : list sample) : js tools unit :=
  js_modify (upd_chr (λ c, Chrome (cursor c) (profileTool_active c)
                             (measureTool_active c) (elevationInfo c) (measureInfo c)
                             (measureInfo_shown c) true));;
  t ← js_gets id;
  let distances := cumulative (dist t) data in
  js_modify (set_chart (Some (Chart data distances))
               (match calculateProfileStats data distances with
                | Some s => Some s
                | None => profileStats t
                end)).

(** The statements of [generateProfile] up to the request; returns whether
    the request was sent. *)
Definition generateProfile_start : js tools bool :=
  t ← js_gets id;
  match currentDEM (st (tpg t)) with
  | Some _ =>
    if (length (profilePoints (st (tpg t))) <? 2)%nat then
      toggleProfileTool depth;; mret false
    else
      on_page (showLoader "Generating Elevation Profile...");;
      js_modify (set_profileLine (Some (profilePoints (st (tpg t)))));;
      mret true
  | None => toggleProfileTool depth;; mret false
  end.

(** The [try] block of [generateProfile] from the answer on. *)
Definition profile_try (resp : profile_response) : js tools unit :=
  match resp with
  | PrFailed e => js_throw e
  | PrNotOk error status =>
    js_throw (match error with
              | Some e => if String.eqb e ""
                          then "Server responded with status " +:+ pretty status
                          else e
              | None => "Server responded with status " +:+ pretty status
              end)
  | PrOk None => js_throw "The server response is missing 'profile_data'."
  | PrOk (Some data) =>
    displayProfileChart data;;
    on_page (set_data_if_present "profile-draw-source" []);;
    t ← js_gets id;
    let line := (λ _, Feature (Some "LineString") None)
                  <$> option_list (profileLineGeoJSON t) in
    if hasSource (mp (tpg t)) "profile-line-source" then
      on_page (set_data_if_present "profile-line-source" line)
    else
      on_page (map_try (addSource "profile-line-source" (SrcGeojson line))
                 "Error: Source already exists";;
               map_do (addLayer (draw_layer "profile-line-final" "profile-line-source"
                                   LtLine [("line-color", PStr "#e55e5e");
                                           ("line-width", PNum 4)]) None))
  end.

(** [generateProfile()] from the answer on: the [try], [catch] and
    [finally] blocks. *)
Definition generateProfile_resume (resp : profile_response) : js tools unit :=
  js_finally
    (js_try_catch (profile_try resp)
       (λ e, on_page (alert ("Failed to generate profile: " +:+ e));;
             hideProfileChart))
    (toggleProfileTool depth;; on_page hideLoader).

(** [handleProfileDoubleClick(e)]; returns whether a request was sent. *)
Definition handleProfileDoubleClick : js tools bool :=
  t ← js_gets id;
  if negb (isProfiling (st (tpg t))) then mret false
  else if (length (profilePoints (st (tpg t))) <? 2)%nat then
    toggleProfileTool depth;; mret false
  else generateProfile_start.

(** [updateProfileMarker(coords)] *)
Definition updateProfileMarker : js tools unit :=
  m ← js_gets (λ t, mp (tpg t));
  if hasSource m "profile-marker-source" then
    on_page (set_data_if_present "profile-marker-source" [Feature (Some "Point") None]);;
    on_page (m' ← js_gets mp;
             js_when (hasLayer m' "profile-marker")
               (map_do (setLayoutProperty "profile-marker" "visibility" (PStr "visible"))))
  else
    on_page (map_try (addSource "profile-marker-source"
                        (SrcGeojson [Feature (Some "Point") None]))
               "Error: Source already exists";;
             map_do (addLayer (draw_layer "profile-marker" "profile-marker-source"
                                 LtCircle
                                 [("circle-radius", PNum 8);
                                  ("circle-color", PStr "#e55e5e");
                                  ("circle-stroke-width", PNum 2);
                                  ("circle-stroke-color", PStr "#ffffff")]) None)).

(** The [onHover] callback of the chart, for the index of the hovered
    element, [None] when the pointer is over none. *)
Definition chart_onHover (index : option nat) : js tools unit :=
  match index with
  | None =>
    on_page (m ← js_gets mp;
             js_when (hasLayer m "profile-marker")
               (map_do (setLayoutProperty "profile-marker" "visibility" (PStr "none"))))
  | Some i =>
    t ← js_gets id;
    match profileChart t ≫= λ c, ch_data c !! i with
    | Some _ => updateProfileMarker
    | None => mret tt
    end
  end.

(** ** Measuring *)

(** [updateMeasurementDisplay()] *)
Definition updateMeasurementDisplay : js tools unit :=
  t ← js_gets id;
  let pts := measurePoints (st (tpg t)) in
  js_modify (upd_chr (λ c, Chrome (cursor c) (profileTool_active c)
    (measureTool_active c) (elevationInfo c)
    (match pts, last pts with
     | p0 :: _ :: _, Some pn =>
       let totalHorizontalDist := line_length t (fst <$> pts) in
       let verticalHeight := (pn.2 - p0.2)%Q in
       let slope := if Qlt_le_dec 0 totalHorizontalDist
                    then (verticalHeight / (totalHorizontalDist * 1000) * 100)%Q
                    else 0%Q in
       "Dist: <b>" +:+ toFixed 2 totalHorizontalDist +:+ " km</b> | ΔH: <b>" +:+
       toFixed 1 verticalHeight +:+ " m</b> | Slope: <b>" +:+ toFixed 1 slope +:+
       "%</b>"
     | _, _ => "Click to add more points..."
     end)
    (measureInfo_shown c) (profileContainer c))).

(** [handleMeasureClick(e)], where [elevation] is the terrain's elevation
    under the pointer, [None] for [null]. *)
Definition handleMeasureClick (at_ : lnglat) (elevation : option Q) : js tools unit :=
  measuring ← js_gets (λ t, isMeasuring (st (tpg t)));
  match measuring, elevation with
  | true, Some z =>
    upd_state (λ s, set_tools (isMeasuring s) (isProfiling s)
                      (measurePoints s ++ [(at_, z)]) (profilePoints s) s);;
    updateMeasurementVisuals;;
    updateMeasurementDisplay
  | _, _ => mret tt
  end.

(** ** Events of the map *)

(** One listener called for a click. *)
Definition call_click (at_ : lnglat) (elevation : option Q) (f : listener) :
    js tools unit :=
  match f with
  | HandleProfileClick => handleProfileClick at_
  | HandleMeasureClick => handleMeasureClick at_ elevation
  | _ => mret tt
  end.

(** One listener called for a double click; returns the requests sent. *)
Definition call_dblclick (sent : nat) (f : listener) : js tools nat :=
  match f with
  | HandleProfileDoubleClick =>
    b ← handleProfileDoubleClick; mret (if b : bool then S sent else sent)
  | MeasureDoubleClick => toggleMeasureTool depth;; mret sent
  | _ => mret sent
  end.

(** [map.fire('click')]: the listeners registered when the event fires, in
    the order of their registration. *)
Definition fire_click (at_ : lnglat) (elevation : option Q) : js tools unit :=
  ls ← js_gets on_click;
  js_for_each (call_click at_ elevation) ls.

(** [map.fire('dblclick')]; returns the number of profile requests sent. *)
Definition fire_dblclick : js tools nat :=
  ls ← js_gets on_dblclick;
  js_fold call_dblclick ls O.

(** The tools are not on together. *)
Definition exclusive (t : tools) : Prop :=
  isMeasuring (st (tpg t)) && isProfiling (st (tpg t)) = false.

(** The two flags of the tools. *)
Definition flags (t : tools) : bool * bool :=
  (isMeasuring (st (tpg t)), isProfiling (st (tpg t))).

(** The tools as the page starts them: both off, nothing registered. *)
Definition fresh_tools : tools :=
  {| tpg := upd_st (set_currentDEM (Some (DemRef "dem.tif" "DEM" "dem-source-dem.tif")))
              fresh_page;
     on_click := []; on_dblclick := [];
     chr := Chrome "" false false "Elevation: N/A" "" false false;
     profileChart := None; profileStats := None; profileLineGeoJSON := None;
     dist := λ _ _, 1000%Q; line_length := λ l, inject_Z (Z.of_nat (length l)) |}.

(** A session: the measure tool is turned on and off with its button, then
    the profile tool is turned on, two points are clicked and the map is
    double-clicked to ask for the profile. *)
Definition stale_listener_session : js tools nat :=
  toggleMeasureTool depth;;
  toggleMeasureTool depth;;
  toggleProfileTool depth;;
  fire_click (77, 10)%Q (Some 100%Q);;
  fire_click (77, 11)%Q (Some 120%Q);;
  fire_dblclick.

(** The same session without the detour through the measure tool. *)
Definition profile_session : js tools nat :=
  toggleProfileTool depth;;
  fire_click (77, 10)%Q (Some 100%Q);;
  fire_click (77, 11)%Q (Some 120%Q);;
  fire_dblclick.

(** The flags, read on the page. *)
Definition pflags (p : page) : bool * bool := (isMeasuring (st p), isProfiling (st p)).

(** ** Lemmas: what the steps keep *)

Section keep.
Context (x : bool * bool).

Lemma map_do_flags f : js_preserves (λ p, pflags p = x) (map_do f).
Proof. by intros p <-. Qed.

Lemma map_try_flags f e : js_preserves (λ p, pflags p = x) (map_try f e).
Proof. intros p <-. unfold map_try. by destruct (f (mp p)). Qed.

Lemma remove_layer_if_present_flags id :
  js_preserves (λ p, pflags p = x) (remove_layer_if_present id).
Proof. intros p <-. by rewrite remove_layer_if_present_run. Qed.

Lemma remove_source_if_present_flags id :
  js_preserves (λ p, pflags p = x) (remove_source_if_present id).
Proof. intros p <-. by rewrite remove_source_if_present_run. Qed.

Lemma ensure_source_flags src d ls :
  js_preserves (λ p, pflags p = x) (ensure_source src d ls).
Proof.
  unfold ensure_source. apply js_preserves_bind; [auto with js|]. intros m.
  apply js_preserves_when, js_preserves_bind; [apply map_try_flags|]. intros _.
  apply js_preserves_for_each. intros l _. apply map_do_flags.
Qed.

Lemma on_page_flags {A} (c : js page A) :
  js_preserves (λ p, pflags p = x) c → js_preserves (λ t, flags t = x) (on_page c).
Proof. intros Hc. by apply (js_preserves_zoom _ (λ p, pflags p = x)). Qed.

Lemma upd_chr_flags f : js_preserves (λ t, flags t = x) (js_modify (upd_chr f)).
Proof. by intros t <-. Qed.

Lemma upd_state_flags f :
  (∀ s, (isMeasuring (f s), isProfiling (f s)) = (isMeasuring s, isProfiling s)) →
  js_preserves (λ t, flags t = x) (upd_state f).
Proof. intros Hf t <-. unfold flags. simpl. apply Hf. Qed.

End keep.

Lemma remove_layer_if_present_total id : js_total (remove_layer_if_present id).
Proof. intros p. by rewrite remove_layer_if_present_run. Qed.

Lemma remove_source_if_present_total id : js_total (remove_source_if_present id).
Proof. intros p. by rewrite remove_source_if_present_run. Qed.

Lemma ensure_source_total src d ls : js_total (ensure_source src d ls).
Proof.
  intros p. unfold ensure_source. rewrite (js_bind_ok _ _ p (mp p) p) by done.
  destruct (hasSource (mp p) src) eqn:Hs; [done|]. simpl.
  rewrite (js_bind_ok _ _ _ _ _ (addSource_run _ _ _ p (proj1 (hasSource_false _ _) Hs))).
  by rewrite add_layers_run.
Qed.

Lemma on_page_total {A} (c : js page A) : js_total c → js_total (on_page c).
Proof. intros Hc t. unfold on_page. rewrite js_zoom_run. apply Hc. Qed.

#[local] Hint Resolve map_do_flags map_try_flags remove_layer_if_present_flags
  remove_source_if_present_flags ensure_source_flags on_page_flags upd_chr_flags
  remove_layer_if_present_total remove_source_if_present_total
  ensure_source_total on_page_total : js.

(** The handlers the toggles call return and keep the flags. *)
Lemma resetProfileState_keep x :
  js_total resetProfileState ∧ js_preserves (λ t, flags t = x) resetProfileState.
Proof.
  unfold resetProfileState, upd_state, set_data_if_present. split; [eauto 10 with js|].
  repeat (apply js_preserves_bind; [|intros _]); auto with js; by intros t <-.
Qed.

Lemma hideProfileChart_keep x :
  js_total hideProfileChart ∧ js_preserves (λ t, flags t = x) hideProfileChart.
Proof.
  unfold hideProfileChart. split; [eauto 20 with js|].
  repeat (apply js_preserves_bind; [|intros _]); auto with js; by intros t <-.
Qed.

Lemma updateMeasurementVisuals_keep x :
  js_total updateMeasurementVisuals ∧
  js_preserves (λ t, flags t = x) updateMeasurementVisuals.
Proof.
  unfold updateMeasurementVisuals, set_data_if_present. split; [eauto 10 with js|].
  apply js_preserves_bind; auto with js.
Qed.

Lemma profile_listeners_keep b x :
  js_total (profile_listeners b) ∧ js_preserves (λ t, flags t = x) (profile_listeners b).
Proof.
  destruct (hideProfileChart_keep x) as [Ht Hp].
  unfold profile_listeners. destruct b; (split; [eauto 20 with js|]);
    repeat (apply js_preserves_bind; [|intros _]); auto with js; by intros t <-.
Qed.

Lemma measure_listeners_keep b x :
  js_total (measure_listeners b) ∧ js_preserves (λ t, flags t = x) (measure_listeners b).
Proof.
  destruct (updateMeasurementVisuals_keep x) as [Ht Hp].
  unfold measure_listeners, upd_state. destruct b; (split; [eauto 20 with js|]);
    repeat (apply js_preserves_bind; [|intros _]); auto with js; by intros t <-.
Qed.

(** ** Lemmas: the toggles *)

Lemma flags_inv t m p :
  flags t = (m, p) → isMeasuring (st (tpg t)) = m ∧ isProfiling (st (tpg t)) = p.
Proof. unfold flags. by intros [= -> ->]. Qed.

(** [toggleMeasureTool] flips the measure flag and leaves the profile tool
    off, provided the call that turns the profile tool off does so. *)
Lemma toggleMeasureTool_body_spec X m p :
  (p = true → js_triple (λ t, flags t = (m, true)) X (λ _ t, flags t = (m, false))) →
  js_triple (λ t, flags t = (m, p)) (toggleMeasureTool_body X)
            (λ _ t, flags t = (negb m, false)).
Proof.
  intros HX. unfold toggleMeasureTool_body.
  apply (js_triple_bind _ _ _ (λ a t, flags t = (m, p) ∧ a = p));
    [apply js_triple_gets; intros t Ht; by destruct (flags_inv _ _ _ Ht)|].
  intros a.
  apply (js_triple_bind _ _ _ (λ _ t, flags t = (m, false))).
  { apply js_triple_when.
    - intros -> t [Hf <-]. by apply HX.
    - by intros -> t [-> <-]. }
  intros _. apply (js_triple_bind _ _ _ (λ _ t, flags t = (negb m, false))).
  { apply js_triple_modify. unfold flags. simpl. by intros t [= -> ->]. }
  intros _. apply (js_triple_bind _ _ _ (λ _ t, flags t = (negb m, false)));
    [by apply js_triple_gets|]. intros b.
  apply (js_triple_bind _ _ _ (λ _ t, flags t = (negb m, false)));
    [by apply js_triple_modify|]. intros _.
  apply js_triple_keep; apply (measure_listeners_keep b (negb m, false)).
Qed.

(** [toggleProfileTool] flips the profile flag and leaves the measure tool
    off, provided the call that turns the measure tool off does so. *)
Lemma toggleProfileTool_body_spec X m p :
  (m = true → js_triple (λ t, flags t = (true, p)) X (λ _ t, flags t = (false, p))) →
  js_triple (λ t, flags t = (m, p)) (toggleProfileTool_body X)
            (λ _ t, flags t = (false, negb p)).
Proof.
  intros HX. unfold toggleProfileTool_body.
  apply (js_triple_bind _ _ _ (λ a t, flags t = (m, p) ∧ a = m));
    [apply js_triple_gets; intros t Ht; by destruct (flags_inv _ _ _ Ht)|].
  intros a.
  apply (js_triple_bind _ _ _ (λ _ t, flags t = (false, p))).
  { apply js_triple_when.
    - intros -> t [Hf <-]. by apply HX.
    - by intros -> t [-> <-]. }
  intros _. apply (js_triple_bind _ _ _ (λ _ t, flags t = (false, negb p))).
  { apply js_triple_modify. unfold flags. simpl. by intros t [= -> ->]. }
  intros _. apply (js_triple_bind _ _ _ (λ _ t, flags t = (false, negb p)));
    [by apply js_triple_gets|]. intros b.
  apply (js_triple_bind _ _ _ (λ _ t, flags t = (false, negb p)));
    [by apply js_triple_modify|]. intros _.
  apply (js_triple_bind _ _ _ (λ _ t, flags t = (false, negb p)));
    [apply js_triple_keep; apply (resetProfileState_keep (false, negb p))|].
  intros _.
  apply js_triple_keep; apply (profile_listeners_keep b (false, negb p)).
Qed.

(** ** Theorems *)

(** C2: the tools are never on together, and turning one on turns the other
    off without exhausting the stack.  From a state in which at most one
    tool is on, [toggleProfileTool] and [toggleMeasureTool] return (the
    mutual recursion ends within the depth given), flip their own flag and
    leave the other tool off. *)
Theorem toggles_exclusive t :
  exclusive t →
  (∃ t', toggleProfileTool depth t = (Ok tt, t') ∧
         flags t' = (false, negb (flags t).2)) ∧
  (∃ t', toggleMeasureTool depth t = (Ok tt, t') ∧
         flags t' = (negb (flags t).1, false)).
Proof.
  unfold exclusive. destruct (flags t) as [m p] eqn:Hf. simpl.
  assert (isMeasuring (st (tpg t)) = m ∧ isProfiling (st (tpg t)) = p) as [-> ->]
    by (by injection Hf).
  intros Hex. split.
  - destruct (toggleProfileTool_body_spec
                (toggleMeasureTool_body (toggleProfileTool 1)) m p) with (s := t)
      as ([] & t' & Hrun & Hfl); [|done|by exists t'].
    intros ->. destruct p; [done|].
    by apply (toggleMeasureTool_body_spec _ true false).
  - destruct (toggleMeasureTool_body_spec (toggleProfileTool depth) m p)
      with (s := t) as ([] & t' & Hrun & Hfl); [|done|by exists t'].
    intros ->. destruct m; [done|].
    by apply (toggleProfileTool_body_spec _ false true).
Qed.

Lemma toggles_exclusive_witness :
  exclusive fresh_tools ∧
  (∃ t', toggleProfileTool depth fresh_tools = (Ok tt, t') ∧
         flags t' = (false, negb (flags fresh_tools).2)) ∧
  (∃ t', toggleMeasureTool depth fresh_tools = (Ok tt, t') ∧
         flags t' = (negb (flags fresh_tools).1, false)).
Proof. split; [reflexivity|]. apply (toggles_exclusive fresh_tools). reflexivity. Defined.

(** ** Lemmas: what the steps keep of the state of the tools *)

(** A view of the object [state] that no step on the map, the page or the
    listeners changes. *)
Section view.
Context {X : Type} (φ : app_state → X) (x : X).

Lemma map_do_view f : js_preserves (λ p, φ (st p) = x) (map_do f).
Proof. by intros p. Qed.

Lemma map_try_view f e : js_preserves (λ p, φ (st p) = x) (map_try f e).
Proof. intros p Hp. unfold map_try. by destruct (f (mp p)). Qed.

Lemma ensure_source_view src d ls : js_preserves (λ p, φ (st p) = x) (ensure_source src d ls).
Proof.
  unfold ensure_source. apply js_preserves_bind; [auto with js|]. intros m.
  apply js_preserves_when, js_preserves_bind; [apply map_try_view|]. intros _.
  apply js_preserves_for_each. intros l _. apply map_do_view.
Qed.

Lemma on_page_view {A} (c : js page A) :
  js_preserves (λ p, φ (st p) = x) c → js_preserves (λ t, φ (st (tpg t)) = x) (on_page c).
Proof. intros Hc. by apply (js_preserves_zoom _ (λ p, φ (st p) = x)). Qed.

Lemma frame_view f :
  (∀ t, φ (st (tpg (f t))) = φ (st (tpg t))) →
  js_preserves (λ t, φ (st (tpg t)) = x) (js_modify f).
Proof. intros Hf t Ht. simpl. by rewrite Hf. Qed.

End view.

(** One step of a proof that a handler keeps a view. *)
Ltac view_step :=
  first [ apply js_preserves_bind; [|intros ?]
        | apply js_preserves_gets
        | apply js_preserves_ret
        | apply js_preserves_when
        | apply js_preserves_for_each; intros ? _
        | apply on_page_view
        | apply ensure_source_view
        | apply map_do_view
        | apply map_try_view
        | apply frame_view; by intros ? ].

(** The flags of the tools and the points of the profile. *)
Definition sview (s : app_state) : bool * bool * list lnglat :=
  (isMeasuring s, isProfiling s, profilePoints s).

Lemma profile_listeners_view b x :
  js_preserves (λ t, sview (st (tpg t)) = x) (profile_listeners b).
Proof.
  unfold profile_listeners, hideProfileChart, remove_layer_if_present,
    remove_source_if_present. destruct b; repeat view_step.
Qed.

Lemma measure_listeners_view b x :
  js_preserves (λ t, sview (st (tpg t)) = x) (measure_listeners b).
Proof.
  unfold measure_listeners, updateMeasurementVisuals, set_data_if_present, upd_state.
  destruct b; repeat view_step.
Qed.

Lemma js_preserves_and {S A} (I J : S → Prop) (c : js S A) :
  js_preserves I c → js_preserves J c → js_preserves (λ s, I s ∧ J s) c.
Proof. intros HI HJ s [? ?]. split; [by apply HI | by apply HJ]. Qed.

(** Turning the profile tool off drops its points. *)
Lemma toggleProfileTool_off X :
  js_triple (λ t, flags t = (false, true)) (toggleProfileTool_body X)
            (λ _ t, sview (st (tpg t)) = (false, false, [])).
Proof.
  unfold toggleProfileTool_body.
  apply (js_triple_bind _ _ _ (λ a t, flags t = (false, true) ∧ a = false));
    [apply js_triple_gets; intros t Ht; by destruct (flags_inv _ _ _ Ht)|].
  intros a. apply (js_triple_bind _ _ _ (λ _ t, flags t = (false, true))).
  { apply js_triple_when; [by intros -> t [_ ?] | by intros _ t [? _]]. }
  intros _. apply (js_triple_bind _ _ _ (λ _ t, flags t = (false, false))).
  { apply js_triple_modify. unfold flags. simpl. by intros t [= -> ->]. }
  intros _. apply (js_triple_bind _ _ _ (λ _ t, flags t = (false, false)));
    [by apply js_triple_gets|]. intros b.
  apply (js_triple_bind _ _ _ (λ _ t, flags t = (false, false)));
    [by apply js_triple_modify|]. intros _.
  apply (js_triple_bind _ _ _ (λ _ t, sview (st (tpg t)) = (false, false, []))).
  { unfold resetProfileState, upd_state, set_data_if_present, on_page, map_do.
    intros t Ht. destruct (flags_inv _ _ _ Ht) as [Hm Hp].
    eexists tt, _. split; [reflexivity|]. unfold sview. simpl. by rewrite Hm, Hp. }
  intros _. apply js_triple_keep;
    [apply (profile_listeners_keep b (false, false)) | apply profile_listeners_view].
Qed.

(** The measure tool turned on while the profile tool is on: the profile
    tool goes off and its points are dropped. *)
Lemma toggleMeasureTool_over_profile :
  js_triple (λ t, flags t = (false, true)) (toggleMeasureTool depth)
            (λ _ t, sview (st (tpg t)) = (true, false, [])).
Proof.
  unfold toggleMeasureTool, toggleMeasureTool_body.
  apply (js_triple_bind _ _ _ (λ a t, flags t = (false, true) ∧ a = true));
    [apply js_triple_gets; intros t Ht; by destruct (flags_inv _ _ _ Ht)|].
  intros a. apply (js_triple_bind _ _ _ (λ _ t, sview (st (tpg t)) = (false, false, []))).
  { apply js_triple_when; [|by intros -> t [_ ?]].
    intros _ t [Ht _]. by apply toggleProfileTool_off. }
  intros _. apply (js_triple_bind _ _ _ (λ _ t, sview (st (tpg t)) = (true, false, []))).
  { apply js_triple_modify. unfold sview. simpl. by intros t [= -> -> ->]. }
  intros _. apply (js_triple_bind _ _ _ (λ _ t, sview (st (tpg t)) = (true, false, [])));
    [by apply js_triple_gets|]. intros b.
  apply (js_triple_bind _ _ _ (λ _ t, sview (st (tpg t)) = (true, false, [])));
    [by apply js_triple_modify|]. intros _.
  apply js_triple_keep;
    [apply (measure_listeners_keep b (true, false)) | apply measure_listeners_view].
Qed.

(** A listener other than the measure tool's does nothing on a double click
    while the profile tool is off. *)
Lemma call_dblclick_idle n f t :
  isProfiling (st (tpg t)) = false → f ≠ MeasureDoubleClick →
  call_dblclick n f t = (Ok n, t).
Proof.
  intros Hp Hf. destruct f; try done. unfold call_dblclick, handleProfileDoubleClick.
  js_simpl. by rewrite Hp.
Qed.

Lemma fold_dblclick_idle ls n t :
  isProfiling (st (tpg t)) = false → MeasureDoubleClick ∉ ls →
  js_fold call_dblclick ls n t = (Ok n, t).
Proof.
  intros Hp. induction ls as [|f ls IH]; intros Hls; [done|].
  apply not_elem_of_cons in Hls as [Hf Hls]. simpl.
  rewrite (js_bind_ok _ _ _ _ _ (call_dblclick_idle n f t Hp (not_eq_sym Hf))). auto.
Qed.

(** ** Theorems: the double click *)

(** The listener of the profile tool on a drawn line. *)
Lemma handleProfileDoubleClick_sends t d :
  isProfiling (st (tpg t)) = true → currentDEM (st (tpg t)) = Some d →
  (2 ≤ length (profilePoints (st (tpg t))))%nat →
  handleProfileDoubleClick t =
    (Ok true,
     set_profileLine (Some (profilePoints (st (tpg t))))
       (set_tpg (upd_dm (set_loader "Generating Elevation Profile..." true) (tpg t)) t)).
Proof.
  intros Hp Hd Hn. apply Nat.ltb_ge in Hn.
  unfold handleProfileDoubleClick, generateProfile_start. js_simpl.
  rewrite Hp. simpl. rewrite Hn, Hd. simpl. by rewrite Hn.
Qed.

(** C12: a profile session sends its request.  With the profile tool on, an
    elevation model selected, at least two points clicked and the profile
    tool's listener the only one registered, a double click sends one
    request, records the clicked line, shows the loader and leaves the tool
    on and its points in place until the answer arrives. *)
Theorem profile_session_requests t d :
  on_dblclick t = [HandleProfileDoubleClick] →
  isProfiling (st (tpg t)) = true → currentDEM (st (tpg t)) = Some d →
  (2 ≤ length (profilePoints (st (tpg t))))%nat →
  fire_dblclick t =
    (Ok 1%nat,
     set_profileLine (Some (profilePoints (st (tpg t))))
       (set_tpg (upd_dm (set_loader "Generating Elevation Profile..." true) (tpg t)) t)).
Proof.
  intros Hls Hp Hd Hn. unfold fire_dblclick.
  rewrite (js_bind_ok _ _ t (on_dblclick t) t) by done.
  rewrite Hls. cbn [js_fold call_dblclick].
  erewrite js_bind_ok; [done|].
  by erewrite js_bind_ok; [|by apply (handleProfileDoubleClick_sends t d)].
Qed.

(** C13: the double-click listener of the measure tool outlives the tool.
    The measure tool registers an anonymous listener each time it is turned
    on and never removes it.  Once it is registered, a double click made
    with the profile tool on runs it first: it turns the measure tool on,
    which turns the profile tool off and drops the clicked points, so
    whatever the other listeners are, no request is sent. *)
Theorem stale_listener_cancels_profile t rest :
  on_dblclick t = MeasureDoubleClick :: rest → MeasureDoubleClick ∉ rest →
  flags t = (false, true) →
  ∃ t', fire_dblclick t = (Ok 0%nat, t') ∧ flags t' = (true, false) ∧
        profilePoints (st (tpg t')) = [].
Proof.
  intros Hls Hrest Hf.
  destruct (toggleMeasureTool_over_profile t Hf) as ([] & t1 & Hrun & Hv).
  injection Hv as Hm Hp Hpts. exists t1. split_and!; [|by unfold flags; rewrite Hm, Hp|done].
  unfold fire_dblclick. rewrite (js_bind_ok _ _ t (on_dblclick t) t) by done.
  rewrite Hls. cbn [js_fold call_dblclick].
  erewrite js_bind_ok; [|by erewrite js_bind_ok].
  by apply fold_dblclick_idle.
Qed.

(** ** Sessions to run the tools on *)

(** The profile tool turned on and two points clicked. *)
Definition profile_drawn : tools :=
  js_exec (toggleProfileTool depth;;
           fire_click (77, 10)%Q (Some 100%Q);;
           fire_click (77, 11)%Q (Some 120%Q)) fresh_tools.

(** The same after the measure tool was turned on and off with its
    button. *)
Definition profile_drawn_after_measure : tools :=
  js_exec (toggleMeasureTool depth;;
           toggleMeasureTool depth;;
           toggleProfileTool depth;;
           fire_click (77, 10)%Q (Some 100%Q);;
           fire_click (77, 11)%Q (Some 120%Q)) fresh_tools.

Lemma profile_session_requests_witness :
  fire_dblclick profile_drawn =
    (Ok 1%nat,
     set_profileLine (Some (profilePoints (st (tpg profile_drawn))))
       (set_tpg (upd_dm (set_loader "Generating Elevation Profile..." true)
                   (tpg profile_drawn)) profile_drawn)).
Proof.
  apply (profile_session_requests profile_drawn
           (DemRef "dem.tif" "DEM" "dem-source-dem.tif")); by vm_compute.
Defined.

Lemma stale_listener_cancels_profile_witness :
  ∃ t', fire_dblclick profile_drawn_after_measure = (Ok 0%nat, t') ∧
        flags t' = (true, false) ∧ profilePoints (st (tpg t')) = [].
Proof.
  apply (stale_listener_cancels_profile profile_drawn_after_measure
           [HandleProfileDoubleClick]); [by vm_compute| |by vm_compute].
  apply (bool_decide_unpack _). by vm_compute.
Defined.

(** The two sessions from the start: the double click of the first sends
    the request for the two points; in the second the two listeners of the
    measure tool's two turns stay registered and the points are gone. *)
Example double_click_sessions :
  (profile_session fresh_tools).1 = Ok 1%nat ∧
  profileLineGeoJSON (js_exec profile_session fresh_tools) =
    Some [(77, 10)%Q; (77, 11)%Q] ∧
  (stale_listener_session fresh_tools).1 = Ok 0%nat ∧
  on_dblclick (js_exec stale_listener_session fresh_tools) =
    [MeasureDoubleClick; MeasureDoubleClick].
Proof. by vm_compute. Qed.
