(* ===== verification/Flood.v ===== *)
(** * Flood: the state and the animation of the flood page (flood-viewer.js)

    flood-viewer.js is a page of its own: a map with the terrain of a chosen
    elevation model, inflow and outflow points set by clicks, simulations
    computed by the server and shown as layers, and an animation of the
    flood that fades a layer in over fifteen seconds.  This file models the
    page's state, the helpers that draw a result and the animation; the
    handlers of the buttons, the points and the weather are in FloodPage.
    - [flood]: the object [state] with its [animation], the map's style,
      the frames requested from the browser ([raf]), its timers and the
      page elements the handlers write;
    - the layers: [hideLayer], [addOrUpdate3DLayer], [addOrUpdate2DLayer],
      [addAnimatedWaterSurface];
    - the animation: [togglePlayPause], [animateFrame], [seekAnimation],
      [changeSpeed], [stopAnimation], [updateAnimationVisuals], and
      [run_frame], the browser calling the requested frame;
    - [anim_step]: the animation as a state machine, [anim_ok] its
      invariant, [finishes] the animation left to its frames;
    - [player], [command], [player_step]: what the animation promises its
      user, a position, whether it plays and a speed, with the one step it
      takes for each command; [command_of] is the command an event of the
      page stands for.
    Times and numbers are rationals; [performance.now()] and the timestamp
    of a frame are arguments of the handlers that read them.
    The theorems: the invariant holds in every reachable state; what one
    frame does, whether it ends the animation, advances it or, carrying a
    timestamp older than the start, moves it backwards; an animation left
    to its frames ends; and every event the animation takes makes the
    player the page shows take the step of the event's command. *)

From Stdlib Require Import Ascii String ZArith QArith Qround Qabs Qminmax Lqa Lia.
From stdpp Require Import base option list strings pretty relations.
From S2P Require Import Prelude JsString JsObject GeoJson MapEngine Profile.

#[local] Open Scope Q_scope.

(** ** The state *)

Inductive tool : Type := Inflow | Outflow.

#[export] Instance tool_eq_dec : EqDecision tool.
Proof. solve_decision. Defined.

(** An entry of [state.points]; an outflow has a negative rate. *)
Record flow_point : Type := FlowPoint {
  pt_lon : Q;
  pt_lat : Q;
  pt_rate : Q;
}.

(** The object [state] without its animation. *)
Record sim_state : Type := SimState {
  selectedDem : option string;
  activeTool : option tool;
  points : list flow_point;
  currentRainfall : Q;
  liveWeatherInterval : option nat;
  channelFloodCacheId : option string;
}.

(** [state.animation] *)
Record animation : Type := Animation {
  lastTimestamp : Q;
  animationFrameId : option nat;
  duration : Q;
  progress : Q;
  speed : Q;
  isPlaying : bool;
}.

(** What the page asked of the browser: the frames requested and not yet
    run or cancelled, the intervals set, the next handle the browser hands
    out (handles are positive), the alerts and the camera moves. *)
Record browser : Type := Browser {
  raf : list nat;
  intervals : list nat;
  next_handle : nat;
  shown_alerts : list string;
  fits : list string;
}.

(** The elements of the animation. *)
Record anim_dom : Type := AnimDom {
  animationControls : bool;
  animateBtn_stop : bool;
  animateBtn_active : bool;
  playPause_pause : bool;
  progressBar : Q;
  speedValue : string;
}.

(** [disabled] of the buttons and checkboxes. *)
Record buttons : Type := Buttons {
  gisFloodSimulationBtn : bool;
  animateSimulationBtn : bool;
  projectSimulationBtn : bool;
  toggleFlowTrace : bool;
  toggleFlowAccumulation : bool;
  toggleChannelFlood : bool;
  downloadChannelFloodBtn : bool;
  loadRiverBtn : bool;
}.

(** [checked] of the overlay checkboxes. *)
Record checks : Type := Checks {
  flowTrace_checked : bool;
  flowAccumulation_checked : bool;
  channelFlood_checked : bool;
  floodZones_checked : bool;
}.

(** The other elements the handlers write. *)
Record panel : Type := Panel {
  simulationControls : bool;
  fl_loaderText : string;
  fl_loadingOverlay : bool;
  weatherStatus : string;
  liveWeatherDisplay : bool;
  raindrops : nat;
  addInflowPointBtn : bool;
  addOutflowPointBtn : bool;
  cursor : string;
}.

Record flood : Type := Flood {
  fmap : style;
  fl_firstSymbolId : option string;
  fst_ : sim_state;
  anim : animation;
  br : browser;
  adom : anim_dom;
  btn : buttons;
  chk : checks;
  pnl : panel;
}.

Definition upd_fmap (f : style → style) (s : flood) : flood :=
  {| fmap := f (fmap s); fl_firstSymbolId := fl_firstSymbolId s; fst_ := fst_ s;
     anim := anim s; br := br s; adom := adom s; btn := btn s; chk := chk s;
     pnl := pnl s |}.

Definition upd_fst (f : sim_state → sim_state) (s : flood) : flood :=
  {| fmap := fmap s; fl_firstSymbolId := fl_firstSymbolId s; fst_ := f (fst_ s);
     anim := anim s; br := br s; adom := adom s; btn := btn s; chk := chk s;
     pnl := pnl s |}.

Definition upd_anim (f : animation → animation) (s : flood) : flood :=
  {| fmap := fmap s; fl_firstSymbolId := fl_firstSymbolId s; fst_ := fst_ s;
     anim := f (anim s); br := br s; adom := adom s; btn := btn s; chk := chk s;
     pnl := pnl s |}.

Definition upd_br (f : browser → browser) (s : flood) : flood :=
  {| fmap := fmap s; fl_firstSymbolId := fl_firstSymbolId s; fst_ := fst_ s;
     anim := anim s; br := f (br s); adom := adom s; btn := btn s; chk := chk s;
     pnl := pnl s |}.

Definition upd_adom (f : anim_dom → anim_dom) (s : flood) : flood :=
  {| fmap := fmap s; fl_firstSymbolId := fl_firstSymbolId s; fst_ := fst_ s;
     anim := anim s; br := br s; adom := f (adom s); btn := btn s; chk := chk s;
     pnl := pnl s |}.

Definition upd_btn (f : buttons → buttons) (s : flood) : flood :=
  {| fmap := fmap s; fl_firstSymbolId := fl_firstSymbolId s; fst_ := fst_ s;
     anim := anim s; br := br s; adom := adom s; btn := f (btn s); chk := chk s;
     pnl := pnl s |}.

Definition upd_chk (f : checks → checks) (s : flood) : flood :=
  {| fmap := fmap s; fl_firstSymbolId := fl_firstSymbolId s; fst_ := fst_ s;
     anim := anim s; br := br s; adom := adom s; btn := btn s; chk := f (chk s);
     pnl := pnl s |}.

Definition upd_pnl (f : panel → panel) (s : flood) : flood :=
  {| fmap := fmap s; fl_firstSymbolId := fl_firstSymbolId s; fst_ := fst_ s;
     anim := anim s; br := br s; adom := adom s; btn := btn s; chk := chk s;
     pnl := f (pnl s) |}.

(** ** The browser *)

(** [alert(msg)] *)
Definition fl_alert (msg : string) : js flood unit :=
  js_modify (upd_br (λ b, Browser (raf b) (intervals b) (next_handle b)
                             (shown_alerts b ++ [msg]) (fits b))).

(** [requestAnimationFrame(animateFrame)]: the handle of the request. *)
Definition requestAnimationFrame : js flood nat :=
  h ← js_gets (λ s, next_handle (br s));
  js_modify (upd_br (λ b, Browser (raf b ++ [h]) (intervals b) (S h)
                             (shown_alerts b) (fits b)));;
  mret h.

(** [cancelAnimationFrame(id)]; [null] and unknown handles are ignored. *)
Definition cancelAnimationFrame (id : option nat) : js flood unit :=
  js_modify (upd_br (λ b, Browser (List.filter (λ h, negb (bool_decide (Some h = id)))
                                     (raf b))
                             (intervals b) (next_handle b) (shown_alerts b) (fits b))).

(** A handle in a condition: [null] and [0] are falsy. *)
Definition handle_truthy (id : option nat) : bool :=
  match id with
  | Some (S _) => true
  | _ => false
  end.

(** [showLoader(text)] *)
Definition fl_showLoader (text : string) : js flood unit :=
  js_modify (upd_pnl (λ p, Panel (simulationControls p) text true (weatherStatus p)
                             (liveWeatherDisplay p) (raindrops p) (addInflowPointBtn p)
                             (addOutflowPointBtn p) (cursor p))).

(** [hideLoader()] *)
Definition fl_hideLoader : js flood unit :=
  js_modify (upd_pnl (λ p, Panel (simulationControls p) (fl_loaderText p) false
                             (weatherStatus p) (liveWeatherDisplay p) (raindrops p)
                             (addInflowPointBtn p) (addOutflowPointBtn p) (cursor p))).

(** ** The map *)

Definition fm_do (f : style → style) : js flood unit := js_modify (upd_fmap f).

Definition fm_try (f : style → option style) (err : string) : js flood unit :=
  λ s, match f (fmap s) with
       | Some m => (Ok tt, upd_fmap (λ _, m) s)
       | None => (Throw err, s)
       end.

Definition WATER_ANIMATION_SOURCE_ID : string := "water-animation-source".
Definition WATER_ANIMATION_LAYER_ID : string := "water-animation-layer".
Definition RIVER_SOURCE_ID : string := "river-source".
Definition RIVER_LAYER_ID : string := "river-layer".
Definition TERRAIN_SOURCE_ID : string := "terrain-source-ground".

(** [a || b] for a string and a value that may be [null]. *)
Definition or_else (a : string) (b : option string) : option string :=
  if String.eqb a "" then b else Some a.

(** [hideLayer(layerId, sourceId)] *)
Definition hideLayer (layerId sourceId : string) : js flood unit :=
  m ← js_gets fmap;
  js_when (hasLayer m layerId) (fm_do (removeLayer layerId));;
  m ← js_gets fmap;
  js_when (hasSource m sourceId)
    (fm_try (removeSource sourceId) "Error: There is no source with this ID").

(** The hillshade layer of [addOrUpdate3DLayer]. *)
Definition surface_layer (layerId sourceId accentColor : string) : layer :=
  {| lyr_id := layerId; lyr_type := LtHillshade; lyr_source := Some sourceId;
     lyr_minzoom := None; lyr_maxzoom := None; lyr_layout := [];
     lyr_paint := [ ("hillshade-illumination-anchor", PStr "viewport");
                    ("hillshade-exaggeration", PNum (1 # 5));
                    ("hillshade-shadow-color", PStr "#00264d");
                    ("hillshade-highlight-color", PStr accentColor);
                    ("hillshade-accent-color", PStr accentColor) ];
     lyr_filter := FilterNone |}.

(** [addOrUpdate3DLayer(layerId, sourceId, rasterId, accentColor)] *)
Definition addOrUpdate3DLayer (layerId sourceId rasterId accentColor : string) :
    js flood unit :=
  hideLayer layerId sourceId;;
  let tileUrl := "/api/dem_tile/" +:+ rasterId +:+ "/{z}/{x}/{y}.png" in
  fm_try (addSource sourceId (SrcRasterDem tileUrl 256 15 "mapbox"))
    "Error: Source already exists";;
  fsid ← js_gets fl_firstSymbolId;
  fm_do (addLayer (surface_layer layerId sourceId accentColor)
           (or_else RIVER_LAYER_ID fsid)).

(** The tile address of a colourised raster; [stats] is [undefined] when
    the answer has none. *)
Definition depth_tiles (rasterId : string) (stats : option (string * string))
    (colormap : string) : js flood string :=
  match stats with
  | Some (mn, mx) =>
    mret ("/api/raster_tile/" +:+ rasterId +:+ "/{z}/{x}/{y}.png?min=" +:+ mn +:+
          "&max=" +:+ mx +:+ "&colormap=" +:+ colormap)
  | None => js_throw "TypeError: Cannot read properties of undefined (reading 'min')"
  end.

Definition depth_layer (layerId sourceId : string) (paint : obj pval) : layer :=
  {| lyr_id := layerId; lyr_type := LtRaster; lyr_source := Some sourceId;
     lyr_minzoom := None; lyr_maxzoom := None; lyr_layout := [];
     lyr_paint := paint; lyr_filter := FilterNone |}.

(** [addOrUpdate2DLayer(layerId, sourceId, rasterId, stats, colormap)] *)
Definition addOrUpdate2DLayer (layerId sourceId rasterId : string)
    (stats : option (string * string)) (colormap : string) : js flood unit :=
  hideLayer layerId sourceId;;
  tileUrl ← depth_tiles rasterId stats colormap;
  fm_try (addSource sourceId (SrcRaster tileUrl 256)) "Error: Source already exists";;
  fsid ← js_gets fl_firstSymbolId;
  fm_do (addLayer (depth_layer layerId sourceId [("raster-opacity", PNum (3 # 4))])
           (or_else RIVER_LAYER_ID fsid)).

(** ** The animation *)

Definition set_progress (x : Q) (a : animation) : animation :=
  Animation (lastTimestamp a) (animationFrameId a) (duration a) x (speed a) (isPlaying a).

Definition set_frame (id : option nat) (a : animation) : animation :=
  Animation (lastTimestamp a) id (duration a) (progress a) (speed a) (isPlaying a).

Definition set_playing (b : bool) (a : animation) : animation :=
  Animation (lastTimestamp a) (animationFrameId a) (duration a) (progress a) (speed a) b.

Definition set_lastTimestamp (t : Q) (a : animation) : animation :=
  Animation t (animationFrameId a) (duration a) (progress a) (speed a) (isPlaying a).

Definition set_speed (v : Q) (a : animation) : animation :=
  Animation (lastTimestamp a) (animationFrameId a) (duration a) (progress a) v
    (isPlaying a).

(** [state.animation] as the page creates it. *)
Definition initial_animation : animation :=
  Animation 0 None (15 * 1000) 0 1 false.

Definition set_pause_icon (b : bool) (d : anim_dom) : anim_dom :=
  AnimDom (animationControls d) (animateBtn_stop d) (animateBtn_active d) b
    (progressBar d) (speedValue d).

Definition set_progressBar (w : Q) (d : anim_dom) : anim_dom :=
  AnimDom (animationControls d) (animateBtn_stop d) (animateBtn_active d)
    (playPause_pause d) w (speedValue d).

(** [updateAnimationVisuals(progress)] *)
Definition updateAnimationVisuals (x : Q) : js flood unit :=
  m ← js_gets fmap;
  js_when (hasLayer m WATER_ANIMATION_LAYER_ID)
    (fm_do (setPaintProperty WATER_ANIMATION_LAYER_ID "raster-opacity"
              (PNum (x * (4 # 5)))));;
  js_modify (upd_adom (set_progressBar (x * 100))).

(** [togglePlayPause()], at the time [now] of [performance.now()]. *)
Definition togglePlayPause (now : Q) : js flood unit :=
  js_modify (upd_anim (λ a, set_playing (negb (isPlaying a)) a));;
  playing ← js_gets (λ s, isPlaying (anim s));
  if playing : bool then
    js_modify (upd_adom (set_pause_icon true));;
    js_modify (upd_anim (λ a, if Qle_bool 1 (progress a) then set_progress 0 a else a));;
    js_modify (upd_anim (set_lastTimestamp now));;
    h ← requestAnimationFrame;
    js_modify (upd_anim (set_frame (Some h)))
  else
    js_modify (upd_adom (set_pause_icon false));;
    id ← js_gets (λ s, animationFrameId (anim s));
    cancelAnimationFrame id;;
    js_modify (upd_anim (set_frame None)).

(** [stopAnimation()] *)
Definition stopAnimation : js flood unit :=
  id ← js_gets (λ s, animationFrameId (anim s));
  js_when (handle_truthy id) (cancelAnimationFrame id);;
  js_modify (upd_anim (λ a, set_progress 0 (set_playing false (set_frame None a))));;
  js_modify (upd_adom (λ d, AnimDom false false false false 0 (speedValue d)));;
  hideLayer WATER_ANIMATION_LAYER_ID WATER_ANIMATION_SOURCE_ID.

(** [changeSpeed()], for the value [v] of the slider. *)
Definition changeSpeed (v : Q) : js flood unit :=
  js_modify (upd_anim (set_speed v));;
  js_modify (upd_adom (λ d, AnimDom (animationControls d) (animateBtn_stop d)
                              (animateBtn_active d) (playPause_pause d) (progressBar d)
                              (toFixed 2 v +:+ "x"))).

(** [seekAnimation(event)], for a click [clickX] pixels into a bar [width]
    pixels wide. *)
Definition seekAnimation (clickX width : Q) : js flood unit :=
  let newProgress := clickX / width in
  js_modify (upd_anim (set_progress (Qmax 0 (Qmin 1 newProgress))));;
  x ← js_gets (λ s, progress (anim s));
  updateAnimationVisuals x.

(** [animateFrame(timestamp)] *)
Definition animateFrame (timestamp : Q) : js flood unit :=
  a ← js_gets anim;
  if negb (isPlaying a) then mret tt
  else
    let delta := (timestamp - lastTimestamp a) * speed a in
    js_modify (upd_anim (set_lastTimestamp timestamp));;
    js_modify (upd_anim (λ a, set_progress (progress a + delta / duration a) a));;
    x ← js_gets (λ s, progress (anim s));
    if Qle_bool 1 x then
      js_modify (upd_anim (set_progress 1));;
      updateAnimationVisuals 1;;
      togglePlayPause timestamp
    else
      updateAnimationVisuals x;;
      h ← requestAnimationFrame;
      js_modify (upd_anim (set_frame (Some h))).

(** The browser runs the oldest requested frame at the time [timestamp]. *)
Definition run_frame (timestamp : Q) : js flood unit :=
  q ← js_gets (λ s, raf (br s));
  match q with
  | [] => mret tt
  | h :: rest =>
    js_modify (upd_br (λ b, Browser rest (intervals b) (next_handle b)
                               (shown_alerts b) (fits b)));;
    animateFrame timestamp
  end.

(** [addAnimatedWaterSurface(rasterId, stats)] *)
Definition addAnimatedWaterSurface (rasterId : string)
    (stats : option (string * string)) : js flood unit :=
  hideLayer WATER_ANIMATION_LAYER_ID WATER_ANIMATION_SOURCE_ID;;
  tileUrl ← depth_tiles rasterId stats "ocean";
  fm_try (addSource WATER_ANIMATION_SOURCE_ID (SrcRaster tileUrl 256))
    "Error: Source already exists";;
  fsid ← js_gets fl_firstSymbolId;
  fm_do (addLayer (depth_layer WATER_ANIMATION_LAYER_ID WATER_ANIMATION_SOURCE_ID
                     [("raster-opacity", PNum 0); ("raster-fade-duration", PNum 0)])
           (or_else RIVER_LAYER_ID fsid)).

(** ** The animation as a state machine *)

(** What the user and the browser can do to the animation. *)
Inductive anim_event : Type :=
| EvPlayPause (now : Q)
| EvFrame (timestamp : Q)
| EvSeek (clickX width : Q)
| EvSpeed (v : Q)
| EvStop.

Definition fire (e : anim_event) : js flood unit :=
  match e with
  | EvPlayPause now => togglePlayPause now
  | EvFrame timestamp => run_frame timestamp
  | EvSeek clickX width => seekAnimation clickX width
  | EvSpeed v => changeSpeed v
  | EvStop => stopAnimation
  end.

(** A step of the animation.  A frame runs at a time not before the last
    time the animation read, and the slider has no negative speeds. *)
Inductive anim_step : flood → flood → Prop :=
| step_play_pause s now :
    anim_step s (js_exec (togglePlayPause now) s)
| step_frame s timestamp :
    lastTimestamp (anim s) <= timestamp →
    anim_step s (js_exec (run_frame timestamp) s)
| step_seek s clickX width :
    anim_step s (js_exec (seekAnimation clickX width) s)
| step_speed s v :
    0 <= v → anim_step s (js_exec (changeSpeed v) s)
| step_stop s :
    anim_step s (js_exec stopAnimation s).

(** The frames the page has asked for are those of its record: one frame
    while the animation plays, none while it does not. *)
Definition scheduled_ok (s : flood) : Prop :=
  if isPlaying (anim s)
  then ∃ h, (0 < h)%nat ∧ raf (br s) = [h] ∧ animationFrameId (anim s) = Some h
  else raf (br s) = [] ∧ animationFrameId (anim s) = None.

(** The invariant of the animation. *)
Definition anim_ok (s : flood) : Prop :=
  0 <= progress (anim s) ∧ progress (anim s) <= 1 ∧
  0 <= speed (anim s) ∧ 0 < duration (anim s) ∧
  (0 < next_handle (br s))%nat ∧ scheduled_ok s.

(** The page as it loads, on the map [m]. *)
Definition initial_flood (m : style) : flood :=
  {| fmap := m; fl_firstSymbolId := first_symbol_id m;
     fst_ := SimState None None [] 0 None None;
     anim := initial_animation;
     br := Browser [] [] 1 [] [];
     adom := AnimDom false false false false 0 "1.00x";
     btn := Buttons true true true true true true true true;
     chk := Checks false false false false;
     pnl := Panel false "" false "" false 0 false false "" |}.

(** ** The states the animation handlers leave *)

(** [cancelAnimationFrame(id)] on the browser. *)
Definition cancelled (id : option nat) (b : browser) : browser :=
  Browser (List.filter (λ h, negb (bool_decide (Some h = id))) (raf b))
    (intervals b) (next_handle b) (shown_alerts b) (fits b).

(** [requestAnimationFrame] on the browser. *)
Definition requested (b : browser) : browser :=
  Browser (raf b ++ [next_handle b]) (intervals b) (S (next_handle b))
    (shown_alerts b) (fits b).

(** After [togglePlayPause] paused the animation. *)
Definition paused (s : flood) : flood :=
  upd_anim (λ a, set_frame None (set_playing false a))
    (upd_br (cancelled (animationFrameId (anim s)))
       (upd_adom (set_pause_icon false) s)).

(** An animation that ended starts over. *)
Definition restart (a : animation) : animation :=
  if Qle_bool 1 (progress a) then set_progress 0 a else a.

(** After [togglePlayPause] started the animation at the time [now]. *)
Definition played (now : Q) (s : flood) : flood :=
  upd_anim (λ a, set_frame (Some (next_handle (br s)))
                   (set_lastTimestamp now (restart (set_playing true a))))
    (upd_br requested (upd_adom (set_pause_icon true) s)).

(** After [updateAnimationVisuals(x)]. *)
Definition shown (x : Q) (s : flood) : flood :=
  upd_adom (set_progressBar (x * 100))
    (upd_fmap (λ m, if hasLayer m WATER_ANIMATION_LAYER_ID
                    then setPaintProperty WATER_ANIMATION_LAYER_ID "raster-opacity"
                           (PNum (x * (4 # 5))) m
                    else m) s).

(** After [stopAnimation]. *)
Definition stopped (s : flood) : flood :=
  let id := animationFrameId (anim s) in
  upd_fmap (λ m, dropSource WATER_ANIMATION_SOURCE_ID
                   (removeLayer WATER_ANIMATION_LAYER_ID m))
    (upd_adom (λ d, AnimDom false false false false 0 (speedValue d))
       (upd_anim (λ a, set_progress 0 (set_playing false (set_frame None a)))
          (upd_br (λ b, if handle_truthy id then cancelled id b else b) s))).

(** The progress a frame at [timestamp] computes. *)
Definition next_progress (timestamp : Q) (a : animation) : Q :=
  progress a + (timestamp - lastTimestamp a) * speed a / duration a.

(** After the first statements of [animateFrame]. *)
Definition ticked (timestamp : Q) (s : flood) : flood :=
  upd_anim (λ a, set_progress (next_progress timestamp a) (set_lastTimestamp timestamp a)) s.

(** After a frame that ended the animation. *)
Definition finished (timestamp : Q) (s : flood) : flood :=
  paused (shown 1 (upd_anim (set_progress 1) (ticked timestamp s))).

(** After a frame that asked for the next one. *)
Definition advanced (timestamp : Q) (s : flood) : flood :=
  upd_anim (set_frame (Some (next_handle (br s))))
    (upd_br requested (shown (next_progress timestamp (anim s)) (ticked timestamp s))).

(** ** Lemmas: the layers *)

Lemma fl_upd_fmap_id f s : f (fmap s) = fmap s → upd_fmap f s = s.
Proof. intros H. destruct s. unfold upd_fmap. simpl in *. by rewrite H. Qed.

Lemma hideLayer_run layerId sourceId s :
  hideLayer layerId sourceId s =
    (Ok tt, upd_fmap (λ m, dropSource sourceId (removeLayer layerId m)) s).
Proof.
  destruct s as [m fsid st a b ad bt ck pn].
  unfold hideLayer, fm_do, fm_try, upd_fmap. js_simpl.
  destruct (hasLayer m layerId) eqn:Hh; simpl;
    [|rewrite (removeLayer_absent layerId m) by (by apply hasLayer_getLayer)];
    (destruct (hasSource _ sourceId) eqn:Hs; simpl;
     [by rewrite (removeSource_present _ _ Hs) | by rewrite dropSource_absent]).
Qed.

Lemma updateAnimationVisuals_run x s : updateAnimationVisuals x s = (Ok tt, shown x s).
Proof.
  destruct s as [m fsid st a b ad bt ck pn].
  unfold updateAnimationVisuals, shown, fm_do, upd_fmap, upd_adom. js_simpl.
  by destruct (hasLayer m WATER_ANIMATION_LAYER_ID).
Qed.

(** ** Lemmas: the animation handlers as state transformers *)

Lemma togglePlayPause_run now s :
  togglePlayPause now s = (Ok tt, if isPlaying (anim s) then paused s else played now s).
Proof.
  destruct s as [m fsid st [lt id du pr sp pl] b ad bt ck pn]. by destruct pl.
Qed.

Lemma cancel_when_run id s :
  js_when (handle_truthy id) (cancelAnimationFrame id) s =
    (Ok tt, upd_br (λ b, if handle_truthy id then cancelled id b else b) s).
Proof. destruct (handle_truthy id); [done|]. by destruct s. Qed.

Lemma stopAnimation_run s : stopAnimation s = (Ok tt, stopped s).
Proof.
  unfold stopAnimation. erewrite js_bind_ok; [|reflexivity]. cbn beta.
  rewrite (js_bind_ok _ _ _ _ _ (cancel_when_run _ _)).
  erewrite js_bind_ok; [|reflexivity]. erewrite js_bind_ok; [|reflexivity].
  by rewrite hideLayer_run.
Qed.

Lemma changeSpeed_run v s :
  changeSpeed v s =
    (Ok tt, upd_adom (λ d, AnimDom (animationControls d) (animateBtn_stop d)
                             (animateBtn_active d) (playPause_pause d) (progressBar d)
                             (toFixed 2 v +:+ "x"))
              (upd_anim (set_speed v) s)).
Proof. done. Qed.

Lemma seekAnimation_run clickX width s :
  seekAnimation clickX width s =
    (Ok tt, shown (Qmax 0 (Qmin 1 (clickX / width)))
              (upd_anim (set_progress (Qmax 0 (Qmin 1 (clickX / width)))) s)).
Proof.
  unfold seekAnimation. erewrite js_bind_ok; [|reflexivity].
  erewrite js_bind_ok; [|reflexivity]. by rewrite updateAnimationVisuals_run.
Qed.

Lemma animateFrame_run timestamp s :
  animateFrame timestamp s =
    (Ok tt, if isPlaying (anim s)
            then if Qle_bool 1 (next_progress timestamp (anim s))
                 then finished timestamp s else advanced timestamp s
            else s).
Proof.
  unfold animateFrame. erewrite js_bind_ok; [|reflexivity]. cbn beta.
  destruct (isPlaying (anim s)) eqn:Hp; [|done]. cbn [negb].
  erewrite js_bind_ok; [|reflexivity]. erewrite js_bind_ok; [|reflexivity].
  erewrite js_bind_ok; [|reflexivity]. cbn beta.
  change (progress (anim _)) with (next_progress timestamp (anim s)).
  destruct (Qle_bool 1 (next_progress timestamp (anim s))).
  - erewrite js_bind_ok; [|reflexivity].
    rewrite (js_bind_ok _ _ _ _ _ (updateAnimationVisuals_run _ _)).
    rewrite togglePlayPause_run. cbn [anim shown upd_adom upd_fmap upd_anim ticked
      isPlaying set_progress set_lastTimestamp]. by rewrite Hp.
  - rewrite (js_bind_ok _ _ _ _ _ (updateAnimationVisuals_run _ _)).
    erewrite js_bind_ok; [|reflexivity]. done.
Qed.

Lemma run_frame_run timestamp s :
  run_frame timestamp s =
    (Ok tt, match raf (br s) with
            | [] => s
            | h :: rest =>
              js_exec (animateFrame timestamp)
                (upd_br (λ b, Browser rest (intervals b) (next_handle b)
                                (shown_alerts b) (fits b)) s)
            end).
Proof.
  unfold run_frame. erewrite js_bind_ok; [|reflexivity]. cbn beta.
  destruct (raf (br s)); [done|]. erewrite js_bind_ok; [|reflexivity].
  unfold js_exec. by rewrite animateFrame_run.
Qed.

(** ** Lemmas: the invariant of the animation *)

Lemma filter_cancelled id (rf : list nat) :
  (∀ h, h ∈ rf → id = Some h) →
  List.filter (λ h, negb (bool_decide (Some h = id))) rf = [].
Proof.
  induction rf as [|h rf IH]; intros H; [done|]. simpl.
  rewrite bool_decide_true by (symmetry; apply H, list_elem_of_here). simpl.
  apply IH. intros h' Hh'. by apply H, list_elem_of_further.
Qed.

(** The invariant reads the animation and the browser only. *)
Lemma anim_ok_ext s s' : anim s' = anim s → br s' = br s → anim_ok s → anim_ok s'.
Proof. unfold anim_ok, scheduled_ok. by intros -> ->. Qed.

Lemma shown_ok x s : anim_ok s → anim_ok (shown x s).
Proof. by apply anim_ok_ext. Qed.

Lemma paused_ok s :
  0 <= progress (anim s) → progress (anim s) <= 1 → 0 <= speed (anim s) →
  0 < duration (anim s) → (0 < next_handle (br s))%nat →
  (∀ h, h ∈ raf (br s) → animationFrameId (anim s) = Some h) →
  anim_ok (paused s).
Proof.
  intros H0 H1 Hs Hd Hn Hraf. unfold anim_ok, scheduled_ok, paused.
  cbn [anim br upd_anim upd_br upd_adom set_frame set_playing progress speed duration
       isPlaying raf next_handle animationFrameId cancelled].
  split_and!; try done. by apply filter_cancelled.
Qed.

Lemma played_ok now s : anim_ok s → isPlaying (anim s) = false → anim_ok (played now s).
Proof.
  intros (H0 & H1 & Hs & Hd & Hn & Hsch) Hp. unfold scheduled_ok in Hsch.
  rewrite Hp in Hsch. destruct Hsch as [Hraf Hid].
  unfold anim_ok, scheduled_ok, played, restart.
  cbn [anim br upd_anim upd_br upd_adom set_frame set_playing set_lastTimestamp
       progress speed duration isPlaying raf next_handle animationFrameId requested].
  destruct (Qle_bool 1 (progress (anim s)));
    cbn [set_progress set_playing progress speed duration isPlaying];
    (split_and!; try done; try lia; try lra);
    exists (next_handle (br s)); by rewrite Hraf.
Qed.

Lemma togglePlayPause_ok now s : anim_ok s → anim_ok (js_exec (togglePlayPause now) s).
Proof.
  intros Hok. unfold js_exec. rewrite togglePlayPause_run. cbn [snd].
  destruct (isPlaying (anim s)) eqn:Hp; [|by apply played_ok].
  destruct Hok as (H0 & H1 & Hs & Hd & Hn & Hsch). apply paused_ok; try done.
  unfold scheduled_ok in Hsch. rewrite Hp in Hsch.
  destruct Hsch as (h & _ & -> & ->). by intros h' ->%list_elem_of_singleton.
Qed.

Lemma stopAnimation_ok s : anim_ok s → anim_ok (js_exec stopAnimation s).
Proof.
  intros (H0 & H1 & Hs & Hd & Hn & Hsch). unfold js_exec. rewrite stopAnimation_run.
  unfold anim_ok, scheduled_ok, stopped in *.
  cbn [snd anim br upd_anim upd_br upd_adom upd_fmap set_frame set_playing set_progress
       progress speed duration isPlaying raf next_handle animationFrameId].
  split_and!; try done; try lra.
  - by destruct (handle_truthy _).
  - destruct (isPlaying (anim s)).
    + destruct Hsch as (h & Hh & Hraf & ->). destruct h; [lia|]. simpl.
      rewrite Hraf. simpl. by rewrite bool_decide_true.
    + destruct Hsch as [Hraf ->]. simpl. by rewrite Hraf.
Qed.

Lemma changeSpeed_ok v s : 0 <= v → anim_ok s → anim_ok (js_exec (changeSpeed v) s).
Proof. intros Hv (H0 & H1 & Hs & Hd & Hn & Hsch). by split_and!. Qed.

Lemma seekAnimation_ok clickX width s :
  anim_ok s → anim_ok (js_exec (seekAnimation clickX width) s).
Proof.
  intros (H0 & H1 & Hs & Hd & Hn & Hsch). unfold js_exec. rewrite seekAnimation_run.
  apply shown_ok. split_and!; try done.
  - apply Q.le_max_l.
  - apply Q.max_lub; [lra | apply Q.le_min_l].
Qed.

(** The progress a frame computes is not below the progress before it. *)
Lemma next_progress_ge timestamp a :
  lastTimestamp a <= timestamp → 0 <= speed a → 0 < duration a →
  progress a <= next_progress timestamp a.
Proof.
  intros Ht Hs Hd. unfold next_progress.
  assert (0 <= (timestamp - lastTimestamp a) * speed a / duration a).
  { apply Qmult_le_0_compat; [apply Qmult_le_0_compat; lra|].
    apply Qinv_le_0_compat. lra. }
  lra.
Qed.

Lemma animateFrame_ok timestamp s :
  0 <= progress (anim s) → progress (anim s) <= 1 → 0 <= speed (anim s) →
  0 < duration (anim s) → (0 < next_handle (br s))%nat →
  isPlaying (anim s) = true → raf (br s) = [] →
  lastTimestamp (anim s) <= timestamp →
  anim_ok (js_exec (animateFrame timestamp) s).
Proof.
  intros H0 H1 Hs Hd Hn Hp Hraf Ht. unfold js_exec. rewrite animateFrame_run, Hp.
  pose proof (next_progress_ge timestamp (anim s) Ht Hs Hd) as Hge.
  destruct (Qle_bool 1 (next_progress timestamp (anim s))) eqn:Hle; cbn [snd].
  - apply paused_ok;
      cbn [shown anim br upd_anim upd_adom upd_fmap ticked set_progress
           set_lastTimestamp progress speed duration raf next_handle];
      try done; try lra.
    rewrite Hraf. by intros h ?%elem_of_nil.
  - assert (next_progress timestamp (anim s) < 1) as Hlt.
    { apply Qnot_le_lt. intros Hc%Qle_bool_iff. congruence. }
    unfold anim_ok, scheduled_ok, advanced.
    cbn [shown anim br upd_anim upd_br upd_adom upd_fmap ticked set_progress set_frame
         set_lastTimestamp progress speed duration isPlaying raf next_handle
         animationFrameId requested].
    rewrite Hp, Hraf. split_and!; try done; try lia; try lra.
    by exists (next_handle (br s)).
Qed.

Lemma run_frame_ok timestamp s :
  anim_ok s → lastTimestamp (anim s) <= timestamp →
  anim_ok (js_exec (run_frame timestamp) s).
Proof.
  intros Hok Ht. unfold js_exec. rewrite run_frame_run. cbn [snd].
  destruct Hok as (H0 & H1 & Hs & Hd & Hn & Hsch).
  destruct (raf (br s)) as [|h rest] eqn:Hraf; [by split_and!|].
  unfold scheduled_ok in Hsch. rewrite Hraf in Hsch.
  destruct (isPlaying (anim s)) eqn:Hp; [|by destruct Hsch].
  destruct Hsch as (h' & _ & [= -> ->] & _). by apply animateFrame_ok.
Qed.

Lemma initial_flood_ok m : anim_ok (initial_flood m).
Proof. unfold anim_ok, scheduled_ok. cbn. split_and!; try done; try lra; lia. Qed.

Lemma anim_step_ok s s' : anim_step s s' → anim_ok s → anim_ok s'.
Proof.
  intros Hstep Hok. destruct Hstep.
  - by apply togglePlayPause_ok.
  - by apply run_frame_ok.
  - by apply seekAnimation_ok.
  - by apply changeSpeed_ok.
  - by apply stopAnimation_ok.
Qed.

Lemma anim_steps_ok s s' : rtc anim_step s s' → anim_ok s → anim_ok s'.
Proof. induction 1; eauto using anim_step_ok. Qed.

(** ** Lemmas: one frame of a playing animation *)

(** The page with its requested frames taken by the browser. *)
Definition dequeued (s : flood) : flood :=
  upd_br (λ b, Browser [] (intervals b) (next_handle b) (shown_alerts b) (fits b)) s.

Lemma run_frame_playing timestamp h s :
  isPlaying (anim s) = true → raf (br s) = [h] →
  js_exec (run_frame timestamp) s =
    if Qle_bool 1 (next_progress timestamp (anim s))
    then finished timestamp (dequeued s) else advanced timestamp (dequeued s).
Proof.
  intros Hp Hraf. unfold js_exec. rewrite run_frame_run, Hraf. cbn [snd].
  unfold js_exec. rewrite animateFrame_run. cbn [snd anim br upd_br isPlaying].
  by rewrite Hp.
Qed.

(** What a frame that does not end the animation leaves. *)
Lemma run_frame_advanced timestamp h s :
  isPlaying (anim s) = true → raf (br s) = [h] →
  next_progress timestamp (anim s) < 1 →
  let s' := js_exec (run_frame timestamp) s in
  anim s' = Animation timestamp (Some (next_handle (br s))) (duration (anim s))
              (next_progress timestamp (anim s)) (speed (anim s)) true ∧
  raf (br s') = [next_handle (br s)] ∧
  progressBar (adom s') = next_progress timestamp (anim s) * 100.
Proof.
  intros Hp Hraf Hlt. cbn zeta. rewrite (run_frame_playing timestamp h s Hp Hraf).
  destruct (Qle_bool 1 (next_progress timestamp (anim s))) eqn:Hle;
    [apply Qle_bool_iff in Hle; lra|].
  cbn. unfold set_frame, set_progress, set_lastTimestamp. cbn. by rewrite Hp.
Qed.

(** What the frame that ends the animation leaves. *)
Lemma frame_completes_state timestamp h s :
  isPlaying (anim s) = true → raf (br s) = [h] →
  1 <= next_progress timestamp (anim s) →
  let s' := js_exec (run_frame timestamp) s in
  isPlaying (anim s') = false ∧ progress (anim s') = 1.
Proof.
  intros Hp Hraf Hle%Qle_bool_iff. cbn zeta.
  rewrite (run_frame_playing timestamp h s Hp Hraf), Hle. by cbn.
Qed.

(** ** The animation left to run *)

(** The animation has ended, or it plays and ends after the frame that the
    browser runs [δ] milliseconds after the last one. *)
Inductive finishes (δ : Q) : flood → Prop :=
| finishes_now s :
    isPlaying (anim s) = false → progress (anim s) = 1 → finishes δ s
| finishes_frame s :
    isPlaying (anim s) = true →
    finishes δ (js_exec (run_frame (lastTimestamp (anim s) + δ)) s) →
    finishes δ s.

(** The share of the animation one frame covers. *)
Definition frame_share (δ : Q) (a : animation) : Q := δ * speed a / duration a.

Lemma next_progress_share δ a :
  next_progress (lastTimestamp a + δ) a == progress a + frame_share δ a.
Proof. unfold next_progress, frame_share, Qdiv. ring. Qed.

Lemma frame_share_pos δ a : 0 < δ → 0 < speed a → 0 < duration a → 0 < frame_share δ a.
Proof.
  intros Hδ Hs Hd. unfold frame_share.
  apply Qmult_lt_0_compat; [by apply Qmult_lt_0_compat | by apply Qinv_lt_0_compat].
Qed.

(** An animation that is [k] frames from its end ends. *)
Lemma finishes_within δ k s :
  anim_ok s → isPlaying (anim s) = true → 0 < speed (anim s) → 0 < δ →
  1 - progress (anim s) <= inject_Z (Z.of_nat k) * frame_share δ (anim s) →
  finishes δ s.
Proof.
  revert s. induction k as [|k IH]; intros s Hok Hp Hs Hδ Hk;
    pose proof Hok as (_ & _ & _ & Hd & _ & Hsch);
    unfold scheduled_ok in Hsch; rewrite Hp in Hsch; destruct Hsch as (h & _ & Hraf & _);
    pose proof (next_progress_share δ (anim s)) as Hnext;
    pose proof (frame_share_pos δ (anim s) Hδ Hs Hd) as Hpos;
    apply finishes_frame; try done;
    (destruct (Qlt_le_dec (next_progress (lastTimestamp (anim s) + δ) (anim s)) 1)
       as [Hlt|Hge];
     [|apply finishes_now; by apply (frame_completes_state _ h)]).
  - change (inject_Z (Z.of_nat 0)) with 0 in Hk. lra.
  - destruct (run_frame_advanced _ h s Hp Hraf Hlt) as (Ha & _ & _).
    apply IH; try done.
    + apply run_frame_ok; [done|lra].
    + by rewrite Ha.
    + by rewrite Ha.
    + rewrite Ha. unfold frame_share in *. cbn [progress speed duration].
      rewrite Nat2Z.inj_succ in Hk. unfold Z.succ in Hk. rewrite inject_Z_plus in Hk.
      change (inject_Z 1) with 1 in Hk. lra.
Qed.

(** ** Theorems: the animation *)

(** C18: the invariant of the animation.  From the page as it loads, after
    any sequence of play and pause, frames, seeks, changes of speed and
    stops (a frame never runs at a time before the last one read, the
    slider has no negative speed), the progress is between 0 and 1 and the
    browser holds exactly one requested frame while the animation plays
    and none while it does not. *)
Theorem animation_invariant m s :
  rtc anim_step (initial_flood m) s → anim_ok s.
Proof.
  intros Hsteps. apply (anim_steps_ok _ _ Hsteps), initial_flood_ok.
Qed.

(** C27: the frame that completes the animation stops it.  When the
    animation plays, its one requested frame runs and the progress it
    computes reaches 1, the progress is set to exactly 1, the bar is full,
    the animation no longer plays, and no frame is requested: the loop ends
    instead of wrapping. *)
Theorem frame_completes timestamp h s :
  isPlaying (anim s) = true → raf (br s) = [h] →
  1 <= next_progress timestamp (anim s) →
  let s' := js_exec (run_frame timestamp) s in
  progress (anim s') = 1 ∧ progressBar (adom s') = 1 * 100 ∧
  isPlaying (anim s') = false ∧ raf (br s') = [] ∧ animationFrameId (anim s') = None.
Proof.
  intros Hp Hraf Hle%Qle_bool_iff. cbn zeta.
  rewrite (run_frame_playing timestamp h s Hp Hraf), Hle. by cbn.
Qed.

(** C28: a frame that does not complete the animation advances it and asks
    for the next frame.  The progress grows by the time since the last
    frame, times the speed, over the duration; exactly one frame is
    requested. *)
Theorem frame_advances timestamp h s :
  isPlaying (anim s) = true → raf (br s) = [h] →
  next_progress timestamp (anim s) < 1 →
  let s' := js_exec (run_frame timestamp) s in
  progress (anim s') = next_progress timestamp (anim s) ∧
  lastTimestamp (anim s') = timestamp ∧
  isPlaying (anim s') = true ∧
  raf (br s') = [next_handle (br s)] ∧
  animationFrameId (anim s') = Some (next_handle (br s)).
Proof.
  intros Hp Hraf Hlt.
  destruct (run_frame_advanced timestamp h s Hp Hraf Hlt) as (Ha & Hr & _).
  cbn zeta. by rewrite Ha, Hr.
Qed.

(** C29: a frame whose timestamp is older than the time read at the start
    moves the animation backwards.  [togglePlayPause] takes the start from
    [performance.now()], a frame carries the time at which the browser
    began it; when that is the earlier of the two and the animation is at
    its start, the progress the frame computes is negative, and so is the
    width of the bar: nothing keeps the progress above 0. *)
Theorem frame_before_start timestamp h s :
  isPlaying (anim s) = true → raf (br s) = [h] →
  progress (anim s) == 0 → 0 < speed (anim s) → 0 < duration (anim s) →
  timestamp < lastTimestamp (anim s) →
  let s' := js_exec (run_frame timestamp) s in
  progress (anim s') < 0 ∧ progressBar (adom s') < 0 ∧ isPlaying (anim s') = true.
Proof.
  intros Hp Hraf H0 Hs Hd Ht.
  assert (next_progress timestamp (anim s) < 0) as Hneg.
  { unfold next_progress. rewrite H0.
    assert (0 < (lastTimestamp (anim s) - timestamp) * speed (anim s) / duration (anim s)).
    { apply Qmult_lt_0_compat; [apply Qmult_lt_0_compat; lra|].
      by apply Qinv_lt_0_compat. }
    unfold Qdiv in *. lra. }
  destruct (run_frame_advanced timestamp h s Hp Hraf) as (Ha & _ & Hb); [lra|].
  cbn zeta. rewrite Ha, Hb. cbn [progress isPlaying]. split_and!; [done|lra|done].
Qed.

(** C30: the animation ends.  From any state the invariant allows in which
    the animation plays at a positive speed, if nothing happens but the
    frames the page asks for, each [δ > 0] milliseconds after the last,
    then after finitely many frames the animation has stopped at progress
    1, with no frame left requested. *)
Theorem animation_finishes δ s :
  anim_ok s → isPlaying (anim s) = true → 0 < speed (anim s) → 0 < δ →
  finishes δ s.
Proof.
  intros Hok Hp Hs Hδ. pose proof Hok as (_ & _ & _ & Hd & _).
  pose proof (frame_share_pos δ (anim s) Hδ Hs Hd) as Hpos.
  set (q := (1 - progress (anim s)) / frame_share δ (anim s)).
  apply (finishes_within δ (Z.to_nat (Qceiling q))); try done.
  assert (q <= inject_Z (Z.of_nat (Z.to_nat (Qceiling q)))) as Hq.
  { eapply Qle_trans; [apply Qle_ceiling|]. rewrite <- Zle_Qle. lia. }
  assert (1 - progress (anim s) == q * frame_share δ (anim s)) as ->
    by (unfold q; field; lra).
  apply Qmult_le_compat_r; [done | lra].
Qed.


(** ** The animation as its user sees it *)

(** What the animation promises: a position between 0 and 1, whether it
    plays, its speed and its length. *)
Record player : Type := Player {
  pos : Q;
  plays : bool;
  rate : Q;
  length_ms : Q;
}.

(** What is asked of the player: to start or pause, to let [dt]
    milliseconds pass, to go to the share [x] of its length, to take the
    speed [v], to stop. *)
Inductive command : Type :=
| CmdToggle
| CmdTick (dt : Q)
| CmdSeek (x : Q)
| CmdSpeed (v : Q)
| CmdStop.

(** The player a state of the page shows. *)
Definition player_of (s : flood) : player :=
  Player (progress (anim s)) (isPlaying (anim s)) (speed (anim s)) (duration (anim s)).

(** The command an event of the page is for the player: a frame is the
    time that passed since the last one the animation read, a click on the
    bar is the share of the bar left of it. *)
Definition command_of (e : anim_event) (s : flood) : command :=
  match e with
  | EvPlayPause _ => CmdToggle
  | EvFrame timestamp => CmdTick (timestamp - lastTimestamp (anim s))
  | EvSeek clickX width => CmdSeek (clickX / width)
  | EvSpeed v => CmdSpeed v
  | EvStop => CmdStop
  end.

(** The events [anim_step] takes in a state. *)
Definition allowed (e : anim_event) (s : flood) : Prop :=
  match e with
  | EvFrame timestamp => lastTimestamp (anim s) <= timestamp
  | EvSpeed v => 0 <= v
  | _ => True
  end.

(** The steps of the player, by command: it starts (from the beginning
    when it was at its end) or pauses; it moves on by the time that passed,
    ends when that takes it to the end, and stays while it does not play;
    it goes to a position, kept between 0 and 1; it changes its speed; it
    is reset. *)
Inductive player_step : command → player → player → Prop :=
| pl_play p :
    plays p = false →
    player_step CmdToggle p
      (Player (if Qle_bool 1 (pos p) then 0 else pos p) true (rate p) (length_ms p))
| pl_pause p :
    plays p = true →
    player_step CmdToggle p (Player (pos p) false (rate p) (length_ms p))
| pl_advance p dt :
    plays p = true → 0 <= dt → pos p + dt * rate p / length_ms p < 1 →
    player_step (CmdTick dt) p
      (Player (pos p + dt * rate p / length_ms p) true (rate p) (length_ms p))
| pl_end p dt :
    plays p = true → 0 <= dt → 1 <= pos p + dt * rate p / length_ms p →
    player_step (CmdTick dt) p (Player 1 false (rate p) (length_ms p))
| pl_idle p dt :
    plays p = false → player_step (CmdTick dt) p p
| pl_seek p x :
    player_step (CmdSeek x) p
      (Player (Qmax 0 (Qmin 1 x)) (plays p) (rate p) (length_ms p))
| pl_speed p v :
    0 <= v →
    player_step (CmdSpeed v) p (Player (pos p) (plays p) v (length_ms p))
| pl_stop p :
    player_step CmdStop p (Player 0 false (rate p) (length_ms p)).

(** The player is deterministic: a command has one outcome. *)
Lemma player_step_functional c p p1 p2 :
  player_step c p p1 → player_step c p p2 → p1 = p2.
Proof.
  destruct 1; inversion 1; subst; try done; try congruence;
    exfalso; eapply Qlt_not_le; eauto.
Qed.

Lemma player_of_played now s :
  player_of (played now s) =
    Player (if Qle_bool 1 (progress (anim s)) then 0 else progress (anim s)) true
      (speed (anim s)) (duration (anim s)).
Proof.
  unfold player_of, played, restart. cbn [anim upd_anim upd_br upd_adom].
  change (progress (set_playing true (anim s))) with (progress (anim s)).
  by destruct (Qle_bool 1 (progress (anim s))).
Qed.

Lemma run_frame_refines timestamp s :
  anim_ok s → lastTimestamp (anim s) <= timestamp →
  player_step (CmdTick (timestamp - lastTimestamp (anim s)))
    (player_of s) (player_of (js_exec (run_frame timestamp) s)).
Proof.
  intros (_ & _ & _ & _ & _ & Hsch) Ht. unfold scheduled_ok in Hsch.
  destruct (isPlaying (anim s)) eqn:Hp.
  - destruct Hsch as (h & _ & Hraf & _). rewrite (run_frame_playing timestamp h s Hp Hraf).
    destruct (Qle_bool 1 (next_progress timestamp (anim s))) eqn:Hle.
    + apply Qle_bool_iff in Hle.
      apply (pl_end (player_of s) (timestamp - lastTimestamp (anim s))); [done|lra|done].
    + assert (next_progress timestamp (anim s) < 1) as Hlt.
      { apply Qnot_le_lt. intros Hc%Qle_bool_iff. congruence. }
      replace (player_of (advanced timestamp (dequeued s)))
        with (Player (next_progress timestamp (anim s)) true (speed (anim s))
                (duration (anim s))) by (unfold player_of; cbn; by rewrite Hp).
      apply (pl_advance (player_of s) (timestamp - lastTimestamp (anim s))); [done|lra|done].
  - destruct Hsch as [Hraf _]. unfold js_exec. rewrite run_frame_run, Hraf.
    by apply pl_idle.
Qed.

(** An event the step relation takes is a step of it, and conversely. *)
Lemma anim_step_allowed s s' :
  anim_step s s' ↔ ∃ e, allowed e s ∧ s' = js_exec (fire e) s.
Proof.
  split.
  - destruct 1 as [s now|s ts Hts|s x w|s v Hv|s];
      [by exists (EvPlayPause now) | by exists (EvFrame ts) | by exists (EvSeek x w)
      | by exists (EvSpeed v) | by exists EvStop].
  - intros ([now|ts|x w|v|] & He & ->); by constructor.
Qed.

(** C37: the page implements the player.  In every state the invariant
    allows, an event the animation takes changes the page (with its
    requested frames, its elements and its layer) so that the player it
    shows makes the step of the event's command: a click on play or pause
    starts or pauses it, a frame moves it on by the time since the last
    frame or ends it at 1, a frame that arrives while it does not play
    changes nothing, a click on the bar takes it to the share clicked, kept
    between 0 and 1, and a stop resets it.  The player is deterministic
    ([player_step_functional]), so the command decides what the page shows. *)
Theorem animation_refines_player e s :
  anim_ok s → allowed e s →
  player_step (command_of e s) (player_of s) (player_of (js_exec (fire e) s)).
Proof.
  intros Hok He. destruct e as [now|ts|x w|v|]; cbn [fire command_of allowed] in *.
  - unfold js_exec. rewrite togglePlayPause_run. cbn [snd].
    destruct (isPlaying (anim s)) eqn:Hp.
    + by apply (pl_pause (player_of s)).
    + rewrite player_of_played. by apply (pl_play (player_of s)).
  - by apply run_frame_refines.
  - unfold js_exec. rewrite seekAnimation_run. apply (pl_seek (player_of s)).
  - by apply (pl_speed (player_of s)).
  - unfold js_exec. rewrite stopAnimation_run. apply (pl_stop (player_of s)).
Qed.

(** ** An animation to run *)

(** A map without layers. *)
Definition bare_map : style := {| sources := []; layers := []; terrain := None |}.

(** The animation started at the time 1000 (milliseconds). *)
Definition playing : flood := js_exec (togglePlayPause 1000) (initial_flood bare_map).

Lemma animation_invariant_witness : anim_ok (js_exec (run_frame 8500) playing).
Proof.
  apply (animation_invariant bare_map).
  eapply rtc_l; [apply (step_play_pause (initial_flood bare_map) 1000)|].
  eapply rtc_l; [apply (step_frame playing 8500); by vm_compute|].
  apply rtc_refl.
Defined.

Lemma frame_completes_witness :
  let s' := js_exec (run_frame 16000) playing in
  progress (anim s') = 1 ∧ progressBar (adom s') = 1 * 100 ∧
  isPlaying (anim s') = false ∧ raf (br s') = [] ∧ animationFrameId (anim s') = None.
Proof.
  apply (frame_completes 16000 1%nat playing); [reflexivity | reflexivity | by vm_compute].
Defined.

Lemma frame_advances_witness :
  let s' := js_exec (run_frame 8500) playing in
  progress (anim s') = next_progress 8500 (anim playing) ∧
  lastTimestamp (anim s') = 8500 ∧
  isPlaying (anim s') = true ∧
  raf (br s') = [next_handle (br playing)] ∧
  animationFrameId (anim s') = Some (next_handle (br playing)).
Proof.
  apply (frame_advances 8500 1%nat playing); [reflexivity | reflexivity | by vm_compute].
Defined.

Lemma frame_before_start_witness :
  let s' := js_exec (run_frame 990) playing in
  progress (anim s') < 0 ∧ progressBar (adom s') < 0 ∧ isPlaying (anim s') = true.
Proof.
  apply (frame_before_start 990 1%nat playing); by vm_compute.
Defined.

Lemma animation_finishes_witness : finishes 16 playing.
Proof.
  apply (animation_finishes 16 playing); try (by vm_compute).
  apply togglePlayPause_ok, initial_flood_ok.
Defined.

Lemma animation_refines_player_witness :
  player_step (command_of (EvFrame 8500) playing)
    (player_of playing) (player_of (js_exec (fire (EvFrame 8500)) playing)).
Proof.
  apply (animation_refines_player (EvFrame 8500) playing).
  - apply togglePlayPause_ok, initial_flood_ok.
  - by vm_compute.
Defined.
