(* ===== verification/FloodPage.v ===== *)
(** * FloodPage: simulations, elevation model and points of the flood page
    (flood-viewer.js)

    The handlers of the flood page around its animation (which is in
    Flood):
    - [updateControlsState]: which buttons and checkboxes are enabled, from
      the points, the elevation model and the cached channel flood;
    - [setActiveTool], [onMapClick], [updatePointsLayer],
      [clearAllPoints]: the inflow and outflow points;
    - [handleDemSelection], [cleanupMapLayers]: the elevation model;
    - [loadRiverNetwork], [handleGisFloodSimulation], [handleProjectFlood],
      [handleToggleFlowTrace], [handleToggleFlowAccumulation],
      [handleToggleChannelFlood]: the requests to the server and the layers
      their answers become;
    - [handleAnimateFlood]: the button that starts and stops the animation;
    - [fetchLiveWeather] (its part before the request and its part after
      the answer), [classifyRainfall], [createRainEffect],
      [startLiveWeatherUpdates], [stopLiveWeatherUpdates].
    - [page_step]: the page as a state machine over the events of the
      animation and these handlers; [page_ok] its invariant.
    A handler that awaits a fetch takes the answer as an argument and runs
    as one step.  Not modelled: [initialize] and [populateDemSelect], the
    download of the shapefile, the hazard zones with their popups, the
    text of the weather location and the position and styling of the rain
    drops.
    The theorems: a flood result is drawn below the river layer, so without
    the river network the answer of a simulation leaves a source and no
    layer; a click adds a point of the tool's sign, and a rate of zero makes
    a point that is neither inflow nor outflow; the rain shown is bounded
    and a failed weather request keeps the last rainfall; and in every
    reachable state the animation is within its bounds, at most one weather
    timer runs and the buttons follow the points. *)

From Stdlib Require Import Ascii String ZArith QArith Qround Qabs Qminmax Lqa Lia.
From stdpp Require Import base option list strings pretty relations.
From S2P Require Import Prelude JsString JsObject GeoJson MapEngine Profile Flood.

#[local] Open Scope Q_scope.

(** ** Names and answers *)

Definition GIS_FLOOD_RESULT_SOURCE_ID : string := "gis-flood-result-source".
Definition GIS_FLOOD_RESULT_LAYER_ID : string := "gis-flood-result-layer".
Definition GENERAL_FLOOD_SOURCE_ID : string := "general-flood-source".
Definition GENERAL_FLOOD_LAYER_ID : string := "general-flood-layer".
Definition FLOW_TRACE_SOURCE_ID : string := "flow-trace-dem-source".
Definition FLOW_TRACE_LAYER_ID : string := "flow-trace-layer".
Definition FLOW_ACCUMULATION_SOURCE_ID : string := "flow-accumulation-source".
Definition FLOW_ACCUMULATION_LAYER_ID : string := "flow-accumulation-layer".
Definition CHANNEL_FLOOD_SOURCE_ID : string := "channel-flood-dem-source".
Definition CHANNEL_FLOOD_LAYER_ID : string := "channel-flood-layer".
Definition POINTS_SOURCE_ID : string := "points-source".
Definition POINTS_LAYER_ID : string := "points-layer".
Definition PRECALC_FLOOD_SOURCE_ID : string := "precalc-flood-zones-source".
Definition PRECALC_FLOOD_LAYER_ID : string := "precalc-flood-zones-layer".

(** The body of an answer of the server with its status. *)
Record api_result : Type := ApiResult {
  res_ok : bool;
  res_error : string;
  cache_filename : string;
  end_raster_id : string;
  res_stats : option (string * string);
}.

(** The answer to a fetch: the parsed body, or the exception of a failed
    request. *)
Definition api_response : Type := outcome api_result.

(** [const result = await response.json(); if (!response.ok) throw new
    Error(result.error)] *)
Definition read_result (resp : api_response) : js flood api_result :=
  result ← match resp with Ok r => mret r | Throw e => js_throw e end;
  if res_ok result then mret result else js_throw (res_error result).

(** The answer of the weather service. *)
Record weather : Type := Weather {
  w_success : bool;
  w_error : string;
  current_precipitation_mmhr : Q;
}.

(** ** Setters *)

Definition set_points (ps : list flow_point) (s : sim_state) : sim_state :=
  SimState (selectedDem s) (activeTool s) ps (currentRainfall s) (liveWeatherInterval s)
    (channelFloodCacheId s).

Definition set_selectedDem (d : option string) (s : sim_state) : sim_state :=
  SimState d (activeTool s) (points s) (currentRainfall s) (liveWeatherInterval s)
    (channelFloodCacheId s).

Definition set_activeTool (t : option tool) (s : sim_state) : sim_state :=
  SimState (selectedDem s) t (points s) (currentRainfall s) (liveWeatherInterval s)
    (channelFloodCacheId s).

Definition set_currentRainfall (x : Q) (s : sim_state) : sim_state :=
  SimState (selectedDem s) (activeTool s) (points s) x (liveWeatherInterval s)
    (channelFloodCacheId s).

Definition set_liveWeatherInterval (h : option nat) (s : sim_state) : sim_state :=
  SimState (selectedDem s) (activeTool s) (points s) (currentRainfall s) h
    (channelFloodCacheId s).

Definition set_channelFloodCacheId (c : option string) (s : sim_state) : sim_state :=
  SimState (selectedDem s) (activeTool s) (points s) (currentRainfall s)
    (liveWeatherInterval s) c.

Definition set_loadRiverBtn (d : bool) (b : buttons) : buttons :=
  Buttons (gisFloodSimulationBtn b) (animateSimulationBtn b) (projectSimulationBtn b)
    (toggleFlowTrace b) (toggleFlowAccumulation b) (toggleChannelFlood b)
    (downloadChannelFloodBtn b) d.

Definition set_downloadBtn (d : bool) (b : buttons) : buttons :=
  Buttons (gisFloodSimulationBtn b) (animateSimulationBtn b) (projectSimulationBtn b)
    (toggleFlowTrace b) (toggleFlowAccumulation b) (toggleChannelFlood b) d
    (loadRiverBtn b).

Definition set_simulationControls (shown : bool) (p : panel) : panel :=
  Panel shown (fl_loaderText p) (fl_loadingOverlay p) (weatherStatus p)
    (liveWeatherDisplay p) (raindrops p) (addInflowPointBtn p) (addOutflowPointBtn p)
    (cursor p).

Definition set_weatherStatus (t : string) (p : panel) : panel :=
  Panel (simulationControls p) (fl_loaderText p) (fl_loadingOverlay p) t
    (liveWeatherDisplay p) (raindrops p) (addInflowPointBtn p) (addOutflowPointBtn p)
    (cursor p).

Definition set_liveWeatherDisplay (shown : bool) (p : panel) : panel :=
  Panel (simulationControls p) (fl_loaderText p) (fl_loadingOverlay p) (weatherStatus p)
    shown (raindrops p) (addInflowPointBtn p) (addOutflowPointBtn p) (cursor p).

Definition set_raindrops (n : nat) (p : panel) : panel :=
  Panel (simulationControls p) (fl_loaderText p) (fl_loadingOverlay p) (weatherStatus p)
    (liveWeatherDisplay p) n (addInflowPointBtn p) (addOutflowPointBtn p) (cursor p).

(** ** The controls *)

(** A string in a condition: [null] and the empty string are falsy. *)
Definition str_truthy (o : option string) : bool :=
  match o with
  | Some s => negb (String.eqb s "")
  | None => false
  end.

(** [state.points.filter(p => p.rate > 0)] *)
Definition inflowPoints (ps : list flow_point) : list flow_point :=
  List.filter (λ p, negb (Qle_bool (pt_rate p) 0)) ps.

(** [state.points.filter(p => p.rate < 0)] *)
Definition outflowPoints (ps : list flow_point) : list flow_point :=
  List.filter (λ p, negb (Qle_bool 0 (pt_rate p))) ps.

(** [l.length > 0] *)
Definition nonempty {A} (l : list A) : bool :=
  match l with [] => false | _ :: _ => true end.

(** The [disabled] flags [updateControlsState] computes. *)
Definition controls_of (s : sim_state) (b : buttons) : buttons :=
  let hasPoints := nonempty (points s) in
  let hasIn := nonempty (inflowPoints (points s)) in
  let hasOut := nonempty (outflowPoints (points s)) in
  {| gisFloodSimulationBtn := negb hasIn;
     animateSimulationBtn := negb hasPoints;
     projectSimulationBtn := negb hasPoints;
     toggleFlowTrace := negb (hasIn && hasOut);
     toggleFlowAccumulation := negb (str_truthy (selectedDem s));
     toggleChannelFlood := negb hasIn;
     downloadChannelFloodBtn := negb (str_truthy (channelFloodCacheId s));
     loadRiverBtn := loadRiverBtn b |}.

(** [updateControlsState()] *)
Definition updateControlsState : js flood unit :=
  js_modify (λ s, upd_btn (controls_of (fst_ s)) s).

(** ** The weather *)

(** [classifyRainfall(mm)] *)
Definition classifyRainfall (mm : Q) : string :=
  if Qle_bool mm (1 # 100) then "No Rain"
  else if negb (Qle_bool (5 # 2) mm) then "Light Rain (" +:+ toFixed 1 mm +:+ " mm/hr)"
  else if negb (Qle_bool (38 # 5) mm) then "Moderate Rain (" +:+ toFixed 1 mm +:+ " mm/hr)"
  else if negb (Qle_bool 50 mm) then "Heavy Rain (" +:+ toFixed 1 mm +:+ " mm/hr)"
  else "Violent Rain (" +:+ toFixed 1 mm +:+ " mm/hr)".

(** [createRainEffect(intensity)]: the number of drops the loop creates. *)
Definition createRainEffect (intensity : Q) : js flood unit :=
  let visualIntensity := Qmin intensity 25 * 6 in
  js_modify (upd_pnl (set_raindrops (Z.to_nat (Qceiling visualIntensity)))).

(** [updateWeatherDisplay(rainfall)] *)
Definition updateWeatherDisplay (rainfall : Q) : js flood unit :=
  js_modify (upd_pnl (set_weatherStatus (classifyRainfall rainfall))).

(** [fetchLiveWeather()] up to its request. *)
Definition fetchLiveWeather_start : js flood unit :=
  js_modify (upd_pnl (set_weatherStatus "Updating...")).

(** [fetchLiveWeather()] from the answer on. *)
Definition fetchLiveWeather_resume (resp : outcome weather) : js flood unit :=
  js_try_catch
    (data ← match resp with Ok d => mret d | Throw e => js_throw e end;
     (if w_success data then mret tt
      else js_throw (if String.eqb (w_error data) "" then "Failed to fetch"
                     else w_error data));;
     js_modify (upd_fst (set_currentRainfall (current_precipitation_mmhr data)));;
     updateWeatherDisplay (current_precipitation_mmhr data);;
     createRainEffect (current_precipitation_mmhr data))
    (λ _, js_modify (upd_pnl (set_weatherStatus "Weather Unavailable"))).

(** [stopLiveWeatherUpdates()] *)
Definition stopLiveWeatherUpdates : js flood unit :=
  h ← js_gets (λ s, liveWeatherInterval (fst_ s));
  js_when (handle_truthy h)
    (js_modify (upd_br (λ b, Browser (raf b)
                               (List.filter (λ i, negb (bool_decide (Some i = h)))
                                  (intervals b))
                               (next_handle b) (shown_alerts b) (fits b))));;
  js_modify (upd_fst (set_liveWeatherInterval None));;
  js_modify (upd_pnl (set_liveWeatherDisplay false));;
  createRainEffect 0.

(** [startLiveWeatherUpdates()]; the weather request it sends answers
    later. *)
Definition startLiveWeatherUpdates : js flood unit :=
  stopLiveWeatherUpdates;;
  js_modify (upd_pnl (set_liveWeatherDisplay true));;
  fetchLiveWeather_start;;
  h ← js_gets (λ s, next_handle (br s));
  js_modify (upd_br (λ b, Browser (raf b) (intervals b ++ [h]) (S h) (shown_alerts b)
                             (fits b)));;
  js_modify (upd_fst (set_liveWeatherInterval (Some h))).

(** ** The points *)

(** [setActiveTool(tool)] *)
Definition setActiveTool (t : option tool) : js flood unit :=
  js_modify (upd_fst (λ s, set_activeTool
                             (if bool_decide (activeTool s = t) then None else t) s));;
  a ← js_gets (λ s, activeTool (fst_ s));
  js_modify (upd_pnl (λ p, Panel (simulationControls p) (fl_loaderText p)
                             (fl_loadingOverlay p) (weatherStatus p)
                             (liveWeatherDisplay p) (raindrops p)
                             (bool_decide (a = Some Inflow))
                             (bool_decide (a = Some Outflow))
                             (if a is Some _ then "crosshair" else ""))).

(** The features [updatePointsLayer] draws; the rate of a feature is kept
    as its text with two decimals. *)
Definition point_features (ps : list flow_point) : list feature :=
  (λ p, {| geometry := Some "Point";
           properties := Some [("rate", JStr (toFixed 2 (pt_rate p)))] |}) <$> ps.

Definition points_layer : layer :=
  {| lyr_id := POINTS_LAYER_ID; lyr_type := LtCircle; lyr_source := Some POINTS_SOURCE_ID;
     lyr_minzoom := None; lyr_maxzoom := None; lyr_layout := [];
     lyr_paint := [ ("circle-radius", PNum 8); ("circle-stroke-width", PNum 2);
                    ("circle-stroke-color", PStr "#ffffff");
                    ("circle-color", PCase "rate" 0 "#2ECC71" "#E74C3C") ];
     lyr_filter := FilterNone |}.

(** [updatePointsLayer()] *)
Definition updatePointsLayer : js flood unit :=
  m ← js_gets fmap;
  ps ← js_gets (λ s, points (fst_ s));
  if hasSource m POINTS_SOURCE_ID then
    fm_do (setData POINTS_SOURCE_ID (point_features ps))
  else
    fm_try (addSource POINTS_SOURCE_ID (SrcGeojson (point_features ps)))
      "Error: Source already exists";;
    fm_do (addLayer points_layer None).

(** The answer to the prompt of [onMapClick]: cancelled, not a number, or
    a number. *)
Inductive prompt_answer : Type :=
| Cancelled
| NotANumber
| Rate (q : Q).

(** [onMapClick(e)], for a click at [lon], [lat] and the answer [ans] to
    the prompt. *)
Definition onMapClick (lon lat : Q) (ans : prompt_answer) : js flood unit :=
  t ← js_gets (λ s, activeTool (fst_ s));
  match t with
  | None => mret tt
  | Some rateType =>
    match ans with
    | Cancelled => setActiveTool None
    | NotANumber => fl_alert "Invalid rate. Please enter a positive number."
    | Rate q =>
      if negb (Qle_bool 0 q) then
        fl_alert "Invalid rate. Please enter a positive number."
      else
        let rate := if bool_decide (rateType = Outflow) then - q else q in
        js_modify (upd_fst (λ s, set_points (points s ++ [FlowPoint lon lat rate]) s));;
        updatePointsLayer;;
        updateControlsState;;
        setActiveTool None
    end
  end.

(** ** The elevation model *)

Definition cleanup_layers : list string :=
  [ RIVER_LAYER_ID; POINTS_LAYER_ID; WATER_ANIMATION_LAYER_ID; GENERAL_FLOOD_LAYER_ID;
    FLOW_TRACE_LAYER_ID; FLOW_ACCUMULATION_LAYER_ID; CHANNEL_FLOOD_LAYER_ID;
    PRECALC_FLOOD_LAYER_ID; GIS_FLOOD_RESULT_LAYER_ID ].

Definition cleanup_sources : list string :=
  [ RIVER_SOURCE_ID; POINTS_SOURCE_ID; WATER_ANIMATION_SOURCE_ID; GENERAL_FLOOD_SOURCE_ID;
    FLOW_TRACE_SOURCE_ID; FLOW_ACCUMULATION_SOURCE_ID; CHANNEL_FLOOD_SOURCE_ID;
    PRECALC_FLOOD_SOURCE_ID; GIS_FLOOD_RESULT_SOURCE_ID ].

(** [if (map.getLayer(id)) map.removeLayer(id)] *)
Definition remove_layer_if (id : string) : js flood unit :=
  m ← js_gets fmap;
  js_when (hasLayer m id) (fm_do (removeLayer id)).

(** [if (map.getSource(id)) map.removeSource(id)] *)
Definition remove_source_if (id : string) : js flood unit :=
  m ← js_gets fmap;
  js_when (hasSource m id)
    (fm_try (removeSource id) "Error: There is no source with this ID").

(** [cleanupMapLayers(fullCleanup = true)] *)
Definition cleanupMapLayers (fullCleanup : bool) : js flood unit :=
  stopAnimation;;
  js_for_each remove_layer_if cleanup_layers;;
  js_for_each remove_source_if cleanup_sources;;
  js_modify (upd_fst (λ s, set_channelFloodCacheId None (set_points [] s)));;
  js_when fullCleanup
    (remove_layer_if "hillshade";;
     remove_source_if TERRAIN_SOURCE_ID;;
     m ← js_gets fmap;
     js_when (bool_decide (is_Some (getTerrain m)))
       (fm_try (setTerrain None) "Error: terrain"));;
  js_modify (upd_chk (λ _, Checks false false false false));;
  updateControlsState.

(** [clearAllPoints()] *)
Definition clearAllPoints : js flood unit :=
  cleanupMapLayers false;;
  updateControlsState.

Definition terrain_hillshade : layer :=
  {| lyr_id := "hillshade"; lyr_type := LtHillshade; lyr_source := Some TERRAIN_SOURCE_ID;
     lyr_minzoom := None; lyr_maxzoom := None; lyr_layout := [];
     lyr_paint := [("hillshade-exaggeration", PNum (3 # 10))];
     lyr_filter := FilterNone |}.

(** The answer of [/api/layer_bounds_polygon]: the [error] of the body, if
    it has one. *)
Definition bounds_response : Type := outcome (option string).

(** The [try] statement at the end of [handleDemSelection], from the answer
    on. *)
Definition dem_bounds (dem : string) (resp : bounds_response) : js flood unit :=
  js_finally
    (js_try_catch
       (err ← match resp with Ok b => mret b | Throw e => js_throw e end;
        (if str_truthy err then js_throw (default "" err) else mret tt);;
        js_modify (upd_br (λ b, Browser (raf b) (intervals b) (next_handle b)
                                   (shown_alerts b) (fits b ++ [dem])));;
        startLiveWeatherUpdates)
       (λ _, mret tt))
    fl_hideLoader.

(** [handleDemSelection()], for the value of the chosen option. *)
Definition handleDemSelection (value : string) (resp : bounds_response) : js flood unit :=
  stopAnimation;;
  stopLiveWeatherUpdates;;
  if String.eqb value "" then
    js_modify (upd_pnl (set_simulationControls false));;
    cleanupMapLayers true
  else
    fl_showLoader "Configuring 3D Environment...";;
    js_modify (upd_fst (set_selectedDem (Some value)));;
    cleanupMapLayers true;;
    fm_try (addSource TERRAIN_SOURCE_ID
              (SrcRasterDem ("/api/dem_tile/" +:+ value +:+ "/{z}/{x}/{y}.png") 256 15
                 "mapbox"))
      "Error: Source already exists";;
    fm_try (setTerrain (Some (TERRAIN_SOURCE_ID, 3 # 2))) "Error: terrain source not found";;
    fsid ← js_gets fl_firstSymbolId;
    fm_do (addLayer terrain_hillshade fsid);;
    js_modify (upd_btn (set_loadRiverBtn false));;
    js_modify (upd_pnl (set_simulationControls true));;
    updateControlsState;;
    dem_bounds value resp.

(** ** The river network and the simulations *)

Definition river_layer : layer :=
  {| lyr_id := RIVER_LAYER_ID; lyr_type := LtLine; lyr_source := Some RIVER_SOURCE_ID;
     lyr_minzoom := None; lyr_maxzoom := None; lyr_layout := [];
     lyr_paint := [ ("line-color", PStr "#aed6f1"); ("line-width", PNum (3 # 2));
                    ("line-opacity", PNum (7 # 10)) ];
     lyr_filter := FilterNone |}.

(** The answer of [/api/stream_layer]: the features of the rivers, or the
    error of a refused request. *)
Definition river_response : Type := outcome (string + list feature).

(** [loadRiverNetwork()] *)
Definition loadRiverNetwork (resp : river_response) : js flood unit :=
  fl_showLoader "Loading River Network...";;
  js_modify (upd_btn (set_loadRiverBtn true));;
  remove_layer_if RIVER_LAYER_ID;;
  remove_source_if RIVER_SOURCE_ID;;
  js_finally
    (js_try_catch
       (body ← match resp with Ok b => mret b | Throw e => js_throw e end;
        riverGeoJSON ← match body with inl e => js_throw e | inr fs => mret fs end;
        fm_try (addSource RIVER_SOURCE_ID (SrcGeojson riverGeoJSON))
          "Error: Source already exists";;
        fsid ← js_gets fl_firstSymbolId;
        fm_do (addLayer river_layer fsid))
       (λ e, fl_alert ("Error loading river network: " +:+ e);;
             js_modify (upd_btn (set_loadRiverBtn false))))
    fl_hideLoader.

(** [handleGisFloodSimulation()] *)
Definition handleGisFloodSimulation (resp : api_response) : js flood unit :=
  hideLayer GIS_FLOOD_RESULT_LAYER_ID GIS_FLOOD_RESULT_SOURCE_ID;;
  fl_showLoader "Running 2D Flood Simulation...";;
  js_finally
    (js_try_catch
       (result ← read_result resp;
        addOrUpdate3DLayer GIS_FLOOD_RESULT_LAYER_ID GIS_FLOOD_RESULT_SOURCE_ID
          (cache_filename result) "#0b4da1";;
        fl_alert "2D Flood Simulation complete. Result layer added to the map.")
       (λ e, fl_alert ("2D Flood Simulation Failed: " +:+ e)))
    fl_hideLoader.

(** [handleProjectFlood()] *)
Definition handleProjectFlood (resp : api_response) : js flood unit :=
  hideLayer GENERAL_FLOOD_LAYER_ID GENERAL_FLOOD_SOURCE_ID;;
  fl_showLoader "Calculating General Flood...";;
  js_finally
    (js_try_catch
       (result ← read_result resp;
        addOrUpdate2DLayer GENERAL_FLOOD_LAYER_ID GENERAL_FLOOD_SOURCE_ID
          (cache_filename result) (res_stats result) "Blues")
       (λ e, fl_alert ("Error during General Flood simulation: " +:+ e)))
    fl_hideLoader.

(** [if (map.getLayer(id)) map.setLayoutProperty(id, 'visibility', v)] *)
Definition set_visibility_if (id v : string) : js flood unit :=
  m ← js_gets fmap;
  js_when (hasLayer m id) (fm_do (setLayoutProperty id "visibility" (PStr v))).

(** [handleToggleFlowTrace(event)], for the checkbox just set to [show]. *)
Definition handleToggleFlowTrace (show : bool) (resp : api_response) : js flood unit :=
  js_modify (upd_chk (λ c, Checks show (flowAccumulation_checked c)
                             (channelFlood_checked c) (floodZones_checked c)));;
  m ← js_gets fmap;
  if negb show then set_visibility_if FLOW_TRACE_LAYER_ID "none"
  else if hasLayer m FLOW_TRACE_LAYER_ID then
    fm_do (setLayoutProperty FLOW_TRACE_LAYER_ID "visibility" (PStr "visible"))
  else
    fl_showLoader "Tracing Flow Path...";;
    js_finally
      (js_try_catch
         (result ← read_result resp;
          addOrUpdate2DLayer FLOW_TRACE_LAYER_ID FLOW_TRACE_SOURCE_ID
            (cache_filename result) (res_stats result) "plasma")
         (λ e, fl_alert ("Error during flow trace: " +:+ e);;
               js_modify (upd_chk (λ c, Checks false (flowAccumulation_checked c)
                                          (channelFlood_checked c)
                                          (floodZones_checked c)))))
      fl_hideLoader.

(** [handleToggleFlowAccumulation(event)] *)
Definition handleToggleFlowAccumulation (show : bool) (resp : api_response) :
    js flood unit :=
  js_modify (upd_chk (λ c, Checks (flowTrace_checked c) show (channelFlood_checked c)
                             (floodZones_checked c)));;
  m ← js_gets fmap;
  if negb show then set_visibility_if FLOW_ACCUMULATION_LAYER_ID "none"
  else if hasLayer m FLOW_ACCUMULATION_LAYER_ID then
    fm_do (setLayoutProperty FLOW_ACCUMULATION_LAYER_ID "visibility" (PStr "visible"))
  else
    fl_showLoader "Calculating Flow Accumulation...";;
    js_finally
      (js_try_catch
         (result ← read_result resp;
          addOrUpdate2DLayer FLOW_ACCUMULATION_LAYER_ID FLOW_ACCUMULATION_SOURCE_ID
            (cache_filename result) (res_stats result) "viridis")
         (λ e, fl_alert ("Error during Flow Accumulation: " +:+ e);;
               js_modify (upd_chk (λ c, Checks (flowTrace_checked c) false
                                          (channelFlood_checked c)
                                          (floodZones_checked c)))))
      fl_hideLoader.

(** [handleToggleChannelFlood(event)] *)
Definition handleToggleChannelFlood (show : bool) (resp : api_response) : js flood unit :=
  js_modify (upd_chk (λ c, Checks (flowTrace_checked c) (flowAccumulation_checked c) show
                             (floodZones_checked c)));;
  m ← js_gets fmap;
  if negb show then
    set_visibility_if CHANNEL_FLOOD_LAYER_ID "none";;
    js_modify (upd_btn (set_downloadBtn true))
  else if hasLayer m CHANNEL_FLOOD_LAYER_ID then
    fm_do (setLayoutProperty CHANNEL_FLOOD_LAYER_ID "visibility" (PStr "visible"));;
    js_modify (upd_btn (set_downloadBtn false))
  else
    fl_showLoader "Simulating Channelized Flood...";;
    js_finally
      (js_try_catch
         (result ← read_result resp;
          js_modify (upd_fst (set_channelFloodCacheId (Some (cache_filename result))));;
          updateControlsState;;
          addOrUpdate3DLayer CHANNEL_FLOOD_LAYER_ID CHANNEL_FLOOD_SOURCE_ID
            (cache_filename result) "#08306b")
         (λ e, fl_alert ("Error during Channelized Flood simulation: " +:+ e);;
               js_modify (upd_chk (λ c, Checks (flowTrace_checked c)
                                          (flowAccumulation_checked c) false
                                          (floodZones_checked c)));;
               js_modify (upd_fst (set_channelFloodCacheId None));;
               updateControlsState))
      fl_hideLoader.

(** ** The animation button *)

(** The [try] block of [handleAnimateFlood], from the answers on; [now] is
    the time at which it runs. *)
Definition animate_try (now : Q) (wresp : outcome weather) (resp : api_response) :
    js flood unit :=
  fetchLiveWeather_start;;
  fetchLiveWeather_resume wresp;;
  result ← read_result resp;
  fl_hideLoader;;
  addAnimatedWaterSurface (end_raster_id result) (res_stats result);;
  js_modify (upd_adom (λ d, AnimDom true true true (playPause_pause d) (progressBar d)
                              (speedValue d)));;
  togglePlayPause now.

(** [handleAnimateFlood()] *)
Definition handleAnimateFlood (now : Q) (wresp : outcome weather) (resp : api_response) :
    js flood unit :=
  id ← js_gets (λ s, animationFrameId (anim s));
  if handle_truthy id then stopAnimation
  else
    fl_showLoader "Calculating Flood Projection...";;
    js_try_catch (animate_try now wresp resp)
      (λ e, fl_hideLoader;;
            stopAnimation;;
            fl_alert ("Error setting up projection: " +:+ e)).

(** ** The page as a state machine *)

(** What the user, the server and the browser can do to the page: the
    events of the animation, and the handlers above with the answers they
    receive. *)
Inductive page_event : Type :=
| PgAnim (e : anim_event)
| PgDem (value : string) (resp : bounds_response)
| PgTool (t : option tool)
| PgClick (lon lat : Q) (ans : prompt_answer)
| PgClear
| PgRiver (resp : river_response)
| PgGis (resp : api_response)
| PgProject (resp : api_response)
| PgTrace (show : bool) (resp : api_response)
| PgAccumulation (show : bool) (resp : api_response)
| PgChannel (show : bool) (resp : api_response)
| PgAnimate (now : Q) (wresp : outcome weather) (resp : api_response)
| PgWeather (wresp : outcome weather).

Definition page_fire (e : page_event) : js flood unit :=
  match e with
  | PgAnim e => fire e
  | PgDem value resp => handleDemSelection value resp
  | PgTool t => setActiveTool t
  | PgClick lon lat ans => onMapClick lon lat ans
  | PgClear => clearAllPoints
  | PgRiver resp => loadRiverNetwork resp
  | PgGis resp => handleGisFloodSimulation resp
  | PgProject resp => handleProjectFlood resp
  | PgTrace show resp => handleToggleFlowTrace show resp
  | PgAccumulation show resp => handleToggleFlowAccumulation show resp
  | PgChannel show resp => handleToggleChannelFlood show resp
  | PgAnimate now wresp resp => handleAnimateFlood now wresp resp
  | PgWeather wresp => fetchLiveWeather_start;; fetchLiveWeather_resume wresp
  end.

(** A step of the page: an event of the animation under the guards of
    [anim_step], or any other event. *)
Inductive page_step : flood → flood → Prop :=
| page_anim s s' : anim_step s s' → page_step s s'
| page_handler s e :
    (∀ a, e ≠ PgAnim a) → page_step s (js_exec (page_fire e) s).

(** At most one weather timer runs, and it is the one of the record. *)
Definition timers_ok (s : flood) : Prop :=
  (0 < next_handle (br s))%nat ∧
  match liveWeatherInterval (fst_ s) with
  | Some h => (0 < h)%nat ∧ intervals (br s) = [h]
  | None => intervals (br s) = []
  end.

(** The flags [updateControlsState] derives from the points and the
    elevation model. *)
Definition point_controls (b : buttons) : bool * bool * bool * bool * bool * bool :=
  (gisFloodSimulationBtn b, animateSimulationBtn b, projectSimulationBtn b,
   toggleFlowTrace b, toggleFlowAccumulation b, toggleChannelFlood b).

(** The buttons and checkboxes of the simulations are enabled as the points
    and the elevation model of the record say. *)
Definition controls_ok (s : flood) : Prop :=
  point_controls (btn s) = point_controls (controls_of (fst_ s) (btn s)).

(** The invariant of the page. *)
Definition page_ok (s : flood) : Prop := anim_ok s ∧ timers_ok s ∧ controls_ok s.

(** ** The states the handlers leave *)

(** [stopLiveWeatherUpdates()] *)
Definition weather_stopped (s : flood) : flood :=
  upd_pnl (λ p, set_raindrops 0 (set_liveWeatherDisplay false p))
    (upd_fst (set_liveWeatherInterval None)
       (upd_br (λ b, Browser (raf b)
                       (if handle_truthy (liveWeatherInterval (fst_ s))
                        then List.filter
                               (λ i, negb (bool_decide
                                             (Some i = liveWeatherInterval (fst_ s))))
                               (intervals b)
                        else intervals b)
                       (next_handle b) (shown_alerts b) (fits b)) s)).

(** [startLiveWeatherUpdates()] *)
Definition weather_started (s : flood) : flood :=
  let s1 := upd_pnl (λ p, set_weatherStatus "Updating..." (set_liveWeatherDisplay true p))
              (weather_stopped s) in
  upd_fst (set_liveWeatherInterval (Some (next_handle (br s))))
    (upd_br (λ b, Browser (raf b) (intervals b ++ [next_handle b]) (S (next_handle b))
                    (shown_alerts b) (fits b)) s1).

(** The map after [addOrUpdate3DLayer] on a map without the layer and
    its source. *)
Definition surface_added (layerId sourceId rasterId accentColor : string)
    (m : style) : style :=
  addLayer (surface_layer layerId sourceId accentColor) (Some RIVER_LAYER_ID)
    (set_sources
       (λ ss, obj_set ss sourceId
                (SrcRasterDem ("/api/dem_tile/" +:+ rasterId +:+ "/{z}/{x}/{y}.png") 256 15
                   "mapbox")) m).

(** * Theorems *)

(** ** Lemmas: the steps that keep the invariants *)

(** A step that leaves the animation and the requested frames alone. *)
Lemma anim_frame f :
  (∀ s, anim (f s) = anim s ∧ raf (br (f s)) = raf (br s) ∧
        ((0 < next_handle (br s))%nat → (0 < next_handle (br (f s)))%nat)) →
  js_preserves anim_ok (js_modify f).
Proof.
  intros Hf s (H0 & H1 & Hs & Hd & Hn & Hsch). destruct (Hf s) as (Ha & Hr & Hh).
  unfold anim_ok, scheduled_ok in *. simpl. rewrite Ha, Hr. split_and!; try done. auto.
Qed.

Lemma anim_fm_try f e : js_preserves anim_ok (fm_try f e).
Proof.
  intros s Hs. unfold fm_try. destruct (f (fmap s)); [|done].
  by apply (anim_ok_ext s).
Qed.

Lemma stopAnimation_keeps : js_preserves anim_ok stopAnimation.
Proof. intros s Hs. by apply stopAnimation_ok. Qed.

Lemma togglePlayPause_keeps now : js_preserves anim_ok (togglePlayPause now).
Proof. intros s Hs. by apply togglePlayPause_ok. Qed.

(** A step that leaves the timers alone. *)
Lemma timers_frame f :
  (∀ s, liveWeatherInterval (fst_ (f s)) = liveWeatherInterval (fst_ s) ∧
        intervals (br (f s)) = intervals (br s) ∧
        ((0 < next_handle (br s))%nat → (0 < next_handle (br (f s)))%nat)) →
  js_preserves timers_ok (js_modify f).
Proof.
  intros Hf s [Hn Ht]. destruct (Hf s) as (Hl & Hi & Hh).
  unfold timers_ok. simpl. rewrite Hl, Hi. split; [auto | done].
Qed.

Lemma timers_fm_try f e : js_preserves timers_ok (fm_try f e).
Proof. intros s Hs. unfold fm_try. by destruct (f (fmap s)). Qed.

(** ** Lemmas: the weather timer *)

Lemma stopLiveWeatherUpdates_run s : stopLiveWeatherUpdates s = (Ok tt, weather_stopped s).
Proof.
  destruct s as [m fsid [d t ps r h c] a [rf iv nh al ft] ad bt ck pn].
  unfold stopLiveWeatherUpdates, createRainEffect, weather_stopped. js_simpl.
  by destruct h as [[|h]|].
Qed.

Lemma startLiveWeatherUpdates_run s :
  startLiveWeatherUpdates s = (Ok tt, weather_started s).
Proof.
  unfold startLiveWeatherUpdates.
  rewrite (js_bind_ok _ _ _ _ _ (stopLiveWeatherUpdates_run s)).
  by destruct s as [m fsid [d t ps r h c] a [rf iv nh al ft] ad bt ck pn].
Qed.

Lemma weather_stopped_ok s :
  timers_ok s →
  timers_ok (weather_stopped s) ∧ liveWeatherInterval (fst_ (weather_stopped s)) = None.
Proof.
  destruct s as [m fsid [d t ps r h c] a [rf iv nh al ft] ad bt ck pn].
  unfold timers_ok, weather_stopped. simpl. intros (Hn & Ht).
  split_and!; try done. destruct h as [[|h]|]; simpl; [lia| |done].
  destruct Ht as [_ ->]. simpl. by rewrite bool_decide_eq_true_2.
Qed.

Lemma stopLiveWeatherUpdates_timers : js_preserves timers_ok stopLiveWeatherUpdates.
Proof.
  intros s Hs. rewrite stopLiveWeatherUpdates_run. by apply weather_stopped_ok.
Qed.

Lemma startLiveWeatherUpdates_timers : js_preserves timers_ok startLiveWeatherUpdates.
Proof.
  intros s Hs. rewrite startLiveWeatherUpdates_run.
  destruct (weather_stopped_ok s Hs) as [(Hn & Ht) Hnone]. rewrite Hnone in Ht.
  destruct Hs as (Hn0 & _).
  unfold timers_ok, weather_started. simpl in *. rewrite Ht. split_and!; try done; lia.
Qed.

(** ** Lemmas: handlers that return *)

Lemma remove_layer_if_run id s :
  remove_layer_if id s = (Ok tt, upd_fmap (removeLayer id) s).
Proof.
  unfold remove_layer_if, fm_do. js_simpl. destruct (hasLayer (fmap s) id) eqn:Hh; [done|].
  simpl. rewrite fl_upd_fmap_id; [done|]. by apply removeLayer_absent, hasLayer_getLayer.
Qed.

Lemma remove_source_if_run id s :
  remove_source_if id s = (Ok tt, upd_fmap (dropSource id) s).
Proof.
  unfold remove_source_if, fm_try. js_simpl.
  destruct (hasSource (fmap s) id) eqn:Hh; simpl.
  - by rewrite (removeSource_present _ _ Hh).
  - rewrite fl_upd_fmap_id; [done | by apply dropSource_absent].
Qed.

Lemma updatePointsLayer_total : js_total updatePointsLayer.
Proof.
  intros s. unfold updatePointsLayer, fm_try, fm_do, addSource. js_simpl.
  destruct (hasSource (fmap s) POINTS_SOURCE_ID) eqn:E; simpl; [done|]. by rewrite E.
Qed.

Lemma stopAnimation_total : js_total stopAnimation.
Proof. intros s. by rewrite stopAnimation_run. Qed.

Lemma remove_layer_if_total id : js_total (remove_layer_if id).
Proof. intros s. by rewrite remove_layer_if_run. Qed.

Lemma remove_source_if_total id : js_total (remove_source_if id).
Proof. intros s. by rewrite remove_source_if_run. Qed.

Lemma clear_terrain_total e : js_total (fm_try (setTerrain None) e).
Proof. by intros s. Qed.

Create HintDb flood_total.

#[local] Hint Resolve js_total_ret js_total_gets js_total_modify js_total_bind
  js_total_when js_total_for_each stopAnimation_total remove_layer_if_total
  remove_source_if_total clear_terrain_total updatePointsLayer_total : flood_total.

(** ** Lemmas: the controls *)

(** The flags depend on the points and the elevation model only. *)
Lemma point_controls_of st b st' b' :
  points st = points st' → selectedDem st = selectedDem st' →
  point_controls (controls_of st b) = point_controls (controls_of st' b').
Proof. unfold point_controls, controls_of. simpl. by intros -> ->. Qed.

(** A step that leaves the points, the elevation model and the flags
    alone. *)
Lemma controls_frame f :
  (∀ s, points (fst_ (f s)) = points (fst_ s) ∧
        selectedDem (fst_ (f s)) = selectedDem (fst_ s) ∧
        point_controls (btn (f s)) = point_controls (btn s)) →
  js_preserves controls_ok (js_modify f).
Proof.
  intros Hf s Hs. destruct (Hf s) as (Hp & Hd & Hb). unfold controls_ok in *. simpl.
  rewrite Hb, Hs. by apply point_controls_of.
Qed.

Lemma controls_fm_try f e : js_preserves controls_ok (fm_try f e).
Proof. intros s Hs. unfold fm_try. by destruct (f (fmap s)). Qed.

(** [c] leaves the controls right, whatever they were before. *)
Definition controls_set {A} (c : js flood A) : Prop := ∀ s, controls_ok (c s).2.

Lemma updateControlsState_sets : controls_set updateControlsState.
Proof. by intros s. Qed.

Lemma controls_set_after {A B} (c : js flood A) (k : A → js flood B) :
  js_total c → (∀ a, controls_set (k a)) → controls_set (c ≫= k).
Proof.
  intros Hc Hk s. destruct (js_total_run c s Hc) as [a Hrun].
  rewrite (js_bind_ok _ _ _ _ _ Hrun). apply Hk.
Qed.

Lemma controls_set_then {A B} (c : js flood A) (k : A → js flood B) :
  controls_set c → (∀ a, js_preserves controls_ok (k a)) → controls_set (c ≫= k).
Proof.
  intros Hc Hk s. specialize (Hc s). unfold mbind, js_bind.
  destruct (c s) as [[a|e] s1]; [by apply Hk | done].
Qed.

Lemma controls_set_keeps {A} (c : js flood A) :
  controls_set c → js_preserves controls_ok c.
Proof. intros Hc s _. apply Hc. Qed.

Lemma cleanupMapLayers_sets b : controls_set (cleanupMapLayers b).
Proof.
  unfold cleanupMapLayers.
  repeat (apply controls_set_after; [eauto 10 with flood_total | intros ?]).
  apply updateControlsState_sets.
Qed.


(** One step of a proof that a handler keeps [anim_ok], [timers_ok] or
    [controls_ok]. *)
Ltac inv_step :=
  lazymatch goal with
  | |- js_preserves anim_ok stopAnimation => apply stopAnimation_keeps
  | |- js_preserves anim_ok (togglePlayPause _) => apply togglePlayPause_keeps
  | |- js_preserves timers_ok stopLiveWeatherUpdates => apply stopLiveWeatherUpdates_timers
  | |- js_preserves timers_ok startLiveWeatherUpdates =>
    apply startLiveWeatherUpdates_timers
  | |- js_preserves anim_ok stopLiveWeatherUpdates =>
    unfold stopLiveWeatherUpdates, createRainEffect
  | |- js_preserves anim_ok startLiveWeatherUpdates =>
    unfold startLiveWeatherUpdates, fetchLiveWeather_start
  | |- js_preserves timers_ok stopAnimation =>
    unfold stopAnimation, cancelAnimationFrame, hideLayer, fm_do
  | |- js_preserves timers_ok (togglePlayPause _) =>
    unfold togglePlayPause, requestAnimationFrame, cancelAnimationFrame
  | |- js_preserves controls_ok updateControlsState =>
    apply controls_set_keeps, updateControlsState_sets
  | |- js_preserves controls_ok (cleanupMapLayers _) =>
    apply controls_set_keeps, cleanupMapLayers_sets
  | |- js_preserves controls_ok stopLiveWeatherUpdates =>
    unfold stopLiveWeatherUpdates, createRainEffect
  | |- js_preserves controls_ok startLiveWeatherUpdates =>
    unfold startLiveWeatherUpdates, fetchLiveWeather_start
  | |- js_preserves controls_ok stopAnimation =>
    unfold stopAnimation, cancelAnimationFrame, hideLayer, fm_do
  | |- js_preserves controls_ok (togglePlayPause _) =>
    unfold togglePlayPause, requestAnimationFrame, cancelAnimationFrame
  | |- js_preserves _ (_ ≫= _) => apply js_preserves_bind; [|intros ?]
  | |- js_preserves _ (js_when _ _) => apply js_preserves_when
  | |- js_preserves _ (js_finally _ _) => apply js_preserves_finally
  | |- js_preserves _ (js_try_catch _ _) => apply js_preserves_try_catch; [|intros ?]
  | |- js_preserves _ (js_for_each _ _) => apply js_preserves_for_each; intros ? _
  | |- js_preserves _ (js_gets _) => apply js_preserves_gets
  | |- js_preserves _ (mret _) => apply js_preserves_ret
  | |- js_preserves _ (js_throw _) => apply js_preserves_throw
  | |- js_preserves anim_ok (fm_try _ _) => apply anim_fm_try
  | |- js_preserves timers_ok (fm_try _ _) => apply timers_fm_try
  | |- js_preserves controls_ok (fm_try _ _) => apply controls_fm_try
  | |- js_preserves controls_ok (js_modify _) =>
    apply controls_frame; intros ?; simpl; by split_and!
  | |- js_preserves anim_ok (js_modify _) => apply anim_frame; intros ?; simpl; split_and!; (done || lia)
  | |- js_preserves timers_ok (js_modify _) => apply timers_frame; intros ?; simpl; split_and!; (done || lia)
  | |- js_preserves _ (if ?b then _ else _) => destruct b
  | |- js_preserves _ (match ?x with _ => _ end) => destruct x
  | |- js_preserves _ (let _ := _ in _) => cbv zeta
  end.

(** The helpers the handlers are made of. *)
Ltac unfold_page :=
  unfold page_fire, handleDemSelection, dem_bounds, clearAllPoints, cleanupMapLayers,
    onMapClick, setActiveTool, updatePointsLayer, loadRiverNetwork,
    handleGisFloodSimulation, handleProjectFlood, handleToggleFlowTrace,
    handleToggleFlowAccumulation, handleToggleChannelFlood, handleAnimateFlood,
    animate_try, fetchLiveWeather_start, fetchLiveWeather_resume, updateWeatherDisplay,
    createRainEffect, read_result, set_visibility_if, remove_layer_if, remove_source_if,
    addOrUpdate3DLayer, addOrUpdate2DLayer, addAnimatedWaterSurface, depth_tiles,
    hideLayer, fl_alert, fl_showLoader, fl_hideLoader, fm_do, updateControlsState.

(** The same for the controls, which [cleanupMapLayers] and
    [updateControlsState] set. *)
Ltac unfold_controls :=
  unfold page_fire, dem_bounds, clearAllPoints, setActiveTool, updatePointsLayer,
    loadRiverNetwork, handleGisFloodSimulation, handleProjectFlood, handleToggleFlowTrace,
    handleToggleFlowAccumulation, handleToggleChannelFlood, handleAnimateFlood,
    animate_try, fetchLiveWeather_start, fetchLiveWeather_resume, updateWeatherDisplay,
    createRainEffect, read_result, set_visibility_if, remove_layer_if, remove_source_if,
    addOrUpdate3DLayer, addOrUpdate2DLayer, addAnimatedWaterSurface, depth_tiles,
    hideLayer, fl_alert, fl_showLoader, fl_hideLoader, fm_do.

Lemma page_fire_anim e : (∀ a, e ≠ PgAnim a) → js_preserves anim_ok (page_fire e).
Proof. intros He. destruct e; [by destruct (He e)|..]; unfold_page; repeat inv_step. Qed.

Lemma fire_timers e : js_preserves timers_ok (fire e).
Proof.
  destruct e; unfold fire, run_frame, animateFrame, seekAnimation, changeSpeed,
    updateAnimationVisuals, requestAnimationFrame, fm_do; repeat inv_step.
Qed.

Lemma page_fire_timers e : js_preserves timers_ok (page_fire e).
Proof. destruct e; [apply fire_timers|..]; unfold_page; repeat inv_step. Qed.

Lemma fire_controls e : js_preserves controls_ok (fire e).
Proof.
  destruct e; unfold fire, run_frame, animateFrame, seekAnimation, changeSpeed,
    updateAnimationVisuals, requestAnimationFrame, fm_do; repeat inv_step.
Qed.

Lemma onMapClick_controls lon lat ans : js_preserves controls_ok (onMapClick lon lat ans).
Proof.
  unfold onMapClick. inv_step; [inv_step|]. destruct a as [rateType|]; [|inv_step].
  destruct ans as [| |q]; [unfold_controls; repeat inv_step..|].
  destruct (negb (Qle_bool 0 q)); [unfold_controls; by repeat inv_step|].
  apply controls_set_keeps.
  do 2 (apply controls_set_after; [auto with flood_total | intros ?]).
  apply controls_set_then; [apply updateControlsState_sets | intros ?].
  unfold_controls. repeat inv_step.
Qed.

Lemma handleDemSelection_controls value resp :
  js_preserves controls_ok (handleDemSelection value resp).
Proof.
  unfold handleDemSelection. do 2 (inv_step; [by repeat inv_step|]).
  destruct (String.eqb value ""); [by repeat inv_step|].
  apply controls_set_keeps. unfold fl_showLoader.
  do 2 (apply controls_set_after; [auto with flood_total | intros ?]).
  apply controls_set_then; [apply cleanupMapLayers_sets | intros ?].
  unfold_controls. repeat inv_step.
Qed.

Lemma page_fire_controls e : js_preserves controls_ok (page_fire e).
Proof.
  destruct e;
    [ apply fire_controls | apply handleDemSelection_controls | ..
    | unfold_controls; repeat inv_step ]; try (unfold_controls; by repeat inv_step).
  apply onMapClick_controls.
Qed.

(** ** Lemmas: the layer of a result *)

Lemma hideLayer_absent layerId sourceId s :
  hasLayer (fmap s) layerId = false → hasSource (fmap s) sourceId = false →
  hideLayer layerId sourceId s = (Ok tt, s).
Proof.
  intros Hl Hs. rewrite hideLayer_run, fl_upd_fmap_id; [done|].
  rewrite removeLayer_absent by (by apply hasLayer_getLayer). by apply dropSource_absent.
Qed.

Lemma addOrUpdate3DLayer_fresh layerId sourceId rasterId accentColor s :
  hasLayer (fmap s) layerId = false → hasSource (fmap s) sourceId = false →
  addOrUpdate3DLayer layerId sourceId rasterId accentColor s =
    (Ok tt, upd_fmap (surface_added layerId sourceId rasterId accentColor) s).
Proof.
  intros Hl Hs. unfold addOrUpdate3DLayer.
  rewrite (js_bind_ok _ _ _ _ _ (hideLayer_absent _ _ _ Hl Hs)).
  unfold fm_try, fm_do, addSource. js_simpl. rewrite Hs. by destruct s.
Qed.

(** The source is on the map; the layer is, if the river layer was. *)
Lemma surface_added_spec layerId sourceId rasterId accentColor m :
  hasLayer m layerId = false →
  hasSource (surface_added layerId sourceId rasterId accentColor m) sourceId = true ∧
  hasLayer (surface_added layerId sourceId rasterId accentColor m) layerId =
    hasLayer m RIVER_LAYER_ID.
Proof.
  intros Hl. unfold surface_added. rewrite hasSource_addLayer, hasLayer_addLayer.
  set (m' := set_sources _ m).
  assert (hasSource m' sourceId = true) as Hs.
  { apply hasSource_true. unfold m'. rewrite getSource_set_sources_set.
    rewrite decide_True by done. by eexists. }
  split; [done|]. unfold addLayer_ok. cbn [lyr_id lyr_source surface_layer].
  rewrite Hs. change (hasLayer m' ?x) with (hasLayer m x). rewrite Hl.
  by rewrite bool_decide_eq_true_2, andb_true_r by done.
Qed.

(** ** Theorems: the simulations *)

(** C31: the layer of a flood result needs the river network.  A result is
    drawn below the river layer ([RIVER_LAYER_ID || firstSymbolId] is always
    the river layer).  When the server answers a 2D simulation, the source
    of the result is added and the page announces the layer; the layer
    itself is on the map exactly when the river layer was: without the
    river network the map refuses it and only the source remains. *)
Theorem simulation_needs_river result s :
  res_ok result = true →
  hasLayer (fmap s) GIS_FLOOD_RESULT_LAYER_ID = false →
  hasSource (fmap s) GIS_FLOOD_RESULT_SOURCE_ID = false →
  let s' := js_exec (handleGisFloodSimulation (Ok result)) s in
  hasSource (fmap s') GIS_FLOOD_RESULT_SOURCE_ID = true ∧
  hasLayer (fmap s') GIS_FLOOD_RESULT_LAYER_ID = hasLayer (fmap s) RIVER_LAYER_ID ∧
  last (shown_alerts (br s')) =
    Some "2D Flood Simulation complete. Result layer added to the map." ∧
  fl_loadingOverlay (pnl s') = false.
Proof.
  intros Hok Hl Hs. cbn zeta. unfold js_exec, handleGisFloodSimulation.
  rewrite (js_bind_ok _ _ _ _ _ (hideLayer_absent _ _ _ Hl Hs)).
  erewrite js_bind_ok; [|reflexivity].
  unfold js_finally, js_try_catch, read_result. js_simpl. rewrite Hok. simpl.
  rewrite addOrUpdate3DLayer_fresh by done. simpl.
  destruct (surface_added_spec GIS_FLOOD_RESULT_LAYER_ID GIS_FLOOD_RESULT_SOURCE_ID
              (cache_filename result) "#0b4da1" (fmap s) Hl) as [H1 H2].
  split_and!; [done | done | by rewrite last_snoc | done].
Qed.

(** ** Theorems: the points *)

(** C32: a click with a tool on adds a point of the tool's sign.  For a
    rate that is not negative the click appends the point, with the rate
    negated for an outflow, draws the points, turns the tool off and leaves
    the controls as the points say. *)
Theorem onMapClick_adds_point lon lat q rateType s :
  activeTool (fst_ s) = Some rateType → 0 <= q →
  let s' := js_exec (onMapClick lon lat (Rate q)) s in
  points (fst_ s') =
    points (fst_ s) ++
      [FlowPoint lon lat (if bool_decide (rateType = Outflow) then - q else q)] ∧
  activeTool (fst_ s') = None ∧
  hasSource (fmap s') POINTS_SOURCE_ID = true ∧
  controls_ok s'.
Proof.
  intros Ht Hq%Qle_bool_iff. cbn zeta.
  destruct s as [m fsid [d t ps r h c] a b ad bt ck pn]. simpl in Ht. subst t.
  unfold js_exec, onMapClick, updatePointsLayer, fm_try, fm_do, addSource. js_simpl.
  rewrite Hq. simpl.
  destruct (hasSource m POINTS_SOURCE_ID) eqn:Hs; simpl; [|rewrite Hs; simpl];
    (split_and!; [done | done | | done]).
  - by rewrite hasSource_setData.
  - rewrite hasSource_addLayer. apply hasSource_true.
    rewrite getSource_set_sources_set, decide_True by done. by eexists.
Qed.

(** C33: a rate of zero passes the check for a positive number and makes a
    point that is neither an inflow nor an outflow.  The point is added and
    enables the animation and the projection, which only ask for a point,
    and leaves the inflow and outflow points as they were. *)
Theorem zero_rate_point_counts_nowhere lon lat rateType s :
  activeTool (fst_ s) = Some rateType →
  let s' := js_exec (onMapClick lon lat (Rate 0)) s in
  length (points (fst_ s')) = S (length (points (fst_ s))) ∧
  inflowPoints (points (fst_ s')) = inflowPoints (points (fst_ s)) ∧
  outflowPoints (points (fst_ s')) = outflowPoints (points (fst_ s)) ∧
  animateSimulationBtn (btn s') = false ∧ projectSimulationBtn (btn s') = false ∧
  shown_alerts (br s') = shown_alerts (br s).
Proof.
  intros Ht. cbn zeta.
  destruct s as [m fsid [d t ps r h c] a [rf iv nh al ft] ad bt ck pn]. simpl in Ht.
  subst t.
  unfold js_exec, onMapClick, updatePointsLayer, fm_try, fm_do, addSource. js_simpl.
  unfold inflowPoints, outflowPoints.
  destruct (hasSource m POINTS_SOURCE_ID) eqn:Hs; simpl; [|rewrite Hs; simpl];
    rewrite !List.filter_app, length_app; simpl;
    (destruct rateType; simpl; rewrite !app_nil_r; split_and!; try done; try lia;
     by destruct ps).
Qed.

(** ** Theorems: the weather *)

(** C34: the rain on the page is bounded: whatever intensity the weather
    service reports, [createRainEffect] shows at most 150 drops. *)
Theorem rain_effect_bounded intensity s :
  (raindrops (pnl (js_exec (createRainEffect intensity) s)) ≤ 150)%nat.
Proof.
  unfold js_exec, createRainEffect. simpl.
  assert (Qceiling (Qmin intensity 25 * 6) ≤ 150)%Z as H.
  { change 150%Z with (Qceiling 150). apply Qceiling_resp_le.
    pose proof (Q.le_min_r intensity 25). lra. }
  lia.
Qed.

(** C35: a failed weather request changes nothing but the status.  When
    the request throws or the service answers without [success], the
    handler returns, the status reads "Weather Unavailable", and the
    rainfall of the record and the rain shown stay those of the last
    answer. *)
Theorem weather_failure_keeps_rainfall wresp s :
  (∀ d, wresp = Ok d → w_success d = false) →
  fetchLiveWeather_resume wresp s =
    (Ok tt, upd_pnl (set_weatherStatus "Weather Unavailable") s).
Proof.
  intros Hf. unfold fetchLiveWeather_resume. js_simpl.
  destruct wresp as [d|e]; [|done]. simpl. by rewrite (Hf d eq_refl).
Qed.

(** ** Theorems: the page *)

Lemma anim_step_fire s s' : anim_step s s' → ∃ e, s' = js_exec (fire e) s.
Proof.
  destruct 1 as [s now|s ts _|s x w|s v _|s];
    [by exists (EvPlayPause now) | by exists (EvFrame ts) | by exists (EvSeek x w)
    | by exists (EvSpeed v) | by exists EvStop].
Qed.

Lemma initial_flood_page_ok m : page_ok (initial_flood m).
Proof.
  split_and!; [apply initial_flood_ok | by split; [cbn; lia|] | done].
Qed.

Lemma page_step_ok s s' : page_step s s' → page_ok s → page_ok s'.
Proof.
  intros Hstep (Ha & Ht & Hc). destruct Hstep as [s s' Hstep|s e He].
  - destruct (anim_step_fire _ _ Hstep) as [e ->].
    split_and!; [by eapply anim_step_ok | by apply fire_timers | by apply fire_controls].
  - split_and!;
      [by apply page_fire_anim | by apply page_fire_timers | by apply page_fire_controls].
Qed.

(** C36: the invariant of the flood page.  From the page as it loads, after
    any sequence of events of the animation and of the handlers of the
    page, whatever the server answers and whether a handler returns or
    throws: the animation is within its bounds with one requested frame
    while it plays, at most one weather timer runs and it is the one the
    record holds, and the buttons of the simulations are enabled exactly
    as the points and the elevation model of the record say. *)
Theorem flood_page_invariant m s :
  rtc page_step (initial_flood m) s → page_ok s.
Proof.
  intros Hsteps. assert (page_ok (initial_flood m)) as H0 by apply initial_flood_page_ok.
  revert H0. induction Hsteps; eauto using page_step_ok.
Qed.

(** ** A page to run the handlers on *)

(** The page as it loads on a map without layers, with the inflow tool
    turned on. *)
Definition tool_on : flood := js_exec (setActiveTool (Some Inflow)) (initial_flood bare_map).

(** An answer of the server with a result. *)
Definition wse_result : api_result :=
  {| res_ok := true; res_error := ""; cache_filename := "wse_1.tif";
     end_raster_id := "depth_1.tif"; res_stats := Some ("0", "3.5") |}.

Lemma simulation_needs_river_witness :
  let s' := js_exec (handleGisFloodSimulation (Ok wse_result)) tool_on in
  hasSource (fmap s') GIS_FLOOD_RESULT_SOURCE_ID = true ∧
  hasLayer (fmap s') GIS_FLOOD_RESULT_LAYER_ID = hasLayer (fmap tool_on) RIVER_LAYER_ID ∧
  last (shown_alerts (br s')) =
    Some "2D Flood Simulation complete. Result layer added to the map." ∧
  fl_loadingOverlay (pnl s') = false.
Proof. apply (simulation_needs_river wse_result tool_on); reflexivity. Defined.

Lemma onMapClick_adds_point_witness :
  let s' := js_exec (onMapClick 77 10 (Rate 150)) tool_on in
  points (fst_ s') =
    points (fst_ tool_on) ++
      [FlowPoint 77 10 (if bool_decide (Inflow = Outflow) then - 150 else 150)] ∧
  activeTool (fst_ s') = None ∧
  hasSource (fmap s') POINTS_SOURCE_ID = true ∧
  controls_ok s'.
Proof. apply (onMapClick_adds_point 77 10 150 Inflow tool_on); by vm_compute. Defined.

Lemma zero_rate_point_counts_nowhere_witness :
  let s' := js_exec (onMapClick 77 10 (Rate 0)) tool_on in
  length (points (fst_ s')) = S (length (points (fst_ tool_on))) ∧
  inflowPoints (points (fst_ s')) = inflowPoints (points (fst_ tool_on)) ∧
  outflowPoints (points (fst_ s')) = outflowPoints (points (fst_ tool_on)) ∧
  animateSimulationBtn (btn s') = false ∧ projectSimulationBtn (btn s') = false ∧
  shown_alerts (br s') = shown_alerts (br tool_on).
Proof. apply (zero_rate_point_counts_nowhere 77 10 Inflow tool_on). reflexivity. Defined.

Lemma weather_failure_keeps_rainfall_witness :
  fetchLiveWeather_resume (Throw "TypeError: Failed to fetch") tool_on =
    (Ok tt, upd_pnl (set_weatherStatus "Weather Unavailable") tool_on).
Proof.
  apply (weather_failure_keeps_rainfall (Throw "TypeError: Failed to fetch") tool_on).
  intros d H. discriminate H.
Defined.

Lemma flood_page_invariant_witness :
  page_ok (js_exec (page_fire (PgClick 77 10 (Rate 150))) tool_on).
Proof.
  apply (flood_page_invariant bare_map).
  eapply rtc_l; [apply (page_handler _ (PgTool (Some Inflow))); intros a H; discriminate H|].
  eapply rtc_l; [apply (page_handler _ (PgClick 77 10 (Rate 150)));
                 intros a H; discriminate H|].
  apply rtc_refl.
Defined.
